(** * Work journal: the layered storage subsystem

    A shallow embedding of the storage layers of the work journal
    (IndexedDBLayer, FileSystemLayer), of the repository that orchestrates
    them (LayeredRepository) and of the factory that builds it
    (RepositoryFactory), followed by the properties of the specification
    that were checked against them.

    Conventions of the embedding.
    - A JavaScript [number] that holds a year, a week or a priority is an
      integer of [Z]; the embedding follows the code on the safe integers
      (below 2^53 in absolute value), which JavaScript holds exactly and
      writes with all their digits.
    - An [async] method is a function from the state of its object to the
      outcome of its promise (fulfilled with a value, or rejected with an
      error) and the state afterwards: the monad [Async]. A call is one
      step, taken where the code makes the call; a promise that the code
      does not await is kept with the repository until it settles.
    - The browser objects the code talks to (the IndexedDB object store, the
      directory behind a FileSystemDirectoryHandle) are part of the state of
      the layer that owns them. *)

From Stdlib Require Import ZArith String Ascii List Bool Lia Sorted Permutation.
From Stdlib Require Import DecimalString DecimalPos DecimalZ.
From stdpp Require Import base list gmap strings.

Open Scope string_scope.
Open Scope Z_scope.

(** ** JavaScript values *)

(** An [Error] object: its [name] and its [message]. *)
Record JsError : Type := mkError { err_name : string; err_message : string }.

(** [new Error(message)]. *)
Definition Error (message : string) : JsError := mkError "Error" message.

(** [String(error)], as a template literal prints an error. *)
Definition error_to_string (e : JsError) : string :=
  err_name e +:+ ": " +:+ err_message e.

(** [`${n}`] and [String(n)] for a safe integer [n]: all its digits,
    after the sign. (JavaScript holds the integers up to 2^53 exactly;
    from 10^21 on it writes a number with an exponent.) *)
Definition number_to_string (n : Z) : string := NilZero.string_of_int (Z.to_int n).

(** The outcome of a promise. *)
Inductive Result (A : Type) : Type :=
| Ok (a : A)
| Err (e : JsError).
Arguments Ok {A} a.
Arguments Err {A} e.

Definition is_ok {A} (r : Result A) : bool :=
  match r with Ok _ => true | Err _ => false end.

(** An asynchronous method of an object whose state has type [S]. *)
Definition Async (S A : Type) : Type := S -> Result A * S.

Definition ret {S A} (a : A) : Async S A := fun s => (Ok a, s).

Definition throw {S A} (e : JsError) : Async S A := fun s => (Err e, s).

Definition bind {S A B} (m : Async S A) (k : A -> Async S B) : Async S B :=
  fun s => match m s with
           | (Ok a, s') => k a s'
           | (Err e, s') => (Err e, s')
           end.

(** [try { m } catch (error) { handler error }]. *)
Definition try_catch {S A} (m : Async S A) (handler : JsError -> Async S A) : Async S A :=
  fun s => match m s with
           | (Ok a, s') => (Ok a, s')
           | (Err e, s') => handler e s'
           end.

(** A promise that is already settled. *)
Definition settled {S A} (r : Result A) : Async S A := fun s => (r, s).

Notation "'let*' x ':=' m 'in' k" := (bind m (fun x => k))
  (at level 10, x pattern, m at level 100, k at level 200).

(** [a ?? b] when [b] may be absent too, and when [b] is a value. *)
Definition nullish {A} (a b : option A) : option A :=
  match a with Some _ => a | None => b end.

Definition nullish_or {A} (a : option A) (b : A) : A :=
  match a with Some x => x | None => b end.

(** [Array.prototype.sort(compare)]: the stable sort. [compare a b] is
    negative, zero or positive as in JavaScript. *)
Fixpoint sort_insert {A} (compare : A -> A -> Z) (x : A) (l : list A) : list A :=
  match l with
  | [] => [x]
  | y :: l' => if compare x y <=? 0 then x :: y :: l' else y :: sort_insert compare x l'
  end.

Definition js_sort {A} (compare : A -> A -> Z) (l : list A) : list A :=
  foldr (sort_insert compare) [] l.

(** A plain JavaScript object used as a map from integer keys to values,
    with its properties in enumeration order: keys that are array indices
    in ascending order first, then the others in the order they were
    created. *)
Definition JsObject (V : Type) : Type := list (Z * V).

Definition is_array_index (k : Z) : bool := (0 <=? k) && (k <? 4294967295).

(** [o[k]] *)
Definition obj_get {V} (k : Z) (o : JsObject V) : option V :=
  option_map snd (List.find (fun p => fst p =? k) o).

(** [o[k] = v] *)
Fixpoint obj_set {V} (k : Z) (v : V) (o : JsObject V) : JsObject V :=
  match o with
  | [] => [(k, v)]
  | (k', v') :: o' =>
      if k =? k' then (k, v) :: o'
      else if is_array_index k && (negb (is_array_index k') || (k <? k'))
           then (k, v) :: (k', v') :: o'
           else (k', v') :: obj_set k v o'
  end.

(** [delete o[k]] *)
Definition obj_delete {V} (k : Z) (o : JsObject V) : JsObject V :=
  List.filter (fun p => negb (fst p =? k)) o.

(** The names of the properties are strings: the property [o[k]] is named
    [String(k)]. *)
Definition Object_keys {V} (o : JsObject V) : list string :=
  List.map (fun p => number_to_string (fst p)) o.
Definition Object_values {V} (o : JsObject V) : list V := List.map snd o.
Definition Object_entries {V} (o : JsObject V) : list (string * V) :=
  List.map (fun p => (number_to_string (fst p), snd p)) o.

(** ** The record model (models/WeeklyData.ts) *)

Module WeekIdentifier.
Record t : Type := mk { year : Z; week : Z }.
End WeekIdentifier.

Module WeeklyData.
Record t : Type := mk {
  weekId : WeekIdentifier.t;
  statusIcon : string;
  achievements : string;
  challenges : string
}.
End WeeklyData.

(** repositories/RepositoryTypes.ts: every field but [weekId] is optional. *)
Module SaveWeeklyDataInput.
Record t : Type := mk {
  weekId : WeekIdentifier.t;
  statusIcon : option string;
  achievements : option string;
  challenges : option string
}.
End SaveWeeklyDataInput.

(** constants/WeekStatus.ts: [DEFAULT_WEEK_STATUS.icon], the 'Unknown' status. *)
Definition DEFAULT_WEEK_STATUS_icon : string := "❔".

(** models/WeeklyData.defaults.ts *)
Module DEFAULT_WEEKLY_DATA_VALUES.
Definition statusIcon : string := DEFAULT_WEEK_STATUS_icon.
Definition achievements : string := "".
Definition challenges : string := "".
End DEFAULT_WEEKLY_DATA_VALUES.

(** models/WeekKey.utils.ts: the validating constructor of week identifiers. *)
Definition createWeekIdentifier (year week : Z) : Result WeekIdentifier.t :=
  if (week <? 1) || (week >? 53) then
    Err (Error ("Invalid week number: " +:+ number_to_string week
                +:+ ". Must be between 1 and 53."))
  else if (year <? 1000) || (year >? 9999) then
    Err (Error ("Invalid year: " +:+ number_to_string year
                +:+ ". Must be a 4-digit year."))
  else Ok (WeekIdentifier.mk year week).

(** [toPlainWeekId], the same in both layers. *)
Definition toPlainWeekId (weekId : WeekIdentifier.t) : WeekIdentifier.t :=
  WeekIdentifier.mk (WeekIdentifier.year weekId) (WeekIdentifier.week weekId).

(** The merge both layers perform in [save]:
    [input.f ?? existing?.f ?? DEFAULT_WEEKLY_DATA_VALUES.f]. *)
Definition dataToSave (identifier : WeekIdentifier.t) (input : SaveWeeklyDataInput.t)
    (existing : option WeeklyData.t) : WeeklyData.t :=
  WeeklyData.mk identifier
    (nullish_or (nullish (SaveWeeklyDataInput.statusIcon input)
                         (option_map WeeklyData.statusIcon existing))
                DEFAULT_WEEKLY_DATA_VALUES.statusIcon)
    (nullish_or (nullish (SaveWeeklyDataInput.achievements input)
                         (option_map WeeklyData.achievements existing))
                DEFAULT_WEEKLY_DATA_VALUES.achievements)
    (nullish_or (nullish (SaveWeeklyDataInput.challenges input)
                         (option_map WeeklyData.challenges existing))
                DEFAULT_WEEKLY_DATA_VALUES.challenges).

(** The order of the composite keys [[year, week]]: arrays compare
    element by element. *)
Definition key_compare (a b : WeekIdentifier.t) : comparison :=
  match WeekIdentifier.year a ?= WeekIdentifier.year b with
  | Eq => WeekIdentifier.week a ?= WeekIdentifier.week b
  | c => c
  end.

Definition key_eqb (a b : WeekIdentifier.t) : bool :=
  match key_compare a b with Eq => true | _ => false end.

Definition key_leb (a b : WeekIdentifier.t) : bool :=
  match key_compare a b with Gt => false | _ => true end.

Definition key_ltb (a b : WeekIdentifier.t) : bool :=
  match key_compare a b with Lt => true | _ => false end.

(** Year major, week minor. *)
Definition key_le (a b : WeekIdentifier.t) : Prop :=
  WeekIdentifier.year a < WeekIdentifier.year b
  \/ (WeekIdentifier.year a = WeekIdentifier.year b
      /\ WeekIdentifier.week a <= WeekIdentifier.week b).

Definition key_lt (a b : WeekIdentifier.t) : Prop :=
  WeekIdentifier.year a < WeekIdentifier.year b
  \/ (WeekIdentifier.year a = WeekIdentifier.year b
      /\ WeekIdentifier.week a < WeekIdentifier.week b).

(** A sequence of records in ascending order of [(year, week)]. *)
Definition sorted_by_week (l : list WeeklyData.t) : Prop :=
  StronglySorted (fun a b => key_le (WeeklyData.weekId a) (WeeklyData.weekId b)) l.

(** ** The primary layer (repositories/layered/layers/IndexedDBLayer.ts) *)

Module IndexedDBLayer.

Definition name : string := "indexeddb".
Definition priority : Z := 100.

(** The state of a layer: the memoised [dbPromise] and, behind it, the
    browser's database. [open_error] is the message of the error that
    [indexedDB.open] reports, if it reports one. [records] is the object
    store 'weekly-data', whose key path is [[weekId.year, weekId.week]]:
    IndexedDB keeps one record per key, in ascending order of the keys. *)
Record t : Type := mk {
  dbPromise : option (Result unit);
  open_error : option string;
  records : list WeeklyData.t
}.

Definition set_dbPromise (p : option (Result unit)) (l : t) : t :=
  mk p (open_error l) (records l).

Definition set_records (rs : list WeeklyData.t) (l : t) : t :=
  mk (dbPromise l) (open_error l) rs.

(** *** The object store, after the Indexed Database API *)

(** The key of a record, extracted along the key path. *)
Definition key_of (r : WeeklyData.t) : WeekIdentifier.t := WeeklyData.weekId r.

(** [store.put(record)]: adds the record, or replaces the one stored
    under the same key. *)
Fixpoint store_put (r : WeeklyData.t) (rs : list WeeklyData.t) : list WeeklyData.t :=
  match rs with
  | [] => [r]
  | x :: rs' =>
      match key_compare (key_of r) (key_of x) with
      | Lt => r :: x :: rs'
      | Eq => r :: rs'
      | Gt => x :: store_put r rs'
      end
  end.

(** [store.get(key)]: the record, or [undefined]. *)
Definition store_get (key : WeekIdentifier.t) (rs : list WeeklyData.t) : option WeeklyData.t :=
  List.find (fun x => key_eqb (key_of x) key) rs.

(** [store.delete(key)]: succeeds whether or not a record is stored. *)
Definition store_delete (key : WeekIdentifier.t) (rs : list WeeklyData.t) : list WeeklyData.t :=
  List.filter (fun x => negb (key_eqb (key_of x) key)) rs.

(** A key range with both bounds included. *)
Record IDBKeyRange : Type := mkRange { lower : WeekIdentifier.t; upper : WeekIdentifier.t }.

(** The error [IDBKeyRange.bound] throws. *)
Definition DataError : JsError :=
  mkError "DataError" "The lower key is greater than the upper key.".

(** [IDBKeyRange.bound(lower, upper, false, false)]. The Indexed Database
    API has [bound] throw a DataError when [lower] is greater than
    [upper]. *)
Definition IDBKeyRange_bound (lower upper : WeekIdentifier.t) : Result IDBKeyRange :=
  if key_ltb upper lower then Err DataError else Ok (mkRange lower upper).

Definition in_key_range (range : IDBKeyRange) (key : WeekIdentifier.t) : bool :=
  key_leb (lower range) key && key_leb key (upper range).

(** [store.getAll(keyRange)]: the records of the range, in key order. *)
Definition store_getAll (range : IDBKeyRange) (rs : list WeeklyData.t) : list WeeklyData.t :=
  List.filter (fun x => in_key_range range (key_of x)) rs.

(** [store.index('year').getAllKeys(year)]: the primary keys of the
    records whose [weekId.year] is [year], in key order. *)
Definition index_year_getAllKeys (year : Z) (rs : list WeeklyData.t) : list (Z * Z) :=
  List.map (fun x => (WeekIdentifier.year (key_of x), WeekIdentifier.week (key_of x)))
    (List.filter (fun x => WeekIdentifier.year (key_of x) =? year) rs).

(** *** The layer *)

Definition initDB : Async t unit := fun l =>
  match dbPromise l with
  | Some p => (p, l)
  | None =>
      let p := match open_error l with
               | Some message => Err (Error ("Failed to open IndexedDB: " +:+ message))
               | None => Ok tt
               end in
      (p, set_dbPromise (Some p) l)
  end.

(** [executeTransaction(mode, callback)]. The requests the layer issues
    (get, put, delete and clear, on keys that are valid) succeed. *)
Definition executeTransaction {T} (callback : list WeeklyData.t -> T * list WeeklyData.t)
  : Async t T :=
  let* _ := initDB in
  fun l => let (result, rs) := callback (records l) in (Ok result, set_records rs l).

Definition get (weekId : WeekIdentifier.t) : Async t (option WeeklyData.t) :=
  let compositeKey := weekId in
  let* result := executeTransaction (fun store => (store_get compositeKey store, store)) in
  ret result.

Definition save (input : SaveWeeklyDataInput.t) : Async t WeeklyData.t :=
  let identifier := toPlainWeekId (SaveWeeklyDataInput.weekId input) in
  let* existing := get identifier in
  let dataToSave := dataToSave identifier input existing in
  let* _ := executeTransaction (fun store => (tt, store_put dataToSave store)) in
  ret dataToSave.

Definition getRange (start end_ : WeekIdentifier.t) : Async t (list WeeklyData.t) :=
  let* _ := initDB in
  let* keyRange := settled (IDBKeyRange_bound start end_) in
  fun l => (Ok (store_getAll keyRange (records l)), l).

Definition getByYear (year : Z) : Async t (list WeeklyData.t) :=
  getRange (WeekIdentifier.mk year 1) (WeekIdentifier.mk year 53).

Definition getWeeksWithData (year : Z) : Async t (gset Z) :=
  let* _ := initDB in
  fun l =>
    let keys := index_year_getAllKeys year (records l) in
    let weeks : gset Z := list_to_set (List.map snd keys) in
    (Ok weeks, l).

Definition delete (weekId : WeekIdentifier.t) : Async t unit :=
  let compositeKey := weekId in
  executeTransaction (fun store => (tt, store_delete compositeKey store)).

Definition clear : Async t unit :=
  executeTransaction (fun _ => (tt, [])).

(** [close()]: awaits the memoised promise, closes the connection and
    forgets the promise; without a promise there is nothing to close. The
    records stay in the database. *)
Definition close : Async t unit := fun l =>
  match dbPromise l with
  | Some (Ok _) => (Ok tt, set_dbPromise None l)
  | Some (Err e) => (Err e, l)
  | None => (Ok tt, l)
  end.

(** A layer whose database opens (or has opened). *)
Definition opens (l : t) : Prop :=
  dbPromise l = Some (Ok tt) \/ (dbPromise l = None /\ open_error l = None).

(** What IndexedDB maintains of the object store: strictly ascending keys. *)
Definition store_ok (rs : list WeeklyData.t) : Prop :=
  StronglySorted (fun a b => key_lt (key_of a) (key_of b)) rs.

End IndexedDBLayer.

(** ** The secondary layer (repositories/layered/layers/FileSystemLayer.ts) *)

Module FileSystemLayer.

Definition name : string := "filesystem".
Definition priority : Z := 50.

(** The structure of a year's journal file. *)
Record YearJournalData : Type := mkYear {
  year : Z;
  weeks : JsObject WeeklyData.t
}.

(** *** The directory, after the File System Access API *)

Inductive PermissionState : Type := granted | denied | prompt.

Definition is_granted (p : PermissionState) : bool :=
  match p with granted => true | _ => false end.

(** The text of a file, up to [JSON.stringify] and [JSON.parse]: either a
    text that [JSON.parse] rejects, or the serialization of the data it
    parses to. *)
Inductive FileText : Type :=
| Malformed
| Serialized (data : YearJournalData).

Inductive Entry : Type :=
| FileEntry (text : FileText)
| DirectoryEntry.

(** A directory handle with the directory it designates: the entries by
    name, and what the browser does when the handle is asked
    [queryPermission({ mode: 'readwrite' })] and
    [requestPermission({ mode: 'readwrite' })]: it answers a state, or it
    rejects (as [requestPermission] does when there is no user gesture to
    show the prompt for). [handle_id] is the identity of the handle
    object. *)
Record FileSystemDirectoryHandle : Type := handleObject {
  handle_id : nat;
  entries : list (string * Entry);
  queryPermission : Result PermissionState;
  requestPermission : Result PermissionState
}.

(** A handle whose permission calls answer. *)
Definition mkHandle (id : nat) (es : list (string * Entry))
    (query request : PermissionState) : FileSystemDirectoryHandle :=
  handleObject id es (Ok query) (Ok request).

Definition set_entries (es : list (string * Entry)) (h : FileSystemDirectoryHandle)
  : FileSystemDirectoryHandle :=
  handleObject (handle_id h) es (queryPermission h) (requestPermission h).

Definition set_queryPermission (p : Result PermissionState) (h : FileSystemDirectoryHandle)
  : FileSystemDirectoryHandle :=
  handleObject (handle_id h) (entries h) p (requestPermission h).

(** The handle as the browser hands it out at another time, when it may
    answer the permission calls otherwise: the same object, for the same
    directory. *)
Definition asked_again (query request : Result PermissionState)
    (h : FileSystemDirectoryHandle) : FileSystemDirectoryHandle :=
  handleObject (handle_id h) (entries h) query request.

Definition NotFoundError : JsError :=
  mkError "NotFoundError" "A requested file or directory could not be found.".

Definition TypeMismatchError : JsError :=
  mkError "TypeMismatchError" "The path supplied exists, but was not an entry of requested type.".

Definition SyntaxError : JsError :=
  mkError "SyntaxError" "Unexpected token in JSON".

Definition dir_lookup (fileName : string) (es : list (string * Entry)) : option Entry :=
  option_map snd (List.find (fun p => String.eqb (fst p) fileName) es).

(** [(await (await dirHandle.getFileHandle(fileName)).getFile()).text()] *)
Definition read_text (fileName : string) (h : FileSystemDirectoryHandle) : Result FileText :=
  match dir_lookup fileName (entries h) with
  | None => Err NotFoundError
  | Some DirectoryEntry => Err TypeMismatchError
  | Some (FileEntry text) => Ok text
  end.

Fixpoint dir_put (fileName : string) (e : Entry) (es : list (string * Entry))
  : list (string * Entry) :=
  match es with
  | [] => [(fileName, e)]
  | (n, e') :: es' =>
      if String.eqb n fileName then (fileName, e) :: es'
      else (n, e') :: dir_put fileName e es'
  end.

(** [getFileHandle(fileName, { create: true })], [createWritable()],
    [write(text)] and [close()]: the file is created if absent and its
    content replaced as a whole. *)
Definition write_text (fileName : string) (text : FileText) (h : FileSystemDirectoryHandle)
  : Result unit * FileSystemDirectoryHandle :=
  match dir_lookup fileName (entries h) with
  | Some DirectoryEntry => (Err TypeMismatchError, h)
  | _ => (Ok tt, set_entries (dir_put fileName (FileEntry text) (entries h)) h)
  end.

(** [dirHandle.removeEntry(fileName)] *)
Definition removeEntry (fileName : string) (h : FileSystemDirectoryHandle)
  : Result unit * FileSystemDirectoryHandle :=
  match dir_lookup fileName (entries h) with
  | None => (Err NotFoundError, h)
  | Some _ =>
      (Ok tt, set_entries (List.filter (fun p => negb (String.eqb (fst p) fileName)) (entries h)) h)
  end.

(** [JSON.parse(text) as YearJournalData] *)
Definition JSON_parse (text : FileText) : Result YearJournalData :=
  match text with
  | Malformed => Err SyntaxError
  | Serialized data => Ok data
  end.

(** [JSON.stringify(data, null, 2)] *)
Definition JSON_stringify (data : YearJournalData) : FileText := Serialized data.

(** *** The layer *)

(** [storedHandle] is the handle kept by utils/directoryHandleStorage.ts,
    as the browser gives it back when it is loaded, with the answers it
    gives to the permission calls then; [showDirectoryPicker] is the
    outcome of the directory picker. *)
Record t : Type := mk {
  directoryHandle : option FileSystemDirectoryHandle;
  initPromise : option (Result unit);
  storedHandle : option FileSystemDirectoryHandle;
  showDirectoryPicker : Result FileSystemDirectoryHandle
}.

Definition set_directoryHandle (h : option FileSystemDirectoryHandle) (l : t) : t :=
  mk h (initPromise l) (storedHandle l) (showDirectoryPicker l).

Definition set_initPromise (p : option (Result unit)) (l : t) : t :=
  mk (directoryHandle l) p (storedHandle l) (showDirectoryPicker l).

Definition set_storedHandle (h : option FileSystemDirectoryHandle) (l : t) : t :=
  mk (directoryHandle l) (initPromise l) h (showDirectoryPicker l).

(** [new FileSystemLayer(directoryHandle)] in a browser whose handle
    storage holds [stored] and whose picker would answer [picker]. *)
Definition new (directoryHandle : option FileSystemDirectoryHandle)
    (stored : option FileSystemDirectoryHandle)
    (picker : Result FileSystemDirectoryHandle) : t :=
  mk directoryHandle None stored picker.

(** utils/directoryHandleStorage.ts, [clearDirectoryHandle]. *)
Definition clearDirectoryHandle : Async t unit :=
  fun l => (Ok tt, set_storedHandle None l).

(** utils/directoryHandleStorage.ts, [loadDirectoryHandle]: the stored
    handle is asked for its permission again. It is returned when the
    permission is granted, or granted on request, and cleared when the
    request is refused; whatever is thrown on the way, a permission call
    that rejects included, is caught and gives [null]. A handle that was
    granted on request answers [granted] from then on. *)
Definition loadDirectoryHandle : t -> option FileSystemDirectoryHandle * t := fun l =>
  let body : Async t (option FileSystemDirectoryHandle) :=
    try_catch
      (fun l =>
         match storedHandle l with
         | None => (Ok None, l)
         | Some handle =>
             (let* permission := settled (queryPermission handle) in
              if is_granted permission then ret (Some handle)
              else
                let* requestedPermission := settled (requestPermission handle) in
                if is_granted requestedPermission
                then ret (Some (set_queryPermission (Ok granted) handle))
                else
                  let* _ := clearDirectoryHandle in
                  ret None) l
         end)
      (fun error => ret None) in
  match body l with
  | (Ok handle, l') => (handle, l')
  | (Err _, l') => (None, l')
  end.

Definition saveDirectoryHandle (handle : FileSystemDirectoryHandle) : Async t unit :=
  fun l => (Ok tt, set_storedHandle (Some handle) l).

Definition init : Async t unit := fun l =>
  match initPromise l with
  | Some p => (p, l)
  | None =>
      let body : Async t unit :=
        let* _ :=
          (fun l =>
             match directoryHandle l with
             | Some _ => (Ok tt, l)
             | None =>
                 match loadDirectoryHandle l with
                 | (Some persistedHandle, l1) =>
                     (Ok tt, set_directoryHandle (Some persistedHandle) l1)
                 | (None, l1) =>
                     try_catch
                       (let* handle := settled (showDirectoryPicker l1) in
                        let* _ := (fun l2 => (Ok tt, set_directoryHandle (Some handle) l2)) in
                        saveDirectoryHandle handle)
                       (fun error =>
                          throw (Error ("Failed to get directory access: "
                                        +:+ error_to_string error)))
                       l1
                 end
             end) in
        fun l =>
          match directoryHandle l with
          | None =>
              (Err (mkError "TypeError"
                      "Cannot read properties of null (reading 'queryPermission')"), l)
          | Some handle =>
              (let* permission := settled (queryPermission handle) in
               if is_granted permission then ret tt
               else
                 let* requestedPermission := settled (requestPermission handle) in
                 if is_granted requestedPermission
                 then (fun l =>
                         (Ok tt,
                          set_directoryHandle
                            (Some (set_queryPermission (Ok granted) handle)) l))
                 else throw (Error "Write permission denied for directory")) l
          end in
      let (p, l') := body l in
      (p, set_initPromise (Some p) l')
  end.

Definition getDirectoryHandle : Async t FileSystemDirectoryHandle :=
  let* _ := init in
  fun l =>
    match directoryHandle l with
    | None => (Err (Error "Directory handle not initialized"), l)
    | Some handle => (Ok handle, l)
    end.

(** An operation on the directory behind the layer's handle. *)
Definition on_directory {A}
    (op : FileSystemDirectoryHandle -> Result A * FileSystemDirectoryHandle) : Async t A :=
  fun l =>
    match directoryHandle l with
    | None => (Err (Error "Directory handle not initialized"), l)
    | Some handle => let (r, handle') := op handle in (r, set_directoryHandle (Some handle') l)
    end.

Definition getFileName (year : Z) : string :=
  "work-journal-" +:+ number_to_string year +:+ ".json".

Definition isDigit (c : ascii) : bool :=
  let n := nat_of_ascii c in ((48 <=? n) && (n <=? 57))%nat.

Definition digitValue (c : ascii) : Z := Z.of_nat (nat_of_ascii c) - 48.

Fixpoint strip_prefix (p s : string) : option string :=
  match p with
  | EmptyString => Some s
  | String a p' =>
      match s with
      | EmptyString => None
      | String b s' => if Ascii.eqb a b then strip_prefix p' s' else None
      end
  end.

(** The white space [parseInt] skips, among the characters of one byte. *)
Definition isWhiteSpace (c : ascii) : bool :=
  let n := nat_of_ascii c in (((9 <=? n) && (n <=? 13)) || (n =? 32))%nat.

Fixpoint trimStart (s : string) : string :=
  match s with
  | String c s' => if isWhiteSpace c then trimStart s' else s
  | EmptyString => s
  end.

(** The longest prefix of decimal digits. *)
Fixpoint digits_prefix (s : string) : string :=
  match s with
  | String c s' => if isDigit c then String c (digits_prefix s') else EmptyString
  | EmptyString => EmptyString
  end.

(** The number a string of decimal digits writes, after the digits [acc]. *)
Fixpoint digits_value (acc : Z) (s : string) : Z :=
  match s with
  | String c s' => digits_value (10 * acc + digitValue c) s'
  | EmptyString => acc
  end.

(** [parseInt(string, 10)]: white space is skipped, then a sign and the
    longest run of decimal digits are read, and what follows is ignored;
    [None] is NaN, the answer when there is no digit to read. *)
Definition parseInt (string : string) : option Z :=
  let S := trimStart string in
  let (sign, S) := match S with
                   | String "-" S' => (-1, S')
                   | String "+" S' => (1, S')
                   | _ => (1, S)
                   end in
  let digits := digits_prefix S in
  if String.eqb digits "" then None else Some (sign * digits_value 0 digits).

(** The numbers of a sequence that are not NaN. The strings [parseInt] is
    given below are names of properties that were created with a number:
    they start with a digit, or with a sign and a digit, and none gives
    NaN. *)
Definition numbers (ns : list (option Z)) : list Z :=
  List.flat_map (fun n => match n with Some z => [z] | None => [] end) ns.

(** [fileName.match(/^work-journal-(\d{4})\.json$/)] and
    [parseInt(match[1], 10)]. *)
Definition parseFileName (fileName : string) : option Z :=
  match strip_prefix "work-journal-" fileName with
  | Some (String d1 (String d2 (String d3 (String d4 rest)))) =>
      if isDigit d1 && isDigit d2 && isDigit d3 && isDigit d4 && String.eqb rest ".json"
      then Some (1000 * digitValue d1 + 100 * digitValue d2
                 + 10 * digitValue d3 + digitValue d4)
      else None
  | _ => None
  end.

(** [s.endsWith(suffix)] *)
Definition endsWith (s suffix : string) : bool :=
  let n := String.length s in
  let m := String.length suffix in
  ((m <=? n)%nat && String.eqb (String.substring (n - m) m s) suffix).

Definition readYearFile (year : Z) : Async t (option YearJournalData) :=
  try_catch
    (let* dirHandle := getDirectoryHandle in
     let fileName := getFileName year in
     let* text := settled (read_text fileName dirHandle) in
     let* data := settled (JSON_parse text) in
     ret (Some data))
    (fun error =>
       if String.eqb (err_name error) "NotFoundError" then ret None
       else throw error).

Definition writeYearFile (year : Z) (data : YearJournalData) : Async t unit :=
  let fileName := getFileName year in
  try_catch
    (let* _ := getDirectoryHandle in
     on_directory (write_text fileName (JSON_stringify data)))
    (fun error =>
       throw (Error ("Failed to write file " +:+ fileName +:+ ": "
                     +:+ error_to_string error))).

Definition save (input : SaveWeeklyDataInput.t) : Async t WeeklyData.t :=
  let identifier := toPlainWeekId (SaveWeeklyDataInput.weekId input) in
  let year := WeekIdentifier.year identifier in
  let weekNumber := WeekIdentifier.week identifier in
  let* yearData := readYearFile year in
  let yearData := match yearData with
                  | Some d => d
                  | None => mkYear year []
                  end in
  let existing := obj_get weekNumber (weeks yearData) in
  let dataToSave := dataToSave identifier input existing in
  let yearData := mkYear (FileSystemLayer.year yearData)
                         (obj_set weekNumber dataToSave (weeks yearData)) in
  let* _ := writeYearFile year yearData in
  ret dataToSave.

Definition get (weekId : WeekIdentifier.t) : Async t (option WeeklyData.t) :=
  let* yearData := readYearFile (WeekIdentifier.year weekId) in
  match yearData with
  | None => ret None
  | Some yearData => ret (obj_get (WeekIdentifier.week weekId) (weeks yearData))
  end.

(** The test [isInRange] of [getRange], on the year of the file and a
    week number of its map. *)
Definition isInRange (start end_ : WeekIdentifier.t) (year weekNumber : Z) : bool :=
  ((year >? WeekIdentifier.year start)
   || ((year =? WeekIdentifier.year start) && (weekNumber >=? WeekIdentifier.week start)))
  && ((year <? WeekIdentifier.year end_)
      || ((year =? WeekIdentifier.year end_) && (weekNumber <=? WeekIdentifier.week end_))).

(** The comparison function [getRange] sorts with. *)
Definition compare_year_week (a b : WeeklyData.t) : Z :=
  if negb (WeekIdentifier.year (WeeklyData.weekId a) =? WeekIdentifier.year (WeeklyData.weekId b))
  then WeekIdentifier.year (WeeklyData.weekId a) - WeekIdentifier.year (WeeklyData.weekId b)
  else WeekIdentifier.week (WeeklyData.weekId a) - WeekIdentifier.week (WeeklyData.weekId b).

(** The loop of [getRange] over [dirHandle.values()]. *)
Fixpoint getRange_loop (start end_ : WeekIdentifier.t) (values : list (string * Entry))
    (results : list WeeklyData.t) : Async t (list WeeklyData.t) :=
  match values with
  | [] => ret results
  | (entry_name, entry) :: values' =>
      let is_file := match entry with FileEntry _ => true | DirectoryEntry => false end in
      if negb is_file || negb (endsWith entry_name ".json")
      then getRange_loop start end_ values' results
      else
        match parseFileName entry_name with
        | None => getRange_loop start end_ values' results
        | Some year =>
            if (year =? 0) || (year <? WeekIdentifier.year start)
               || (year >? WeekIdentifier.year end_)
            then getRange_loop start end_ values' results
            else
              let* yearData := readYearFile year in
              match yearData with
              | None => getRange_loop start end_ values' results
              | Some yearData =>
                  let inRange :=
                    List.filter
                      (fun p =>
                         match parseInt (fst p) with
                         | Some weekNumber => isInRange start end_ year weekNumber
                         | None =>
                             (* every comparison with NaN is false *)
                             (year >? WeekIdentifier.year start)
                             && (year <? WeekIdentifier.year end_)
                         end)
                      (Object_entries (weeks yearData)) in
                  getRange_loop start end_ values' (results ++ List.map snd inRange)
              end
        end
  end.

Definition getRange (start end_ : WeekIdentifier.t) : Async t (list WeeklyData.t) :=
  let* dirHandle := getDirectoryHandle in
  let* results := getRange_loop start end_ (entries dirHandle) [] in
  ret (js_sort compare_year_week results).

Definition getByYear (year : Z) : Async t (list WeeklyData.t) :=
  let* yearData := readYearFile year in
  match yearData with
  | None => ret []
  | Some yearData =>
      let weeks := Object_values (weeks yearData) in
      ret (js_sort (fun a b => WeekIdentifier.week (WeeklyData.weekId a)
                               - WeekIdentifier.week (WeeklyData.weekId b)) weeks)
  end.

Definition getWeeksWithData (year : Z) : Async t (gset Z) :=
  let* yearData := readYearFile year in
  match yearData with
  | None => ret ∅
  | Some yearData =>
      ret (list_to_set (numbers (List.map parseInt (Object_keys (weeks yearData)))))
  end.

Definition delete (weekId : WeekIdentifier.t) : Async t unit :=
  let year := WeekIdentifier.year weekId in
  let weekNumber := WeekIdentifier.week weekId in
  let* yearData := readYearFile year in
  match yearData with
  | None => ret tt
  | Some yearData =>
      let yearData := mkYear (FileSystemLayer.year yearData)
                             (obj_delete weekNumber (weeks yearData)) in
      if (List.length (Object_keys (weeks yearData)) =? 0)%nat then
        let* _ := getDirectoryHandle in
        let fileName := getFileName year in
        try_catch
          (on_directory (removeEntry fileName))
          (fun error =>
             if String.eqb (err_name error) "NotFoundError" then ret tt
             else throw error)
      else writeYearFile year yearData
  end.

(** The files [clear] collects: the journal files of the directory. *)
Definition filesToDelete (values : list (string * Entry)) : list string :=
  List.map fst
    (List.filter
       (fun p => match snd p with
                 | FileEntry _ =>
                     endsWith (fst p) ".json"
                     && match parseFileName (fst p) with
                        | Some year => negb (year =? 0)
                        | None => false
                        end
                 | DirectoryEntry => false
                 end)
       values).

Definition clear : Async t unit :=
  let* dirHandle := getDirectoryHandle in
  fun l =>
    (Ok tt,
     foldl (fun l fileName => snd (on_directory (removeEntry fileName) l))
           l (filesToDelete (entries dirHandle))).

Definition reset (l : t) : t :=
  set_initPromise None (set_directoryHandle None l).


Definition getDirectoryHandleSync (l : t) : option FileSystemDirectoryHandle :=
  directoryHandle l.

(** A layer that holds a directory handle with write permission, and
    whose initialisation succeeds (or has succeeded). *)
Definition ready (l : t) (handle : FileSystemDirectoryHandle) : Prop :=
  directoryHandle l = Some handle
  /\ (initPromise l = Some (Ok tt)
      \/ (initPromise l = None /\ queryPermission handle = Ok granted)).

(** The directory of the layer. *)
Definition directory (l : t) : list (string * Entry) :=
  match directoryHandle l with
  | Some handle => entries handle
  | None => []
  end.

(** The journal of a year, as the directory holds it. *)
Definition journal (year : Z) (l : t) : option Entry :=
  dir_lookup (getFileName year) (directory l).

End FileSystemLayer.

(** ** The layer contract (repositories/layered/IWeeklyDataLayer.ts) *)

Module IWeeklyDataLayer.
(** What a class must provide to implement the interface, on the
    state [L] of its objects. [isAvailable], which the repository never
    calls, is left out. *)
Class t (L : Type) : Type := {
  name : L -> string;
  priority : L -> Z;
  canRead : L -> bool;
  canWrite : L -> bool;
  save : SaveWeeklyDataInput.t -> Async L WeeklyData.t;
  get : WeekIdentifier.t -> Async L (option WeeklyData.t);
  getRange : WeekIdentifier.t -> WeekIdentifier.t -> Async L (list WeeklyData.t);
  getByYear : Z -> Async L (list WeeklyData.t);
  getWeeksWithData : Z -> Async L (gset Z);
  delete : WeekIdentifier.t -> Async L unit
}.
End IWeeklyDataLayer.

#[export] Instance IndexedDBLayer_implements : IWeeklyDataLayer.t IndexedDBLayer.t := {|
  IWeeklyDataLayer.name := fun _ => IndexedDBLayer.name;
  IWeeklyDataLayer.priority := fun _ => IndexedDBLayer.priority;
  IWeeklyDataLayer.canRead := fun _ => true;
  IWeeklyDataLayer.canWrite := fun _ => true;
  IWeeklyDataLayer.save := IndexedDBLayer.save;
  IWeeklyDataLayer.get := IndexedDBLayer.get;
  IWeeklyDataLayer.getRange := IndexedDBLayer.getRange;
  IWeeklyDataLayer.getByYear := IndexedDBLayer.getByYear;
  IWeeklyDataLayer.getWeeksWithData := IndexedDBLayer.getWeeksWithData;
  IWeeklyDataLayer.delete := IndexedDBLayer.delete
|}.

#[export] Instance FileSystemLayer_implements : IWeeklyDataLayer.t FileSystemLayer.t := {|
  IWeeklyDataLayer.name := fun _ => FileSystemLayer.name;
  IWeeklyDataLayer.priority := fun _ => FileSystemLayer.priority;
  IWeeklyDataLayer.canRead := fun _ => true;
  IWeeklyDataLayer.canWrite := fun _ => true;
  IWeeklyDataLayer.save := FileSystemLayer.save;
  IWeeklyDataLayer.get := FileSystemLayer.get;
  IWeeklyDataLayer.getRange := FileSystemLayer.getRange;
  IWeeklyDataLayer.getByYear := FileSystemLayer.getByYear;
  IWeeklyDataLayer.getWeeksWithData := FileSystemLayer.getWeeksWithData;
  IWeeklyDataLayer.delete := FileSystemLayer.delete
|}.

(** The layers the tests of the repository build by hand
    (LayeredRepository.spec.ts): every method settles with a prepared
    outcome, and the calls are recorded. *)
Module MockLayer.

Inductive Call : Type :=
| CallSave (input : SaveWeeklyDataInput.t)
| CallGet (weekId : WeekIdentifier.t)
| CallGetRange (start end_ : WeekIdentifier.t)
| CallGetByYear (year : Z)
| CallGetWeeksWithData (year : Z)
| CallDelete (weekId : WeekIdentifier.t).

Record t : Type := mk {
  name : string;
  priority : Z;
  save_result : SaveWeeklyDataInput.t -> Result WeeklyData.t;
  get_result : Result (option WeeklyData.t);
  getRange_result : Result (list WeeklyData.t);
  getByYear_result : Result (list WeeklyData.t);
  getWeeksWithData_result : Result (list Z);
  delete_result : Result unit;
  calls : list Call
}.

Definition called (c : Call) (l : t) : t :=
  mk (name l) (priority l) (save_result l) (get_result l) (getRange_result l)
     (getByYear_result l) (getWeeksWithData_result l) (delete_result l) (calls l ++ [c]).

(** The [save] of the mocks that accept a write. *)
Definition resolve_input (input : SaveWeeklyDataInput.t) : Result WeeklyData.t :=
  Ok (WeeklyData.mk (SaveWeeklyDataInput.weekId input)
        (nullish_or (SaveWeeklyDataInput.statusIcon input) "❓")
        (nullish_or (SaveWeeklyDataInput.achievements input) "")
        (nullish_or (SaveWeeklyDataInput.challenges input) "")).

Definition set_of (r : Result (list Z)) : Result (gset Z) :=
  match r with
  | Ok weeks => Ok (list_to_set weeks)
  | Err e => Err e
  end.

End MockLayer.

#[export] Instance MockLayer_implements : IWeeklyDataLayer.t MockLayer.t := {|
  IWeeklyDataLayer.name := MockLayer.name;
  IWeeklyDataLayer.priority := MockLayer.priority;
  IWeeklyDataLayer.canRead := fun _ => true;
  IWeeklyDataLayer.canWrite := fun _ => true;
  IWeeklyDataLayer.save := fun input l =>
    (MockLayer.save_result l input, MockLayer.called (MockLayer.CallSave input) l);
  IWeeklyDataLayer.get := fun weekId l =>
    (MockLayer.get_result l, MockLayer.called (MockLayer.CallGet weekId) l);
  IWeeklyDataLayer.getRange := fun start end_ l =>
    (MockLayer.getRange_result l, MockLayer.called (MockLayer.CallGetRange start end_) l);
  IWeeklyDataLayer.getByYear := fun year l =>
    (MockLayer.getByYear_result l, MockLayer.called (MockLayer.CallGetByYear year) l);
  IWeeklyDataLayer.getWeeksWithData := fun year l =>
    (MockLayer.set_of (MockLayer.getWeeksWithData_result l),
     MockLayer.called (MockLayer.CallGetWeeksWithData year) l);
  IWeeklyDataLayer.delete := fun weekId l =>
    (MockLayer.delete_result l, MockLayer.called (MockLayer.CallDelete weekId) l)
|}.

(** A layer object: the state of an object of some class that implements
    the interface. *)
Module Layer.

Record t : Type := mk {
  class : Type;
  implements : IWeeklyDataLayer.t class;
  state : class
}.

Definition object {L} `{IWeeklyDataLayer.t L} (l : L) : t := mk L _ l.

(** A method call on the object. *)
Definition call {A} (method : forall L, IWeeklyDataLayer.t L -> Async L A) : Async t A :=
  fun l => let (r, s) := method (class l) (implements l) (state l) in
           (r, mk (class l) (implements l) s).

Definition name (l : t) : string := @IWeeklyDataLayer.name _ (implements l) (state l).
Definition priority (l : t) : Z := @IWeeklyDataLayer.priority _ (implements l) (state l).

Definition save (input : SaveWeeklyDataInput.t) : Async t WeeklyData.t :=
  call (fun L I => @IWeeklyDataLayer.save L I input).
Definition get (weekId : WeekIdentifier.t) : Async t (option WeeklyData.t) :=
  call (fun L I => @IWeeklyDataLayer.get L I weekId).
Definition getRange (start end_ : WeekIdentifier.t) : Async t (list WeeklyData.t) :=
  call (fun L I => @IWeeklyDataLayer.getRange L I start end_).
Definition getByYear (year : Z) : Async t (list WeeklyData.t) :=
  call (fun L I => @IWeeklyDataLayer.getByYear L I year).
Definition getWeeksWithData (year : Z) : Async t (gset Z) :=
  call (fun L I => @IWeeklyDataLayer.getWeeksWithData L I year).
Definition delete (weekId : WeekIdentifier.t) : Async t unit :=
  call (fun L I => @IWeeklyDataLayer.delete L I weekId).

End Layer.

(** ** The repository (repositories/layered/LayeredRepository.ts) *)

Module LayeredRepository.

(** repositories/layered/SyncTypes.ts *)
Inductive ConflictResolution : Type :=
| local_wins | remote_wins | last_write_wins | manual.

(** Of the sync coordinator the repository calls [syncItem] only; the
    outcome of the promise it returns is all that matters here. *)
Record ISyncCoordinator : Type := mkCoordinator {
  syncItem : WeekIdentifier.t -> Result unit
}.

Record LayeredRepositoryConfig : Type := mkConfig {
  config_primaryLayer : Layer.t;
  config_secondaryLayers : list Layer.t;
  config_syncCoordinator : option ISyncCoordinator;
  config_conflictResolution : ConflictResolution;
  config_syncWritesImmediately : bool;
  config_fallbackOnError : bool
}.

(** A promise the repository has started and does not await: of
    [syncItem], of [syncToSecondaryLayers] and of [Promise.allSettled] over
    the deletions. *)
Inductive Background : Type :=
| SyncItem (weekId : WeekIdentifier.t)
| SyncToSecondaryLayers (data : WeeklyData.t)
| DeleteFromSecondaryLayers (weekId : WeekIdentifier.t).

(** The repository with the objects it refers to: its layers, the
    fields of its configuration, the lines written with [console.warn]
    and the promises left running in the background. *)
Record t : Type := mk {
  primaryLayer : Layer.t;
  secondaryLayers : list Layer.t;
  syncCoordinator : option ISyncCoordinator;
  conflictResolution : ConflictResolution;
  syncWritesImmediately : bool;
  fallbackOnError : bool;
  console : list string;
  background : list Background
}.

(** The constructor. *)
Definition new (config : LayeredRepositoryConfig) : t :=
  mk (config_primaryLayer config) (config_secondaryLayers config)
     (config_syncCoordinator config) (config_conflictResolution config)
     (config_syncWritesImmediately config) (config_fallbackOnError config) [] [].

Definition set_primaryLayer (p : Layer.t) (r : t) : t :=
  mk p (secondaryLayers r) (syncCoordinator r) (conflictResolution r)
     (syncWritesImmediately r) (fallbackOnError r) (console r) (background r).

Definition set_secondaryLayers (s : list Layer.t) (r : t) : t :=
  mk (primaryLayer r) s (syncCoordinator r) (conflictResolution r)
     (syncWritesImmediately r) (fallbackOnError r) (console r) (background r).

Definition console_warn (line : string) (r : t) : t :=
  mk (primaryLayer r) (secondaryLayers r) (syncCoordinator r) (conflictResolution r)
     (syncWritesImmediately r) (fallbackOnError r) (console r ++ [line]) (background r).

Definition set_background (b : list Background) (r : t) : t :=
  mk (primaryLayer r) (secondaryLayers r) (syncCoordinator r) (conflictResolution r)
     (syncWritesImmediately r) (fallbackOnError r) (console r) b.

(** A promise joins those that are not awaited. *)
Definition fire (b : Background) (r : t) : t :=
  set_background (background r ++ [b]) r.

(** [promise] is called and not awaited: the calls it makes on the layers
    are made before the caller goes on, and its promise, [b], is left in
    the background. *)
Definition start {A} (b : Background) (promise : Async t A) : Async t unit :=
  fun r => let (_, r') := promise r in (Ok tt, fire b r').

(** A method call on the primary layer. *)
Definition on_primary {A} (method : Async Layer.t A) : Async t A :=
  fun r => let (a, p) := method (primaryLayer r) in (a, set_primaryLayer p r).

(** A method call on the [i]-th secondary layer, [layer]. The fallbacks
    visit every layer once, so that the layer they took from
    [secondaryLayers] before the loop is still the layer at position [i]. *)
Definition on_secondary {A} (i : nat) (layer : Layer.t) (method : Async Layer.t A)
  : Async t A :=
  fun r => let (a, layer') := method layer in
           (a, set_secondaryLayers (<[i := layer']> (secondaryLayers r)) r).

(** [[...this.secondaryLayers].sort((a, b) => b.priority - a.priority)]:
    the layers, each with its position in [secondaryLayers]. *)
Definition sortedLayers (r : t) : list (nat * Layer.t) :=
  js_sort (fun a b => Layer.priority (snd b) - Layer.priority (snd a))
          (imap (fun i layer => (i, layer)) (secondaryLayers r)).

Definition input_of (data : WeeklyData.t) : SaveWeeklyDataInput.t :=
  SaveWeeklyDataInput.mk (WeeklyData.weekId data)
    (Some (WeeklyData.statusIcon data))
    (Some (WeeklyData.achievements data))
    (Some (WeeklyData.challenges data)).

(** [Promise.allSettled(this.secondaryLayers.map(method))]: every layer is
    called, and no outcome is looked at. *)
Definition allSettled {A} (method : Async Layer.t A) : Async t unit :=
  fun r => (Ok tt, set_secondaryLayers (List.map (fun layer => snd (method layer))
                                                 (secondaryLayers r)) r).

Definition syncToSecondaryLayers (data : WeeklyData.t) : Async t unit :=
  fun r =>
    if (List.length (secondaryLayers r) =? 0)%nat then (Ok tt, r)
    else
      let input := input_of data in
      allSettled (Layer.save input) r.

(** One turn of the loop of [fallbackGet], on a layer: [Some result] when
    the turn returns [result] from the function, [None] when the loop
    goes on to the next layer. *)
Definition fallbackGet_turn (weekId : WeekIdentifier.t) (i : nat) (layer : Layer.t)
  : Async t (option WeeklyData.t) :=
  try_catch
    (let* result := on_secondary i layer (Layer.get weekId) in
     match result with
     | Some result =>
         let* _ :=
           try_catch
             (let* _ := on_primary (Layer.save (input_of result)) in ret tt)
             (fun cacheErr r =>
                (Ok tt, console_warn ("Failed to cache fallback data in primary layer: "
                                      +:+ error_to_string cacheErr) r)) in
         ret (Some result)
     | None => ret None
     end)
    (fun err r =>
       (Ok None,
        console_warn ("Fallback get failed for layer " +:+ Layer.name layer +:+ ": "
                      +:+ error_to_string err) r)).

Fixpoint fallbackGet_loop (weekId : WeekIdentifier.t) (layers : list (nat * Layer.t))
  : Async t (option WeeklyData.t) :=
  match layers with
  | [] => ret None
  | (i, layer) :: layers' =>
      let* returned := fallbackGet_turn weekId i layer in
      match returned with
      | Some result => ret (Some result)
      | None => fallbackGet_loop weekId layers'
      end
  end.

Definition fallbackGet (weekId : WeekIdentifier.t) : Async t (option WeeklyData.t) :=
  fun r => fallbackGet_loop weekId (sortedLayers r) r.

(** One turn of the loop the three other fallbacks share: [method] is
    the call on a layer and [what] its name in the warning. The turn
    returns whatever the layer answers, and goes on to the next layer
    when the call fails. *)
Definition fallback_turn {A} (method : Async Layer.t A) (what : string)
    (i : nat) (layer : Layer.t) : Async t (option A) :=
  try_catch
    (let* result := on_secondary i layer method in ret (Some result))
    (fun err r =>
       (Ok None,
        console_warn ("Fallback " +:+ what +:+ " failed for layer " +:+ Layer.name layer
                      +:+ ": " +:+ error_to_string err) r)).

(** [empty] is the value returned when the loop ends. *)
Fixpoint fallback_loop {A} (method : Async Layer.t A) (what : string) (empty : A)
    (layers : list (nat * Layer.t)) : Async t A :=
  match layers with
  | [] => ret empty
  | (i, layer) :: layers' =>
      let* returned := fallback_turn method what i layer in
      match returned with
      | Some result => ret result
      | None => fallback_loop method what empty layers'
      end
  end.

Definition fallbackGetRange (start end_ : WeekIdentifier.t) : Async t (list WeeklyData.t) :=
  fun r => fallback_loop (Layer.getRange start end_) "getRange" [] (sortedLayers r) r.

Definition fallbackGetByYear (year : Z) : Async t (list WeeklyData.t) :=
  fun r => fallback_loop (Layer.getByYear year) "getByYear" [] (sortedLayers r) r.

Definition fallbackGetWeeksWithData (year : Z) : Async t (gset Z) :=
  fun r => fallback_loop (Layer.getWeeksWithData year) "getWeeksWithData" ∅ (sortedLayers r) r.

Definition get (weekId : WeekIdentifier.t) : Async t (option WeeklyData.t) :=
  try_catch
    (let* result := on_primary (Layer.get weekId) in
     let* _ := (fun r => match syncCoordinator r with
                         | Some _ => (Ok tt, fire (SyncItem weekId) r)
                         | None => (Ok tt, r)
                         end) in
     ret result)
    (fun error r =>
       if fallbackOnError r then fallbackGet weekId r else throw error r).

Definition save (input : SaveWeeklyDataInput.t) : Async t WeeklyData.t :=
  let* result := on_primary (Layer.save input) in
  let* _ := (fun r =>
               if syncWritesImmediately r then syncToSecondaryLayers result r
               else if (0 <? List.length (secondaryLayers r))%nat
                    then start (SyncToSecondaryLayers result)
                               (syncToSecondaryLayers result) r
                    else (Ok tt, r)) in
  ret result.

Definition getRange (start end_ : WeekIdentifier.t) : Async t (list WeeklyData.t) :=
  try_catch
    (on_primary (Layer.getRange start end_))
    (fun error r =>
       if fallbackOnError r then fallbackGetRange start end_ r else throw error r).

Definition getByYear (year : Z) : Async t (list WeeklyData.t) :=
  try_catch
    (on_primary (Layer.getByYear year))
    (fun error r =>
       if fallbackOnError r then fallbackGetByYear year r else throw error r).

Definition getWeeksWithData (year : Z) : Async t (gset Z) :=
  try_catch
    (on_primary (Layer.getWeeksWithData year))
    (fun error r =>
       if fallbackOnError r then fallbackGetWeeksWithData year r else throw error r).

Definition delete (weekId : WeekIdentifier.t) : Async t unit :=
  let* _ := on_primary (Layer.delete weekId) in
  fun r =>
    if syncWritesImmediately r then allSettled (Layer.delete weekId) r
    else if (0 <? List.length (secondaryLayers r))%nat
         then start (DeleteFromSecondaryLayers weekId)
                    (allSettled (Layer.delete weekId)) r
         else (Ok tt, r).

(** A promise left in the background settles: its outcome reaches no
    caller; a failed [syncItem] is written to the console. The promises of
    [syncToSecondaryLayers] and of [Promise.allSettled] are fulfilled
    whatever the layers answered, so that the handlers [save] and [delete]
    attach with [catch] are never called. *)
Definition settle_one (b : Background) (r : t) : t :=
  match b with
  | SyncItem weekId =>
      match syncCoordinator r with
      | Some coordinator =>
          match syncItem coordinator weekId with
          | Ok _ => r
          | Err err =>
              console_warn ("Background sync failed for item: " +:+ error_to_string err) r
          end
      | None => r
      end
  | SyncToSecondaryLayers data => r
  | DeleteFromSecondaryLayers weekId => r
  end.

(** Every promise of the background settles, in the order they started. *)
Definition settle (r : t) : t :=
  foldl (fun r b => settle_one b r) (set_background [] r) (background r).

End LayeredRepository.

(** ** The factory (repositories/RepositoryFactory.ts) *)

Module RepositoryFactory.

Record RepositoryConfig : Type := mkConfig {
  enableFileSystem : bool;
  directoryHandle : option FileSystemLayer.FileSystemDirectoryHandle;
  syncWritesImmediately : option bool;
  fallbackOnError : option bool
}.

(** What the layers find in the browser when they are created: the
    database of the primary layer, the stored directory handle and the
    answer of the directory picker. *)
Record Window : Type := mkWindow {
  indexedDB_open_error : option string;
  indexedDB_records : list WeeklyData.t;
  storedHandle : option FileSystemLayer.FileSystemDirectoryHandle;
  showDirectoryPicker : Result FileSystemLayer.FileSystemDirectoryHandle
}.

(** The static fields of the class, the browser and the console. *)
Record t : Type := mk {
  instance : option LayeredRepository.t;
  currentConfig : option RepositoryConfig;
  window : Window;
  console : list string
}.

(** [a !== b] on directory handles: the identity of the objects. *)
Definition handle_differs (a b : option FileSystemLayer.FileSystemDirectoryHandle) : bool :=
  match a, b with
  | None, None => false
  | Some x, Some y =>
      negb (FileSystemLayer.handle_id x =? FileSystemLayer.handle_id y)%nat
  | _, _ => true
  end.

Definition createRepository (w : Window) (config : RepositoryConfig) : LayeredRepository.t :=
  let primaryLayer :=
    Layer.object (IndexedDBLayer.mk None (indexedDB_open_error w) (indexedDB_records w)) in
  let secondaryLayers :=
    if enableFileSystem config
    then [Layer.object (FileSystemLayer.new (directoryHandle config)
                                            (storedHandle w) (showDirectoryPicker w))]
    else [] in
  LayeredRepository.new
    (LayeredRepository.mkConfig primaryLayer secondaryLayers None
       LayeredRepository.last_write_wins
       (nullish_or (syncWritesImmediately config) false)
       (nullish_or (fallbackOnError config) true)).

Definition configure (config : RepositoryConfig) (f : t) : t :=
  let needsReconfiguration :=
    match currentConfig f with
    | None => true
    | Some current =>
        negb (Bool.eqb (enableFileSystem current) (enableFileSystem config))
        || handle_differs (directoryHandle current) (directoryHandle config)
    end in
  if needsReconfiguration then
    mk (Some (createRepository (window f) config)) (Some config) (window f)
       (console f ++ ["[RepositoryFactory] Configuring repository with:"]
                  ++ (if enableFileSystem config
                      then ["[RepositoryFactory] FileSystemLayer added to repository"]
                      else []))
  else f.

Definition getInstance (f : t) : LayeredRepository.t * t :=
  match instance f with
  | Some repository => (repository, f)
  | None =>
      let config := mkConfig false None None None in
      let repository := createRepository (window f) config in
      (repository,
       mk (Some repository) (Some config) (window f)
          (console f ++ ["[RepositoryFactory] No configured instance, creating default IndexedDB-only repository"]))
  end.

Definition reset (f : t) : t :=
  mk None None (window f) (console f ++ ["[RepositoryFactory] Resetting repository instance"]).

(** The deprecated entry points. *)
Definition create (f : t) : LayeredRepository.t * t := getInstance f.

Definition createWithFileSystem
    (directoryHandle : option FileSystemLayer.FileSystemDirectoryHandle)
    (syncWritesImmediately fallbackOnError : option bool) (f : t)
  : LayeredRepository.t * t :=
  getInstance (configure (mkConfig true directoryHandle syncWritesImmediately fallbackOnError) f).

End RepositoryFactory.

(** ** Vocabulary of the properties *)

(** What the specification asks of the record [saved] that [save input]
    resolves to, given [prior], the record stored under the key before
    (absent when there was none): a field the input supplies has the
    supplied value; a field it does not supply has the value of the prior
    record or, without a prior record, the documented default. *)
Definition save_contract (input : SaveWeeklyDataInput.t) (prior : option WeeklyData.t)
    (saved : WeeklyData.t) : Prop :=
  let field {A} (supplied : option A) (of_prior : WeeklyData.t -> A) (default : A) (value : A) :=
    match supplied, prior with
    | Some v, _ => value = v
    | None, Some p => value = of_prior p
    | None, None => value = default
    end in
  WeeklyData.weekId saved = SaveWeeklyDataInput.weekId input
  /\ field (SaveWeeklyDataInput.statusIcon input) WeeklyData.statusIcon "❔"
           (WeeklyData.statusIcon saved)
  /\ field (SaveWeeklyDataInput.achievements input) WeeklyData.achievements ""
           (WeeklyData.achievements saved)
  /\ field (SaveWeeklyDataInput.challenges input) WeeklyData.challenges ""
           (WeeklyData.challenges saved).

(** The primary layer once its database is open. *)
Definition opened (l : IndexedDBLayer.t) : IndexedDBLayer.t :=
  IndexedDBLayer.set_dbPromise (Some (Ok tt)) l.

(** The secondary layer once it is initialised. *)
Definition initialised (l : FileSystemLayer.t) : FileSystemLayer.t :=
  FileSystemLayer.set_initPromise (Some (Ok tt)) l.

(** The secondary layer with other entries in its directory. *)
Definition with_entries (es : list (string * FileSystemLayer.Entry)) (l : FileSystemLayer.t)
  : FileSystemLayer.t :=
  match FileSystemLayer.directoryHandle l with
  | Some handle =>
      FileSystemLayer.set_directoryHandle (Some (FileSystemLayer.set_entries es handle)) l
  | None => l
  end.

(** The journal of [year] is absent from the directory, or is a file that
    parses. *)
Definition readable (year : Z) (l : FileSystemLayer.t) : Prop :=
  match FileSystemLayer.journal year l with
  | None => True
  | Some (FileSystemLayer.FileEntry (FileSystemLayer.Serialized _)) => True
  | Some _ => False
  end.

(** The data of the journal of [year]; the empty structure [save] starts
    from when there is no journal. *)
Definition journal_data (year : Z) (l : FileSystemLayer.t) : FileSystemLayer.YearJournalData :=
  match FileSystemLayer.journal year l with
  | Some (FileSystemLayer.FileEntry (FileSystemLayer.Serialized data)) => data
  | _ => FileSystemLayer.mkYear year []
  end.

(** The weeks of the journal of [year]; none when there is no journal. *)
Definition weeks_of (year : Z) (l : FileSystemLayer.t) : JsObject WeeklyData.t :=
  FileSystemLayer.weeks (journal_data year l).

(** The entry [writeYearFile] leaves in the directory. *)
Definition journal_file (data : FileSystemLayer.YearJournalData) : FileSystemLayer.Entry :=
  FileSystemLayer.FileEntry (FileSystemLayer.Serialized data).

(** The directory without the entry [fileName]. *)
Definition dir_remove (fileName : string) (es : list (string * FileSystemLayer.Entry))
  : list (string * FileSystemLayer.Entry) :=
  List.filter (fun p => negb (String.eqb (fst p) fileName)) es.

(** The directory of the secondary layer after [save input]. *)
Definition saved_directory (input : SaveWeeklyDataInput.t) (l : FileSystemLayer.t)
  : list (string * FileSystemLayer.Entry) :=
  let identifier := SaveWeeklyDataInput.weekId input in
  let year := WeekIdentifier.year identifier in
  let weekNumber := WeekIdentifier.week identifier in
  let data := dataToSave identifier input (obj_get weekNumber (weeks_of year l)) in
  FileSystemLayer.dir_put (FileSystemLayer.getFileName year)
    (journal_file (FileSystemLayer.mkYear (FileSystemLayer.year (journal_data year l))
                                          (obj_set weekNumber data (weeks_of year l))))
    (FileSystemLayer.directory l).

(** The directory of the secondary layer after [delete weekId]. *)
Definition deleted_directory (weekId : WeekIdentifier.t) (l : FileSystemLayer.t)
  : list (string * FileSystemLayer.Entry) :=
  let year := WeekIdentifier.year weekId in
  let remaining := obj_delete (WeekIdentifier.week weekId) (weeks_of year l) in
  match FileSystemLayer.journal year l with
  | None => FileSystemLayer.directory l
  | Some _ =>
      match remaining with
      | [] => dir_remove (FileSystemLayer.getFileName year) (FileSystemLayer.directory l)
      | _ :: _ =>
          FileSystemLayer.dir_put (FileSystemLayer.getFileName year)
            (journal_file (FileSystemLayer.mkYear (FileSystemLayer.year (journal_data year l))
                                                  remaining))
            (FileSystemLayer.directory l)
      end
  end.

(** What the journal file [p] of the directory adds to the results of
    [getRange start end_]: the records of its weeks that are in range, when
    [p] is a file named after a year between the years of the range. *)
Definition range_contribution (start end_ : WeekIdentifier.t) (l : FileSystemLayer.t)
    (p : string * FileSystemLayer.Entry) : list WeeklyData.t :=
  match snd p with
  | FileSystemLayer.DirectoryEntry => []
  | FileSystemLayer.FileEntry _ =>
      if FileSystemLayer.endsWith (fst p) ".json" then
        match FileSystemLayer.parseFileName (fst p) with
        | Some year =>
            if (year =? 0) || (year <? WeekIdentifier.year start)
               || (year >? WeekIdentifier.year end_)
            then []
            else List.map snd
                   (List.filter (fun q => FileSystemLayer.isInRange start end_ year (fst q))
                                (weeks_of year l))
        | None => []
        end
      else []
  end.

(** The journal of [year] holds what [save] writes for valid week
    identifiers of that year: under a week from 1 to 53, a record with
    that week and that year. *)
Definition journal_of_valid_weeks (year : Z) (l : FileSystemLayer.t) : Prop :=
  forall weekNumber record,
    In (weekNumber, record) (weeks_of year l) ->
    1 <= weekNumber <= 53
    /\ WeeklyData.weekId record = WeekIdentifier.mk year weekNumber.

(** A directory as the layer keeps it when it is only given valid week
    identifiers: entries with distinct names and, for every year, a journal
    that is absent or parses and holds valid weeks of that year. *)
Definition well_kept (l : FileSystemLayer.t) : Prop :=
  List.NoDup (List.map fst (FileSystemLayer.directory l))
  /\ forall year, readable year l /\ journal_of_valid_weeks year l.

(** The records of the object store that belong to [year] with a week
    from 1 to 53. *)
Definition records_of_year (year : Z) (rs : list WeeklyData.t) : list WeeklyData.t :=
  List.filter (fun r => (WeekIdentifier.year (WeeklyData.weekId r) =? year)
                        && (1 <=? WeekIdentifier.week (WeeklyData.weekId r))
                        && (WeekIdentifier.week (WeeklyData.weekId r) <=? 53)) rs.

(** The decimal digit of value [n]. *)
Definition digit_char (n : nat) : ascii := ascii_of_nat (48 + n).

(** ** Examples *)

Definition week_of (year week : Z) : WeekIdentifier.t := WeekIdentifier.mk year week.

(** The scenario of the specification: a record is created for week 15 of
    2024 with a status and achievements, then updated with challenges. *)
Definition create_input : SaveWeeklyDataInput.t :=
  SaveWeeklyDataInput.mk (week_of 2024 15) (Some "🙂") (Some "A") None.

Definition update_input : SaveWeeklyDataInput.t :=
  SaveWeeklyDataInput.mk (week_of 2024 15) None None (Some "C").

Definition created_record : WeeklyData.t :=
  WeeklyData.mk (week_of 2024 15) "🙂" "A" "".

(** A database that has not been opened yet and holds no record. *)
Definition empty_database : IndexedDBLayer.t := IndexedDBLayer.mk None None [].

(** A directory the user has granted access to, without any file. *)
Definition empty_directory : FileSystemLayer.FileSystemDirectoryHandle :=
  FileSystemLayer.mkHandle 0 [] FileSystemLayer.granted FileSystemLayer.granted.

Definition layer_on (handle : FileSystemLayer.FileSystemDirectoryHandle) : FileSystemLayer.t :=
  FileSystemLayer.new (Some handle) None (Err (Error "The user aborted a request.")).

Definition empty_files : FileSystemLayer.t := layer_on empty_directory.

(** The layers after the record of the scenario is created. *)
Definition database_2024_15 : IndexedDBLayer.t :=
  snd (IndexedDBLayer.save create_input empty_database).

Definition files_2024_15 : FileSystemLayer.t :=
  snd (FileSystemLayer.save create_input empty_files).

(** Two weeks on either side of a year boundary, saved in the opposite
    order. *)
Definition input_2024_1 : SaveWeeklyDataInput.t :=
  SaveWeeklyDataInput.mk (week_of 2024 1) None None None.

Definition input_2023_52 : SaveWeeklyDataInput.t :=
  SaveWeeklyDataInput.mk (week_of 2023 52) None None None.

Definition record_2024_1 : WeeklyData.t := WeeklyData.mk (week_of 2024 1) "❔" "" "".
Definition record_2023_52 : WeeklyData.t := WeeklyData.mk (week_of 2023 52) "❔" "" "".

Definition database_year_boundary : IndexedDBLayer.t :=
  snd (IndexedDBLayer.save input_2023_52 (snd (IndexedDBLayer.save input_2024_1 empty_database))).

Definition files_year_boundary : FileSystemLayer.t :=
  snd (FileSystemLayer.save input_2023_52 (snd (FileSystemLayer.save input_2024_1 empty_files))).

(** A week saved under a year of three digits. *)
Definition input_999_1 : SaveWeeklyDataInput.t :=
  SaveWeeklyDataInput.mk (week_of 999 1) None None None.

Definition files_999 : FileSystemLayer.t :=
  snd (FileSystemLayer.save input_999_1 empty_files).

(** The layer after two more weeks of 2024 are saved next to week 15. *)
Definition files_2024_three_weeks : FileSystemLayer.t :=
  snd (FileSystemLayer.save
         (SaveWeeklyDataInput.mk (week_of 2024 3) None None None)
         (snd (FileSystemLayer.save input_2024_1 files_2024_15))).

Definition record_999_1 : WeeklyData.t := WeeklyData.mk (week_of 999 1) "❔" "" "".

(** A week saved under the week number 54. *)
Definition input_2024_54 : SaveWeeklyDataInput.t :=
  SaveWeeklyDataInput.mk (week_of 2024 54) None None None.

Definition files_2024_54 : FileSystemLayer.t :=
  snd (FileSystemLayer.save input_2024_54 empty_files).

Definition record_2024_54 : WeeklyData.t := WeeklyData.mk (week_of 2024 54) "❔" "" "".

(** The record of the scenario once it is updated. *)
Definition updated_record : WeeklyData.t :=
  WeeklyData.mk (week_of 2024 15) "🙂" "A" "C".

(** ** Vocabulary of the fallback *)

(** The secondary layers in the order the fallbacks try them. *)
Definition by_priority (r : LayeredRepository.t) : list Layer.t :=
  List.map snd (LayeredRepository.sortedLayers r).

(** What the first of [layers] whose call succeeds answers, be it empty;
    [empty] when every call fails. *)
Fixpoint first_success {A} (method : Async Layer.t A) (empty : A) (layers : list Layer.t) : A :=
  match layers with
  | [] => empty
  | layer :: layers' =>
      match fst (method layer) with
      | Ok result => result
      | Err _ => first_success method empty layers'
      end
  end.

(** The record the first of [layers] that has one answers; absent when
    every layer fails or has none. *)
Fixpoint first_found (weekId : WeekIdentifier.t) (layers : list Layer.t) : option WeeklyData.t :=
  match layers with
  | [] => None
  | layer :: layers' =>
      match fst (Layer.get weekId layer) with
      | Ok (Some result) => Some result
      | _ => first_found weekId layers'
      end
  end.

(** The specification's reading of the fallback of a range query: the
    first answer that is successful and not empty. *)
Fixpoint first_nonempty_success {A} (method : Async Layer.t A) (is_empty : A -> bool)
    (empty : A) (layers : list Layer.t) : A :=
  match layers with
  | [] => empty
  | layer :: layers' =>
      match fst (method layer) with
      | Ok result =>
          if is_empty result then first_nonempty_success method is_empty empty layers'
          else result
      | Err _ => first_nonempty_success method is_empty empty layers'
      end
  end.

Definition is_nil {A} (l : list A) : bool :=
  match l with [] => true | _ :: _ => false end.

(** ** Examples of repositories, after LayeredRepository.spec.ts *)

Definition primary_failed : JsError := Error "Primary layer failed".

(** A primary layer whose every operation fails. *)
Definition failingPrimaryLayer : MockLayer.t :=
  MockLayer.mk "failing-primary" 100
    (fun _ => Err primary_failed) (Err primary_failed) (Err primary_failed)
    (Err primary_failed) (Err primary_failed) (Err primary_failed) [].

Definition record_from_secondary : WeeklyData.t :=
  WeeklyData.mk (week_of 2024 1) "😀" "From secondary" "".

(** A working secondary layer that has data. *)
Definition secondaryLayer : MockLayer.t :=
  MockLayer.mk "secondary" 50
    MockLayer.resolve_input (Ok (Some record_from_secondary)) (Ok [record_from_secondary])
    (Ok [record_from_secondary]) (Ok [1; 2; 3]) (Ok tt) [].

(** A working secondary layer that has no data. *)
Definition emptyLayer (name : string) (priority : Z) : MockLayer.t :=
  MockLayer.mk name priority
    MockLayer.resolve_input (Ok None) (Ok []) (Ok []) (Ok []) (Ok tt) [].

(** A secondary layer whose every operation fails. *)
Definition brokenLayer (name : string) (priority : Z) : MockLayer.t :=
  MockLayer.mk name priority
    (fun _ => Err (Error "Secondary layer failed")) (Err (Error "Secondary layer failed"))
    (Err (Error "Secondary layer failed")) (Err (Error "Secondary layer failed"))
    (Err (Error "Secondary layer failed")) (Err (Error "Secondary layer failed")) [].

Definition repository_of (primary : Layer.t) (secondaries : list Layer.t)
    (syncWritesImmediately fallbackOnError : bool) : LayeredRepository.t :=
  LayeredRepository.new
    (LayeredRepository.mkConfig primary secondaries None LayeredRepository.last_write_wins
       syncWritesImmediately fallbackOnError).

(** The repositories of the tests of the fallback. *)
Definition repository_with_fallback : LayeredRepository.t :=
  repository_of (Layer.object failingPrimaryLayer) [Layer.object secondaryLayer] false true.

Definition repository_without_fallback : LayeredRepository.t :=
  repository_of (Layer.object failingPrimaryLayer) [Layer.object secondaryLayer] false false.

(** A failing primary layer and two working secondary layers: the
    preferred one has no data, the other one has. *)
Definition repository_preferred_empty : LayeredRepository.t :=
  repository_of (Layer.object failingPrimaryLayer)
    [Layer.object secondaryLayer; Layer.object (emptyLayer "preferred" 60)] false true.

(** A working primary layer, a secondary layer that fails and one that
    works, with writes synchronised immediately or in the background. *)
Definition repository_broken_secondary (syncWritesImmediately : bool) : LayeredRepository.t :=
  repository_of (Layer.object empty_database)
    [Layer.object (brokenLayer "broken" 50); Layer.object (emptyLayer "backup" 40)]
    syncWritesImmediately false.

(** ** Examples of configurations *)

Definition example_window : RepositoryFactory.Window :=
  RepositoryFactory.mkWindow None [] None (Err (Error "The user aborted a request.")).

(** The factory before any configuration. *)
Definition factory_initial : RepositoryFactory.t :=
  RepositoryFactory.mk None None example_window [].

(** File storage in the directory the user chose, with the default flags
    spelled out, and the same with both flags changed. *)
Definition config_background : RepositoryFactory.RepositoryConfig :=
  RepositoryFactory.mkConfig true (Some empty_directory) (Some false) (Some true).

Definition config_immediate : RepositoryFactory.RepositoryConfig :=
  RepositoryFactory.mkConfig true (Some empty_directory) (Some true) (Some false).

Definition factory_configured : RepositoryFactory.t :=
  RepositoryFactory.configure config_background factory_initial.

(** ** Week navigation (models/WeekKey.utils.ts) *)

(** ECMAScript's [DayFromYear]: the number of the first day of year [y],
    counted from 1 January 1970. *)
Definition DayFromYear (y : Z) : Z :=
  365 * (y - 1970) + (y - 1969) / 4 - (y - 1901) / 100 + (y - 1601) / 400.

(** ECMAScript's [WeekDay] of a day number: 0 is Sunday, 4 is Thursday. *)
Definition WeekDay (day : Z) : Z := (day + 4) mod 7.

(** ECMAScript's [TimeClip]: a [Date] holds a time at most 8.64e15
    milliseconds (100 000 000 days) from 1 January 1970, and is an Invalid
    Date otherwise. *)
Definition msPerDay : Z := 86400000.

Definition TimeClip (time : Z) : option Z :=
  if Z.abs time <=? 8640000000000000 then Some time else None.

(** [new Date(year, 0, 1).getDay()]; [None] is NaN, the answer of an
    Invalid Date. The constructor reads a year from 0 to 99 as 1900 + year.
    The time zone does not matter: it moves the time by less than a day,
    no year starts within a day of the bounds of [TimeClip], and [getDay]
    is the day of the week in local time. *)
Definition Date_jan1_getDay (year : Z) : option Z :=
  let yr := if (0 <=? year) && (year <=? 99) then 1900 + year else year in
  match TimeClip (msPerDay * DayFromYear yr) with
  | Some _ => Some (WeekDay (DayFromYear yr))
  | None => None
  end.

(** [a === b] for a number [a] that may be NaN: NaN equals nothing. *)
Definition strict_equals (a : option Z) (b : Z) : bool :=
  match a with
  | Some x => x =? b
  | None => false
  end.

Definition getWeeksInYear (year : Z) : Z :=
  let jan1Day := Date_jan1_getDay year in
  let isLeapYear :=
    ((Z.rem year 4 =? 0) && negb (Z.rem year 100 =? 0)) || (Z.rem year 400 =? 0) in
  if strict_equals jan1Day 4 || (isLeapYear && strict_equals jan1Day 3) then 53 else 52.




(** The object [{ start, end }] of week identifiers. *)
Record WeekRange : Type := mkWeekRange {
  range_start : WeekIdentifier.t;
  range_end : WeekIdentifier.t
}.

(** [quarter] is a whole number. *)
Definition getCalendarQuarterWeekRange (year quarter : Z) : Result WeekRange :=
  if (quarter <? 1) || (quarter >? 4) then
    Err (Error ("Invalid quarter: " +:+ number_to_string quarter
                +:+ ". Must be between 1 and 4."))
  else
    let weeksInYear := getWeeksInYear year in
    let quarterRanges : JsObject (Z * Z) :=
      [(1, (1, 13)); (2, (14, 26)); (3, (27, 39)); (4, (40, weeksInYear))] in
    match obj_get quarter quarterRanges with
    | Some range =>
        Ok (mkWeekRange (WeekIdentifier.mk year (fst range)) (WeekIdentifier.mk year (snd range)))
    | None => Err (mkError "TypeError" "Cannot read properties of undefined (reading 'start')")
    end.

(** models/WeeklyData.defaults.ts *)
Definition createDefaultWeeklyData (weekId : WeekIdentifier.t) : WeeklyData.t :=
  WeeklyData.mk weekId DEFAULT_WEEKLY_DATA_VALUES.statusIcon
    DEFAULT_WEEKLY_DATA_VALUES.achievements DEFAULT_WEEKLY_DATA_VALUES.challenges.

(** ** Vocabulary of the further properties *)

(** A week of the calendar: its number is at most the number of weeks of
    its year. *)
Definition week_exists (weekId : WeekIdentifier.t) : Prop :=
  1 <= WeekIdentifier.week weekId <= getWeeksInYear (WeekIdentifier.year weekId).

(** [weekId] lies in the range, bounds included. *)
Definition in_week_range (range : WeekRange) (weekId : WeekIdentifier.t) : Prop :=
  key_le (range_start range) weekId /\ key_le weekId (range_end range).

(** The error of every call on a primary layer whose database does not
    open. *)
Definition failed_to_open (message : string) : JsError :=
  Error ("Failed to open IndexedDB: " +:+ message).

(** A primary layer in a browser that refuses to open the database. *)
Definition blocked_database : IndexedDBLayer.t :=
  IndexedDBLayer.mk None (Some "The operation is insecure.") [created_record].

(** A write on a layer. *)
Inductive Write : Type :=
| WriteSave (input : SaveWeeklyDataInput.t)
| WriteDelete (weekId : WeekIdentifier.t).

(** The key a write is about. *)
Definition written_key (w : Write) : WeekIdentifier.t :=
  match w with
  | WriteSave input => SaveWeeklyDataInput.weekId input
  | WriteDelete weekId => weekId
  end.

(** The layer after a write, whatever its class. *)
Definition write {L} `{IWeeklyDataLayer.t L} (w : Write) (l : L) : L :=
  match w with
  | WriteSave input => snd (IWeeklyDataLayer.save input l)
  | WriteDelete weekId => snd (IWeeklyDataLayer.delete weekId l)
  end.

(** The layer after a history of writes, the earliest first. *)
Definition replay {L} `{IWeeklyDataLayer.t L} (history : list Write) (l : L) : L :=
  foldl (fun l w => write w l) l history.

(** A write that saves, saves under a week identifier that
    [createWeekIdentifier] accepts. *)
Definition valid_write (w : Write) : Prop :=
  match w with
  | WriteSave input =>
      1 <= WeekIdentifier.week (SaveWeeklyDataInput.weekId input) <= 53
      /\ 1000 <= WeekIdentifier.year (SaveWeeklyDataInput.weekId input) <= 9999
  | WriteDelete _ => True
  end.

(** [Number.isSafeInteger(n)]: the integers that JavaScript holds
    exactly, writes with all their digits and reads back with
    [parseInt]. *)
Definition is_safe_integer (n : Z) : Prop := Z.abs n <= 2 ^ 53 - 1.

(** The weeks of the journal of [year] are safe integers. *)
Definition weeks_are_safe_integers (year : Z) (l : FileSystemLayer.t) : Prop :=
  List.Forall (fun p => is_safe_integer (fst p)) (weeks_of year l).

(** A write that saves, saves under a week that is a safe integer. *)
Definition safe_write (w : Write) : Prop :=
  match w with
  | WriteSave input => is_safe_integer (WeekIdentifier.week (SaveWeeklyDataInput.weekId input))
  | WriteDelete _ => True
  end.

(** The name of a file that [clear] removes, as [clear] tests it. *)
Definition is_journal_name (fileName : string) : bool :=
  FileSystemLayer.endsWith fileName ".json"
  && match FileSystemLayer.parseFileName fileName with
     | Some year => negb (year =? 0)
     | None => false
     end.

(** Every journal of the directory is absent or parses. *)
Definition all_readable (l : FileSystemLayer.t) : Prop := forall year, readable year l.

(** The file-system layer holds, week for week, the records of the object
    store of the primary layer. *)
Definition mirrors (files : FileSystemLayer.t) (database : IndexedDBLayer.t) : Prop :=
  forall weekId,
    obj_get (WeekIdentifier.week weekId) (weeks_of (WeekIdentifier.year weekId) files)
    = IndexedDBLayer.store_get weekId (IndexedDBLayer.records database).

(** A history of writes: three saves, two of them on the same week, and
    two deletions, one of a week that has no record. *)
Definition example_history : list Write :=
  [WriteSave create_input; WriteSave input_2023_52; WriteSave update_input;
   WriteDelete (week_of 2023 52); WriteSave input_2024_1; WriteDelete (week_of 2022 7)].

(** A directory as the layer keeps it when it is given valid week
    identifiers only. Besides [well_kept]: the weeks of a journal are in
    the order in which JavaScript enumerates the properties of an object
    (ascending, for week numbers), and there are journals for years of four
    digits only. *)
Definition journals_in_order (l : FileSystemLayer.t) : Prop :=
  well_kept l
  /\ forall year,
       StronglySorted (fun p q : Z * WeeklyData.t => fst p < fst q) (weeks_of year l)
       /\ (FileSystemLayer.journal year l <> None -> 1000 <= year <= 9999).

(** The records in strictly ascending order of their keys. *)
Definition strictly_sorted_by_week (l : list WeeklyData.t) : Prop :=
  StronglySorted (fun a b => key_lt (WeeklyData.weekId a) (WeeklyData.weekId b)) l.

(** The directory without the entries of the given names. *)
Definition remove_all (fileNames : list string) (es : list (string * FileSystemLayer.Entry))
  : list (string * FileSystemLayer.Entry) :=
  foldl (fun es fileName => dir_remove fileName es) es fileNames.

(** A directory that holds the journal of 2024, a journal written for the
    year 999, a file of the user and a folder. *)
Definition mixed_directory : FileSystemLayer.FileSystemDirectoryHandle :=
  FileSystemLayer.mkHandle 1
    [("work-journal-2024.json",
      journal_file (FileSystemLayer.mkYear 2024 [(15, created_record)]));
     ("notes.txt", FileSystemLayer.FileEntry FileSystemLayer.Malformed);
     ("work-journal-999.json",
      journal_file (FileSystemLayer.mkYear 999 [(1, record_999_1)]));
     ("archive", FileSystemLayer.DirectoryEntry)]
    FileSystemLayer.granted FileSystemLayer.granted.

(** The error of a directory picker that the user dismisses. *)
Definition picker_aborted : JsError := mkError "AbortError" "The user aborted a request.".



(** A directory the user picks and grants the write permission for when
    asked. *)
Definition picked_directory : FileSystemLayer.FileSystemDirectoryHandle :=
  FileSystemLayer.mkHandle 3 [] FileSystemLayer.prompt FileSystemLayer.granted.

(** A secondary layer created without a handle, in a browser that holds
    no stored handle and whose user picks [picked_directory]. *)
Definition layer_with_picker : FileSystemLayer.t :=
  FileSystemLayer.new None None (Ok picked_directory).





(** The grant of a handle stands when the handle answers [granted], at
    once or on request. *)
Definition grant_stands (query request : Result FileSystemLayer.PermissionState) : Prop :=
  match query with
  | Ok FileSystemLayer.granted => True
  | Ok _ => request = Ok FileSystemLayer.granted
  | Err _ => False
  end.

(** The repository with the other way of synchronising writes. *)
Definition with_syncWritesImmediately (b : bool) (r : LayeredRepository.t)
  : LayeredRepository.t :=
  LayeredRepository.mk (LayeredRepository.primaryLayer r) (LayeredRepository.secondaryLayers r)
    (LayeredRepository.syncCoordinator r) (LayeredRepository.conflictResolution r)
    b (LayeredRepository.fallbackOnError r) (LayeredRepository.console r)
    (LayeredRepository.background r).

(** A write through the repository. *)
Definition repository_write (w : Write) (r : LayeredRepository.t) : LayeredRepository.t :=
  match w with
  | WriteSave input => snd (LayeredRepository.save input r)
  | WriteDelete weekId => snd (LayeredRepository.delete weekId r)
  end.

(** A primary layer that cannot read and accepts writes. *)
Definition unreadablePrimaryLayer : MockLayer.t :=
  MockLayer.mk "unreadable-primary" 100
    MockLayer.resolve_input (Err primary_failed) (Err primary_failed)
    (Err primary_failed) (Err primary_failed) (Ok tt) [].

(** A working primary layer that has no data. *)
Definition emptyPrimaryLayer : MockLayer.t := emptyLayer "primary" 100.

(** A sync coordinator whose synchronisation fails. *)
Definition failingCoordinator : LayeredRepository.ISyncCoordinator :=
  LayeredRepository.mkCoordinator (fun _ => Err (Error "Sync failed")).

(** The repository the factory builds with file storage, at rest: the
    primary layer is an IndexedDB layer whose database opens, the only
    secondary layer is a file-system layer that is ready and holds, week for
    week, the records of the database, and nothing is left in the
    background. *)
Definition in_step (r : LayeredRepository.t) : Prop :=
  exists database files handle,
    LayeredRepository.primaryLayer r = Layer.object database
    /\ LayeredRepository.secondaryLayers r = [Layer.object files]
    /\ IndexedDBLayer.opens database
    /\ FileSystemLayer.ready files handle
    /\ all_readable files
    /\ mirrors files database
    /\ LayeredRepository.background r = [].

(** The repository after a history of writes, each followed by the
    settling of what it left in the background. *)
Definition repository_replay (history : list Write) (r : LayeredRepository.t)
  : LayeredRepository.t :=
  foldl (fun r w => LayeredRepository.settle (repository_write w r)) r history.

(** The configuration with file storage in [empty_directory] and writes
    synchronised immediately, and the repository the factory builds for
    it and for [config_background]. *)
Definition repository_immediate : LayeredRepository.t :=
  RepositoryFactory.createRepository example_window config_immediate.

Definition repository_background : LayeredRepository.t :=
  RepositoryFactory.createRepository example_window config_background.

(** What the methods of the factory maintain: the instance is the
    repository created for the current configuration, and there is none
    without a configuration. *)
Definition factory_invariant (f : RepositoryFactory.t) : Prop :=
  RepositoryFactory.instance f
  = option_map (RepositoryFactory.createRepository (RepositoryFactory.window f))
               (RepositoryFactory.currentConfig f).

(** A browser whose database does not open, and the factory in it. *)
Definition blocked_window : RepositoryFactory.Window :=
  RepositoryFactory.mkWindow (Some "The operation is insecure.") [created_record] None
    (Err picker_aborted).

Definition factory_blocked : RepositoryFactory.t :=
  RepositoryFactory.mk None None blocked_window [].

(** The number of Thursdays among the [n] days from the day of number
    [first] on. *)
Definition thursdays (first : Z) (n : nat) : nat :=
  List.length (List.filter (fun i => WeekDay (first + Z.of_nat i) =? 4) (seq 0 n)).

(** The years whose first day a [Date] can hold: 1 January 275760 is the
    last one, 1 January -271820 the first. *)
Definition Date_holds_jan1 (year : Z) : Prop := -271820 <= year <= 275760.

(** The number of Thursdays of the calendar year [y], from its first day
    to the day before the first day of the next year. In the ISO calendar a
    week belongs to the year of its Thursday, so that this is the number of
    weeks of the ISO year. *)
Definition thursdays_of_year (y : Z) : nat :=
  thursdays (DayFromYear y) (Z.to_nat (DayFromYear (y + 1) - DayFromYear y)).

(** ** The composables (composables/useWeeklyData.ts, composables/useWeekRangeData.ts) *)

(** [try { m } finally { after }] *)
Definition finally {S A} (m : Async S A) (after : S -> S) : Async S A :=
  fun s => let (r, s') := m s in (r, after s').

(** A statement that only changes the state. *)
Definition effect {S} (f : S -> S) : Async S unit := fun s => (Ok tt, f s).

(** [`${weekId.year}-W${weekId.week}`] *)
Definition week_label (weekId : WeekIdentifier.t) : string :=
  number_to_string (WeekIdentifier.year weekId) +:+ "-W"
  +:+ number_to_string (WeekIdentifier.week weekId).

Module useWeeklyData.

(** The argument of [save]. *)
Record Updates : Type := mkUpdates {
  statusIcon : option string;
  achievements : option string;
  challenges : option string
}.

(** The state of the composable: the value of the ref [weekId] it was
    given, the repository it took from the factory when it was set up, and
    its own refs. The console is the one the repository writes to. The
    watcher, which calls [loadData] when the week changes, is left to
    Vue. *)
Record t : Type := mk {
  weekId : WeekIdentifier.t;
  repository : LayeredRepository.t;
  data : option WeeklyData.t;
  isLoading : bool;
  isSaving : bool;
  error : option JsError
}.

(** [useWeeklyData(weekId)], before the watcher runs. *)
Definition new (weekId : WeekIdentifier.t) (repository : LayeredRepository.t) : t :=
  mk weekId repository None false false None.

Definition set_repository (r : LayeredRepository.t) (s : t) : t :=
  mk (weekId s) r (data s) (isLoading s) (isSaving s) (error s).

Definition set_data (d : option WeeklyData.t) (s : t) : t :=
  mk (weekId s) (repository s) d (isLoading s) (isSaving s) (error s).

Definition set_isLoading (b : bool) (s : t) : t :=
  mk (weekId s) (repository s) (data s) b (isSaving s) (error s).

Definition set_isSaving (b : bool) (s : t) : t :=
  mk (weekId s) (repository s) (data s) (isLoading s) b (error s).

Definition set_error (e : option JsError) (s : t) : t :=
  mk (weekId s) (repository s) (data s) (isLoading s) (isSaving s) e.

(** [console.log(line)] and [console.error(line)] *)
Definition console_log (line : string) (s : t) : t :=
  set_repository (LayeredRepository.console_warn line (repository s)) s.

(** A method call on the repository. *)
Definition on_repository {A} (method : Async LayeredRepository.t A) : Async t A :=
  fun s => let (a, r) := method (repository s) in (a, set_repository r s).

Definition loadData : Async t unit := fun s =>
  let currentWeekId := weekId s in
  finally
    (try_catch
       (let* _ := effect (set_isLoading true) in
        let* _ := effect (set_error None) in
        let* _ := effect (console_log ("[useWeeklyData] Loading data for "
                                       +:+ week_label currentWeekId)) in
        let* existingData := on_repository (LayeredRepository.get currentWeekId) in
        match existingData with
        | Some existingData =>
            let* _ := effect (set_data (Some existingData)) in
            effect (console_log "[useWeeklyData] Loaded existing data")
        | None =>
            let* _ := effect (set_data None) in
            effect (console_log "[useWeeklyData] No existing data found")
        end)
       (fun err =>
          let* _ := effect (set_error (Some err)) in
          let* _ := effect (console_log ("[useWeeklyData] Failed to load data: "
                                         +:+ error_to_string err)) in
          throw err))
    (set_isLoading false) s.

Definition refresh : Async t unit := loadData.

Definition save (updates : Updates) : Async t unit := fun s =>
  let currentWeekId := weekId s in
  finally
    (try_catch
       (let* _ := effect (set_isSaving true) in
        let* _ := effect (set_error None) in
        let* _ := effect (console_log ("[useWeeklyData] Saving changes for "
                                       +:+ week_label currentWeekId)) in
        let* _ := on_repository
                    (LayeredRepository.save
                       (SaveWeeklyDataInput.mk currentWeekId (statusIcon updates)
                          (achievements updates) (challenges updates))) in
        let* _ := loadData in
        effect (console_log "[useWeeklyData] Saved successfully"))
       (fun err =>
          let* _ := effect (set_error (Some err)) in
          let* _ := effect (console_log ("[useWeeklyData] Failed to save: "
                                         +:+ error_to_string err)) in
          throw err))
    (set_isSaving false) s.

Definition remove : Async t unit := fun s =>
  let currentWeekId := weekId s in
  finally
    (try_catch
       (let* _ := effect (set_isLoading true) in
        let* _ := effect (set_error None) in
        let* _ := effect (console_log ("[useWeeklyData] Deleting data for "
                                       +:+ week_label currentWeekId)) in
        let* _ := on_repository (LayeredRepository.delete currentWeekId) in
        let* _ := effect (set_data None) in
        effect (console_log "[useWeeklyData] Deleted successfully"))
       (fun err =>
          let* _ := effect (set_error (Some err)) in
          let* _ := effect (console_log ("[useWeeklyData] Failed to delete: "
                                         +:+ error_to_string err)) in
          throw err))
    (set_isLoading false) s.

End useWeeklyData.

Module useWeekRangeData.

(** The state of the composable: the values of the refs [start] and
    [end] it was given, the repository it took from the factory, and its
    own refs. *)
Record t : Type := mk {
  start : WeekIdentifier.t;
  end_ : WeekIdentifier.t;
  repository : LayeredRepository.t;
  weeks : list WeeklyData.t;
  isLoading : bool;
  error : option JsError
}.

(** [useWeekRangeData(start, end)], before the watcher runs. *)
Definition new (start end_ : WeekIdentifier.t) (repository : LayeredRepository.t) : t :=
  mk start end_ repository [] false None.

Definition set_repository (r : LayeredRepository.t) (s : t) : t :=
  mk (start s) (end_ s) r (weeks s) (isLoading s) (error s).

Definition set_weeks (ws : list WeeklyData.t) (s : t) : t :=
  mk (start s) (end_ s) (repository s) ws (isLoading s) (error s).

Definition set_isLoading (b : bool) (s : t) : t :=
  mk (start s) (end_ s) (repository s) (weeks s) b (error s).

Definition set_error (e : option JsError) (s : t) : t :=
  mk (start s) (end_ s) (repository s) (weeks s) (isLoading s) e.

Definition console_log (line : string) (s : t) : t :=
  set_repository (LayeredRepository.console_warn line (repository s)) s.

Definition on_repository {A} (method : Async LayeredRepository.t A) : Async t A :=
  fun s => let (a, r) := method (repository s) in (a, set_repository r s).

Definition loadData : Async t unit := fun s =>
  let currentStart := start s in
  let currentEnd := end_ s in
  finally
    (try_catch
       (let* _ := effect (set_isLoading true) in
        let* _ := effect (set_error None) in
        let* _ := effect (console_log ("[useWeekRangeData] Loading data from "
                                       +:+ week_label currentStart +:+ " to "
                                       +:+ week_label currentEnd)) in
        let* data := on_repository (LayeredRepository.getRange currentStart currentEnd) in
        let* _ := effect (set_weeks data) in
        effect (console_log ("[useWeekRangeData] Loaded "
                             +:+ number_to_string (Z.of_nat (List.length data))
                             +:+ " weeks with data")))
       (fun err =>
          let* _ := effect (set_error (Some err)) in
          let* _ := effect (console_log ("[useWeekRangeData] Failed to load data: "
                                         +:+ error_to_string err)) in
          throw err))
    (set_isLoading false) s.

Definition refresh : Async t unit := loadData.

End useWeekRangeData.

(** ** Properties of the composables: vocabulary and examples *)

(** The repository on an IndexedDB layer alone whose database opens. *)
Definition repository_on (database : IndexedDBLayer.t) : LayeredRepository.t :=
  repository_of (Layer.object database) [] false true.

(** The composable of week 15 of 2024 on the database that holds the
    record of that week. *)
Definition composable_2024_15 : useWeeklyData.t :=
  useWeeklyData.new (week_of 2024 15) (repository_on database_2024_15).

(** The update of the scenario: challenges only. *)
Definition update_challenges : useWeeklyData.Updates :=
  useWeeklyData.mkUpdates None None (Some "C").

(** ** The delete button (components/NotesDeleteButton.vue) *)

Module NotesDeleteButton.

(** The props that decide what is deleted; an absent prop is [None]. *)
Record Props : Type := mkProps {
  weekId : option WeekIdentifier.t;
  startWeek : option WeekIdentifier.t;
  endWeek : option WeekIdentifier.t
}.

(** The state of the component: its props, the instance of the repository
    the factory hands out, the composable it set up if it was given a
    [weekId], its own refs, and the number of 'delete' events it has
    emitted. The composable holds the same repository object as the
    factory: its own copy is brought up to date before each call and read
    back afterwards. *)
Record t : Type := mk {
  props : Props;
  repository : LayeredRepository.t;
  composable : option useWeeklyData.t;
  isDeletePopoverOpen : bool;
  isDeleting : bool;
  emitted : nat
}.

(** The component once it is set up. *)
Definition new (props : Props) (repository : LayeredRepository.t) : t :=
  mk props repository
     (match weekId props with
      | Some weekId => Some (useWeeklyData.new weekId repository)
      | None => None
      end)
     false false 0.

Definition set_repository (r : LayeredRepository.t) (s : t) : t :=
  mk (props s) r (composable s) (isDeletePopoverOpen s) (isDeleting s) (emitted s).

Definition set_composable (c : option useWeeklyData.t) (s : t) : t :=
  mk (props s) (repository s) c (isDeletePopoverOpen s) (isDeleting s) (emitted s).

Definition set_isDeletePopoverOpen (b : bool) (s : t) : t :=
  mk (props s) (repository s) (composable s) b (isDeleting s) (emitted s).

Definition set_isDeleting (b : bool) (s : t) : t :=
  mk (props s) (repository s) (composable s) (isDeletePopoverOpen s) b (emitted s).

(** [emit('delete')] *)
Definition emit_delete (s : t) : t :=
  mk (props s) (repository s) (composable s) (isDeletePopoverOpen s) (isDeleting s)
     (S (emitted s)).

Definition console_error (line : string) (s : t) : t :=
  set_repository (LayeredRepository.console_warn line (repository s)) s.

Definition on_repository {A} (method : Async LayeredRepository.t A) : Async t A :=
  fun s => let (a, r) := method (repository s) in (a, set_repository r s).

(** [isRange && props.startWeek && props.endWeek] *)
Definition isRange (s : t) : option (WeekIdentifier.t * WeekIdentifier.t) :=
  match startWeek (props s), endWeek (props s) with
  | Some startWeek, Some endWeek => Some (startWeek, endWeek)
  | _, _ => None
  end.

(** [remove]: the composable's, or the function that does nothing. *)
Definition remove : Async t unit := fun s =>
  match composable s with
  | Some c =>
      let (a, c') := useWeeklyData.remove (useWeeklyData.set_repository (repository s) c) in
      (a, set_composable (Some c') (set_repository (useWeeklyData.repository c') s))
  | None => (Ok tt, s)
  end.

(** [for (const week of weeksToDelete) await repository.delete(week.weekId)] *)
Fixpoint delete_loop (weeksToDelete : list WeeklyData.t) : Async LayeredRepository.t unit :=
  match weeksToDelete with
  | [] => ret tt
  | week :: rest =>
      let* _ := LayeredRepository.delete (WeeklyData.weekId week) in
      delete_loop rest
  end.

Definition handleDelete : Async t unit :=
  finally
    (try_catch
       (let* _ := effect (set_isDeleting true) in
        let* _ := (fun s =>
                     match isRange s with
                     | Some (startWeek, endWeek) =>
                         on_repository
                           (let* weeksToDelete :=
                              LayeredRepository.getRange startWeek endWeek in
                            delete_loop weeksToDelete) s
                     | None =>
                         match weekId (props s) with
                         | Some _ => remove s
                         | None => (Ok tt, s)
                         end
                     end) in
        let* _ := effect emit_delete in
        effect (set_isDeletePopoverOpen false))
       (fun error =>
          effect (console_error ("Failed to delete: " +:+ error_to_string error))))
    (set_isDeleting false).

End NotesDeleteButton.

(** The records a range deletion leaves in the object store. *)
Definition outside_range (start end_ : WeekIdentifier.t) (rs : list WeeklyData.t)
  : list WeeklyData.t :=
  List.filter
    (fun r => negb (IndexedDBLayer.in_key_range (IndexedDBLayer.mkRange start end_)
                      (IndexedDBLayer.key_of r)))
    rs.

(** The button of the first quarter of 2024 on a database that holds the
    records of week 15 of 2024 alone. *)
Definition button_2024_Q1 : NotesDeleteButton.t :=
  NotesDeleteButton.new
    (NotesDeleteButton.mkProps None (Some (week_of 2024 1)) (Some (week_of 2024 13)))
    (repository_on database_2024_15).

(** The button of the second quarter. *)
Definition button_2024_Q2 : NotesDeleteButton.t :=
  NotesDeleteButton.new
    (NotesDeleteButton.mkProps None (Some (week_of 2024 14)) (Some (week_of 2024 26)))
    (repository_on database_2024_15).

(** * Properties *)

(** ** The keys *)

Lemma key_compare_refl a : key_compare a a = Eq.
Proof. unfold key_compare. now rewrite !Z.compare_refl. Qed.

Lemma key_eqb_refl a : key_eqb a a = true.
Proof. unfold key_eqb. now rewrite key_compare_refl. Qed.

Lemma key_compare_eq a b : key_compare a b = Eq -> a = b.
Proof.
  destruct a as [ya wa], b as [yb wb]. unfold key_compare. simpl.
  destruct (Z.compare_spec ya yb) as [Hy|Hy|Hy]; try discriminate.
  intros Hw. apply Z.compare_eq in Hw. now subst.
Qed.

Lemma key_eqb_eq a b : key_eqb a b = true <-> a = b.
Proof.
  split.
  - unfold key_eqb. destruct (key_compare a b) eqn:H; try discriminate.
    intros _. now apply key_compare_eq.
  - intros ->. apply key_eqb_refl.
Qed.

Lemma key_compare_lt a b : key_compare a b = Lt <-> key_lt a b.
Proof.
  destruct a as [ya wa], b as [yb wb]. unfold key_compare, key_lt. simpl.
  destruct (Z.compare_spec ya yb) as [Hy|Hy|Hy].
  - rewrite Z.compare_lt_iff. lia.
  - split; [lia | reflexivity].
  - split; [discriminate | lia].
Qed.

Lemma key_compare_gt a b : key_compare a b = Gt <-> key_lt b a.
Proof.
  destruct a as [ya wa], b as [yb wb]. unfold key_compare, key_lt. simpl.
  destruct (Z.compare_spec ya yb) as [Hy|Hy|Hy].
  - rewrite Z.compare_gt_iff. lia.
  - split; [discriminate | lia].
  - split; [lia | reflexivity].
Qed.

Lemma key_ltb_lt a b : key_ltb a b = true <-> key_lt a b.
Proof.
  rewrite <- key_compare_lt. unfold key_ltb.
  destruct (key_compare a b); split; congruence.
Qed.

Lemma key_leb_le a b : key_leb a b = true <-> key_le a b.
Proof.
  unfold key_leb. destruct (key_compare a b) eqn:H.
  - apply key_compare_eq in H. subst. unfold key_le. split; [lia | reflexivity].
  - apply key_compare_lt in H. unfold key_lt, key_le in *. split; [lia | reflexivity].
  - apply key_compare_gt in H. unfold key_lt, key_le in *. split; [discriminate | lia].
Qed.

Lemma key_lt_le a b : key_lt a b -> key_le a b.
Proof. unfold key_lt, key_le. lia. Qed.

Lemma key_le_trans a b c : key_le a b -> key_le b c -> key_le a c.
Proof. unfold key_le. lia. Qed.

Lemma key_lt_trans a b c : key_lt a b -> key_lt b c -> key_lt a c.
Proof. unfold key_lt. lia. Qed.

Lemma key_lt_not_le a b : key_lt a b -> ~ key_le b a.
Proof. unfold key_lt, key_le. lia. Qed.

Lemma toPlainWeekId_id weekId : toPlainWeekId weekId = weekId.
Proof. now destruct weekId. Qed.

(** ** Sorting *)

Section Sorting.
Context {A : Type} (compare : A -> A -> Z).

(** The comparison function orders any two elements one way or the other. *)
Hypothesis compare_total : forall x y, 0 < compare x y -> compare y x <= 0.

Let le (x y : A) : Prop := compare x y <= 0.

Lemma sort_insert_Sorted x l : Sorted le l -> Sorted le (sort_insert compare x l).
Proof using compare_total.
  induction 1 as [|y l Hl IH Hy]; simpl.
  - repeat constructor.
  - destruct (compare x y <=? 0) eqn:Hc.
    + apply Z.leb_le in Hc. repeat constructor; assumption.
    + apply Z.leb_gt in Hc. constructor; [exact IH|].
      destruct l as [|z l]; simpl.
      * constructor. now apply compare_total.
      * destruct (compare x z <=? 0).
        -- constructor. now apply compare_total.
        -- constructor. now inversion Hy.
Qed.

Lemma js_sort_Sorted l : Sorted le (js_sort compare l).
Proof using compare_total.
  induction l as [|x l IH]; simpl.
  - constructor.
  - now apply sort_insert_Sorted.
Qed.
End Sorting.

Lemma sort_insert_Permutation {A} (compare : A -> A -> Z) x l :
  Permutation (x :: l) (sort_insert compare x l).
Proof.
  induction l as [|y l IH]; simpl.
  - reflexivity.
  - destruct (compare x y <=? 0).
    + reflexivity.
    + rewrite perm_swap. now constructor.
Qed.

Lemma js_sort_Permutation {A} (compare : A -> A -> Z) l :
  Permutation l (js_sort compare l).
Proof.
  induction l as [|x l IH]; simpl.
  - reflexivity.
  - rewrite <- sort_insert_Permutation. now constructor.
Qed.

(** Two comparison functions that agree on the elements of a list sort it
    the same way. *)
Lemma sort_insert_ext {A} (c1 c2 : A -> A -> Z) x l :
  (forall y, In y l -> c1 x y = c2 x y) ->
  sort_insert c1 x l = sort_insert c2 x l.
Proof.
  induction l as [|y l IH]; simpl; intros H.
  - reflexivity.
  - rewrite (H y) by now left. destruct (c2 x y <=? 0).
    + reflexivity.
    + f_equal. apply IH. intros z Hz. apply H. now right.
Qed.

Lemma js_sort_ext {A} (c1 c2 : A -> A -> Z) l :
  (forall x y, In x l -> In y l -> c1 x y = c2 x y) ->
  js_sort c1 l = js_sort c2 l.
Proof.
  induction l as [|x l IH]; simpl; intros H.
  - reflexivity.
  - rewrite IH by (intros; apply H; now right).
    apply sort_insert_ext. intros y Hy. apply H; [now left|].
    right. eapply Permutation_in; [symmetry; apply js_sort_Permutation | exact Hy].
Qed.

(** ** JavaScript objects *)

Lemma obj_get_set {V} k (v : V) o : obj_get k (obj_set k v o) = Some v.
Proof.
  unfold obj_get. induction o as [|[k' v'] o IH]; simpl.
  - now rewrite Z.eqb_refl.
  - destruct (k =? k') eqn:Hk; simpl.
    + now rewrite Z.eqb_refl.
    + destruct (is_array_index k && (negb (is_array_index k') || (k <? k'))); simpl.
      * now rewrite Z.eqb_refl.
      * rewrite Z.eqb_sym, Hk. exact IH.
Qed.

Lemma obj_get_set_other {V} k k' (v : V) o :
  k' <> k -> obj_get k' (obj_set k v o) = obj_get k' o.
Proof.
  intros Hne. unfold obj_get. induction o as [|[k0 v0] o IH]; simpl.
  - apply Z.eqb_neq in Hne. now rewrite Z.eqb_sym, Hne.
  - destruct (k =? k0) eqn:Hk; simpl.
    + apply Z.eqb_eq in Hk. subst k0.
      assert ((k =? k') = false) as -> by (apply Z.eqb_neq; congruence). reflexivity.
    + destruct (is_array_index k && (negb (is_array_index k0) || (k <? k0))); simpl.
      * assert ((k =? k') = false) as -> by (apply Z.eqb_neq; congruence). reflexivity.
      * destruct (k0 =? k'); [reflexivity | exact IH].
Qed.

Lemma obj_get_delete {V} k (o : JsObject V) : obj_get k (obj_delete k o) = None.
Proof.
  unfold obj_get, obj_delete. induction o as [|[k' v'] o IH]; simpl.
  - reflexivity.
  - destruct (k' =? k) eqn:Hk; simpl.
    + exact IH.
    + now rewrite Hk.
Qed.

Lemma obj_get_delete_other {V} k k' (o : JsObject V) :
  k' <> k -> obj_get k' (obj_delete k o) = obj_get k' o.
Proof.
  intros Hne. unfold obj_get, obj_delete. induction o as [|[k0 v0] o IH]; simpl.
  - reflexivity.
  - destruct (k0 =? k) eqn:Hk; simpl.
    + apply Z.eqb_eq in Hk. subst k0.
      assert ((k =? k') = false) as -> by (apply Z.eqb_neq; congruence). exact IH.
    + destruct (k0 =? k'); [reflexivity | exact IH].
Qed.

Lemma obj_delete_absent {V} k (o : JsObject V) :
  obj_get k o = None -> obj_delete k o = o.
Proof.
  unfold obj_get, obj_delete. induction o as [|[k' v'] o IH]; simpl.
  - reflexivity.
  - destruct (k' =? k) eqn:Hk; simpl.
    + discriminate.
    + intros H. now rewrite IH.
Qed.

(** An object whose only key is [k] is empty once [k] is deleted. *)
Lemma obj_delete_only {V} k (o : JsObject V) :
  (forall k', k' <> k -> obj_get k' o = None) -> obj_delete k o = [].
Proof.
  unfold obj_delete. induction o as [|[k0 v0] o IH]; simpl; intros H.
  - reflexivity.
  - destruct (k0 =? k) eqn:Hk; simpl.
    + apply IH. intros k' Hk'. specialize (H k' Hk'). unfold obj_get in *. simpl in H.
      apply Z.eqb_eq in Hk. subst k0.
      assert ((k =? k') = false) as Hf by (apply Z.eqb_neq; congruence).
      now rewrite Hf in H.
    + apply Z.eqb_neq in Hk. specialize (H k0 Hk). unfold obj_get in H. simpl in H.
      rewrite Z.eqb_refl in H. discriminate.
Qed.

Lemma obj_delete_nonempty {V} k k' (o : JsObject V) :
  k' <> k -> obj_get k' o <> None -> obj_delete k o <> [].
Proof.
  intros Hne Hsome Hnil. apply Hsome.
  rewrite <- (obj_get_delete_other k k' o Hne), Hnil. reflexivity.
Qed.

Lemma obj_get_single_other {V} k k' (v : V) : k' <> k -> obj_get k' [(k, v)] = None.
Proof.
  intros Hne. unfold obj_get. simpl.
  destruct (Z.eqb_spec k k') as [E|]; [|reflexivity]. now contradiction Hne.
Qed.

(** ** Numbers and their names *)

Lemma digits_prefix_string_of_uint d :
  FileSystemLayer.digits_prefix (NilEmpty.string_of_uint d) = NilEmpty.string_of_uint d.
Proof. induction d; simpl; now rewrite ?IHd. Qed.

Lemma digits_value_of_uint_acc d :
  forall acc,
    FileSystemLayer.digits_value (Z.pos acc) (NilEmpty.string_of_uint d)
    = Z.pos (Pos.of_uint_acc d acc).
Proof.
  induction d; intros acc; simpl; try reflexivity; rewrite <- IHd; f_equal;
    unfold FileSystemLayer.digitValue;
    match goal with
    | |- context [nat_of_ascii ?c] =>
        let v := eval vm_compute in (nat_of_ascii c) in change (nat_of_ascii c) with v
    end; lia.
Qed.

Lemma digits_value_of_uint d :
  FileSystemLayer.digits_value 0 (NilEmpty.string_of_uint d) = Z.of_N (Pos.of_uint d).
Proof.
  induction d; simpl; try reflexivity; try exact IHd;
    apply (digits_value_of_uint_acc d 1) || apply (digits_value_of_uint_acc d _).
Qed.

(** A string of digits is read as the number it writes. *)
Lemma parseInt_digits d :
  d <> Decimal.Nil ->
  FileSystemLayer.parseInt (NilEmpty.string_of_uint d) = Some (Z.of_N (Pos.of_uint d)).
Proof.
  intros Hd. rewrite <- digits_value_of_uint.
  pose proof (digits_prefix_string_of_uint d) as Hprefix.
  unfold FileSystemLayer.parseInt.
  destruct d; try (now contradiction Hd); simpl NilEmpty.string_of_uint in *;
    simpl FileSystemLayer.trimStart; cbv iota beta; rewrite Hprefix;
    cbn [String.eqb]; f_equal; lia.
Qed.

Lemma parseInt_minus_digits d :
  d <> Decimal.Nil ->
  FileSystemLayer.parseInt (String "-" (NilEmpty.string_of_uint d))
  = Some (- Z.of_N (Pos.of_uint d)).
Proof.
  intros Hd. rewrite <- digits_value_of_uint.
  pose proof (digits_prefix_string_of_uint d) as Hprefix.
  unfold FileSystemLayer.parseInt.
  simpl FileSystemLayer.trimStart. cbv iota beta. rewrite Hprefix.
  destruct d; try (now contradiction Hd); simpl NilEmpty.string_of_uint in *;
    cbn [String.eqb]; f_equal; lia.
Qed.

(** A number is read back from its name. *)
Lemma parseInt_number_to_string n :
  FileSystemLayer.parseInt (number_to_string n) = Some n.
Proof.
  unfold number_to_string.
  assert (Hnil : forall p, NilZero.string_of_uint (Pos.to_uint p)
                           = NilEmpty.string_of_uint (Pos.to_uint p)).
  { intros p. pose proof (DecimalPos.Unsigned.to_uint_nonnil p) as Hnonnil.
    now destruct (Pos.to_uint p). }
  destruct n as [|p|p]; [reflexivity| |]; simpl; rewrite Hnil.
  - rewrite parseInt_digits by apply DecimalPos.Unsigned.to_uint_nonnil.
    now rewrite DecimalPos.Unsigned.of_to.
  - rewrite parseInt_minus_digits by apply DecimalPos.Unsigned.to_uint_nonnil.
    now rewrite DecimalPos.Unsigned.of_to.
Qed.

(** What [getWeeksWithData] and [getRange] make of the names of the
    properties of an object. *)
Lemma numbers_parseInt_Object_keys {V} (o : JsObject V) :
  FileSystemLayer.numbers (List.map FileSystemLayer.parseInt (Object_keys o))
  = List.map fst o.
Proof.
  unfold FileSystemLayer.numbers, Object_keys.
  induction o as [|[k v] o IH]; [reflexivity|]. simpl.
  rewrite parseInt_number_to_string. simpl. now f_equal.
Qed.

Lemma inRange_Object_entries {V} (f : Z -> bool) (nan : bool) (o : JsObject V) :
  List.map snd
    (List.filter (fun p => match FileSystemLayer.parseInt (fst p) with
                           | Some weekNumber => f weekNumber
                           | None => nan
                           end)
                 (Object_entries o))
  = List.map snd (List.filter (fun p => f (fst p)) o).
Proof.
  unfold Object_entries. induction o as [|[k v] o IH]; [reflexivity|]. simpl.
  rewrite parseInt_number_to_string. destruct (f k); simpl; now rewrite IH.
Qed.

Lemma length_Object_keys {V} (o : JsObject V) : List.length (Object_keys o) = List.length o.
Proof. unfold Object_keys. now rewrite List.length_map. Qed.

(** ** The primary layer *)

Module IndexedDBFacts.
Import IndexedDBLayer.

Lemma opens_opened l : opens l -> opens (opened l).
Proof. intros _. now left. Qed.

Lemma initDB_opens l : opens l -> initDB l = (Ok tt, opened l).
Proof.
  intros [H | [H1 H2]]; unfold initDB, opened.
  - rewrite H. destruct l; simpl in *. now subst.
  - rewrite H1, H2. reflexivity.
Qed.

Lemma executeTransaction_opens {T} (callback : list WeeklyData.t -> T * list WeeklyData.t) l :
  opens l ->
  executeTransaction callback l
  = (Ok (fst (callback (records l))), set_records (snd (callback (records l))) (opened l)).
Proof.
  intros H. unfold executeTransaction, bind. rewrite (initDB_opens l H).
  simpl. now destruct (callback (records l)).
Qed.

Lemma get_opens weekId l :
  opens l -> get weekId l = (Ok (store_get weekId (records l)), opened l).
Proof.
  intros H. unfold get, bind. rewrite (executeTransaction_opens _ l H). simpl.
  unfold ret. f_equal; try (now destruct l).
Qed.

Lemma save_opens input l :
  opens l ->
  let identifier := toPlainWeekId (SaveWeeklyDataInput.weekId input) in
  let data := dataToSave identifier input (store_get identifier (records l)) in
  save input l = (Ok data, set_records (store_put data (records l)) (opened l)).
Proof.
  intros H. simpl. unfold save, bind. rewrite (get_opens _ l H).
  rewrite (executeTransaction_opens _ _ (opens_opened l H)). simpl.
  unfold ret. f_equal; try (now destruct l).
Qed.

Lemma delete_opens weekId l :
  opens l -> delete weekId l = (Ok tt, set_records (store_delete weekId (records l)) (opened l)).
Proof. intros H. unfold delete. now rewrite (executeTransaction_opens _ l H). Qed.

Lemma getRange_opens start end_ l :
  opens l ->
  getRange start end_ l
  = (match IDBKeyRange_bound start end_ with
     | Ok keyRange => Ok (store_getAll keyRange (records l))
     | Err e => Err e
     end, opened l).
Proof.
  intros H. unfold getRange, bind. rewrite (initDB_opens l H). unfold settled.
  now destruct (IDBKeyRange_bound start end_).
Qed.

Lemma store_get_put r rs : store_get (key_of r) (store_put r rs) = Some r.
Proof.
  unfold store_get. induction rs as [|x rs IH]; simpl.
  - now rewrite key_eqb_refl.
  - destruct (key_compare (key_of r) (key_of x)) eqn:Hc; simpl.
    + now rewrite key_eqb_refl.
    + now rewrite key_eqb_refl.
    + destruct (key_eqb (key_of x) (key_of r)) eqn:He; [|exact IH].
      apply key_eqb_eq in He. rewrite He, key_compare_refl in Hc. discriminate.
Qed.

Lemma store_get_delete key rs : store_get key (store_delete key rs) = None.
Proof.
  unfold store_get, store_delete. induction rs as [|x rs IH]; simpl.
  - reflexivity.
  - destruct (key_eqb (key_of x) key) eqn:He; simpl; [exact IH|].
    now rewrite He.
Qed.

(** The object store stays in key order. *)
Lemma store_ok_nil : store_ok [].
Proof. constructor. Qed.

Lemma store_put_Forall (P : WeeklyData.t -> Prop) r rs :
  P r -> Forall P rs -> Forall P (store_put r rs).
Proof.
  intros Hr. induction 1 as [|x rs Hx Hrs IH]; simpl.
  - now repeat constructor.
  - destruct (key_compare (key_of r) (key_of x)); repeat constructor; assumption.
Qed.

Lemma store_ok_put r rs : store_ok rs -> store_ok (store_put r rs).
Proof.
  unfold store_ok. induction 1 as [|x rs Hrs IH Hx]; simpl.
  - repeat constructor.
  - destruct (key_compare (key_of r) (key_of x)) eqn:Hc.
    + apply key_compare_eq in Hc. constructor; [assumption|]. now rewrite Hc.
    + apply key_compare_lt in Hc. constructor; [now constructor|].
      constructor; [assumption|].
      eapply List.Forall_impl; [|exact Hx]. intros y Hy. simpl in Hy.
      eapply key_lt_trans; eassumption.
    + apply key_compare_gt in Hc. constructor; [exact IH|].
      now apply store_put_Forall.
Qed.

Lemma StronglySorted_filter {A} (R : A -> A -> Prop) (f : A -> bool) l :
  StronglySorted R l -> StronglySorted R (List.filter f l).
Proof.
  induction 1 as [|x l Hl IH Hx]; simpl.
  - constructor.
  - destruct (f x); [|exact IH]. constructor; [exact IH|].
    rewrite List.Forall_forall in *. intros y Hy. apply Hx.
    apply List.filter_In in Hy. tauto.
Qed.

Lemma store_ok_delete key rs : store_ok rs -> store_ok (store_delete key rs).
Proof. apply StronglySorted_filter. Qed.

Lemma store_getAll_sorted range rs : store_ok rs -> sorted_by_week (store_getAll range rs).
Proof.
  intros H.
  apply (StronglySorted_filter _ (fun x => in_key_range range (key_of x))) in H.
  unfold sorted_by_week, store_getAll.
  induction H as [|x l Hl IH Hx]; constructor; [exact IH|].
  eapply List.Forall_impl; [|exact Hx]. intros y Hy. now apply key_lt_le.
Qed.

End IndexedDBFacts.

(** ** The secondary layer *)

Module FileSystemFacts.
Import FileSystemLayer.

Lemma initialised_ready l handle : ready l handle -> ready (initialised l) handle.
Proof. intros [H _]. split; [exact H | now left]. Qed.

Lemma directory_initialised l : directory (initialised l) = directory l.
Proof. reflexivity. Qed.

Lemma journal_initialised year l : journal year (initialised l) = journal year l.
Proof. reflexivity. Qed.

Lemma initialised_idem l : initialised (initialised l) = initialised l.
Proof. reflexivity. Qed.

Lemma with_entries_ready es l handle :
  ready l handle -> ready (with_entries es l) (set_entries es handle).
Proof.
  intros [H1 H2]. unfold with_entries. rewrite H1. split; [reflexivity|].
  destruct H2 as [H2 | [H2 H3]]; [now left | now right].
Qed.

Lemma directory_with_entries es l handle :
  ready l handle -> directory (with_entries es l) = es.
Proof. intros [H _]. unfold with_entries, directory. now rewrite H. Qed.

Lemma ready_directory l handle : ready l handle -> directory l = entries handle.
Proof. intros [H _]. unfold directory. now rewrite H. Qed.

Lemma init_ready l handle : ready l handle -> init l = (Ok tt, initialised l).
Proof.
  intros [Hd [Hp | [Hp Hq]]]; unfold init; rewrite Hp.
  - unfold initialised. destruct l; simpl in *. now subst.
  - unfold bind. rewrite Hd. simpl. rewrite Hd, Hq. reflexivity.
Qed.

Lemma getDirectoryHandle_ready l handle :
  ready l handle -> getDirectoryHandle l = (Ok handle, initialised l).
Proof.
  intros H. unfold getDirectoryHandle, bind. rewrite (init_ready l handle H).
  destruct H as [Hd _]. simpl. now rewrite Hd.
Qed.

Lemma on_directory_ready {A} (op : FileSystemDirectoryHandle -> Result A * FileSystemDirectoryHandle)
    l handle :
  ready l handle ->
  on_directory op l = (fst (op handle), set_directoryHandle (Some (snd (op handle))) l).
Proof.
  intros [Hd _]. unfold on_directory. rewrite Hd. now destruct (op handle).
Qed.

(** What [readYearFile] answers, by the entry of the journal. *)
Lemma readYearFile_ready year l handle :
  ready l handle ->
  readYearFile year l
  = (match journal year l with
     | None => Ok None
     | Some DirectoryEntry => Err TypeMismatchError
     | Some (FileEntry Malformed) => Err SyntaxError
     | Some (FileEntry (Serialized data)) => Ok (Some data)
     end, initialised l).
Proof.
  intros H. unfold readYearFile, try_catch, bind.
  rewrite (getDirectoryHandle_ready l handle H).
  unfold journal. rewrite (ready_directory l handle H).
  unfold settled, read_text.
  destruct (dir_lookup (getFileName year) (entries handle)) as [[[|data]|]|]; reflexivity.
Qed.

Lemma readYearFile_readable year l handle :
  ready l handle -> readable year l ->
  readYearFile year l
  = (Ok (match journal year l with
         | Some (FileEntry (Serialized data)) => Some data
         | _ => None
         end), initialised l).
Proof.
  intros H Hr. rewrite (readYearFile_ready year l handle H). unfold readable in Hr.
  destruct (journal year l) as [[[|data]|]|]; try contradiction; reflexivity.
Qed.

Lemma writeYearFile_ready year data l handle :
  ready l handle -> journal year l <> Some DirectoryEntry ->
  writeYearFile year data l
  = (Ok tt, with_entries (dir_put (getFileName year) (journal_file data) (directory l))
                         (initialised l)).
Proof.
  intros H Hj. unfold writeYearFile, try_catch, bind.
  rewrite (getDirectoryHandle_ready l handle H).
  rewrite (on_directory_ready _ _ handle (initialised_ready l handle H)).
  unfold journal in Hj. rewrite (ready_directory l handle H) in *.
  unfold write_text, JSON_stringify, with_entries, journal_file.
  destruct H as [Hd _]. simpl. rewrite Hd.
  destruct (dir_lookup (getFileName year) (entries handle)) as [[|]|]; simpl;
    try reflexivity. now contradiction Hj.
Qed.

(** *** The directory *)

Lemma dir_lookup_put fileName e es : dir_lookup fileName (dir_put fileName e es) = Some e.
Proof.
  unfold dir_lookup. induction es as [|[n e'] es IH]; simpl.
  - now rewrite String.eqb_refl.
  - destruct (String.eqb n fileName) eqn:Hn; simpl.
    + now rewrite String.eqb_refl.
    + now rewrite Hn.
Qed.

Lemma dir_lookup_put_other fileName other e es :
  other <> fileName -> dir_lookup other (dir_put fileName e es) = dir_lookup other es.
Proof.
  intros Hne. unfold dir_lookup. induction es as [|[n e'] es IH]; simpl.
  - apply String.eqb_neq in Hne. now rewrite String.eqb_sym, Hne.
  - destruct (String.eqb n fileName) eqn:Hn; simpl.
    + apply String.eqb_eq in Hn. subst n.
      assert (String.eqb fileName other = false) as ->
          by (apply String.eqb_neq; congruence).
      reflexivity.
    + destruct (String.eqb n other); [reflexivity | exact IH].
Qed.

Lemma dir_lookup_remove fileName es : dir_lookup fileName (dir_remove fileName es) = None.
Proof.
  unfold dir_lookup, dir_remove. induction es as [|[n e'] es IH]; simpl.
  - reflexivity.
  - destruct (String.eqb n fileName) eqn:Hn; simpl; [exact IH|].
    now rewrite Hn.
Qed.

Lemma dir_lookup_remove_other fileName other es :
  other <> fileName -> dir_lookup other (dir_remove fileName es) = dir_lookup other es.
Proof.
  intros Hne. unfold dir_lookup, dir_remove. induction es as [|[n e'] es IH]; simpl.
  - reflexivity.
  - destruct (String.eqb n fileName) eqn:Hn; simpl.
    + apply String.eqb_eq in Hn. subst n.
      assert (String.eqb fileName other = false) as ->
          by (apply String.eqb_neq; congruence).
      exact IH.
    + destruct (String.eqb n other); [reflexivity | exact IH].
Qed.

(** *** The methods on a layer that is ready *)

Lemma get_ready weekId l handle :
  ready l handle -> readable (WeekIdentifier.year weekId) l ->
  get weekId l
  = (Ok (obj_get (WeekIdentifier.week weekId) (weeks_of (WeekIdentifier.year weekId) l)),
     initialised l).
Proof.
  intros H Hr. unfold get, bind.
  rewrite (readYearFile_readable _ l handle H Hr).
  unfold weeks_of, journal_data, readable in *.
  destruct (journal (WeekIdentifier.year weekId) l) as [[[|data]|]|];
    try contradiction; reflexivity.
Qed.

Lemma save_ready input l handle :
  let identifier := SaveWeeklyDataInput.weekId input in
  let year := WeekIdentifier.year identifier in
  let weekNumber := WeekIdentifier.week identifier in
  ready l handle -> readable year l ->
  save input l
  = (Ok (dataToSave identifier input (obj_get weekNumber (weeks_of year l))),
     with_entries (saved_directory input l) (initialised l)).
Proof.
  cbv zeta. intros H Hr. unfold save, bind. rewrite toPlainWeekId_id.
  rewrite (readYearFile_readable _ l handle H Hr).
  assert (Hw : journal (WeekIdentifier.year (SaveWeeklyDataInput.weekId input))
                 (initialised l) <> Some DirectoryEntry).
  { rewrite journal_initialised. unfold readable in Hr. intros E. now rewrite E in Hr. }
  rewrite (writeYearFile_ready _ _ _ handle (initialised_ready l handle H) Hw).
  unfold saved_directory, weeks_of, journal_data, readable, ret in *.
  rewrite initialised_idem, directory_initialised.
  destruct (journal (WeekIdentifier.year (SaveWeeklyDataInput.weekId input)) l)
    as [[[|data]|]|]; try contradiction; reflexivity.
Qed.

Lemma delete_ready weekId l handle :
  ready l handle -> readable (WeekIdentifier.year weekId) l ->
  delete weekId l = (Ok tt, with_entries (deleted_directory weekId l) (initialised l)).
Proof.
  intros H Hr. unfold delete, bind.
  rewrite (readYearFile_readable _ l handle H Hr).
  pose proof (initialised_ready l handle H) as Hi.
  unfold deleted_directory, weeks_of, journal_data.
  unfold readable in Hr.
  destruct (journal (WeekIdentifier.year weekId) l) as [[[|data]|]|] eqn:Hj;
    try contradiction.
  - simpl weeks.
    destruct (obj_delete (WeekIdentifier.week weekId) (weeks data)) as [|p o] eqn:Ho.
    + simpl. rewrite (getDirectoryHandle_ready _ handle Hi).
      unfold try_catch. rewrite (on_directory_ready _ _ handle Hi).
      unfold removeEntry. unfold journal in Hj.
      rewrite (ready_directory l handle H) in *. rewrite Hj. simpl.
      unfold with_entries. destruct H as [Hd _]. simpl. rewrite Hd. reflexivity.
    + simpl.
      assert (Hw : journal (WeekIdentifier.year weekId) (initialised l) <> Some DirectoryEntry).
      { rewrite journal_initialised, Hj. discriminate. }
      rewrite (writeYearFile_ready _ _ _ handle Hi Hw). reflexivity.
  - unfold ret, with_entries. destruct H as [Hd _]. simpl. rewrite Hd.
    unfold directory. rewrite Hd. destruct l as [d i s p]; simpl in *.
    subst d. now destruct handle.
Qed.

End FileSystemFacts.

(** ** The layers keep the contract of [save] *)

Lemma dataToSave_contract input prior :
  save_contract input prior (dataToSave (SaveWeeklyDataInput.weekId input) input prior).
Proof.
  unfold save_contract, dataToSave. simpl.
  destruct input as [w [s|] [a|] [c|]], prior as [p|]; simpl; repeat split.
Qed.

Lemma IndexedDBLayer_get_Ok weekId l prior :
  fst (IndexedDBLayer.get weekId l) = Ok prior -> IndexedDBLayer.opens l.
Proof.
  unfold IndexedDBLayer.get, IndexedDBLayer.executeTransaction, IndexedDBLayer.initDB, bind.
  unfold IndexedDBLayer.opens.
  destruct (IndexedDBLayer.dbPromise l) as [[[]|e]|] eqn:Hp; simpl.
  - intros _. now left.
  - discriminate.
  - destruct (IndexedDBLayer.open_error l) eqn:He; simpl.
    + discriminate.
    + intros _. now right.
Qed.

Lemma FileSystemLayer_get_Ok weekId l handle prior :
  FileSystemLayer.ready l handle ->
  fst (FileSystemLayer.get weekId l) = Ok prior ->
  readable (WeekIdentifier.year weekId) l.
Proof.
  intros H. unfold FileSystemLayer.get, bind.
  rewrite (FileSystemFacts.readYearFile_ready _ l handle H). unfold readable.
  destruct (FileSystemLayer.journal (WeekIdentifier.year weekId) l) as [[[|data]|]|];
    simpl; try discriminate; trivial.
Qed.

Lemma journal_with_entries year es l handle :
  FileSystemLayer.ready l handle ->
  FileSystemLayer.journal year (with_entries es l)
  = FileSystemLayer.dir_lookup (FileSystemLayer.getFileName year) es.
Proof.
  intros H. unfold FileSystemLayer.journal.
  now rewrite (FileSystemFacts.directory_with_entries es l handle H).
Qed.

(** C1. In both layers, [save] followed by [get] on the same key returns
    the saved record, in which a field the input supplies has the supplied
    value, and a field it does not supply has the value of the record
    stored before the save or, when none was stored, the documented
    default: '❔' for [statusIcon], the empty string for [achievements] and
    [challenges]. [prior] is what [get] answers before the save. *)
Theorem save_then_get_merges :
  (forall (l : IndexedDBLayer.t) (input : SaveWeeklyDataInput.t) (prior : option WeeklyData.t),
      fst (IndexedDBLayer.get (SaveWeeklyDataInput.weekId input) l) = Ok prior ->
      exists saved,
        fst (IndexedDBLayer.save input l) = Ok saved
        /\ fst (IndexedDBLayer.get (SaveWeeklyDataInput.weekId input)
                  (snd (IndexedDBLayer.save input l))) = Ok (Some saved)
        /\ save_contract input prior saved)
  /\ (forall (l : FileSystemLayer.t) (handle : FileSystemLayer.FileSystemDirectoryHandle)
             (input : SaveWeeklyDataInput.t) (prior : option WeeklyData.t),
      FileSystemLayer.ready l handle ->
      fst (FileSystemLayer.get (SaveWeeklyDataInput.weekId input) l) = Ok prior ->
      exists saved,
        fst (FileSystemLayer.save input l) = Ok saved
        /\ fst (FileSystemLayer.get (SaveWeeklyDataInput.weekId input)
                  (snd (FileSystemLayer.save input l))) = Ok (Some saved)
        /\ save_contract input prior saved).
Proof.
  split.
  - intros l input prior Hget.
    pose proof (IndexedDBLayer_get_Ok _ _ _ Hget) as Ho.
    rewrite (IndexedDBFacts.get_opens _ l Ho) in Hget. simpl in Hget.
    injection Hget as <-.
    pose proof (IndexedDBFacts.save_opens input l Ho) as Hs. cbv zeta in Hs.
    rewrite toPlainWeekId_id in Hs. rewrite Hs.
    eexists. split; [reflexivity|]. split.
    + simpl snd. rewrite IndexedDBFacts.get_opens by now left. simpl.
      f_equal. apply (IndexedDBFacts.store_get_put (dataToSave _ _ _)).
    + apply dataToSave_contract.
  - intros l handle input prior Hready Hget.
    pose proof (FileSystemLayer_get_Ok _ _ _ _ Hready Hget) as Hr.
    rewrite (FileSystemFacts.get_ready _ l handle Hready Hr) in Hget. simpl in Hget.
    injection Hget as <-.
    rewrite (FileSystemFacts.save_ready input l handle Hready Hr).
    eexists. split; [reflexivity|]. split.
    + simpl snd.
      pose proof (FileSystemFacts.initialised_ready l handle Hready) as Hi.
      pose proof (FileSystemFacts.with_entries_ready (saved_directory input l) _ _ Hi) as Hw.
      assert (Hj : FileSystemLayer.journal (WeekIdentifier.year (SaveWeeklyDataInput.weekId input))
                     (with_entries (saved_directory input l) (initialised l))
                   = Some (journal_file
                       (FileSystemLayer.mkYear
                          (FileSystemLayer.year
                             (journal_data (WeekIdentifier.year (SaveWeeklyDataInput.weekId input)) l))
                          (obj_set (WeekIdentifier.week (SaveWeeklyDataInput.weekId input))
                             (dataToSave (SaveWeeklyDataInput.weekId input) input
                                (obj_get (WeekIdentifier.week (SaveWeeklyDataInput.weekId input))
                                   (weeks_of (WeekIdentifier.year (SaveWeeklyDataInput.weekId input)) l)))
                             (weeks_of (WeekIdentifier.year (SaveWeeklyDataInput.weekId input)) l))))).
      { rewrite (journal_with_entries _ _ _ handle Hi). apply FileSystemFacts.dir_lookup_put. }
      rewrite (FileSystemFacts.get_ready _ _ _ Hw) by (unfold readable; now rewrite Hj).
      simpl. f_equal. unfold weeks_of at 1, journal_data at 1. rewrite Hj. simpl.
      apply obj_get_set.
    + apply dataToSave_contract.
Qed.

(** The update of the scenario, on each layer once it holds the record
    created before. *)
Lemma save_then_get_merges_witness :
  (exists saved,
      fst (IndexedDBLayer.save update_input database_2024_15) = Ok saved
      /\ fst (IndexedDBLayer.get (week_of 2024 15)
                (snd (IndexedDBLayer.save update_input database_2024_15))) = Ok (Some saved)
      /\ save_contract update_input (Some created_record) saved)
  /\ (exists saved,
      fst (FileSystemLayer.save update_input files_2024_15) = Ok saved
      /\ fst (FileSystemLayer.get (week_of 2024 15)
                (snd (FileSystemLayer.save update_input files_2024_15))) = Ok (Some saved)
      /\ save_contract update_input (Some created_record) saved).
Proof.
  split.
  - refine (proj1 save_then_get_merges database_2024_15 update_input (Some created_record) _).
    reflexivity.
  - refine (proj2 save_then_get_merges files_2024_15 _ update_input (Some created_record) _ _).
    + split; [reflexivity | left; reflexivity].
    + reflexivity.
Defined.

(** The scenario of the specification ends with the status and the
    achievements of the creation and the challenges of the update. *)
Lemma scenario_2024_15 :
  fst (IndexedDBLayer.save update_input database_2024_15) = Ok updated_record
  /\ fst (IndexedDBLayer.get (week_of 2024 15)
            (snd (IndexedDBLayer.save update_input database_2024_15)))
     = Ok (Some updated_record)
  /\ fst (FileSystemLayer.save update_input files_2024_15) = Ok updated_record
  /\ fst (FileSystemLayer.get (week_of 2024 15)
            (snd (FileSystemLayer.save update_input files_2024_15)))
     = Ok (Some updated_record).
Proof. repeat split. Qed.

(** ** Ranges *)

Lemma bind_Ok_inv {S A B} (m : Async S A) (k : A -> Async S B) s b :
  fst (bind m k s) = Ok b -> exists a s', m s = (Ok a, s') /\ fst (k a s') = Ok b.
Proof.
  unfold bind. destruct (m s) as [[a|e] s'] eqn:Hm; simpl.
  - intros H. now exists a, s'.
  - discriminate.
Qed.

Lemma isInRange_spec start end_ year weekNumber :
  FileSystemLayer.isInRange start end_ year weekNumber = true
  <-> key_le start (WeekIdentifier.mk year weekNumber)
      /\ key_le (WeekIdentifier.mk year weekNumber) end_.
Proof.
  unfold FileSystemLayer.isInRange, key_le. simpl.
  rewrite andb_true_iff, !orb_true_iff, !andb_true_iff.
  rewrite Z.gtb_lt, Z.ltb_lt, !Z.eqb_eq, Z.geb_le, Z.leb_le. lia.
Qed.

Lemma compare_year_week_le a b :
  FileSystemLayer.compare_year_week a b <= 0
  <-> key_le (WeeklyData.weekId a) (WeeklyData.weekId b).
Proof.
  unfold FileSystemLayer.compare_year_week, key_le.
  destruct (Z.eqb_spec (WeekIdentifier.year (WeeklyData.weekId a))
                       (WeekIdentifier.year (WeeklyData.weekId b))); simpl; lia.
Qed.

Lemma Sorted_weaken {A} (R R' : A -> A -> Prop) l :
  (forall a b, R a b -> R' a b) -> Sorted R l -> Sorted R' l.
Proof.
  intros HR. induction 1 as [|x l Hl IH Hx]; constructor.
  - exact IH.
  - destruct Hx; constructor. now apply HR.
Qed.

Lemma js_sort_compare_year_week_sorted l :
  sorted_by_week (js_sort FileSystemLayer.compare_year_week l).
Proof.
  unfold sorted_by_week.
  apply Sorted_StronglySorted.
  - intros a b c. apply key_le_trans.
  - apply (Sorted_weaken (fun a b => FileSystemLayer.compare_year_week a b <= 0)).
    + intros a b. apply compare_year_week_le.
    + apply js_sort_Sorted. intros x y.
      pose proof (compare_year_week_le x y) as H1.
      pose proof (compare_year_week_le y x) as H2. unfold key_le in *. lia.
Qed.

(** The loop of [getRange] on a layer that is ready and whose journals
    of the years of the range are readable: each entry of the directory
    adds its contribution. *)
Lemma getRange_loop_ready start end_ l handle :
  FileSystemLayer.ready l handle ->
  (forall year, WeekIdentifier.year start <= year <= WeekIdentifier.year end_ ->
                readable year l) ->
  forall values results,
    FileSystemLayer.getRange_loop start end_ values results (initialised l)
    = (Ok (results ++ flat_map (range_contribution start end_ l) values)%list, initialised l).
Proof.
  intros Hready Hread.
  pose proof (FileSystemFacts.initialised_ready l handle Hready) as Hi.
  induction values as [|[entry_name entry] values IH]; intros results; simpl.
  - unfold ret. now rewrite app_nil_r.
  - unfold range_contribution at 1. simpl.
    destruct entry as [text|]; simpl; [|apply IH].
    destruct (FileSystemLayer.endsWith entry_name ".json"); simpl; [|apply IH].
    destruct (FileSystemLayer.parseFileName entry_name) as [year|]; [|apply IH].
    destruct ((year =? 0) || (year <? WeekIdentifier.year start)
              || (year >? WeekIdentifier.year end_)) eqn:Hskip; [apply IH|].
    assert (Hyear : readable year l).
    { apply Hread. rewrite !orb_false_iff in Hskip. destruct Hskip as [[_ H1] H2].
      apply Z.ltb_ge in H1. rewrite Z.gtb_ltb in H2. apply Z.ltb_ge in H2. lia. }
    unfold bind.
    rewrite (FileSystemFacts.readYearFile_readable year _ handle Hi Hyear).
    rewrite FileSystemFacts.initialised_idem, FileSystemFacts.journal_initialised.
    unfold weeks_of, journal_data. unfold readable in Hyear.
    destruct (FileSystemLayer.journal year l) as [[[|data]|]|]; try contradiction.
    + rewrite IH, inRange_Object_entries. now rewrite <- app_assoc.
    + simpl. apply IH.
Qed.

Lemma FileSystemLayer_getRange_ready start end_ l handle :
  FileSystemLayer.ready l handle ->
  (forall year, WeekIdentifier.year start <= year <= WeekIdentifier.year end_ ->
                readable year l) ->
  FileSystemLayer.getRange start end_ l
  = (Ok (js_sort FileSystemLayer.compare_year_week
           (flat_map (range_contribution start end_ l) (FileSystemLayer.directory l))),
     initialised l).
Proof.
  intros Hready Hread. unfold FileSystemLayer.getRange, bind.
  rewrite (FileSystemFacts.getDirectoryHandle_ready l handle Hready).
  rewrite (getRange_loop_ready start end_ l handle Hready Hread).
  now rewrite (FileSystemFacts.ready_directory l handle Hready).
Qed.

Lemma range_contribution_empty start end_ l p :
  key_lt end_ start -> range_contribution start end_ l p = [].
Proof.
  intros Hlt. unfold range_contribution.
  destruct (snd p); [|reflexivity].
  destruct (FileSystemLayer.endsWith (fst p) ".json"); [|reflexivity].
  destruct (FileSystemLayer.parseFileName (fst p)) as [year|]; [|reflexivity].
  destruct ((year =? 0) || (year <? WeekIdentifier.year start)
            || (year >? WeekIdentifier.year end_)); [reflexivity|].
  induction (weeks_of year l) as [|[k r] o IH]; simpl; [reflexivity|].
  destruct (FileSystemLayer.isInRange start end_ year k) eqn:Hin; [|exact IH].
  apply isInRange_spec in Hin. destruct Hin as [H1 H2].
  exfalso. apply (key_lt_not_le _ _ Hlt). eapply key_le_trans; eassumption.
Qed.

(** In a directory that holds parsable files only, every journal is
    readable. *)
Lemma all_files_readable l :
  Forall (fun p => exists data,
              snd p = FileSystemLayer.FileEntry (FileSystemLayer.Serialized data))
         (FileSystemLayer.directory l) ->
  forall year, readable year l.
Proof.
  intros Hall year. unfold readable, FileSystemLayer.journal, FileSystemLayer.dir_lookup.
  induction Hall as [|[n e] es [data He] _ IH]; simpl.
  - exact I.
  - destruct (String.eqb n (FileSystemLayer.getFileName year)); [|exact IH].
    simpl in *. now rewrite He.
Qed.

(** C3. [getRange] with an end key before the start key: the file-system
    layer answers the empty sequence, and the IndexedDB layer fails, because
    [IDBKeyRange.bound] throws a DataError for such bounds. *)
Theorem getRange_end_before_start :
  (forall (l : IndexedDBLayer.t) (start end_ : WeekIdentifier.t),
      IndexedDBLayer.opens l -> key_lt end_ start ->
      fst (IndexedDBLayer.getRange start end_ l) = Err IndexedDBLayer.DataError)
  /\ (forall (l : FileSystemLayer.t) handle (start end_ : WeekIdentifier.t),
      FileSystemLayer.ready l handle ->
      (forall year, WeekIdentifier.year start <= year <= WeekIdentifier.year end_ ->
                    readable year l) ->
      key_lt end_ start ->
      fst (FileSystemLayer.getRange start end_ l) = Ok []).
Proof.
  split.
  - intros l start end_ Ho Hlt.
    rewrite (IndexedDBFacts.getRange_opens start end_ l Ho). simpl.
    unfold IndexedDBLayer.IDBKeyRange_bound.
    apply key_ltb_lt in Hlt. now rewrite Hlt.
  - intros l handle start end_ Hready Hread Hlt.
    rewrite (FileSystemLayer_getRange_ready start end_ l handle Hready Hread). simpl.
    replace (flat_map (range_contribution start end_ l) (FileSystemLayer.directory l))
      with (@nil WeeklyData.t); [reflexivity|].
    induction (FileSystemLayer.directory l) as [|p es IH]; simpl; [reflexivity|].
    now rewrite (range_contribution_empty start end_ l p Hlt), <- IH.
Qed.

(** The scenario of the specification, on each layer when it holds the
    record of week 15 of 2024. *)
Lemma getRange_end_before_start_witness :
  fst (IndexedDBLayer.getRange (week_of 2024 10) (week_of 2024 5) database_2024_15)
  = Err IndexedDBLayer.DataError
  /\ fst (FileSystemLayer.getRange (week_of 2024 10) (week_of 2024 5) files_2024_15) = Ok [].
Proof.
  split.
  - apply (proj1 getRange_end_before_start).
    + left. reflexivity.
    + right. simpl. lia.
  - refine (proj2 getRange_end_before_start files_2024_15 _ _ _ _ _ _).
    + split; [reflexivity | left; reflexivity].
    + intros year _. revert year.
      apply all_files_readable. repeat constructor; eexists; reflexivity.
    + right. simpl. lia.
Defined.

(** ** The order of the results *)

Lemma initDB_records l : IndexedDBLayer.records (snd (IndexedDBLayer.initDB l)) = IndexedDBLayer.records l.
Proof.
  unfold IndexedDBLayer.initDB. now destruct (IndexedDBLayer.dbPromise l).
Qed.

Lemma executeTransaction_records {T}
    (callback : list WeeklyData.t -> T * list WeeklyData.t) l :
  IndexedDBLayer.records (snd (IndexedDBLayer.executeTransaction callback l))
  = IndexedDBLayer.records l
  \/ IndexedDBLayer.records (snd (IndexedDBLayer.executeTransaction callback l))
     = snd (callback (IndexedDBLayer.records l)).
Proof.
  unfold IndexedDBLayer.executeTransaction, bind.
  pose proof (initDB_records l) as Hr.
  destruct (IndexedDBLayer.initDB l) as [[[]|e] l']; simpl in *.
  - right. rewrite Hr. now destruct (callback (IndexedDBLayer.records l)).
  - now left.
Qed.

(** The methods of the layer leave the object store in key order. *)
Lemma IndexedDBLayer_store_ok l :
  IndexedDBLayer.store_ok (IndexedDBLayer.records l) ->
  (forall input, IndexedDBLayer.store_ok
                   (IndexedDBLayer.records (snd (IndexedDBLayer.save input l))))
  /\ (forall weekId, IndexedDBLayer.store_ok
                       (IndexedDBLayer.records (snd (IndexedDBLayer.delete weekId l))))
  /\ IndexedDBLayer.store_ok (IndexedDBLayer.records (snd (IndexedDBLayer.clear l))).
Proof.
  intros Hok. split; [|split].
  - intros input. unfold IndexedDBLayer.save, IndexedDBLayer.get, bind.
    destruct (executeTransaction_records
                (fun store => (IndexedDBLayer.store_get
                                 (toPlainWeekId (SaveWeeklyDataInput.weekId input)) store, store))
                l) as [H1 | H1]; simpl in H1;
      destruct (IndexedDBLayer.executeTransaction _ l) as [[existing|e] l1];
      simpl in *; unfold ret; simpl; try (now rewrite H1).
    + match goal with
      | |- context [IndexedDBLayer.executeTransaction ?c l1] =>
          destruct (executeTransaction_records c l1) as [H2 | H2];
            destruct (IndexedDBLayer.executeTransaction c l1) as [[[]|e] l2]
      end; simpl in *; rewrite H2, ?H1; trivial; now apply IndexedDBFacts.store_ok_put.
    + match goal with
      | |- context [IndexedDBLayer.executeTransaction ?c l1] =>
          destruct (executeTransaction_records c l1) as [H2 | H2];
            destruct (IndexedDBLayer.executeTransaction c l1) as [[[]|e] l2]
      end; simpl in *; rewrite H2, ?H1; trivial; now apply IndexedDBFacts.store_ok_put.
  - intros weekId. unfold IndexedDBLayer.delete.
    destruct (executeTransaction_records
                (fun store => (tt, IndexedDBLayer.store_delete weekId store)) l) as [H | H];
      rewrite H; trivial. now apply IndexedDBFacts.store_ok_delete.
  - unfold IndexedDBLayer.clear.
    destruct (executeTransaction_records
                (fun _ : list WeeklyData.t => (tt, @nil WeeklyData.t)) l) as [H | H];
      rewrite H; trivial. apply IndexedDBFacts.store_ok_nil.
Qed.

Lemma IndexedDBLayer_getRange_Ok start end_ l rs :
  fst (IndexedDBLayer.getRange start end_ l) = Ok rs ->
  exists keyRange, rs = IndexedDBLayer.store_getAll keyRange (IndexedDBLayer.records l).
Proof.
  unfold IndexedDBLayer.getRange. intros H.
  apply bind_Ok_inv in H. destruct H as ([] & l1 & Hinit & H).
  apply bind_Ok_inv in H. destruct H as (keyRange & l2 & Hbound & H).
  unfold settled in Hbound. injection Hbound as _ <-. simpl in H.
  injection H as <-. exists keyRange.
  pose proof (initDB_records l) as Hr. rewrite Hinit in Hr. simpl in Hr. now rewrite Hr.
Qed.

(** C5. The sequence [getRange] returns is in ascending order of
    [(year, week)], year first, in both layers (in the IndexedDB layer,
    for an object store in key order, as IndexedDB and the methods of the
    layer keep it: [IndexedDBLayer_store_ok]); [getRange] does return a
    sequence on an IndexedDB layer that opens when the start key is not after
    the end key, and on a file-system layer that is ready and whose
    journals of the years of the range parse; for the range from week 52 of 2023 to week 1 of 2024
    the record of 2023 comes before the record of 2024. *)
Theorem getRange_sorted :
  (forall (l : IndexedDBLayer.t) (start end_ : WeekIdentifier.t) (rs : list WeeklyData.t),
      IndexedDBLayer.store_ok (IndexedDBLayer.records l) ->
      fst (IndexedDBLayer.getRange start end_ l) = Ok rs ->
      sorted_by_week rs)
  /\ (forall (l : FileSystemLayer.t) (start end_ : WeekIdentifier.t) (rs : list WeeklyData.t),
      fst (FileSystemLayer.getRange start end_ l) = Ok rs ->
      sorted_by_week rs)
  /\ (forall (l : IndexedDBLayer.t) (start end_ : WeekIdentifier.t),
      IndexedDBLayer.opens l -> key_le start end_ ->
      is_ok (fst (IndexedDBLayer.getRange start end_ l)) = true)
  /\ (forall (l : FileSystemLayer.t) handle (start end_ : WeekIdentifier.t),
      FileSystemLayer.ready l handle ->
      (forall year, WeekIdentifier.year start <= year <= WeekIdentifier.year end_ ->
                    readable year l) ->
      is_ok (fst (FileSystemLayer.getRange start end_ l)) = true)
  /\ fst (IndexedDBLayer.getRange (week_of 2023 52) (week_of 2024 1) database_year_boundary)
     = Ok [record_2023_52; record_2024_1]
  /\ fst (FileSystemLayer.getRange (week_of 2023 52) (week_of 2024 1) files_year_boundary)
     = Ok [record_2023_52; record_2024_1].
Proof.
  repeat split.
  - intros l start end_ rs Hok H.
    apply IndexedDBLayer_getRange_Ok in H. destruct H as [keyRange ->].
    now apply IndexedDBFacts.store_getAll_sorted.
  - intros l start end_ rs H. unfold FileSystemLayer.getRange in H.
    apply bind_Ok_inv in H. destruct H as (dirHandle & l1 & _ & H).
    apply bind_Ok_inv in H. destruct H as (results & l2 & _ & H).
    injection H as <-. apply js_sort_compare_year_week_sorted.
  - intros l start end_ Ho Hle.
    rewrite (IndexedDBFacts.getRange_opens start end_ l Ho). simpl.
    unfold IndexedDBLayer.IDBKeyRange_bound.
    destruct (key_ltb end_ start) eqn:Hlt; [|reflexivity].
    apply key_ltb_lt in Hlt. now apply key_lt_not_le in Hlt.
  - intros l handle start end_ Hready Hread.
    now rewrite (FileSystemLayer_getRange_ready start end_ l handle Hready Hread).
Qed.

(** The range across the year boundary, on the layers that hold week 1
    of 2024 and week 52 of 2023. *)
Lemma getRange_sorted_witness :
  sorted_by_week [record_2023_52; record_2024_1]
  /\ sorted_by_week [record_2023_52; record_2024_1]
  /\ is_ok (fst (IndexedDBLayer.getRange (week_of 2023 52) (week_of 2024 1)
                   database_year_boundary)) = true
  /\ is_ok (fst (FileSystemLayer.getRange (week_of 2023 52) (week_of 2024 1)
                   files_year_boundary)) = true.
Proof.
  destruct getRange_sorted as (HI & HF & HIok & HFok & _ & _).
  split; [|split; [|split]].
  - apply (HI database_year_boundary (week_of 2023 52) (week_of 2024 1)).
    + repeat constructor; simpl; lia.
    + reflexivity.
  - apply (HF files_year_boundary (week_of 2023 52) (week_of 2024 1)). reflexivity.
  - apply HIok.
    + left. reflexivity.
    + left. simpl. lia.
  - apply (HFok files_year_boundary
             (FileSystemLayer.mkHandle 0
                (FileSystemLayer.directory files_year_boundary)
                FileSystemLayer.granted FileSystemLayer.granted)).
    + split; [reflexivity | left; reflexivity].
    + intros year _. revert year.
      apply all_files_readable. repeat constructor; eexists; reflexivity.
Defined.

(** ** Deletion *)

(** After [delete], on a file-system layer that is ready: the layer is
    still ready, the journal of the year still readable, and the key
    absent. *)
Lemma FileSystemLayer_delete_absent weekId l handle :
  FileSystemLayer.ready l handle -> readable (WeekIdentifier.year weekId) l ->
  fst (FileSystemLayer.delete weekId l) = Ok tt
  /\ (exists handle', FileSystemLayer.ready (snd (FileSystemLayer.delete weekId l)) handle')
  /\ readable (WeekIdentifier.year weekId) (snd (FileSystemLayer.delete weekId l))
  /\ fst (FileSystemLayer.get weekId (snd (FileSystemLayer.delete weekId l))) = Ok None.
Proof.
  intros Hready Hread.
  rewrite (FileSystemFacts.delete_ready weekId l handle Hready Hread). simpl.
  pose proof (FileSystemFacts.initialised_ready l handle Hready) as Hi.
  pose proof (FileSystemFacts.with_entries_ready (deleted_directory weekId l) _ _ Hi) as Hw.
  assert (Hj : match FileSystemLayer.journal (WeekIdentifier.year weekId)
                       (with_entries (deleted_directory weekId l) (initialised l)) with
               | None => True
               | Some (FileSystemLayer.FileEntry (FileSystemLayer.Serialized data)) =>
                   obj_get (WeekIdentifier.week weekId) (FileSystemLayer.weeks data) = None
               | Some _ => False
               end).
  { rewrite (journal_with_entries _ _ _ handle Hi). unfold deleted_directory.
    unfold readable in Hread. unfold weeks_of, journal_data.
    destruct (FileSystemLayer.journal (WeekIdentifier.year weekId) l)
      as [[[|data]|]|] eqn:Hjl; try contradiction.
    - destruct (obj_delete (WeekIdentifier.week weekId) (FileSystemLayer.weeks data))
        as [|p o] eqn:Ho.
      + now rewrite FileSystemFacts.dir_lookup_remove.
      + rewrite FileSystemFacts.dir_lookup_put. simpl. rewrite <- Ho. apply obj_get_delete.
    - unfold FileSystemLayer.journal in Hjl. now rewrite Hjl. }
  assert (Hr : readable (WeekIdentifier.year weekId)
                 (with_entries (deleted_directory weekId l) (initialised l))).
  { unfold readable.
    destruct (FileSystemLayer.journal (WeekIdentifier.year weekId)
                (with_entries (deleted_directory weekId l) (initialised l)))
      as [[[|data]|]|]; trivial. }
  split; [reflexivity|]. split; [eauto|]. split; [exact Hr|].
  rewrite (FileSystemFacts.get_ready weekId _ _ Hw Hr). simpl. f_equal.
  unfold weeks_of, journal_data.
  destruct (FileSystemLayer.journal (WeekIdentifier.year weekId)
              (with_entries (deleted_directory weekId l) (initialised l)))
    as [[[|data]|]|]; try contradiction; trivial.
Qed.

Lemma IndexedDBLayer_delete_absent weekId l :
  IndexedDBLayer.opens l ->
  fst (IndexedDBLayer.delete weekId l) = Ok tt
  /\ IndexedDBLayer.opens (snd (IndexedDBLayer.delete weekId l))
  /\ fst (IndexedDBLayer.get weekId (snd (IndexedDBLayer.delete weekId l))) = Ok None.
Proof.
  intros Ho. rewrite (IndexedDBFacts.delete_opens weekId l Ho).
  split; [reflexivity|]. split; [now left|].
  rewrite IndexedDBFacts.get_opens by now left.
  simpl. now rewrite IndexedDBFacts.store_get_delete.
Qed.

(** C7. [delete] is idempotent in both layers: it completes without error
    whether or not the key is stored, a second [delete] completes without
    error too, and [get] answers absent after either. In the file-system
    layer, deleting a key whose year has no journal completes without error
    and leaves the directory as it is. *)
Theorem delete_idempotent :
  (forall (l : IndexedDBLayer.t) (weekId : WeekIdentifier.t),
      IndexedDBLayer.opens l ->
      let l1 := snd (IndexedDBLayer.delete weekId l) in
      let l2 := snd (IndexedDBLayer.delete weekId l1) in
      fst (IndexedDBLayer.delete weekId l) = Ok tt
      /\ fst (IndexedDBLayer.get weekId l1) = Ok None
      /\ fst (IndexedDBLayer.delete weekId l1) = Ok tt
      /\ fst (IndexedDBLayer.get weekId l2) = Ok None)
  /\ (forall (l : FileSystemLayer.t) handle (weekId : WeekIdentifier.t),
      FileSystemLayer.ready l handle -> readable (WeekIdentifier.year weekId) l ->
      let l1 := snd (FileSystemLayer.delete weekId l) in
      let l2 := snd (FileSystemLayer.delete weekId l1) in
      fst (FileSystemLayer.delete weekId l) = Ok tt
      /\ fst (FileSystemLayer.get weekId l1) = Ok None
      /\ fst (FileSystemLayer.delete weekId l1) = Ok tt
      /\ fst (FileSystemLayer.get weekId l2) = Ok None)
  /\ (forall (l : FileSystemLayer.t) handle (weekId : WeekIdentifier.t),
      FileSystemLayer.ready l handle ->
      FileSystemLayer.journal (WeekIdentifier.year weekId) l = None ->
      fst (FileSystemLayer.delete weekId l) = Ok tt
      /\ FileSystemLayer.directory (snd (FileSystemLayer.delete weekId l))
         = FileSystemLayer.directory l).
Proof.
  split; [|split].
  - intros l weekId Ho. cbv zeta.
    destruct (IndexedDBLayer_delete_absent weekId l Ho) as (Hd1 & Ho1 & Hg1).
    destruct (IndexedDBLayer_delete_absent weekId _ Ho1) as (Hd2 & _ & Hg2).
    repeat split; assumption.
  - intros l handle weekId Hready Hread. cbv zeta.
    destruct (FileSystemLayer_delete_absent weekId l handle Hready Hread)
      as (Hd1 & [handle1 Hready1] & Hread1 & Hg1).
    destruct (FileSystemLayer_delete_absent weekId _ handle1 Hready1 Hread1)
      as (Hd2 & _ & _ & Hg2).
    repeat split; assumption.
  - intros l handle weekId Hready Hnone.
    assert (Hread : readable (WeekIdentifier.year weekId) l)
      by (unfold readable; now rewrite Hnone).
    rewrite (FileSystemFacts.delete_ready weekId l handle Hready Hread). simpl.
    split; [reflexivity|].
    rewrite (FileSystemFacts.directory_with_entries _ _ handle
               (FileSystemFacts.initialised_ready l handle Hready)).
    unfold deleted_directory. now rewrite Hnone.
Qed.

(** The record of week 15 of 2024 deleted twice from each layer that
    holds it, and a week of 2025 deleted from the directory that has no
    journal of 2025. *)
Lemma delete_idempotent_witness :
  (let l1 := snd (IndexedDBLayer.delete (week_of 2024 15) database_2024_15) in
   let l2 := snd (IndexedDBLayer.delete (week_of 2024 15) l1) in
   fst (IndexedDBLayer.delete (week_of 2024 15) database_2024_15) = Ok tt
   /\ fst (IndexedDBLayer.get (week_of 2024 15) l1) = Ok None
   /\ fst (IndexedDBLayer.delete (week_of 2024 15) l1) = Ok tt
   /\ fst (IndexedDBLayer.get (week_of 2024 15) l2) = Ok None)
  /\ (let l1 := snd (FileSystemLayer.delete (week_of 2024 15) files_2024_15) in
      let l2 := snd (FileSystemLayer.delete (week_of 2024 15) l1) in
      fst (FileSystemLayer.delete (week_of 2024 15) files_2024_15) = Ok tt
      /\ fst (FileSystemLayer.get (week_of 2024 15) l1) = Ok None
      /\ fst (FileSystemLayer.delete (week_of 2024 15) l1) = Ok tt
      /\ fst (FileSystemLayer.get (week_of 2024 15) l2) = Ok None)
  /\ (fst (FileSystemLayer.delete (week_of 2025 1) files_2024_15) = Ok tt
      /\ FileSystemLayer.directory (snd (FileSystemLayer.delete (week_of 2025 1) files_2024_15))
         = FileSystemLayer.directory files_2024_15).
Proof.
  split; [|split].
  - refine (proj1 delete_idempotent database_2024_15 (week_of 2024 15) _).
    left. reflexivity.
  - refine (proj1 (proj2 delete_idempotent) files_2024_15 _ (week_of 2024 15) _ _).
    + split; [reflexivity | left; reflexivity].
    + exact I.
  - refine (proj2 (proj2 delete_idempotent) files_2024_15 _ (week_of 2025 1) _ _).
    + split; [reflexivity | left; reflexivity].
    + reflexivity.
Defined.

(** ** One file per year *)

(** C9. In the file-system layer, [save] stores a record of year Y in the
    file work-journal-Y.json, which it creates if absent, next to the other
    weeks of the file, and touches no other file; deleting the only week of the journal of Y removes the
    file; deleting one of several weeks leaves the file with the other
    weeks as they were. *)
Theorem journal_file_per_year :
  (forall (l : FileSystemLayer.t) handle (input : SaveWeeklyDataInput.t),
      let weekId := SaveWeeklyDataInput.weekId input in
      let fileName := "work-journal-" +:+ number_to_string (WeekIdentifier.year weekId)
                      +:+ ".json" in
      FileSystemLayer.ready l handle -> readable (WeekIdentifier.year weekId) l ->
      let l' := snd (FileSystemLayer.save input l) in
      exists saved data,
        fst (FileSystemLayer.save input l) = Ok saved
        /\ FileSystemLayer.dir_lookup fileName (FileSystemLayer.directory l')
           = Some (FileSystemLayer.FileEntry (FileSystemLayer.Serialized data))
        /\ obj_get (WeekIdentifier.week weekId) (FileSystemLayer.weeks data) = Some saved
        /\ (forall k, k <> WeekIdentifier.week weekId ->
              obj_get k (FileSystemLayer.weeks data)
              = obj_get k (weeks_of (WeekIdentifier.year weekId) l))
        /\ (forall other, other <> fileName ->
              FileSystemLayer.dir_lookup other (FileSystemLayer.directory l')
              = FileSystemLayer.dir_lookup other (FileSystemLayer.directory l)))
  /\ (forall (l : FileSystemLayer.t) handle (weekId : WeekIdentifier.t) data,
      FileSystemLayer.ready l handle ->
      FileSystemLayer.journal (WeekIdentifier.year weekId) l
      = Some (FileSystemLayer.FileEntry (FileSystemLayer.Serialized data)) ->
      (forall other, other <> WeekIdentifier.week weekId ->
         obj_get other (FileSystemLayer.weeks data) = None) ->
      fst (FileSystemLayer.delete weekId l) = Ok tt
      /\ FileSystemLayer.journal (WeekIdentifier.year weekId)
           (snd (FileSystemLayer.delete weekId l)) = None)
  /\ (forall (l : FileSystemLayer.t) handle (weekId : WeekIdentifier.t) data other,
      FileSystemLayer.ready l handle ->
      FileSystemLayer.journal (WeekIdentifier.year weekId) l
      = Some (FileSystemLayer.FileEntry (FileSystemLayer.Serialized data)) ->
      other <> WeekIdentifier.week weekId ->
      obj_get other (FileSystemLayer.weeks data) <> None ->
      exists data',
        fst (FileSystemLayer.delete weekId l) = Ok tt
        /\ FileSystemLayer.journal (WeekIdentifier.year weekId)
             (snd (FileSystemLayer.delete weekId l))
           = Some (FileSystemLayer.FileEntry (FileSystemLayer.Serialized data'))
        /\ obj_get (WeekIdentifier.week weekId) (FileSystemLayer.weeks data') = None
        /\ (forall k, k <> WeekIdentifier.week weekId ->
              obj_get k (FileSystemLayer.weeks data') = obj_get k (FileSystemLayer.weeks data))).
Proof.
  split; [|split].
  - intros l handle input weekId fileName Hready Hread l'.
    pose proof (FileSystemFacts.initialised_ready l handle Hready) as Hi.
    subst l'. rewrite (FileSystemFacts.save_ready input l handle Hready Hread).
    simpl fst. simpl snd.
    rewrite (FileSystemFacts.directory_with_entries _ _ handle Hi).
    do 2 eexists. split; [reflexivity|]. split; [|split; [|split]].
    + apply FileSystemFacts.dir_lookup_put.
    + simpl. apply obj_get_set.
    + intros k Hk. simpl. now apply obj_get_set_other.
    + intros other Hother. now apply FileSystemFacts.dir_lookup_put_other.
  - intros l handle weekId data Hready Hj Honly.
    assert (Hread : readable (WeekIdentifier.year weekId) l)
      by (unfold readable; now rewrite Hj).
    pose proof (FileSystemFacts.initialised_ready l handle Hready) as Hi.
    rewrite (FileSystemFacts.delete_ready weekId l handle Hready Hread).
    split; [reflexivity|]. simpl snd.
    rewrite (journal_with_entries _ _ _ handle Hi).
    unfold deleted_directory, weeks_of, journal_data. rewrite Hj.
    rewrite (obj_delete_only _ _ Honly). apply FileSystemFacts.dir_lookup_remove.
  - intros l handle weekId data other Hready Hj Hother Hsome.
    assert (Hread : readable (WeekIdentifier.year weekId) l)
      by (unfold readable; now rewrite Hj).
    pose proof (FileSystemFacts.initialised_ready l handle Hready) as Hi.
    rewrite (FileSystemFacts.delete_ready weekId l handle Hready Hread).
    simpl fst. simpl snd.
    rewrite (journal_with_entries _ _ _ handle Hi).
    unfold deleted_directory, weeks_of, journal_data. rewrite Hj.
    pose proof (obj_delete_nonempty _ _ _ Hother Hsome) as Hne.
    destruct (obj_delete (WeekIdentifier.week weekId) (FileSystemLayer.weeks data))
      as [|p o] eqn:Ho; [contradiction|].
    eexists. split; [reflexivity|]. split; [apply FileSystemFacts.dir_lookup_put|].
    simpl. rewrite <- Ho. split.
    + apply obj_get_delete.
    + intros k Hk. now apply obj_get_delete_other.
Qed.

(** A first week saved in an empty directory, then deleted; and week 15
    of 2024 deleted from a journal that also holds weeks 1 and 3. *)
Lemma journal_file_per_year_witness :
  (exists saved data,
      fst (FileSystemLayer.save create_input empty_files) = Ok saved
      /\ FileSystemLayer.dir_lookup "work-journal-2024.json"
           (FileSystemLayer.directory files_2024_15)
         = Some (FileSystemLayer.FileEntry (FileSystemLayer.Serialized data))
      /\ obj_get 15 (FileSystemLayer.weeks data) = Some saved
      /\ (forall k, k <> 15 ->
            obj_get k (FileSystemLayer.weeks data) = obj_get k (weeks_of 2024 empty_files))
      /\ (forall other, other <> "work-journal-2024.json" ->
            FileSystemLayer.dir_lookup other (FileSystemLayer.directory files_2024_15)
            = FileSystemLayer.dir_lookup other (FileSystemLayer.directory empty_files)))
  /\ (fst (FileSystemLayer.delete (week_of 2024 15) files_2024_15) = Ok tt
      /\ FileSystemLayer.journal 2024
           (snd (FileSystemLayer.delete (week_of 2024 15) files_2024_15)) = None)
  /\ (exists data',
      fst (FileSystemLayer.delete (week_of 2024 15) files_2024_three_weeks) = Ok tt
      /\ FileSystemLayer.journal 2024
           (snd (FileSystemLayer.delete (week_of 2024 15) files_2024_three_weeks))
         = Some (FileSystemLayer.FileEntry (FileSystemLayer.Serialized data'))
      /\ obj_get 15 (FileSystemLayer.weeks data') = None
      /\ (forall k, k <> 15 ->
            obj_get k (FileSystemLayer.weeks data')
            = obj_get k (weeks_of 2024 files_2024_three_weeks))).
Proof.
  split; [|split].
  - refine (proj1 journal_file_per_year empty_files _ create_input _ _).
    + split; [reflexivity | right; split; reflexivity].
    + exact I.
  - refine (proj1 (proj2 journal_file_per_year) files_2024_15 _ (week_of 2024 15) _ _ _ _).
    + split; [reflexivity | left; reflexivity].
    + reflexivity.
    + intros other Hother. now apply obj_get_single_other.
  - refine (proj2 (proj2 journal_file_per_year) files_2024_three_weeks _ (week_of 2024 15) _ 3
              _ _ _ _).
    + split; [reflexivity | left; reflexivity].
    + reflexivity.
    + simpl. lia.
    + simpl. discriminate.
Defined.

(** ** The names of the journal files *)

Lemma forallb_seq (f : nat -> bool) a n :
  forallb f (seq a n) = true -> forall i, (a <= i < a + n)%nat -> f i = true.
Proof.
  intros H i Hi. rewrite forallb_forall in H. apply H. apply in_seq. exact Hi.
Qed.

Lemma isDigit_inv c :
  FileSystemLayer.isDigit c = true ->
  exists n, (n < 10)%nat /\ c = digit_char n /\ FileSystemLayer.digitValue c = Z.of_nat n.
Proof.
  unfold FileSystemLayer.isDigit, FileSystemLayer.digitValue, digit_char.
  intros H. apply andb_true_iff in H. destruct H as [H1 H2].
  apply Nat.leb_le in H1, H2.
  exists (nat_of_ascii c - 48)%nat. split; [lia|]. split.
  - replace (48 + (nat_of_ascii c - 48))%nat with (nat_of_ascii c) by lia.
    now rewrite ascii_nat_embedding.
  - lia.
Qed.

Lemma strip_prefix_Some p s rest :
  FileSystemLayer.strip_prefix p s = Some rest -> s = p +:+ rest.
Proof.
  revert s. induction p as [|a p IH]; intros s; simpl.
  - now intros [= ->].
  - destruct s as [|b s]; [discriminate|].
    destruct (Ascii.eqb_spec a b) as [->|]; [|discriminate].
    intros H. now rewrite (IH s H).
Qed.

(** The file name of a year of four digits parses back to the year. *)
Lemma getFileName_check :
  forallb (fun d1 => forallb (fun d2 => forallb (fun d3 => forallb (fun d4 =>
    let year := 1000 * Z.of_nat d1 + 100 * Z.of_nat d2 + 10 * Z.of_nat d3 + Z.of_nat d4 in
    match FileSystemLayer.parseFileName (FileSystemLayer.getFileName year) with
    | Some year' =>
        (year' =? year)
        && FileSystemLayer.endsWith (FileSystemLayer.getFileName year) ".json"
    | None => false
    end)
    (seq 0 10)) (seq 0 10)) (seq 0 10)) (seq 1 9) = true.
Proof. vm_compute. reflexivity. Qed.

Lemma parseFileName_getFileName year :
  1000 <= year <= 9999 ->
  FileSystemLayer.parseFileName (FileSystemLayer.getFileName year) = Some year
  /\ FileSystemLayer.endsWith (FileSystemLayer.getFileName year) ".json" = true.
Proof.
  intros Hy.
  set (d1 := Z.to_nat (year / 1000)).
  set (d2 := Z.to_nat ((year mod 1000) / 100)).
  set (d3 := Z.to_nat ((year mod 100) / 10)).
  set (d4 := Z.to_nat (year mod 10)).
  assert (Hd : (1 <= d1 < 1 + 9)%nat /\ (0 <= d2 < 0 + 10)%nat
               /\ (0 <= d3 < 0 + 10)%nat /\ (0 <= d4 < 0 + 10)%nat
               /\ year = 1000 * Z.of_nat d1 + 100 * Z.of_nat d2
                         + 10 * Z.of_nat d3 + Z.of_nat d4).
  { subst d1 d2 d3 d4. Z.div_mod_to_equations. lia. }
  destruct Hd as (H1 & H2 & H3 & H4 & Hyear).
  pose proof (forallb_seq _ _ _ getFileName_check d1 H1) as C1.
  pose proof (forallb_seq _ _ _ C1 d2 H2) as C2.
  pose proof (forallb_seq _ _ _ C2 d3 H3) as C3.
  pose proof (forallb_seq _ _ _ C3 d4 H4) as C4.
  cbv beta zeta in C4. rewrite <- Hyear in C4.
  destruct (FileSystemLayer.parseFileName (FileSystemLayer.getFileName year)) as [year'|];
    [|discriminate].
  apply andb_true_iff in C4. destruct C4 as [E1 E2]. apply Z.eqb_eq in E1.
  subst year'. split; [reflexivity | exact E2].
Qed.

(** Four digits, the first of which is not zero, are the decimal writing
    of their value. *)
Lemma four_digits_check :
  forallb (fun d1 => forallb (fun d2 => forallb (fun d3 => forallb (fun d4 =>
    String.eqb
      (number_to_string (1000 * Z.of_nat d1 + 100 * Z.of_nat d2
                         + 10 * Z.of_nat d3 + Z.of_nat d4))
      (String (digit_char d1) (String (digit_char d2)
         (String (digit_char d3) (String (digit_char d4) EmptyString)))))
    (seq 0 10)) (seq 0 10)) (seq 0 10)) (seq 1 9) = true.
Proof. vm_compute. reflexivity. Qed.

Lemma parseFileName_inv fileName year :
  FileSystemLayer.parseFileName fileName = Some year -> 1000 <= year ->
  fileName = FileSystemLayer.getFileName year.
Proof.
  unfold FileSystemLayer.parseFileName.
  destruct (FileSystemLayer.strip_prefix "work-journal-" fileName) as [rest|] eqn:Hp;
    [|discriminate].
  apply strip_prefix_Some in Hp.
  destruct rest as [|d1 [|d2 [|d3 [|d4 ext]]]]; try discriminate.
  destruct (FileSystemLayer.isDigit d1) eqn:H1; [|discriminate].
  destruct (FileSystemLayer.isDigit d2) eqn:H2; [|discriminate].
  destruct (FileSystemLayer.isDigit d3) eqn:H3; [|discriminate].
  destruct (FileSystemLayer.isDigit d4) eqn:H4; [|discriminate].
  destruct (String.eqb_spec ext ".json") as [->|]; [|discriminate].
  cbn [andb]. intros [= <-] Hge.
  apply isDigit_inv in H1, H2, H3, H4.
  destruct H1 as (n1 & Hn1 & -> & V1), H2 as (n2 & Hn2 & -> & V2),
           H3 as (n3 & Hn3 & -> & V3), H4 as (n4 & Hn4 & -> & V4).
  rewrite V1, V2, V3, V4 in *.
  assert (Hpos : (1 <= n1 < 1 + 9)%nat) by lia.
  pose proof (forallb_seq _ _ _ four_digits_check n1 Hpos) as C1.
  pose proof (forallb_seq _ _ _ C1 n2 ltac:(lia)) as C2.
  pose proof (forallb_seq _ _ _ C2 n3 ltac:(lia)) as C3.
  pose proof (forallb_seq _ _ _ C3 n4 ltac:(lia)) as C4.
  apply String.eqb_eq in C4.
  unfold FileSystemLayer.getFileName. rewrite C4, Hp. reflexivity.
Qed.

(** ** [getByYear] and [getRange] *)

Lemma flat_map_nil {A B} (f : A -> list B) l :
  (forall x, In x l -> f x = []) -> flat_map f l = [].
Proof.
  induction l as [|x l IH]; simpl; intros H; [reflexivity|].
  rewrite (H x) by now left. apply IH. intros y Hy. apply H. now right.
Qed.

(** When one entry of the directory at most contributes, the results are
    its contribution. *)
Lemma flat_map_lookup {B} (f : string * FileSystemLayer.Entry -> list B) fileName es :
  List.NoDup (List.map fst es) ->
  (forall p, In p es -> fst p <> fileName -> f p = []) ->
  flat_map f es = match FileSystemLayer.dir_lookup fileName es with
                  | Some e => f (fileName, e)
                  | None => []
                  end.
Proof.
  unfold FileSystemLayer.dir_lookup.
  induction es as [|[n e] es IH]; simpl; intros Hnd Hf; [reflexivity|].
  inversion Hnd as [|? ? Hnotin Hnd']; subst.
  destruct (String.eqb_spec n fileName) as [->|Hne]; simpl.
  - rewrite (flat_map_nil f es); [now rewrite app_nil_r|].
    intros p Hp. apply Hf; [now right|].
    intros E. apply Hnotin. rewrite <- E. now apply in_map.
  - rewrite (Hf (n, e)) by (simpl; auto). simpl.
    apply IH; [exact Hnd'|]. intros p Hp. apply Hf. now right.
Qed.

Lemma range_contribution_other year l p :
  1000 <= year -> fst p <> FileSystemLayer.getFileName year ->
  range_contribution (WeekIdentifier.mk year 1) (WeekIdentifier.mk year 53) l p = [].
Proof.
  intros Hy Hne. unfold range_contribution.
  destruct (snd p); [|reflexivity].
  destruct (FileSystemLayer.endsWith (fst p) ".json"); [|reflexivity].
  destruct (FileSystemLayer.parseFileName (fst p)) as [year'|] eqn:Hparse; [|reflexivity].
  simpl.
  destruct ((year' =? 0) || (year' <? year) || (year' >? year)) eqn:Hskip; [reflexivity|].
  rewrite !orb_false_iff in Hskip. destruct Hskip as [[_ H1] H2].
  apply Z.ltb_ge in H1. rewrite Z.gtb_ltb in H2. apply Z.ltb_ge in H2.
  assert (year' = year) by lia. subst year'.
  now apply parseFileName_inv in Hparse.
Qed.

Lemma range_contribution_journal year l text :
  1000 <= year <= 9999 -> journal_of_valid_weeks year l ->
  range_contribution (WeekIdentifier.mk year 1) (WeekIdentifier.mk year 53) l
    (FileSystemLayer.getFileName year, FileSystemLayer.FileEntry text)
  = Object_values (weeks_of year l).
Proof.
  intros Hy Hvalid. unfold range_contribution. simpl.
  destruct (parseFileName_getFileName year Hy) as [-> ->].
  assert ((year =? 0) || (year <? year) || (year >? year) = false) as ->.
  { rewrite !orb_false_iff. rewrite Z.gtb_ltb. repeat split.
    - apply Z.eqb_neq. lia.
    - apply Z.ltb_ge. lia.
    - apply Z.ltb_ge. lia. }
  unfold Object_values. f_equal.
  unfold journal_of_valid_weeks in Hvalid.
  induction (weeks_of year l) as [|[k r] o IH]; simpl; [reflexivity|].
  assert (Hin : FileSystemLayer.isInRange (WeekIdentifier.mk year 1)
                  (WeekIdentifier.mk year 53) year k = true).
  { apply isInRange_spec. destruct (Hvalid k r) as [Hk _]; [now left|].
    unfold key_le. simpl. lia. }
  rewrite Hin. f_equal. apply IH. intros k' r' Hin'. apply Hvalid. now right.
Qed.

Lemma FileSystemLayer_getByYear_ready year l handle :
  FileSystemLayer.ready l handle -> readable year l ->
  FileSystemLayer.getByYear year l
  = (Ok (js_sort (fun a b => WeekIdentifier.week (WeeklyData.weekId a)
                             - WeekIdentifier.week (WeeklyData.weekId b))
                 (Object_values (weeks_of year l))),
     initialised l).
Proof.
  intros Hready Hread. unfold FileSystemLayer.getByYear, bind.
  rewrite (FileSystemFacts.readYearFile_readable year l handle Hready Hread).
  unfold weeks_of, journal_data, readable in *.
  destruct (FileSystemLayer.journal year l) as [[[|data]|]|]; try contradiction; reflexivity.
Qed.

Lemma IndexedDBLayer_getByYear_records year rs :
  IndexedDBLayer.store_getAll
    (IndexedDBLayer.mkRange (WeekIdentifier.mk year 1) (WeekIdentifier.mk year 53)) rs
  = records_of_year year rs.
Proof.
  unfold IndexedDBLayer.store_getAll, records_of_year.
  apply filter_ext. intros r.
  unfold IndexedDBLayer.in_key_range, IndexedDBLayer.key_of. simpl.
  apply eq_true_iff_eq.
  rewrite !andb_true_iff, !key_leb_le, Z.eqb_eq, !Z.leb_le.
  unfold key_le. simpl. lia.
Qed.

(** C8, as the code has it. In the IndexedDB layer [getByYear] is
    [getRange] from week 1 to week 53 of the year, for every year, and it
    returns the records stored for the year with a week from 1 to 53. In
    the file-system layer [getByYear] reads the journal of the year itself:
    it returns the same records in the same order as [getRange] from week 1
    to week 53 for a year of four digits whose journal holds what [save]
    writes for valid week identifiers (a directory the layer keeps that
    way: [FileSystemLayer_well_kept]). *)
Theorem getByYear_as_getRange :
  (forall (l : IndexedDBLayer.t) (year : Z),
      IndexedDBLayer.getByYear year l
      = IndexedDBLayer.getRange (WeekIdentifier.mk year 1) (WeekIdentifier.mk year 53) l)
  /\ (forall (l : IndexedDBLayer.t) (year : Z),
      IndexedDBLayer.opens l ->
      fst (IndexedDBLayer.getByYear year l)
      = Ok (records_of_year year (IndexedDBLayer.records l)))
  /\ (forall (l : FileSystemLayer.t) handle (year : Z),
      FileSystemLayer.ready l handle ->
      List.NoDup (List.map fst (FileSystemLayer.directory l)) ->
      1000 <= year <= 9999 ->
      readable year l ->
      journal_of_valid_weeks year l ->
      FileSystemLayer.getByYear year l
      = FileSystemLayer.getRange (WeekIdentifier.mk year 1) (WeekIdentifier.mk year 53) l).
Proof.
  split; [|split].
  - reflexivity.
  - intros l year Ho. unfold IndexedDBLayer.getByYear.
    rewrite (IndexedDBFacts.getRange_opens _ _ l Ho).
    unfold IndexedDBLayer.IDBKeyRange_bound.
    assert (key_ltb (WeekIdentifier.mk year 53) (WeekIdentifier.mk year 1) = false) as ->
      by (unfold key_ltb, key_compare; simpl; now rewrite Z.compare_refl).
    cbn [fst]. now rewrite IndexedDBLayer_getByYear_records.
  - intros l handle year Hready Hnodup Hy Hread Hvalid.
    rewrite (FileSystemLayer_getByYear_ready year l handle Hready Hread).
    rewrite (FileSystemLayer_getRange_ready _ _ l handle Hready).
    2: { simpl. intros y Hrange. assert (y = year) as -> by lia. exact Hread. }
    f_equal. f_equal.
    rewrite (flat_map_lookup _ (FileSystemLayer.getFileName year) _ Hnodup).
    2: { intros p _ Hne. apply range_contribution_other; [lia | exact Hne]. }
    assert (Hc : match FileSystemLayer.dir_lookup (FileSystemLayer.getFileName year)
                         (FileSystemLayer.directory l) with
                 | Some e =>
                     range_contribution (WeekIdentifier.mk year 1) (WeekIdentifier.mk year 53)
                                        l (FileSystemLayer.getFileName year, e)
                 | None => []
                 end = Object_values (weeks_of year l)).
    { unfold readable, FileSystemLayer.journal in Hread.
      destruct (FileSystemLayer.dir_lookup (FileSystemLayer.getFileName year)
                  (FileSystemLayer.directory l)) as [[[|data]|]|] eqn:Hj;
        try contradiction.
      - now apply range_contribution_journal.
      - unfold weeks_of, journal_data, FileSystemLayer.journal. now rewrite Hj. }
    rewrite Hc. apply js_sort_ext.
    intros a b Ha Hb. unfold FileSystemLayer.compare_year_week.
    unfold Object_values in Ha, Hb. apply in_map_iff in Ha, Hb.
    destruct Ha as ([ka ra] & <- & Ha), Hb as ([kb rb] & <- & Hb).
    destruct (Hvalid ka ra Ha) as [_ Ea], (Hvalid kb rb Hb) as [_ Eb]. simpl.
    rewrite Ea, Eb. simpl. now rewrite Z.eqb_refl.
Qed.

(** The year 2024 on the IndexedDB layer that holds week 15, and on the
    file-system layer whose journal of 2024 holds weeks 1, 3 and 15. *)
Lemma getByYear_as_getRange_witness :
  fst (IndexedDBLayer.getByYear 2024 database_2024_15)
  = Ok (records_of_year 2024 (IndexedDBLayer.records database_2024_15))
  /\ FileSystemLayer.getByYear 2024 files_2024_three_weeks
     = FileSystemLayer.getRange (week_of 2024 1) (week_of 2024 53) files_2024_three_weeks.
Proof.
  split.
  - refine (proj1 (proj2 getByYear_as_getRange) database_2024_15 2024 _).
    left. reflexivity.
  - refine (proj2 (proj2 getByYear_as_getRange) files_2024_three_weeks _ 2024 _ _ _ _ _).
    + split; [reflexivity | left; reflexivity].
    + repeat constructor. simpl. tauto.
    + lia.
    + exact I.
    + intros weekNumber record H. vm_compute in H.
      destruct H as [H | [H | [H | []]]]; injection H as <- <-; split; (lia || reflexivity).
Defined.

(** C8, as the specification states it, fails in the file-system layer
    outside the valid week identifiers. After week 1 of the year 999 is
    saved, [getByYear] returns its record, and [getRange] from week 1 to
    week 53 of 999, which recognises the journal files by a name with four
    digits, returns nothing. After a week 54 of 2024 is saved, [getByYear]
    returns its record, and [getRange] from week 1 to week 53 of 2024 does
    not. *)
Lemma getByYear_as_getRange_counterexample :
  fst (FileSystemLayer.getByYear 999 files_999) = Ok [record_999_1]
  /\ fst (FileSystemLayer.getRange (week_of 999 1) (week_of 999 53) files_999) = Ok []
  /\ fst (FileSystemLayer.getByYear 999 files_999)
     <> fst (FileSystemLayer.getRange (week_of 999 1) (week_of 999 53) files_999)
  /\ fst (FileSystemLayer.getByYear 2024 files_2024_54) = Ok [record_2024_54]
  /\ fst (FileSystemLayer.getRange (week_of 2024 1) (week_of 2024 53) files_2024_54) = Ok []
  /\ fst (FileSystemLayer.getByYear 2024 files_2024_54)
     <> fst (FileSystemLayer.getRange (week_of 2024 1) (week_of 2024 53) files_2024_54).
Proof.
  split; [reflexivity|]. split; [reflexivity|]. split; [discriminate|].
  split; [reflexivity|]. split; [reflexivity|]. discriminate.
Qed.

(** ** What the file-system layer keeps of its directory *)

Lemma number_to_string_inj a b : number_to_string a = number_to_string b -> a = b.
Proof.
  unfold number_to_string. intros H.
  assert (Hparse : forall z, NilZero.int_of_string (NilZero.string_of_int (Z.to_int z))
                             = Some (Z.to_int z)).
  { intros z. apply NilZero.isi; destruct z; simpl; try discriminate;
      intros [= E]; now apply (DecimalPos.Unsigned.to_uint_nonnil p). }
  pose proof (Hparse a) as Ha. rewrite H, Hparse in Ha. injection Ha as Ha.
  rewrite <- (DecimalZ.of_to a), <- (DecimalZ.of_to b). now rewrite Ha.
Qed.

Lemma string_append_inj_l p s t : p +:+ s = p +:+ t -> s = t.
Proof. induction p as [|c p IH]; simpl; [trivial|]. intros [= H]. now apply IH. Qed.

Lemma string_length_append s t :
  String.length (s +:+ t) = (String.length s + String.length t)%nat.
Proof. induction s as [|c s IH]; simpl; [reflexivity | now rewrite IH]. Qed.

Lemma string_append_inj_r s t q : s +:+ q = t +:+ q -> s = t.
Proof.
  intros H.
  assert (Hlen : String.length s = String.length t).
  { apply (f_equal String.length) in H. rewrite !string_length_append in H. lia. }
  revert t H Hlen. induction s as [|c s IH]; intros [|d t]; simpl; try discriminate.
  - reflexivity.
  - intros [= -> H] [= Hlen]. f_equal. now apply IH.
Qed.

Lemma getFileName_inj a b :
  FileSystemLayer.getFileName a = FileSystemLayer.getFileName b -> a = b.
Proof.
  unfold FileSystemLayer.getFileName. intros H.
  apply string_append_inj_l in H. apply string_append_inj_r in H.
  now apply number_to_string_inj.
Qed.

Lemma In_dir_put fileName e es name :
  In name (List.map fst (FileSystemLayer.dir_put fileName e es)) ->
  name = fileName \/ In name (List.map fst es).
Proof.
  induction es as [|[n e'] es IH]; simpl.
  - intros [<- | []]. now left.
  - destruct (String.eqb_spec n fileName) as [->|Hne]; simpl.
    + intros [<- | H]; [now left | now right; right].
    + intros [<- | H]; [now right; left|]. destruct (IH H); [now left | now right; right].
Qed.

Lemma NoDup_dir_put fileName e es :
  List.NoDup (List.map fst es) ->
  List.NoDup (List.map fst (FileSystemLayer.dir_put fileName e es)).
Proof.
  induction es as [|[n e'] es IH]; simpl; intros Hnd.
  - repeat constructor. intros [].
  - inversion Hnd as [|? ? Hnotin Hnd']; subst.
    destruct (String.eqb_spec n fileName) as [->|Hne]; simpl.
    + now constructor.
    + constructor; [|now apply IH]. intros Hin. apply In_dir_put in Hin.
      destruct Hin as [-> | Hin]; [now apply Hne | now apply Hnotin].
Qed.

Lemma NoDup_dir_remove fileName es :
  List.NoDup (List.map fst es) -> List.NoDup (List.map fst (dir_remove fileName es)).
Proof.
  unfold dir_remove. induction es as [|[n e'] es IH]; simpl; intros Hnd; [constructor|].
  inversion Hnd as [|? ? Hnotin Hnd']; subst.
  destruct (negb (String.eqb n fileName)); simpl; [|now apply IH].
  constructor; [|now apply IH]. intros Hin. apply Hnotin.
  apply in_map_iff in Hin. destruct Hin as (p & <- & Hp).
  apply List.filter_In in Hp. apply in_map. tauto.
Qed.

Lemma In_obj_set {V} k (v : V) o k' v' :
  In (k', v') (obj_set k v o) -> (k', v') = (k, v) \/ In (k', v') o.
Proof.
  induction o as [|[k0 v0] o IH]; simpl.
  - intros [H | []]. now left.
  - destruct (k =? k0).
    + intros [H | H]; [now left | now right; right].
    + destruct (is_array_index k && (negb (is_array_index k0) || (k <? k0))).
      * intros [H | H]; [now left | now right].
      * intros [H | H]; [now right; left|]. destruct (IH H); [now left | now right; right].
Qed.

Lemma In_obj_delete {V} k (o : JsObject V) p : In p (obj_delete k o) -> In p o.
Proof. unfold obj_delete. intros H. apply List.filter_In in H. tauto. Qed.

Lemma createWeekIdentifier_Ok year week weekId :
  createWeekIdentifier year week = Ok weekId ->
  weekId = WeekIdentifier.mk year week /\ 1 <= week <= 53 /\ 1000 <= year <= 9999.
Proof.
  unfold createWeekIdentifier.
  destruct ((week <? 1) || (week >? 53)) eqn:Hw; [discriminate|].
  destruct ((year <? 1000) || (year >? 9999)) eqn:Hy; [discriminate|].
  intros [= <-]. apply orb_false_iff in Hw, Hy.
  rewrite !Z.ltb_ge, !Z.gtb_ltb, !Z.ltb_ge in *. repeat split; lia.
Qed.

(** The journal of another year is the same after a write to the journal
    of [year]. *)
Lemma journal_other_year (year year' : Z) es l handle :
  FileSystemLayer.ready l handle -> year' <> year ->
  (forall name, name <> FileSystemLayer.getFileName year ->
     FileSystemLayer.dir_lookup name es
     = FileSystemLayer.dir_lookup name (FileSystemLayer.directory l)) ->
  FileSystemLayer.journal year' (with_entries es (initialised l))
  = FileSystemLayer.journal year' l.
Proof.
  intros Hready Hne Hsame.
  rewrite (journal_with_entries _ _ _ handle (FileSystemFacts.initialised_ready l handle Hready)).
  unfold FileSystemLayer.journal. apply Hsame.
  intros E. apply Hne. now apply getFileName_inj.
Qed.

Lemma well_kept_other_year (year' : Z) l l' :
  FileSystemLayer.journal year' l' = FileSystemLayer.journal year' l ->
  readable year' l /\ journal_of_valid_weeks year' l ->
  readable year' l' /\ journal_of_valid_weeks year' l'.
Proof.
  intros E. unfold readable, journal_of_valid_weeks, weeks_of, journal_data.
  now rewrite E.
Qed.

(** The layer that starts from an empty directory and is given valid week
    identifiers keeps its directory well. *)
Lemma FileSystemLayer_well_kept :
  well_kept empty_files
  /\ (forall l handle input year week weekId,
        FileSystemLayer.ready l handle -> well_kept l ->
        createWeekIdentifier year week = Ok weekId ->
        SaveWeeklyDataInput.weekId input = weekId ->
        well_kept (snd (FileSystemLayer.save input l)))
  /\ (forall l handle weekId,
        FileSystemLayer.ready l handle -> well_kept l ->
        well_kept (snd (FileSystemLayer.delete weekId l))).
Proof.
  split; [|split].
  - split; [constructor|]. intros year. split; [exact I|]. intros k r [].
  - intros l handle input year week weekId Hready [Hnd Hall] Hcreate Hid.
    apply createWeekIdentifier_Ok in Hcreate. destruct Hcreate as (-> & Hweek & Hyear).
    pose proof (FileSystemFacts.initialised_ready l handle Hready) as Hi.
    destruct (Hall (WeekIdentifier.year (SaveWeeklyDataInput.weekId input))) as [Hread Hvalid].
    rewrite (FileSystemFacts.save_ready input l handle Hready Hread). simpl snd.
    split.
    + rewrite (FileSystemFacts.directory_with_entries _ _ handle Hi).
      unfold saved_directory. now apply NoDup_dir_put.
    + intros year'.
      destruct (Z.eq_dec year' (WeekIdentifier.year (SaveWeeklyDataInput.weekId input)))
        as [-> | Hne].
      * assert (Hj : FileSystemLayer.journal
                       (WeekIdentifier.year (SaveWeeklyDataInput.weekId input))
                       (with_entries (saved_directory input l) (initialised l))
                     = Some (journal_file
                         (FileSystemLayer.mkYear
                            (FileSystemLayer.year
                               (journal_data
                                  (WeekIdentifier.year (SaveWeeklyDataInput.weekId input)) l))
                            (obj_set (WeekIdentifier.week (SaveWeeklyDataInput.weekId input))
                               (dataToSave (SaveWeeklyDataInput.weekId input) input
                                  (obj_get
                                     (WeekIdentifier.week (SaveWeeklyDataInput.weekId input))
                                     (weeks_of
                                        (WeekIdentifier.year (SaveWeeklyDataInput.weekId input))
                                        l)))
                               (weeks_of
                                  (WeekIdentifier.year (SaveWeeklyDataInput.weekId input)) l))))).
        { rewrite (journal_with_entries _ _ _ handle Hi).
          apply FileSystemFacts.dir_lookup_put. }
        unfold readable, journal_of_valid_weeks. unfold weeks_of at 1, journal_data at 1.
        rewrite Hj. split; [exact I|]. simpl. intros k r Hin.
        apply In_obj_set in Hin. destruct Hin as [[= -> ->] | Hin].
        -- rewrite Hid. simpl. split; [lia | reflexivity].
        -- now apply Hvalid.
      * apply (well_kept_other_year year' l); [|apply Hall].
        apply (journal_other_year _ _ _ _ handle Hready Hne).
        intros name Hname. now apply FileSystemFacts.dir_lookup_put_other.
  - intros l handle weekId Hready [Hnd Hall].
    pose proof (FileSystemFacts.initialised_ready l handle Hready) as Hi.
    destruct (Hall (WeekIdentifier.year weekId)) as [Hread Hvalid].
    rewrite (FileSystemFacts.delete_ready weekId l handle Hready Hread). simpl snd.
    assert (Hdirs : deleted_directory weekId l = FileSystemLayer.directory l
                    \/ deleted_directory weekId l
                       = dir_remove (FileSystemLayer.getFileName (WeekIdentifier.year weekId))
                                    (FileSystemLayer.directory l)
                    \/ exists p o,
                         obj_delete (WeekIdentifier.week weekId)
                                    (weeks_of (WeekIdentifier.year weekId) l) = p :: o
                         /\ deleted_directory weekId l
                            = FileSystemLayer.dir_put
                                (FileSystemLayer.getFileName (WeekIdentifier.year weekId))
                                (journal_file
                                   (FileSystemLayer.mkYear
                                      (FileSystemLayer.year
                                         (journal_data (WeekIdentifier.year weekId) l))
                                      (p :: o)))
                                (FileSystemLayer.directory l)).
    { unfold deleted_directory.
      destruct (FileSystemLayer.journal (WeekIdentifier.year weekId) l); [|now left].
      destruct (obj_delete (WeekIdentifier.week weekId)
                  (weeks_of (WeekIdentifier.year weekId) l)) as [|p o] eqn:Ho;
        [now right; left|]. right; right. now exists p, o. }
    split.
    + rewrite (FileSystemFacts.directory_with_entries _ _ handle Hi).
      destruct Hdirs as [-> | [-> | (p & o & _ & ->)]];
        [exact Hnd | now apply NoDup_dir_remove | now apply NoDup_dir_put].
    + intros year'. destruct (Z.eq_dec year' (WeekIdentifier.year weekId)) as [-> | Hne].
      * unfold readable, journal_of_valid_weeks. unfold weeks_of at 1, journal_data at 1.
        rewrite (journal_with_entries _ _ _ handle Hi).
        destruct Hdirs as [-> | [-> | (p & o & Ho & ->)]].
        -- split; [exact Hread | exact Hvalid].
        -- rewrite FileSystemFacts.dir_lookup_remove. split; [exact I|]. intros k r [].
        -- rewrite FileSystemFacts.dir_lookup_put. split; [exact I|].
           intros k r Hin. assert (Hin' : In (k, r) (p :: o)) by exact Hin.
           rewrite <- Ho in Hin'. apply In_obj_delete in Hin'. now apply Hvalid.
      * apply (well_kept_other_year year' l); [|apply Hall].
        apply (journal_other_year _ _ _ _ handle Hready Hne).
        intros name Hname.
        destruct Hdirs as [-> | [-> | (p & o & _ & ->)]];
          [reflexivity
          | now apply FileSystemFacts.dir_lookup_remove_other
          | now apply FileSystemFacts.dir_lookup_put_other].
Qed.

(** ** The repository *)

Module RepositoryFacts.
Import LayeredRepository.

Lemma imap_positions {A} (g : nat -> nat) (l : list A) :
  List.map snd (imap (fun i x => (g i, x)) l) = l.
Proof.
  revert g. induction l as [|x l IH]; intros g; simpl; [reflexivity|].
  f_equal. apply (IH (fun i => g (S i))).
Qed.

Lemma by_priority_Permutation r : Permutation (secondaryLayers r) (by_priority r).
Proof.
  unfold by_priority, sortedLayers.
  rewrite <- (imap_positions (fun i => i) (secondaryLayers r)) at 1.
  apply Permutation_map. apply js_sort_Permutation.
Qed.

Lemma StronglySorted_map {A B} (R : B -> B -> Prop) (f : A -> B) l :
  StronglySorted (fun a b => R (f a) (f b)) l -> StronglySorted R (List.map f l).
Proof.
  induction 1 as [|x l Hl IH Hx]; simpl; constructor; [exact IH|].
  rewrite List.Forall_forall in *. intros y Hy. apply in_map_iff in Hy.
  destruct Hy as (a & <- & Ha). now apply Hx.
Qed.

Lemma by_priority_sorted r :
  StronglySorted (fun a b => Layer.priority b <= Layer.priority a) (by_priority r).
Proof.
  unfold by_priority, sortedLayers.
  apply (StronglySorted_map (fun a b => Layer.priority b <= Layer.priority a) snd).
  apply Sorted_StronglySorted.
  - intros a b c. lia.
  - apply (Sorted_weaken
             (fun a b : nat * Layer.t => Layer.priority (snd b) - Layer.priority (snd a) <= 0)).
    + intros a b. lia.
    + apply (js_sort_Sorted
               (fun a b : nat * Layer.t => Layer.priority (snd b) - Layer.priority (snd a))).
      intros x y. lia.
Qed.

(** A call on the primary layer returns what the layer answers. *)
Lemma on_primary_fst {A} (method : Async Layer.t A) r :
  fst (on_primary method r) = fst (method (primaryLayer r)).
Proof. unfold on_primary. now destruct (method (primaryLayer r)). Qed.

Lemma on_primary_secondaryLayers {A} (method : Async Layer.t A) r :
  secondaryLayers (snd (on_primary method r)) = secondaryLayers r.
Proof. unfold on_primary. now destruct (method (primaryLayer r)). Qed.

Lemma on_primary_flags {A} (method : Async Layer.t A) r :
  fallbackOnError (snd (on_primary method r)) = fallbackOnError r
  /\ syncWritesImmediately (snd (on_primary method r)) = syncWritesImmediately r
  /\ background (snd (on_primary method r)) = background r.
Proof. unfold on_primary. now destruct (method (primaryLayer r)). Qed.

Lemma sortedLayers_on_primary {A} (method : Async Layer.t A) r :
  sortedLayers (snd (on_primary method r)) = sortedLayers r.
Proof. unfold sortedLayers. now rewrite on_primary_secondaryLayers. Qed.

(** One turn of a fallback: the answer of the layer, or the next layer. *)
Lemma fallback_turn_fst {A} (method : Async Layer.t A) what i layer r :
  fst (fallback_turn method what i layer r)
  = Ok (match fst (method layer) with
        | Ok result => Some result
        | Err _ => None
        end).
Proof.
  unfold fallback_turn, try_catch, bind, on_secondary.
  now destruct (method layer) as [[result|e] layer'].
Qed.

Lemma fallback_loop_fst {A} (method : Async Layer.t A) what empty layers :
  forall r, fst (fallback_loop method what empty layers r)
            = Ok (first_success method empty (List.map snd layers)).
Proof.
  induction layers as [|[i layer] layers IH]; intros r; simpl; [reflexivity|].
  unfold bind. pose proof (fallback_turn_fst method what i layer r) as Hturn.
  destruct (fallback_turn method what i layer r) as [[returned|e] r1]; simpl in Hturn;
    [|discriminate].
  injection Hturn as ->.
  destruct (fst (method layer)) as [result|e]; [reflexivity | apply IH].
Qed.

Lemma fallbackGet_turn_fst weekId i layer r :
  fst (fallbackGet_turn weekId i layer r)
  = Ok (match fst (Layer.get weekId layer) with
        | Ok (Some result) => Some result
        | _ => None
        end).
Proof.
  unfold fallbackGet_turn, try_catch, bind, on_secondary.
  destruct (Layer.get weekId layer) as [[[result|]|e] layer']; simpl; try reflexivity.
  now destruct (on_primary _ _) as [[?|?] ?].
Qed.

Lemma fallbackGet_loop_fst weekId layers :
  forall r, fst (fallbackGet_loop weekId layers r)
            = Ok (first_found weekId (List.map snd layers)).
Proof.
  induction layers as [|[i layer] layers IH]; intros r; simpl; [reflexivity|].
  unfold bind. pose proof (fallbackGet_turn_fst weekId i layer r) as Hturn.
  destruct (fallbackGet_turn weekId i layer r) as [[returned|e] r1]; simpl in Hturn;
    [|discriminate].
  injection Hturn as ->.
  destruct (fst (Layer.get weekId layer)) as [[result|]|e]; [reflexivity | apply IH..].
Qed.

(** When no layer answers, the fallbacks return the empty value. *)
Lemma first_success_none {A} (method : Async Layer.t A) empty layers :
  Forall (fun layer => is_ok (fst (method layer)) = false) layers ->
  first_success method empty layers = empty.
Proof.
  induction 1 as [|layer layers H _ IH]; simpl; [reflexivity|].
  destruct (fst (method layer)); [discriminate | exact IH].
Qed.

Lemma first_found_none weekId layers :
  Forall (fun layer => forall result, fst (Layer.get weekId layer) <> Ok (Some result)) layers ->
  first_found weekId layers = None.
Proof.
  induction 1 as [|layer layers H _ IH]; simpl; [reflexivity|].
  destruct (fst (Layer.get weekId layer)) as [[result|]|e]; try exact IH.
  now contradiction (H result).
Qed.

(** What the fallbacks return comes from a layer that answered. *)
Lemma first_success_from {A} (method : Async Layer.t A) empty layers :
  Exists (fun layer => is_ok (fst (method layer)) = true) layers ->
  exists layer, In layer layers
                /\ fst (method layer) = Ok (first_success method empty layers).
Proof.
  induction layers as [|layer layers IH]; intros H; [inversion H|]. simpl.
  destruct (fst (method layer)) as [result|e] eqn:Hm.
  - exists layer. split; [now left | exact Hm].
  - inversion H as [? ? H1 | ? ? H1]; subst.
    + rewrite Hm in H1. discriminate.
    + destruct (IH H1) as (layer' & Hin & Hr). exists layer'. split; [now right | exact Hr].
Qed.

Lemma first_found_Some weekId layers result :
  first_found weekId layers = Some result ->
  exists layer, In layer layers /\ fst (Layer.get weekId layer) = Ok (Some result).
Proof.
  induction layers as [|layer layers IH]; simpl; [discriminate|].
  destruct (fst (Layer.get weekId layer)) as [[found|]|e] eqn:Hm.
  - intros [= ->]. exists layer. split; [now left | exact Hm].
  - intros H. destruct (IH H) as (layer' & Hin & Hr). exists layer'. split; [now right | exact Hr].
  - intros H. destruct (IH H) as (layer' & Hin & Hr). exists layer'. split; [now right | exact Hr].
Qed.

Lemma first_found_from weekId layers :
  Exists (fun layer => is_ok (fst (Layer.get weekId layer)) = true) layers ->
  exists layer, In layer layers
                /\ fst (Layer.get weekId layer) = Ok (first_found weekId layers).
Proof.
  intros H. destruct (first_found weekId layers) as [result|] eqn:Hf.
  - now apply first_found_Some.
  - apply List.Exists_exists in H. destruct H as (layer & Hin & Hok).
    exists layer. split; [exact Hin|].
    destruct (fst (Layer.get weekId layer)) as [[found|]|e] eqn:Hm;
      [|reflexivity|discriminate].
    exfalso. clear Hok. induction layers as [|x layers IH]; [contradiction|].
    simpl in Hf. destruct Hin as [-> | Hin].
    + rewrite Hm in Hf. discriminate.
    + destruct (fst (Layer.get weekId x)) as [[?|]|?]; [discriminate | now apply IH..].
Qed.

End RepositoryFacts.

(** ** Reads when the primary layer fails *)

Lemma get_primary_fails weekId r error :
  fst (Layer.get weekId (LayeredRepository.primaryLayer r)) = Err error ->
  fst (LayeredRepository.get weekId r)
  = if LayeredRepository.fallbackOnError r
    then Ok (first_found weekId (by_priority r))
    else Err error.
Proof.
  intros Hp. unfold LayeredRepository.get, try_catch, bind.
  pose proof (RepositoryFacts.on_primary_fst (Layer.get weekId) r) as Hfst.
  pose proof (RepositoryFacts.on_primary_flags (Layer.get weekId) r) as (Hflag & _).
  pose proof (RepositoryFacts.sortedLayers_on_primary (Layer.get weekId) r) as Hsorted.
  destruct (LayeredRepository.on_primary (Layer.get weekId) r) as [[result|e] r1];
    simpl in *; rewrite Hp in Hfst; [discriminate|]. injection Hfst as ->.
  rewrite Hflag. destruct (LayeredRepository.fallbackOnError r); [|reflexivity].
  unfold LayeredRepository.fallbackGet.
  rewrite RepositoryFacts.fallbackGet_loop_fst. unfold by_priority. now rewrite Hsorted.
Qed.

(** The common shape of [getRange], [getByYear] and [getWeeksWithData]. *)
Lemma read_primary_fails {A} (method : Async Layer.t A) what empty r error :
  fst (method (LayeredRepository.primaryLayer r)) = Err error ->
  fst (try_catch (LayeredRepository.on_primary method)
         (fun error r =>
            if LayeredRepository.fallbackOnError r
            then LayeredRepository.fallback_loop method what empty
                   (LayeredRepository.sortedLayers r) r
            else throw error r) r)
  = if LayeredRepository.fallbackOnError r
    then Ok (first_success method empty (by_priority r))
    else Err error.
Proof.
  intros Hp. unfold try_catch.
  pose proof (RepositoryFacts.on_primary_fst method r) as Hfst.
  pose proof (RepositoryFacts.on_primary_flags method r) as (Hflag & _).
  pose proof (RepositoryFacts.sortedLayers_on_primary method r) as Hsorted.
  destruct (LayeredRepository.on_primary method r) as [[result|e] r1];
    simpl in *; rewrite Hp in Hfst; [discriminate|]. injection Hfst as ->.
  rewrite Hflag. destruct (LayeredRepository.fallbackOnError r); [|reflexivity].
  rewrite RepositoryFacts.fallback_loop_fst. unfold by_priority. now rewrite Hsorted.
Qed.

Lemma getRange_primary_fails start end_ r error :
  fst (Layer.getRange start end_ (LayeredRepository.primaryLayer r)) = Err error ->
  fst (LayeredRepository.getRange start end_ r)
  = if LayeredRepository.fallbackOnError r
    then Ok (first_success (Layer.getRange start end_) [] (by_priority r))
    else Err error.
Proof. apply (read_primary_fails (Layer.getRange start end_) "getRange" []). Qed.

Lemma getByYear_primary_fails year r error :
  fst (Layer.getByYear year (LayeredRepository.primaryLayer r)) = Err error ->
  fst (LayeredRepository.getByYear year r)
  = if LayeredRepository.fallbackOnError r
    then Ok (first_success (Layer.getByYear year) [] (by_priority r))
    else Err error.
Proof. apply (read_primary_fails (Layer.getByYear year) "getByYear" []). Qed.

Lemma getWeeksWithData_primary_fails year r error :
  fst (Layer.getWeeksWithData year (LayeredRepository.primaryLayer r)) = Err error ->
  fst (LayeredRepository.getWeeksWithData year r)
  = if LayeredRepository.fallbackOnError r
    then Ok (first_success (Layer.getWeeksWithData year) ∅ (by_priority r))
    else Err error.
Proof. apply (read_primary_fails (Layer.getWeeksWithData year) "getWeeksWithData" ∅). Qed.

Lemma by_priority_single r secondary :
  LayeredRepository.secondaryLayers r = [secondary] -> by_priority r = [secondary].
Proof. intros H. unfold by_priority, LayeredRepository.sortedLayers. now rewrite H. Qed.

(** A layer of the configuration that answers is among the layers the
    fallback tries. *)
Lemma Exists_by_priority (P : Layer.t -> Prop) r :
  Exists P (LayeredRepository.secondaryLayers r) -> Exists P (by_priority r).
Proof.
  rewrite !List.Exists_exists. intros (layer & Hin & HP). exists layer. split; [|exact HP].
  eapply Permutation_in; [apply RepositoryFacts.by_priority_Permutation | exact Hin].
Qed.

Lemma In_by_priority layer r :
  In layer (by_priority r) -> In layer (LayeredRepository.secondaryLayers r).
Proof.
  apply Permutation_in. symmetry. apply RepositoryFacts.by_priority_Permutation.
Qed.

Lemma first_success_answer {A} (method : Async Layer.t A) empty r :
  Exists (fun layer => is_ok (fst (method layer)) = true) (LayeredRepository.secondaryLayers r) ->
  exists layer, In layer (LayeredRepository.secondaryLayers r)
                /\ fst (method layer) = Ok (first_success method empty (by_priority r)).
Proof.
  intros H. apply Exists_by_priority in H.
  destruct (RepositoryFacts.first_success_from method empty _ H) as (layer & Hin & Hr).
  exists layer. split; [now apply In_by_priority | exact Hr].
Qed.

(** C2. When the operation of the primary layer fails: without
    [fallbackOnError] each read of the repository fails with the error of
    the primary layer itself; with [fallbackOnError], each read returns data
    that a working secondary layer answered, provided one of the secondary
    layers works, and with one secondary layer, which works, it returns
    what that layer answers. *)
Theorem fallback_on_primary_failure :
  forall (r : LayeredRepository.t) (error : JsError),
    (LayeredRepository.fallbackOnError r = false ->
       (forall weekId,
           fst (Layer.get weekId (LayeredRepository.primaryLayer r)) = Err error ->
           fst (LayeredRepository.get weekId r) = Err error)
       /\ (forall start end_,
           fst (Layer.getRange start end_ (LayeredRepository.primaryLayer r)) = Err error ->
           fst (LayeredRepository.getRange start end_ r) = Err error)
       /\ (forall year,
           fst (Layer.getByYear year (LayeredRepository.primaryLayer r)) = Err error ->
           fst (LayeredRepository.getByYear year r) = Err error)
       /\ (forall year,
           fst (Layer.getWeeksWithData year (LayeredRepository.primaryLayer r)) = Err error ->
           fst (LayeredRepository.getWeeksWithData year r) = Err error))
    /\ (LayeredRepository.fallbackOnError r = true ->
       (forall weekId,
           fst (Layer.get weekId (LayeredRepository.primaryLayer r)) = Err error ->
           Exists (fun layer => is_ok (fst (Layer.get weekId layer)) = true)
                  (LayeredRepository.secondaryLayers r) ->
           exists layer data,
             In layer (LayeredRepository.secondaryLayers r)
             /\ fst (Layer.get weekId layer) = Ok data
             /\ fst (LayeredRepository.get weekId r) = Ok data)
       /\ (forall start end_,
           fst (Layer.getRange start end_ (LayeredRepository.primaryLayer r)) = Err error ->
           Exists (fun layer => is_ok (fst (Layer.getRange start end_ layer)) = true)
                  (LayeredRepository.secondaryLayers r) ->
           exists layer data,
             In layer (LayeredRepository.secondaryLayers r)
             /\ fst (Layer.getRange start end_ layer) = Ok data
             /\ fst (LayeredRepository.getRange start end_ r) = Ok data)
       /\ (forall year,
           fst (Layer.getByYear year (LayeredRepository.primaryLayer r)) = Err error ->
           Exists (fun layer => is_ok (fst (Layer.getByYear year layer)) = true)
                  (LayeredRepository.secondaryLayers r) ->
           exists layer data,
             In layer (LayeredRepository.secondaryLayers r)
             /\ fst (Layer.getByYear year layer) = Ok data
             /\ fst (LayeredRepository.getByYear year r) = Ok data)
       /\ (forall year,
           fst (Layer.getWeeksWithData year (LayeredRepository.primaryLayer r)) = Err error ->
           Exists (fun layer => is_ok (fst (Layer.getWeeksWithData year layer)) = true)
                  (LayeredRepository.secondaryLayers r) ->
           exists layer data,
             In layer (LayeredRepository.secondaryLayers r)
             /\ fst (Layer.getWeeksWithData year layer) = Ok data
             /\ fst (LayeredRepository.getWeeksWithData year r) = Ok data))
    /\ (LayeredRepository.fallbackOnError r = true ->
        forall secondary, LayeredRepository.secondaryLayers r = [secondary] ->
       (forall weekId data,
           fst (Layer.get weekId (LayeredRepository.primaryLayer r)) = Err error ->
           fst (Layer.get weekId secondary) = Ok data ->
           fst (LayeredRepository.get weekId r) = Ok data)
       /\ (forall start end_ data,
           fst (Layer.getRange start end_ (LayeredRepository.primaryLayer r)) = Err error ->
           fst (Layer.getRange start end_ secondary) = Ok data ->
           fst (LayeredRepository.getRange start end_ r) = Ok data)
       /\ (forall year data,
           fst (Layer.getByYear year (LayeredRepository.primaryLayer r)) = Err error ->
           fst (Layer.getByYear year secondary) = Ok data ->
           fst (LayeredRepository.getByYear year r) = Ok data)
       /\ (forall year data,
           fst (Layer.getWeeksWithData year (LayeredRepository.primaryLayer r)) = Err error ->
           fst (Layer.getWeeksWithData year secondary) = Ok data ->
           fst (LayeredRepository.getWeeksWithData year r) = Ok data)).
Proof.
  intros r error. split; [|split].
  - intros Hflag. repeat split.
    + intros weekId Hp. rewrite (get_primary_fails _ _ _ Hp). now rewrite Hflag.
    + intros start end_ Hp. rewrite (getRange_primary_fails _ _ _ _ Hp). now rewrite Hflag.
    + intros year Hp. rewrite (getByYear_primary_fails _ _ _ Hp). now rewrite Hflag.
    + intros year Hp. rewrite (getWeeksWithData_primary_fails _ _ _ Hp). now rewrite Hflag.
  - intros Hflag. repeat split.
    + intros weekId Hp Hex. rewrite (get_primary_fails _ _ _ Hp), Hflag.
      apply Exists_by_priority in Hex.
      destruct (RepositoryFacts.first_found_from weekId _ Hex) as (layer & Hin & Hr).
      exists layer, (first_found weekId (by_priority r)).
      split; [now apply In_by_priority | now split].
    + intros start end_ Hp Hex. rewrite (getRange_primary_fails _ _ _ _ Hp), Hflag.
      destruct (first_success_answer (Layer.getRange start end_) [] r Hex) as (layer & Hin & Hr).
      eauto.
    + intros year Hp Hex. rewrite (getByYear_primary_fails _ _ _ Hp), Hflag.
      destruct (first_success_answer (Layer.getByYear year) [] r Hex) as (layer & Hin & Hr).
      eauto.
    + intros year Hp Hex. rewrite (getWeeksWithData_primary_fails _ _ _ Hp), Hflag.
      destruct (first_success_answer (Layer.getWeeksWithData year) ∅ r Hex)
        as (layer & Hin & Hr).
      eauto.
  - intros Hflag secondary Hone. pose proof (by_priority_single r secondary Hone) as Hby.
    repeat split.
    + intros weekId data Hp Hs. rewrite (get_primary_fails _ _ _ Hp), Hflag, Hby.
      simpl. rewrite Hs. now destruct data.
    + intros start end_ data Hp Hs. rewrite (getRange_primary_fails _ _ _ _ Hp), Hflag, Hby.
      simpl. now rewrite Hs.
    + intros year data Hp Hs. rewrite (getByYear_primary_fails _ _ _ Hp), Hflag, Hby.
      simpl. now rewrite Hs.
    + intros year data Hp Hs. rewrite (getWeeksWithData_primary_fails _ _ _ Hp), Hflag, Hby.
      simpl. now rewrite Hs.
Qed.

(** The tests of the fallback: the data of the secondary layer with
    [fallbackOnError], the error of the primary layer without. *)
Lemma fallback_on_primary_failure_witness :
  fst (LayeredRepository.get (week_of 2024 1) repository_with_fallback)
  = Ok (Some record_from_secondary)
  /\ fst (LayeredRepository.getRange (week_of 2024 1) (week_of 2024 10) repository_with_fallback)
     = Ok [record_from_secondary]
  /\ fst (LayeredRepository.getByYear 2024 repository_with_fallback)
     = Ok [record_from_secondary]
  /\ fst (LayeredRepository.getWeeksWithData 2024 repository_with_fallback)
     = Ok (list_to_set [1; 2; 3])
  /\ fst (LayeredRepository.get (week_of 2024 1) repository_without_fallback)
     = Err primary_failed
  /\ (exists layer data,
        In layer (LayeredRepository.secondaryLayers repository_preferred_empty)
        /\ fst (Layer.getByYear 2024 layer) = Ok data
        /\ fst (LayeredRepository.getByYear 2024 repository_preferred_empty) = Ok data).
Proof.
  destruct (fallback_on_primary_failure repository_with_fallback primary_failed)
    as (_ & _ & Hone).
  destruct (Hone eq_refl (Layer.object secondaryLayer) eq_refl)
    as (Hget & HgetRange & HgetByYear & HgetWeeksWithData).
  destruct (fallback_on_primary_failure repository_without_fallback primary_failed)
    as (Hthrow & _ & _).
  destruct (fallback_on_primary_failure repository_preferred_empty primary_failed)
    as (_ & Hsome & _).
  split; [apply Hget; reflexivity|].
  split; [apply HgetRange; reflexivity|].
  split; [apply HgetByYear; reflexivity|].
  split; [apply HgetWeeksWithData; reflexivity|].
  split; [apply (Hthrow eq_refl); reflexivity|].
  apply (Hsome eq_refl); [reflexivity|]. left. reflexivity.
Defined.

(** ** The order of the fallback *)

(** C4, as the code has it. The fallbacks take the secondary layers in
    descending order of priority. [fallbackGet] returns the record of the
    first layer that has one, and absent when no layer has one.
    [fallbackGetRange], [fallbackGetByYear] and [fallbackGetWeeksWithData]
    return what the first layer whose call succeeds answers, be it empty,
    and the empty sequence or set when every call fails. None of them
    fails, and they are what the reads of the repository return when the
    primary layer fails and [fallbackOnError] is set. *)
Theorem fallback_tries_by_priority :
  forall (r : LayeredRepository.t),
    Permutation (LayeredRepository.secondaryLayers r) (by_priority r)
    /\ StronglySorted (fun a b => Layer.priority b <= Layer.priority a) (by_priority r)
    /\ (forall weekId,
          fst (LayeredRepository.fallbackGet weekId r)
          = Ok (first_found weekId (by_priority r)))
    /\ (forall start end_,
          fst (LayeredRepository.fallbackGetRange start end_ r)
          = Ok (first_success (Layer.getRange start end_) [] (by_priority r)))
    /\ (forall year,
          fst (LayeredRepository.fallbackGetByYear year r)
          = Ok (first_success (Layer.getByYear year) [] (by_priority r)))
    /\ (forall year,
          fst (LayeredRepository.fallbackGetWeeksWithData year r)
          = Ok (first_success (Layer.getWeeksWithData year) ∅ (by_priority r)))
    /\ (forall weekId,
          Forall (fun layer => forall result, fst (Layer.get weekId layer) <> Ok (Some result))
                 (LayeredRepository.secondaryLayers r) ->
          fst (LayeredRepository.fallbackGet weekId r) = Ok None)
    /\ (forall start end_,
          Forall (fun layer => is_ok (fst (Layer.getRange start end_ layer)) = false)
                 (LayeredRepository.secondaryLayers r) ->
          fst (LayeredRepository.fallbackGetRange start end_ r) = Ok [])
    /\ (forall year,
          Forall (fun layer => is_ok (fst (Layer.getByYear year layer)) = false)
                 (LayeredRepository.secondaryLayers r) ->
          fst (LayeredRepository.fallbackGetByYear year r) = Ok [])
    /\ (forall year,
          Forall (fun layer => is_ok (fst (Layer.getWeeksWithData year layer)) = false)
                 (LayeredRepository.secondaryLayers r) ->
          fst (LayeredRepository.fallbackGetWeeksWithData year r) = Ok ∅)
    /\ (LayeredRepository.fallbackOnError r = true ->
        forall error,
          (forall weekId,
              fst (Layer.get weekId (LayeredRepository.primaryLayer r)) = Err error ->
              fst (LayeredRepository.get weekId r)
              = Ok (first_found weekId (by_priority r)))
          /\ (forall start end_,
              fst (Layer.getRange start end_ (LayeredRepository.primaryLayer r)) = Err error ->
              fst (LayeredRepository.getRange start end_ r)
              = Ok (first_success (Layer.getRange start end_) [] (by_priority r)))
          /\ (forall year,
              fst (Layer.getByYear year (LayeredRepository.primaryLayer r)) = Err error ->
              fst (LayeredRepository.getByYear year r)
              = Ok (first_success (Layer.getByYear year) [] (by_priority r)))
          /\ (forall year,
              fst (Layer.getWeeksWithData year (LayeredRepository.primaryLayer r)) = Err error ->
              fst (LayeredRepository.getWeeksWithData year r)
              = Ok (first_success (Layer.getWeeksWithData year) ∅ (by_priority r)))).
Proof.
  intros r.
  pose proof (RepositoryFacts.by_priority_Permutation r) as Hperm.
  assert (Hget : forall weekId,
             fst (LayeredRepository.fallbackGet weekId r)
             = Ok (first_found weekId (by_priority r))).
  { intros weekId. unfold LayeredRepository.fallbackGet.
    apply RepositoryFacts.fallbackGet_loop_fst. }
  assert (Hloop : forall A (method : Async Layer.t A) what empty,
             fst (LayeredRepository.fallback_loop method what empty
                    (LayeredRepository.sortedLayers r) r)
             = Ok (first_success method empty (by_priority r))).
  { intros A method what empty. apply RepositoryFacts.fallback_loop_fst. }
  split; [exact Hperm|]. split; [apply RepositoryFacts.by_priority_sorted|].
  split; [exact Hget|].
  split; [intros; apply Hloop|]. split; [intros; apply Hloop|]. split; [intros; apply Hloop|].
  split; [|split; [|split; [|split]]].
  - intros weekId Hnone. rewrite Hget. f_equal. apply RepositoryFacts.first_found_none.
    eapply Permutation_Forall; eassumption.
  - intros start end_ Hnone. unfold LayeredRepository.fallbackGetRange. rewrite Hloop.
    f_equal. apply RepositoryFacts.first_success_none.
    eapply Permutation_Forall; eassumption.
  - intros year Hnone. unfold LayeredRepository.fallbackGetByYear. rewrite Hloop.
    f_equal. apply RepositoryFacts.first_success_none.
    eapply Permutation_Forall; eassumption.
  - intros year Hnone. unfold LayeredRepository.fallbackGetWeeksWithData. rewrite Hloop.
    f_equal. apply RepositoryFacts.first_success_none.
    eapply Permutation_Forall; eassumption.
  - intros Hflag error. repeat split.
    + intros weekId Hp. now rewrite (get_primary_fails _ _ _ Hp), Hflag.
    + intros start end_ Hp. now rewrite (getRange_primary_fails _ _ _ _ Hp), Hflag.
    + intros year Hp. now rewrite (getByYear_primary_fails _ _ _ Hp), Hflag.
    + intros year Hp. now rewrite (getWeeksWithData_primary_fails _ _ _ Hp), Hflag.
Qed.

(** A repository whose secondary layers all fail returns an empty
    sequence, and one whose preferred secondary layer works and has no data
    returns the empty answer of that layer. *)
Lemma fallback_tries_by_priority_witness :
  fst (LayeredRepository.fallbackGetRange (week_of 2024 1) (week_of 2024 10)
         (repository_of (Layer.object failingPrimaryLayer)
                        [Layer.object (brokenLayer "broken" 50)] false true))
  = Ok []
  /\ fst (LayeredRepository.getRange (week_of 2024 1) (week_of 2024 10)
            repository_preferred_empty)
     = Ok (first_success (Layer.getRange (week_of 2024 1) (week_of 2024 10)) []
             [Layer.object (emptyLayer "preferred" 60); Layer.object secondaryLayer]).
Proof.
  destruct (fallback_tries_by_priority
              (repository_of (Layer.object failingPrimaryLayer)
                             [Layer.object (brokenLayer "broken" 50)] false true))
    as (_ & _ & _ & _ & _ & _ & _ & Hnone & _).
  destruct (fallback_tries_by_priority repository_preferred_empty)
    as (_ & _ & _ & _ & _ & _ & _ & _ & _ & _ & Hreads).
  split.
  - apply Hnone. repeat constructor.
  - apply (Hreads eq_refl primary_failed). reflexivity.
Defined.

(** C4, as the specification states it, fails for the range queries: the
    preferred secondary layer works and has no data, the next one has a
    record; the first answer that is successful and not empty is that
    record, and the repository returns the empty sequence. *)
Lemma fallback_tries_by_priority_counterexample :
  List.map Layer.name (by_priority repository_preferred_empty) = ["preferred"; "secondary"]
  /\ fst (LayeredRepository.getRange (week_of 2024 1) (week_of 2024 10)
            repository_preferred_empty) = Ok []
  /\ first_nonempty_success (Layer.getRange (week_of 2024 1) (week_of 2024 10)) is_nil []
       (by_priority repository_preferred_empty) = [record_from_secondary]
  /\ fst (LayeredRepository.getRange (week_of 2024 1) (week_of 2024 10)
            repository_preferred_empty)
     <> Ok (first_nonempty_success (Layer.getRange (week_of 2024 1) (week_of 2024 10))
              is_nil [] (by_priority repository_preferred_empty)).
Proof.
  repeat split. discriminate.
Qed.

(** ** Writes *)



(** ** The factory *)

(** C10. [configure] recreates the repository when there is no current
    configuration, or when [enableFileSystem] or the directory handle
    differs from the current configuration, and only then: called with the
    same [enableFileSystem] and the same handle, it leaves the repository
    and the stored configuration as they are, whatever
    [syncWritesImmediately] and [fallbackOnError] it is given. *)
Theorem configure_recreates_on_change_only :
  forall (f : RepositoryFactory.t) (config : RepositoryFactory.RepositoryConfig),
    (forall current,
        RepositoryFactory.currentConfig f = Some current ->
        RepositoryFactory.enableFileSystem current = RepositoryFactory.enableFileSystem config ->
        RepositoryFactory.handle_differs (RepositoryFactory.directoryHandle current)
                                         (RepositoryFactory.directoryHandle config) = false ->
        RepositoryFactory.configure config f = f)
    /\ (forall current,
        RepositoryFactory.currentConfig f = Some current ->
        RepositoryFactory.enableFileSystem current <> RepositoryFactory.enableFileSystem config
        \/ RepositoryFactory.handle_differs (RepositoryFactory.directoryHandle current)
                                            (RepositoryFactory.directoryHandle config) = true ->
        RepositoryFactory.instance (RepositoryFactory.configure config f)
        = Some (RepositoryFactory.createRepository (RepositoryFactory.window f) config)
        /\ RepositoryFactory.currentConfig (RepositoryFactory.configure config f) = Some config)
    /\ (RepositoryFactory.currentConfig f = None ->
        RepositoryFactory.instance (RepositoryFactory.configure config f)
        = Some (RepositoryFactory.createRepository (RepositoryFactory.window f) config)
        /\ RepositoryFactory.currentConfig (RepositoryFactory.configure config f) = Some config).
Proof.
  intros f config. unfold RepositoryFactory.configure. split; [|split].
  - intros current Hc He Hh. rewrite Hc, He, Hh. now rewrite Bool.eqb_reflx.
  - intros current Hc Hchange. rewrite Hc.
    assert (negb (Bool.eqb (RepositoryFactory.enableFileSystem current)
                           (RepositoryFactory.enableFileSystem config))
            || RepositoryFactory.handle_differs (RepositoryFactory.directoryHandle current)
                 (RepositoryFactory.directoryHandle config) = true) as ->.
    { destruct Hchange as [He | Hh].
      - destruct (RepositoryFactory.enableFileSystem current),
                 (RepositoryFactory.enableFileSystem config); simpl; congruence.
      - rewrite Hh. apply orb_true_r. }
    split; reflexivity.
  - intros Hc. rewrite Hc. split; reflexivity.
Qed.

(** A factory configured for file storage with writes in the background
    and fallback, then configured again with the same directory and both
    flags changed: the repository keeps the flags of the first
    configuration. Configured without file storage instead, or for the
    first time, the repository is created from the new configuration. *)
Lemma configure_recreates_on_change_only_witness :
  RepositoryFactory.configure config_immediate factory_configured = factory_configured
  /\ option_map LayeredRepository.syncWritesImmediately
       (RepositoryFactory.instance
          (RepositoryFactory.configure config_immediate factory_configured)) = Some false
  /\ option_map LayeredRepository.fallbackOnError
       (RepositoryFactory.instance
          (RepositoryFactory.configure config_immediate factory_configured)) = Some true
  /\ RepositoryFactory.currentConfig
       (RepositoryFactory.configure (RepositoryFactory.mkConfig false None None None)
          factory_configured)
     = Some (RepositoryFactory.mkConfig false None None None)
  /\ RepositoryFactory.currentConfig
       (RepositoryFactory.configure config_immediate factory_initial)
     = Some config_immediate.
Proof.
  destruct (configure_recreates_on_change_only factory_configured config_immediate)
    as (Hsame & _ & _).
  destruct (configure_recreates_on_change_only factory_configured
              (RepositoryFactory.mkConfig false None None None)) as (_ & Hchange & _).
  destruct (configure_recreates_on_change_only factory_initial config_immediate)
    as (_ & _ & Hfirst).
  assert (H : RepositoryFactory.configure config_immediate factory_configured
              = factory_configured)
    by (apply (Hsame config_background); reflexivity).
  split; [exact H|]. rewrite H.
  split; [reflexivity|]. split; [reflexivity|]. split.
  - apply (Hchange config_background); [reflexivity|]. left. discriminate.
  - apply Hfirst. reflexivity.
Defined.

(** * Further properties of the code *)

(** ** The primary layer: a database that does not open *)

(** X1. A primary layer whose database fails to open never recovers. The
    first call of any method rejects with the error
    'Failed to open IndexedDB: ...' and leaves the rejected promise in
    [dbPromise]; from then on every method, [close] included, rejects with
    that same error and changes nothing, so the connection is never opened
    again. *)
Theorem IndexedDBLayer_open_failure_is_permanent :
  (forall (l : IndexedDBLayer.t) (message : string),
      IndexedDBLayer.dbPromise l = None ->
      IndexedDBLayer.open_error l = Some message ->
      let error := failed_to_open message in
      let l' := IndexedDBLayer.set_dbPromise (Some (Err error)) l in
      (forall input, IndexedDBLayer.save input l = (Err error, l'))
      /\ (forall weekId, IndexedDBLayer.get weekId l = (Err error, l'))
      /\ (forall start end_, IndexedDBLayer.getRange start end_ l = (Err error, l'))
      /\ (forall year, IndexedDBLayer.getByYear year l = (Err error, l'))
      /\ (forall year, IndexedDBLayer.getWeeksWithData year l = (Err error, l'))
      /\ (forall weekId, IndexedDBLayer.delete weekId l = (Err error, l'))
      /\ IndexedDBLayer.clear l = (Err error, l'))
  /\ (forall (l : IndexedDBLayer.t) (error : JsError),
      IndexedDBLayer.dbPromise l = Some (Err error) ->
      (forall input, IndexedDBLayer.save input l = (Err error, l))
      /\ (forall weekId, IndexedDBLayer.get weekId l = (Err error, l))
      /\ (forall start end_, IndexedDBLayer.getRange start end_ l = (Err error, l))
      /\ (forall year, IndexedDBLayer.getByYear year l = (Err error, l))
      /\ (forall year, IndexedDBLayer.getWeeksWithData year l = (Err error, l))
      /\ (forall weekId, IndexedDBLayer.delete weekId l = (Err error, l))
      /\ IndexedDBLayer.clear l = (Err error, l)
      /\ IndexedDBLayer.close l = (Err error, l)).
Proof.
  split.
  - intros l message Hp Ho. cbv zeta.
    assert (Hi : IndexedDBLayer.initDB l
                 = (Err (failed_to_open message),
                    IndexedDBLayer.set_dbPromise (Some (Err (failed_to_open message))) l)).
    { unfold IndexedDBLayer.initDB. now rewrite Hp, Ho. }
    repeat split; intros;
      unfold IndexedDBLayer.save, IndexedDBLayer.get, IndexedDBLayer.getByYear,
        IndexedDBLayer.getRange, IndexedDBLayer.getWeeksWithData, IndexedDBLayer.delete,
        IndexedDBLayer.clear, IndexedDBLayer.executeTransaction, bind;
      now rewrite Hi.
  - intros l error Hp.
    assert (Hi : IndexedDBLayer.initDB l = (Err error, l)).
    { unfold IndexedDBLayer.initDB. now rewrite Hp. }
    repeat split; intros;
      unfold IndexedDBLayer.save, IndexedDBLayer.get, IndexedDBLayer.getByYear,
        IndexedDBLayer.getRange, IndexedDBLayer.getWeeksWithData, IndexedDBLayer.delete,
        IndexedDBLayer.clear, IndexedDBLayer.close, IndexedDBLayer.executeTransaction, bind;
      now rewrite ?Hi, ?Hp.
Qed.

Lemma IndexedDBLayer_open_failure_is_permanent_witness :
  let error := failed_to_open "The operation is insecure." in
  let l' := snd (IndexedDBLayer.get (week_of 2024 15) blocked_database) in
  IndexedDBLayer.get (week_of 2024 15) blocked_database = (Err error, l')
  /\ IndexedDBLayer.get (week_of 2024 15) l' = (Err error, l')
  /\ IndexedDBLayer.close l' = (Err error, l')
  /\ IndexedDBLayer.save create_input l' = (Err error, l').
Proof.
  destruct IndexedDBLayer_open_failure_is_permanent as [Hfirst Hlater].
  destruct (Hfirst blocked_database "The operation is insecure." eq_refl eq_refl)
    as (_ & Hget & _).
  cbv zeta. rewrite (Hget (week_of 2024 15)). cbn [snd].
  destruct (Hlater (IndexedDBLayer.set_dbPromise
                      (Some (Err (failed_to_open "The operation is insecure.")))
                      blocked_database)
                   (failed_to_open "The operation is insecure.") eq_refl)
    as (Hsave & Hget' & _ & _ & _ & _ & _ & Hclose).
  split; [reflexivity|]. split; [apply Hget'|]. split; [apply Hclose|apply Hsave].
Defined.

(** ** The weeks that have data *)

Lemma obj_get_Some_keys {V} k (o : JsObject V) :
  (exists v, obj_get k o = Some v) <-> In k (List.map fst o).
Proof.
  unfold obj_get. induction o as [|[k' v'] o IH]; simpl.
  - split; [intros [v Hv]; discriminate|tauto].
  - destruct (Z.eqb_spec k' k) as [->|Hne]; simpl.
    + split; [now left|intros _; now exists v'].
    + rewrite IH. split; [now right|intros [?|?]; [contradiction|assumption]].
Qed.

Lemma store_get_Some_In key rs :
  (exists r, IndexedDBLayer.store_get key rs = Some r)
  <-> exists r, In r rs /\ WeeklyData.weekId r = key.
Proof.
  unfold IndexedDBLayer.store_get. split.
  - intros [r Hr]. apply List.find_some in Hr as [Hin Hk].
    exists r. split; [assumption|]. now apply key_eqb_eq in Hk.
  - intros (r & Hin & Hk).
    destruct (List.find (fun x => key_eqb (IndexedDBLayer.key_of x) key) rs) as [r'|] eqn:Hf.
    + now exists r'.
    + exfalso. pose proof (List.find_none _ _ Hf r Hin) as Hn. simpl in Hn.
      unfold IndexedDBLayer.key_of in Hn. rewrite Hk, key_eqb_refl in Hn. discriminate.
Qed.

Lemma IndexedDBLayer_getWeeksWithData_opens year l :
  IndexedDBLayer.opens l ->
  IndexedDBLayer.getWeeksWithData year l
  = (Ok (list_to_set (List.map snd (IndexedDBLayer.index_year_getAllKeys year
                                      (IndexedDBLayer.records l)))),
     opened l).
Proof.
  intros Ho. unfold IndexedDBLayer.getWeeksWithData, bind.
  now rewrite (IndexedDBFacts.initDB_opens l Ho).
Qed.

Lemma FileSystemLayer_getWeeksWithData_ready year l handle :
  FileSystemLayer.ready l handle -> readable year l ->
  FileSystemLayer.getWeeksWithData year l
  = (Ok (list_to_set (List.map fst (weeks_of year l))), initialised l).
Proof.
  intros Hr Hy. unfold FileSystemLayer.getWeeksWithData, bind.
  rewrite (FileSystemFacts.readYearFile_readable year l handle Hr Hy).
  unfold weeks_of, journal_data.
  destruct (FileSystemLayer.journal year l) as [[[|data]|]|]; try reflexivity.
  unfold ret. now rewrite numbers_parseInt_Object_keys.
Qed.

(** X2. In both layers, [getWeeksWithData] and [get] agree: a week number
    is in the set [getWeeksWithData year] resolves to exactly when [get]
    finds a record under that year and that week. In the file-system
    layer this is so for a journal whose weeks are safe integers, which
    [parseInt] reads back from the names of the properties. *)
Theorem getWeeksWithData_matches_get :
  (forall (l : IndexedDBLayer.t) (year week : Z),
      IndexedDBLayer.opens l ->
      exists weeks : gset Z,
        fst (IndexedDBLayer.getWeeksWithData year l) = Ok weeks
        /\ (week ∈ weeks
            <-> exists record,
                fst (IndexedDBLayer.get (WeekIdentifier.mk year week) l) = Ok (Some record)))
  /\ (forall (l : FileSystemLayer.t) handle (year week : Z),
      FileSystemLayer.ready l handle -> readable year l ->
      weeks_are_safe_integers year l ->
      exists weeks : gset Z,
        fst (FileSystemLayer.getWeeksWithData year l) = Ok weeks
        /\ (week ∈ weeks
            <-> exists record,
                fst (FileSystemLayer.get (WeekIdentifier.mk year week) l) = Ok (Some record))).
Proof.
  split.
  - intros l year week Ho.
    rewrite (IndexedDBLayer_getWeeksWithData_opens year l Ho).
    rewrite (IndexedDBFacts.get_opens _ l Ho). cbn [fst].
    eexists. split; [reflexivity|].
    rewrite elem_of_list_to_set, list_elem_of_In.
    unfold IndexedDBLayer.index_year_getAllKeys. rewrite List.map_map. cbn [snd].
    rewrite in_map_iff. split.
    + intros (r & Hw & Hin). apply filter_In in Hin as [Hin Hy].
      apply Z.eqb_eq in Hy.
      destruct (proj2 (store_get_Some_In (WeekIdentifier.mk year week)
                         (IndexedDBLayer.records l))) as [r' Hr'].
      { exists r. split; [assumption|]. unfold IndexedDBLayer.key_of in *.
        destruct (WeeklyData.weekId r) as [y w]. simpl in *. now subst. }
      exists r'. now rewrite Hr'.
    + intros [record Hrec]. injection Hrec as Hrec.
      destruct (proj1 (store_get_Some_In _ _) (ex_intro _ record Hrec)) as (r & Hin & Hk).
      exists r. unfold IndexedDBLayer.key_of. rewrite Hk. split; [reflexivity|].
      apply filter_In. split; [assumption|]. unfold IndexedDBLayer.key_of. rewrite Hk.
      apply Z.eqb_refl.
  - intros l handle year week Hr Hy _.
    rewrite (FileSystemLayer_getWeeksWithData_ready year l handle Hr Hy).
    rewrite (FileSystemFacts.get_ready (WeekIdentifier.mk year week) l handle Hr Hy).
    cbn [fst WeekIdentifier.year WeekIdentifier.week].
    eexists. split; [reflexivity|].
    rewrite elem_of_list_to_set, list_elem_of_In, <- obj_get_Some_keys.
    split; intros [v Hv]; exists v; [now rewrite Hv|now injection Hv].
Qed.

Lemma getWeeksWithData_matches_get_witness :
  (exists weeks : gset Z,
      fst (IndexedDBLayer.getWeeksWithData 2024 database_2024_15) = Ok weeks
      /\ (15 ∈ weeks
          <-> exists record,
              fst (IndexedDBLayer.get (week_of 2024 15) database_2024_15) = Ok (Some record)))
  /\ (exists weeks : gset Z,
      fst (FileSystemLayer.getWeeksWithData 2024 files_2024_three_weeks) = Ok weeks
      /\ (3 ∈ weeks
          <-> exists record,
              fst (FileSystemLayer.get (week_of 2024 3) files_2024_three_weeks)
              = Ok (Some record))).
Proof.
  destruct getWeeksWithData_matches_get as [Hdb Hfs]. split.
  - apply (Hdb database_2024_15 2024 15). left. reflexivity.
  - apply (Hfs files_2024_three_weeks
               (FileSystemLayer.mkHandle 0
                  (FileSystemLayer.directory files_2024_three_weeks)
                  FileSystemLayer.granted FileSystemLayer.granted) 2024 3).
    + split; [reflexivity|left; reflexivity].
    + exact I.
    + unfold weeks_are_safe_integers.
      repeat (apply List.Forall_cons; [unfold is_safe_integer; simpl; lia|]).
      apply List.Forall_nil.
Defined.

(** ** What a write changes *)

Lemma key_eqb_neq a b : a <> b -> key_eqb a b = false.
Proof.
  intros Hne. destruct (key_eqb a b) eqn:E; [|reflexivity].
  now apply key_eqb_eq in E.
Qed.

Lemma store_get_put_other key r rs :
  key <> WeeklyData.weekId r ->
  IndexedDBLayer.store_get key (IndexedDBLayer.store_put r rs)
  = IndexedDBLayer.store_get key rs.
Proof.
  intros Hne. unfold IndexedDBLayer.store_get.
  assert (Hr : key_eqb (IndexedDBLayer.key_of r) key = false).
  { apply key_eqb_neq. unfold IndexedDBLayer.key_of. congruence. }
  induction rs as [|x rs IH]; simpl.
  - now rewrite Hr.
  - destruct (key_compare (IndexedDBLayer.key_of r) (IndexedDBLayer.key_of x)) eqn:Hc; simpl.
    + apply key_compare_eq in Hc. rewrite <- Hc. now rewrite Hr.
    + now rewrite Hr.
    + now rewrite IH.
Qed.

Lemma store_get_delete_other key key' rs :
  key <> key' ->
  IndexedDBLayer.store_get key (IndexedDBLayer.store_delete key' rs)
  = IndexedDBLayer.store_get key rs.
Proof.
  intros Hne. unfold IndexedDBLayer.store_get, IndexedDBLayer.store_delete.
  induction rs as [|x rs IH]; simpl; [reflexivity|].
  destruct (key_eqb (IndexedDBLayer.key_of x) key') eqn:Hx; simpl.
  - apply key_eqb_eq in Hx. rewrite Hx, (key_eqb_neq key' key) by congruence. exact IH.
  - destruct (key_eqb (IndexedDBLayer.key_of x) key); [reflexivity|exact IH].
Qed.

(** The file-system layer after [save], on a layer that is ready: the
    layer is still ready, the journals still parse, and the weeks of every
    year are those of before, but for the week saved. *)
Lemma FileSystemLayer_save_weeks input l handle :
  let weekId := SaveWeeklyDataInput.weekId input in
  let year := WeekIdentifier.year weekId in
  let weekNumber := WeekIdentifier.week weekId in
  let saved := dataToSave weekId input (obj_get weekNumber (weeks_of year l)) in
  let l' := snd (FileSystemLayer.save input l) in
  FileSystemLayer.ready l handle -> readable year l ->
  fst (FileSystemLayer.save input l) = Ok saved
  /\ FileSystemLayer.ready l' (FileSystemLayer.set_entries (saved_directory input l) handle)
  /\ weeks_of year l' = obj_set weekNumber saved (weeks_of year l)
  /\ readable year l'
  /\ (forall year', year' <> year ->
        FileSystemLayer.journal year' l' = FileSystemLayer.journal year' l).
Proof.
  intros weekId year weekNumber saved l' Hready Hread.
  pose proof (FileSystemFacts.initialised_ready l handle Hready) as Hi.
  subst l'. rewrite (FileSystemFacts.save_ready input l handle Hready Hread). cbn [fst snd].
  split; [reflexivity|]. split; [now apply FileSystemFacts.with_entries_ready|].
  assert (Hj : FileSystemLayer.journal year
                 (with_entries (saved_directory input l) (initialised l))
               = Some (journal_file
                         (FileSystemLayer.mkYear
                            (FileSystemLayer.year (journal_data year l))
                            (obj_set weekNumber saved (weeks_of year l))))).
  { rewrite (journal_with_entries _ _ _ handle Hi). apply FileSystemFacts.dir_lookup_put. }
  split; [|split].
  - unfold weeks_of at 1, journal_data at 1. now rewrite Hj.
  - unfold readable. now rewrite Hj.
  - intros year' Hne. apply (journal_other_year _ _ _ _ handle Hready Hne).
    intros name Hname. now apply FileSystemFacts.dir_lookup_put_other.
Qed.

(** The same after [delete]. *)
Lemma FileSystemLayer_delete_weeks weekId l handle :
  let year := WeekIdentifier.year weekId in
  let l' := snd (FileSystemLayer.delete weekId l) in
  FileSystemLayer.ready l handle -> readable year l ->
  fst (FileSystemLayer.delete weekId l) = Ok tt
  /\ FileSystemLayer.ready l' (FileSystemLayer.set_entries (deleted_directory weekId l) handle)
  /\ weeks_of year l' = obj_delete (WeekIdentifier.week weekId) (weeks_of year l)
  /\ readable year l'
  /\ (forall year', year' <> year ->
        FileSystemLayer.journal year' l' = FileSystemLayer.journal year' l).
Proof.
  intros year l' Hready Hread.
  pose proof (FileSystemFacts.initialised_ready l handle Hready) as Hi.
  subst l'. rewrite (FileSystemFacts.delete_ready weekId l handle Hready Hread). cbn [fst snd].
  split; [reflexivity|]. split; [now apply FileSystemFacts.with_entries_ready|].
  assert (Hj : FileSystemLayer.journal year (with_entries (deleted_directory weekId l)
                                                         (initialised l))
               = FileSystemLayer.dir_lookup (FileSystemLayer.getFileName year)
                   (deleted_directory weekId l)).
  { apply (journal_with_entries _ _ _ handle Hi). }
  assert (Hcases :
            (FileSystemLayer.journal year l = None
             /\ deleted_directory weekId l = FileSystemLayer.directory l)
            \/ (obj_delete (WeekIdentifier.week weekId) (weeks_of year l) = []
                /\ deleted_directory weekId l
                   = dir_remove (FileSystemLayer.getFileName year) (FileSystemLayer.directory l))
            \/ (deleted_directory weekId l
                = FileSystemLayer.dir_put (FileSystemLayer.getFileName year)
                    (journal_file
                       (FileSystemLayer.mkYear (FileSystemLayer.year (journal_data year l))
                          (obj_delete (WeekIdentifier.week weekId) (weeks_of year l))))
                    (FileSystemLayer.directory l))).
  { unfold deleted_directory. fold year.
    destruct (FileSystemLayer.journal year l); [|now left].
    destruct (obj_delete (WeekIdentifier.week weekId) (weeks_of year l)) as [|p o] eqn:Ho;
      [now right; left|now right; right]. }
  split; [|split].
  - unfold weeks_of at 1, journal_data at 1. rewrite Hj.
    destruct Hcases as [[Hnone ->] | [[Ho ->] | ->]].
    + fold (FileSystemLayer.journal year l). rewrite Hnone.
      unfold weeks_of, journal_data. now rewrite Hnone.
    + now rewrite FileSystemFacts.dir_lookup_remove, Ho.
    + now rewrite FileSystemFacts.dir_lookup_put.
  - unfold readable. rewrite Hj.
    destruct Hcases as [[Hnone ->] | [[Ho ->] | ->]].
    + fold (FileSystemLayer.journal year l). now rewrite Hnone.
    + now rewrite FileSystemFacts.dir_lookup_remove.
    + now rewrite FileSystemFacts.dir_lookup_put.
  - intros year' Hne. apply (journal_other_year _ _ _ _ handle Hready Hne).
    intros name Hname.
    destruct Hcases as [[_ ->] | [[_ ->] | ->]];
      [reflexivity
      | now apply FileSystemFacts.dir_lookup_remove_other
      | now apply FileSystemFacts.dir_lookup_put_other].
Qed.

(** What [get] answers on a layer that is ready, whether or not the
    journal parses. *)
Lemma FileSystemLayer_get_journal weekId l handle :
  FileSystemLayer.ready l handle ->
  fst (FileSystemLayer.get weekId l)
  = match FileSystemLayer.journal (WeekIdentifier.year weekId) l with
    | None => Ok None
    | Some FileSystemLayer.DirectoryEntry => Err FileSystemLayer.TypeMismatchError
    | Some (FileSystemLayer.FileEntry FileSystemLayer.Malformed) =>
        Err FileSystemLayer.SyntaxError
    | Some (FileSystemLayer.FileEntry (FileSystemLayer.Serialized data)) =>
        Ok (obj_get (WeekIdentifier.week weekId) (FileSystemLayer.weeks data))
    end.
Proof.
  intros Hready. unfold FileSystemLayer.get, bind.
  rewrite (FileSystemFacts.readYearFile_ready _ l handle Hready).
  destruct (FileSystemLayer.journal (WeekIdentifier.year weekId) l) as [[[|data]|]|];
    reflexivity.
Qed.

(** X3. A write leaves the other weeks alone, in both layers: after
    [save] or [delete] on a key, [get] on any other key answers what it
    answered before. *)
Theorem write_leaves_other_weeks :
  (forall (l : IndexedDBLayer.t) (w : Write) (other : WeekIdentifier.t),
      IndexedDBLayer.opens l -> other <> written_key w ->
      fst (IndexedDBLayer.get other (write w l)) = fst (IndexedDBLayer.get other l))
  /\ (forall (l : FileSystemLayer.t) handle (w : Write) (other : WeekIdentifier.t),
      FileSystemLayer.ready l handle ->
      readable (WeekIdentifier.year (written_key w)) l ->
      other <> written_key w ->
      fst (FileSystemLayer.get other (write w l)) = fst (FileSystemLayer.get other l)).
Proof.
  split.
  - intros l w other Ho Hne.
    rewrite (IndexedDBFacts.get_opens other l Ho). cbn [fst].
    destruct w as [input|weekId]; unfold write; simpl in Hne |- *.
    + pose proof (IndexedDBFacts.save_opens input l Ho) as Hs. cbv zeta in Hs.
      rewrite Hs. cbn [snd]. rewrite IndexedDBFacts.get_opens.
      * cbn [fst]. simpl. rewrite toPlainWeekId_id. now rewrite store_get_put_other.
      * left. reflexivity.
    + rewrite (IndexedDBFacts.delete_opens weekId l Ho). cbn [snd].
      rewrite IndexedDBFacts.get_opens.
      * cbn [fst]. simpl. now rewrite store_get_delete_other.
      * left. reflexivity.
  - intros l handle w other Hready Hread Hne.
    assert (Hstep : exists handle',
               FileSystemLayer.ready (write w l) handle'
               /\ (forall year', year' <> WeekIdentifier.year (written_key w) ->
                     FileSystemLayer.journal year' (write w l)
                     = FileSystemLayer.journal year' l)
               /\ readable (WeekIdentifier.year (written_key w)) (write w l)
               /\ (forall k, k <> WeekIdentifier.week (written_key w) ->
                     obj_get k (weeks_of (WeekIdentifier.year (written_key w)) (write w l))
                     = obj_get k (weeks_of (WeekIdentifier.year (written_key w)) l))).
    { destruct w as [input|weekId]; unfold write; simpl in Hread |- *.
      - destruct (FileSystemLayer_save_weeks input l handle Hready Hread)
          as (_ & Hready' & Hweeks & Hread' & Hother).
        eexists. split; [exact Hready'|]. split; [exact Hother|]. split; [exact Hread'|].
        intros k Hk. rewrite Hweeks. now apply obj_get_set_other.
      - destruct (FileSystemLayer_delete_weeks weekId l handle Hready Hread)
          as (_ & Hready' & Hweeks & Hread' & Hother).
        eexists. split; [exact Hready'|]. split; [exact Hother|]. split; [exact Hread'|].
        intros k Hk. rewrite Hweeks. now apply obj_get_delete_other. }
    destruct Hstep as (handle' & Hready' & Hother & Hread' & Hweeks).
    destruct (Z.eq_dec (WeekIdentifier.year other) (WeekIdentifier.year (written_key w)))
      as [Hy|Hy].
    + rewrite (FileSystemFacts.get_ready other l handle Hready) by now rewrite Hy.
      rewrite (FileSystemFacts.get_ready other _ handle' Hready') by now rewrite Hy.
      cbn [fst]. rewrite Hy. f_equal. apply Hweeks.
      intros Hw. apply Hne. destruct other, (written_key w). simpl in *. congruence.
    + rewrite (FileSystemLayer_get_journal other l handle Hready).
      rewrite (FileSystemLayer_get_journal other _ handle' Hready').
      now rewrite (Hother _ Hy).
Qed.

Lemma write_leaves_other_weeks_witness :
  fst (IndexedDBLayer.get (week_of 2024 15)
         (write (WriteSave input_2024_1) database_2024_15))
  = fst (IndexedDBLayer.get (week_of 2024 15) database_2024_15)
  /\ fst (FileSystemLayer.get (week_of 2024 1)
            (write (WriteDelete (week_of 2024 15)) files_2024_three_weeks))
     = fst (FileSystemLayer.get (week_of 2024 1) files_2024_three_weeks).
Proof.
  destruct write_leaves_other_weeks as [Hdb Hfs]. split.
  - apply (Hdb database_2024_15 (WriteSave input_2024_1) (week_of 2024 15)).
    + left. reflexivity.
    + discriminate.
  - apply (Hfs files_2024_three_weeks
               (FileSystemLayer.mkHandle 0
                  (FileSystemLayer.directory files_2024_three_weeks)
                  FileSystemLayer.granted FileSystemLayer.granted)
               (WriteDelete (week_of 2024 15)) (week_of 2024 1)).
    + split; [reflexivity|left; reflexivity].
    + exact I.
    + discriminate.
Defined.

(** ** The two layers side by side *)

Lemma weeks_of_journal year l l' :
  FileSystemLayer.journal year l' = FileSystemLayer.journal year l ->
  weeks_of year l' = weeks_of year l /\ (readable year l -> readable year l').
Proof.
  intros E. unfold weeks_of, journal_data, readable. now rewrite E.
Qed.

(** A write keeps the layers in step. *)
Lemma mirrors_write (w : Write) files handle database :
  FileSystemLayer.ready files handle -> all_readable files ->
  IndexedDBLayer.opens database -> mirrors files database ->
  (exists handle', FileSystemLayer.ready (write w files) handle')
  /\ all_readable (write w files)
  /\ IndexedDBLayer.opens (write w database)
  /\ mirrors (write w files) (write w database).
Proof.
  intros Hready Hread Ho Hm.
  destruct w as [input|weekId]; unfold write; simpl.
  - destruct (FileSystemLayer_save_weeks input files handle Hready (Hread _))
      as (_ & Hready' & Hweeks & Hread' & Hother).
    pose proof (IndexedDBFacts.save_opens input database Ho) as Hs. cbv zeta in Hs.
    rewrite toPlainWeekId_id in Hs. rewrite Hs. cbn [snd].
    split; [eauto|]. split; [|split].
    + intros year'.
      destruct (Z.eq_dec year' (WeekIdentifier.year (SaveWeeklyDataInput.weekId input)))
        as [->|Hne]; [exact Hread'|].
      apply (weeks_of_journal year' files); [now apply Hother|apply Hread].
    + left. reflexivity.
    + intros k. simpl.
      destruct (Z.eq_dec (WeekIdentifier.year k)
                  (WeekIdentifier.year (SaveWeeklyDataInput.weekId input))) as [Hy|Hy].
      * rewrite Hy, Hweeks.
        destruct (Z.eq_dec (WeekIdentifier.week k)
                    (WeekIdentifier.week (SaveWeeklyDataInput.weekId input))) as [Hw|Hw].
        -- assert (Hk : k = SaveWeeklyDataInput.weekId input).
           { destruct k, (SaveWeeklyDataInput.weekId input). simpl in *. congruence. }
           rewrite Hw, obj_get_set. rewrite Hk at 1.
           rewrite <- (Hm (SaveWeeklyDataInput.weekId input)).
           symmetry. apply (IndexedDBFacts.store_get_put
                              (dataToSave (SaveWeeklyDataInput.weekId input) input _)).
        -- rewrite obj_get_set_other by assumption.
           rewrite store_get_put_other; [rewrite <- Hy; apply Hm|].
           simpl. intros ->. now apply Hw.
      * destruct (weeks_of_journal (WeekIdentifier.year k) files _ (Hother _ Hy)) as [-> _].
        rewrite store_get_put_other; [apply Hm|].
        simpl. intros ->. now apply Hy.
  - destruct (FileSystemLayer_delete_weeks weekId files handle Hready (Hread _))
      as (_ & Hready' & Hweeks & Hread' & Hother).
    rewrite (IndexedDBFacts.delete_opens weekId database Ho). cbn [snd].
    split; [eauto|]. split; [|split].
    + intros year'.
      destruct (Z.eq_dec year' (WeekIdentifier.year weekId)) as [->|Hne]; [exact Hread'|].
      apply (weeks_of_journal year' files); [now apply Hother|apply Hread].
    + left. reflexivity.
    + intros k. simpl.
      destruct (Z.eq_dec (WeekIdentifier.year k) (WeekIdentifier.year weekId)) as [Hy|Hy].
      * rewrite Hy, Hweeks.
        destruct (Z.eq_dec (WeekIdentifier.week k) (WeekIdentifier.week weekId)) as [Hw|Hw].
        -- assert (Hk : k = weekId).
           { destruct k, weekId. simpl in *. congruence. }
           rewrite Hw, obj_get_delete, Hk. symmetry. apply IndexedDBFacts.store_get_delete.
        -- rewrite obj_get_delete_other by assumption.
           rewrite store_get_delete_other; [rewrite <- Hy; apply Hm|].
           intros ->. now apply Hw.
      * destruct (weeks_of_journal (WeekIdentifier.year k) files _ (Hother _ Hy)) as [-> _].
        rewrite store_get_delete_other; [apply Hm|].
        intros ->. now apply Hy.
Qed.

Lemma mirrors_replay (history : list Write) :
  forall files handle database,
    FileSystemLayer.ready files handle -> all_readable files ->
    IndexedDBLayer.opens database -> mirrors files database ->
    (exists handle', FileSystemLayer.ready (replay history files) handle')
    /\ all_readable (replay history files)
    /\ IndexedDBLayer.opens (replay history database)
    /\ mirrors (replay history files) (replay history database).
Proof.
  induction history as [|w history IH]; intros files handle database Hready Hread Ho Hm.
  - simpl. eauto.
  - destruct (mirrors_write w files handle database Hready Hread Ho Hm)
      as ([handle' Hready'] & Hread' & Ho' & Hm').
    apply (IH _ handle' _ Hready' Hread' Ho' Hm').
Qed.

Lemma mirrors_empty : mirrors empty_files empty_database.
Proof. intros k. reflexivity. Qed.

(** A write on a week that is a safe integer leaves journals whose weeks
    are safe integers. *)
Lemma safe_weeks_write (w : Write) files handle :
  FileSystemLayer.ready files handle -> all_readable files ->
  (forall year, weeks_are_safe_integers year files) -> safe_write w ->
  (exists handle', FileSystemLayer.ready (write w files) handle')
  /\ all_readable (write w files)
  /\ forall year, weeks_are_safe_integers year (write w files).
Proof.
  intros Hready Hread Hsafe Hw.
  destruct w as [input|weekId]; unfold write; simpl.
  - destruct (FileSystemLayer_save_weeks input files handle Hready (Hread _))
      as (_ & Hready' & Hweeks & Hread' & Hother).
    split; [eauto|]. split.
    + intros year'.
      destruct (Z.eq_dec year' (WeekIdentifier.year (SaveWeeklyDataInput.weekId input)))
        as [->|Hne]; [exact Hread'|].
      apply (weeks_of_journal year' files); [now apply Hother|apply Hread].
    + intros year'. unfold weeks_are_safe_integers.
      destruct (Z.eq_dec year' (WeekIdentifier.year (SaveWeeklyDataInput.weekId input)))
        as [->|Hne].
      * rewrite Hweeks. apply List.Forall_forall. intros [k v] Hin.
        apply In_obj_set in Hin as [[= -> _]|Hin]; [exact Hw|].
        pose proof (Hsafe (WeekIdentifier.year (SaveWeeklyDataInput.weekId input))) as Hy.
        unfold weeks_are_safe_integers in Hy. rewrite List.Forall_forall in Hy.
        now apply (Hy (k, v)).
      * destruct (weeks_of_journal year' files _ (Hother _ Hne)) as [-> _]. apply Hsafe.
  - destruct (FileSystemLayer_delete_weeks weekId files handle Hready (Hread _))
      as (_ & Hready' & Hweeks & Hread' & Hother).
    split; [eauto|]. split.
    + intros year'.
      destruct (Z.eq_dec year' (WeekIdentifier.year weekId)) as [->|Hne]; [exact Hread'|].
      apply (weeks_of_journal year' files); [now apply Hother|apply Hread].
    + intros year'. unfold weeks_are_safe_integers.
      destruct (Z.eq_dec year' (WeekIdentifier.year weekId)) as [->|Hne].
      * rewrite Hweeks. apply List.Forall_forall. intros p Hin.
        apply In_obj_delete in Hin.
        pose proof (Hsafe (WeekIdentifier.year weekId)) as Hy.
        unfold weeks_are_safe_integers in Hy. rewrite List.Forall_forall in Hy.
        now apply Hy.
      * destruct (weeks_of_journal year' files _ (Hother _ Hne)) as [-> _]. apply Hsafe.
Qed.

Lemma safe_weeks_replay (history : list Write) :
  forall files handle,
    FileSystemLayer.ready files handle -> all_readable files ->
    (forall year, weeks_are_safe_integers year files) ->
    List.Forall safe_write history ->
    forall year, weeks_are_safe_integers year (replay history files).
Proof.
  induction history as [|w history IH]; intros files handle Hready Hread Hsafe Hall.
  - exact Hsafe.
  - apply List.Forall_cons_iff in Hall as [Hw Hall].
    destruct (safe_weeks_write w files handle Hready Hread Hsafe Hw)
      as ([handle' Hready'] & Hread' & Hsafe').
    apply (IH _ handle' Hready' Hread' Hsafe' Hall).
Qed.

(** X4. The two layers answer alike. When the file-system layer holds the
    records of the primary layer (as two layers that start empty do), under
    weeks that are safe integers, it still does after any history of
    [delete]s and of [save]s on weeks that are safe integers, given to
    both, and the weeks of its journals are still safe integers: then
    [get] answers the same in both layers for every key,
    [getWeeksWithData] the same set for every year, and [save] resolves to
    the same record. *)
Theorem layers_answer_alike :
  forall (files : FileSystemLayer.t) handle (database : IndexedDBLayer.t)
         (history : list Write),
    FileSystemLayer.ready files handle -> all_readable files ->
    IndexedDBLayer.opens database -> mirrors files database ->
    (forall year, weeks_are_safe_integers year files) ->
    List.Forall safe_write history ->
    let files' := replay history files in
    let database' := replay history database in
    (forall year, weeks_are_safe_integers year files')
    /\ (forall weekId,
        fst (FileSystemLayer.get weekId files') = fst (IndexedDBLayer.get weekId database'))
    /\ (forall year,
        fst (FileSystemLayer.getWeeksWithData year files')
        = fst (IndexedDBLayer.getWeeksWithData year database'))
    /\ (forall input,
        fst (FileSystemLayer.save input files') = fst (IndexedDBLayer.save input database')).
Proof.
  intros files handle database history Hready Hread Ho Hm Hsafe Hhistory. cbv zeta.
  destruct (mirrors_replay history files handle database Hready Hread Ho Hm)
    as ([handle' Hready'] & Hread' & Ho' & Hm').
  split; [now apply (safe_weeks_replay history files handle)|].
  split; [|split].
  - intros weekId.
    rewrite (FileSystemFacts.get_ready weekId _ handle' Hready' (Hread' _)).
    rewrite (IndexedDBFacts.get_opens weekId _ Ho'). cbn [fst]. f_equal. apply Hm'.
  - intros year.
    rewrite (FileSystemLayer_getWeeksWithData_ready year _ handle' Hready' (Hread' _)).
    rewrite (IndexedDBLayer_getWeeksWithData_opens year _ Ho'). cbn [fst]. f_equal.
    apply set_eq. intros week.
    rewrite !elem_of_list_to_set, !list_elem_of_In, <- obj_get_Some_keys.
    unfold IndexedDBLayer.index_year_getAllKeys. rewrite List.map_map. cbn [snd].
    rewrite in_map_iff.
    pose proof (Hm' (WeekIdentifier.mk year week)) as Hk. simpl in Hk. rewrite Hk.
    rewrite store_get_Some_In. split.
    + intros (r & Hin & Hr). exists r. unfold IndexedDBLayer.key_of. rewrite Hr.
      split; [reflexivity|]. apply filter_In. split; [assumption|].
      unfold IndexedDBLayer.key_of. rewrite Hr. apply Z.eqb_refl.
    + intros (r & Hw & Hin). apply filter_In in Hin as [Hin Hy]. apply Z.eqb_eq in Hy.
      exists r. split; [assumption|]. unfold IndexedDBLayer.key_of in *.
      destruct (WeeklyData.weekId r). simpl in *. now subst.
  - intros input.
    destruct (FileSystemLayer_save_weeks input _ handle' Hready' (Hread' _)) as (-> & _).
    pose proof (IndexedDBFacts.save_opens input _ Ho') as Hs. cbv zeta in Hs.
    rewrite toPlainWeekId_id in Hs. rewrite Hs. cbn [fst]. now rewrite Hm'.
Qed.

Lemma layers_answer_alike_witness :
  fst (FileSystemLayer.get (week_of 2024 15) (replay example_history empty_files))
  = fst (IndexedDBLayer.get (week_of 2024 15) (replay example_history empty_database))
  /\ fst (FileSystemLayer.getWeeksWithData 2024 (replay example_history empty_files))
     = fst (IndexedDBLayer.getWeeksWithData 2024 (replay example_history empty_database))
  /\ fst (IndexedDBLayer.get (week_of 2024 15) (replay example_history empty_database))
     = Ok (Some updated_record).
Proof.
  destruct (layers_answer_alike empty_files empty_directory empty_database example_history)
    as (_ & Hget & Hweeks & _).
  - split; [reflexivity|right; split; reflexivity].
  - intros year. exact I.
  - right. split; reflexivity.
  - exact mirrors_empty.
  - intros year. apply List.Forall_nil.
  - unfold example_history.
    repeat (apply List.Forall_cons;
            [unfold safe_write, is_safe_integer; simpl; try exact I; lia|]).
    apply List.Forall_nil.
  - split; [apply Hget|]. split; [apply Hweeks|reflexivity].
Defined.

(** ** Ranges in the two layers *)

(** *** Lists in strict order *)

Lemma key_lt_irrefl a : ~ key_lt a a.
Proof. unfold key_lt. lia. Qed.

Lemma key_lt_asym a b : key_lt a b -> key_lt b a -> False.
Proof. unfold key_lt. lia. Qed.

Lemma key_le_neq_lt a b : key_le a b -> a <> b -> key_lt a b.
Proof.
  destruct a as [ya wa], b as [yb wb]. unfold key_le, key_lt. simpl.
  intros H Hne. destruct H as [H|[Hy Hw]]; [now left|].
  right. split; [assumption|]. destruct (Z.eq_dec wa wb); [|lia].
  exfalso. apply Hne. congruence.
Qed.

(** Two lists in strict order that have the same elements are equal. *)
Lemma strictly_sorted_eq (l1 : list WeeklyData.t) :
  forall l2,
    strictly_sorted_by_week l1 -> strictly_sorted_by_week l2 ->
    (forall r, In r l1 <-> In r l2) -> l1 = l2.
Proof.
  unfold strictly_sorted_by_week.
  induction l1 as [|a l1 IH]; intros [|b l2] H1 H2 Hsame.
  - reflexivity.
  - exfalso. apply (proj2 (Hsame b)). now left.
  - exfalso. apply (proj1 (Hsame a)). now left.
  - apply StronglySorted_inv in H1 as [H1 Ha]. apply StronglySorted_inv in H2 as [H2 Hb].
    rewrite List.Forall_forall in Ha, Hb.
    assert (Hab : a = b).
    { destruct (proj1 (Hsame a) (or_introl eq_refl)) as [E|Hin]; [now symmetry|].
      destruct (proj2 (Hsame b) (or_introl eq_refl)) as [E|Hin']; [assumption|].
      exfalso. apply (key_lt_asym _ _ (Ha _ Hin') (Hb _ Hin)). }
    subst b. f_equal. apply IH; [assumption|assumption|].
    intros r. split; intros Hin.
    + destruct (proj1 (Hsame r) (or_intror Hin)) as [E|Hin']; [|assumption].
      subst r. exfalso. apply (key_lt_irrefl _ (Ha _ Hin)).
    + destruct (proj2 (Hsame r) (or_intror Hin)) as [E|Hin']; [|assumption].
      subst r. exfalso. apply (key_lt_irrefl _ (Hb _ Hin)).
Qed.

(** An ascending list without two records of the same key is in strict
    order. *)
Lemma sorted_by_week_strictly l :
  sorted_by_week l -> List.NoDup (List.map WeeklyData.weekId l) ->
  strictly_sorted_by_week l.
Proof.
  unfold sorted_by_week, strictly_sorted_by_week.
  induction l as [|a l IH]; intros Hs Hn; [constructor|].
  apply StronglySorted_inv in Hs as [Hs Ha]. simpl in Hn. apply List.NoDup_cons_iff in Hn as [Hnot Hn].
  constructor; [now apply IH|].
  rewrite List.Forall_forall in *. intros b Hb.
  apply key_le_neq_lt; [now apply Ha|].
  intros E. apply Hnot. rewrite E. now apply in_map.
Qed.

Lemma NoDup_map_inj_on {A B} (f : A -> B) l :
  List.NoDup l -> (forall x y, In x l -> In y l -> f x = f y -> x = y) ->
  List.NoDup (List.map f l).
Proof.
  induction l as [|a l IH]; intros Hn Hinj; simpl; [constructor|].
  apply List.NoDup_cons_iff in Hn as [Hnot Hn]. constructor.
  - intros Hin. apply in_map_iff in Hin as (x & E & Hx).
    apply Hnot. rewrite <- (Hinj x a); [assumption|now right|now left|assumption].
  - apply IH; [assumption|]. intros x y Hx Hy. apply Hinj; now right.
Qed.

(** The object store holds one record per key. *)
Lemma store_ok_unique rs x r :
  IndexedDBLayer.store_ok rs -> In x rs -> In r rs ->
  WeeklyData.weekId x = WeeklyData.weekId r -> x = r.
Proof.
  unfold IndexedDBLayer.store_ok, IndexedDBLayer.key_of.
  induction rs as [|a rs IH]; intros Hok Hx Hr E; [destruct Hx|].
  apply StronglySorted_inv in Hok as [Hok Ha]. rewrite List.Forall_forall in Ha.
  destruct Hx as [<-|Hx], Hr as [<-|Hr].
  - reflexivity.
  - exfalso. specialize (Ha _ Hr). rewrite E in Ha. now apply key_lt_irrefl in Ha.
  - exfalso. specialize (Ha _ Hx). rewrite E in Ha. now apply key_lt_irrefl in Ha.
  - now apply IH.
Qed.

Lemma store_get_In r rs :
  IndexedDBLayer.store_ok rs ->
  (IndexedDBLayer.store_get (WeeklyData.weekId r) rs = Some r <-> In r rs).
Proof.
  intros Hok. unfold IndexedDBLayer.store_get. split.
  - intros Hf. now apply List.find_some in Hf as [Hin _].
  - intros Hin.
    destruct (proj2 (store_get_Some_In (WeeklyData.weekId r) rs)) as [x Hx];
      [now exists r|].
    unfold IndexedDBLayer.store_get in Hx. rewrite Hx. f_equal.
    apply List.find_some in Hx as [Hxin Hk]. apply key_eqb_eq in Hk.
    now apply (store_ok_unique rs).
Qed.

(** *** Objects whose keys are week numbers *)

Lemma obj_get_In {V} k (v : V) (o : JsObject V) : obj_get k o = Some v -> In (k, v) o.
Proof.
  unfold obj_get. destruct (List.find (fun p => fst p =? k) o) as [[k' v']|] eqn:Hf;
    [|discriminate].
  intros [= ->]. apply List.find_some in Hf as [Hin Hk]. simpl in Hk.
  apply Z.eqb_eq in Hk. now subst.
Qed.

Lemma In_obj_get {V} k (v : V) (o : JsObject V) :
  StronglySorted (fun p q => fst p < fst q) o -> In (k, v) o -> obj_get k o = Some v.
Proof.
  unfold obj_get. induction o as [|[k' v'] o IH]; intros Hs Hin; [destruct Hin|].
  apply StronglySorted_inv in Hs as [Hs Hk']. rewrite List.Forall_forall in Hk'.
  simpl. destruct Hin as [[= -> ->]|Hin].
  - now rewrite Z.eqb_refl.
  - specialize (Hk' _ Hin). simpl in Hk'.
    destruct (Z.eqb_spec k' k) as [->|Hne]; [lia|]. now apply IH.
Qed.

Lemma obj_set_keys {V} k (v : V) (o : JsObject V) p :
  In p (obj_set k v o) -> fst p = k \/ In p o.
Proof.
  destruct p as [k' v']. intros Hin. apply In_obj_set in Hin as [[= -> ->]|Hin];
    [now left|now right].
Qed.

(** [o[k] = v] keeps the keys in ascending order, when they are week
    numbers. *)
Lemma obj_set_sorted {V} k (v : V) (o : JsObject V) :
  0 <= k < 4294967295 ->
  (forall p, In p o -> 0 <= fst p < 4294967295) ->
  StronglySorted (fun p q => fst p < fst q) o ->
  StronglySorted (fun p q => fst p < fst q) (obj_set k v o).
Proof.
  intros Hk. induction o as [|[k' v'] o IH]; intros Hidx Hs; simpl.
  - constructor; constructor.
  - pose proof (StronglySorted_inv Hs) as [Hs' Hk'].
    destruct (Z.eqb_spec k k') as [->|Hne].
    + constructor; assumption.
    + assert (Hi : is_array_index k = true).
      { unfold is_array_index. apply andb_true_iff. split; [apply Z.leb_le|apply Z.ltb_lt]; lia. }
      assert (Hi' : is_array_index k' = true).
      { specialize (Hidx (k', v') (or_introl eq_refl)). simpl in Hidx.
        unfold is_array_index. apply andb_true_iff.
        split; [apply Z.leb_le|apply Z.ltb_lt]; lia. }
      rewrite Hi, Hi'. simpl. destruct (Z.ltb_spec k k') as [Hlt|Hge].
      * constructor; [assumption|]. constructor; [assumption|].
        rewrite List.Forall_forall in *. intros q Hq. specialize (Hk' q Hq). simpl in *. lia.
      * constructor.
        -- apply IH; [|assumption]. intros p Hp. apply Hidx. now right.
        -- rewrite List.Forall_forall in *. intros q Hq.
           apply obj_set_keys in Hq as [->|Hq]; [simpl; lia|now apply Hk'].
Qed.

Lemma obj_delete_sorted {V} k (o : JsObject V) :
  StronglySorted (fun p q => fst p < fst q) o ->
  StronglySorted (fun p q => fst p < fst q) (obj_delete k o).
Proof. apply IndexedDBFacts.StronglySorted_filter. Qed.

(** *** The directory stays in order *)

Lemma createWeekIdentifier_valid year week :
  1 <= week <= 53 -> 1000 <= year <= 9999 ->
  createWeekIdentifier year week = Ok (WeekIdentifier.mk year week).
Proof.
  intros Hw Hy. unfold createWeekIdentifier.
  assert ((week <? 1) || (week >? 53) = false) as ->.
  { apply orb_false_iff. rewrite Z.gtb_ltb, !Z.ltb_ge. lia. }
  assert ((year <? 1000) || (year >? 9999) = false) as ->.
  { apply orb_false_iff. rewrite Z.gtb_ltb, !Z.ltb_ge. lia. }
  reflexivity.
Qed.

Lemma FileSystemLayer_delete_no_journal weekId l handle :
  FileSystemLayer.ready l handle ->
  FileSystemLayer.journal (WeekIdentifier.year weekId) l = None ->
  FileSystemLayer.journal (WeekIdentifier.year weekId) (snd (FileSystemLayer.delete weekId l))
  = None.
Proof.
  intros Hready Hnone.
  assert (Hread : readable (WeekIdentifier.year weekId) l).
  { unfold readable. now rewrite Hnone. }
  pose proof (FileSystemFacts.initialised_ready l handle Hready) as Hi.
  rewrite (FileSystemFacts.delete_ready weekId l handle Hready Hread). cbn [snd].
  rewrite (journal_with_entries _ _ _ handle Hi).
  unfold deleted_directory. rewrite Hnone. exact Hnone.
Qed.

Lemma journals_in_order_empty : journals_in_order empty_files.
Proof.
  split; [apply FileSystemLayer_well_kept|].
  intros year. split; [constructor|]. intros H. now contradiction H.
Qed.

Lemma journals_in_order_write (w : Write) l handle :
  FileSystemLayer.ready l handle -> journals_in_order l -> valid_write w ->
  journals_in_order (write w l).
Proof.
  intros Hready [Hkept Hord] Hvalid.
  pose proof Hkept as [_ Hall].
  destruct w as [input|weekId]; unfold write; simpl in Hvalid |- *.
  - destruct Hvalid as [Hweek Hyear].
    destruct (FileSystemLayer_save_weeks input l handle Hready
                (proj1 (Hall (WeekIdentifier.year (SaveWeeklyDataInput.weekId input)))))
      as (_ & Hready' & Hweeks & Hread' & Hother).
    split.
    + apply (proj1 (proj2 FileSystemLayer_well_kept) l handle input
               (WeekIdentifier.year (SaveWeeklyDataInput.weekId input))
               (WeekIdentifier.week (SaveWeeklyDataInput.weekId input))
               (SaveWeeklyDataInput.weekId input) Hready Hkept); [|reflexivity].
      rewrite (createWeekIdentifier_valid _ _ Hweek Hyear).
      now destruct (SaveWeeklyDataInput.weekId input).
    + intros year'.
      destruct (Z.eq_dec year' (WeekIdentifier.year (SaveWeeklyDataInput.weekId input)))
        as [->|Hne].
      * split; [|intros _; exact Hyear]. rewrite Hweeks.
        apply obj_set_sorted; [lia| |apply Hord].
        intros [k r] Hin. destruct (proj2 (Hall _) k r Hin) as [Hk _]. simpl. lia.
      * destruct (weeks_of_journal year' l _ (Hother _ Hne)) as [-> _].
        rewrite (Hother _ Hne). apply Hord.
  - destruct (FileSystemLayer_delete_weeks weekId l handle Hready
                (proj1 (Hall (WeekIdentifier.year weekId))))
      as (_ & Hready' & Hweeks & Hread' & Hother).
    split.
    + now apply (proj2 (proj2 FileSystemLayer_well_kept) l handle weekId).
    + intros year'. destruct (Z.eq_dec year' (WeekIdentifier.year weekId)) as [->|Hne].
      * split; [rewrite Hweeks; apply obj_delete_sorted, Hord|].
        intros Hj. apply Hord. intros Hnone. apply Hj.
        now apply (FileSystemLayer_delete_no_journal weekId l handle).
      * destruct (weeks_of_journal year' l _ (Hother _ Hne)) as [-> _].
        rewrite (Hother _ Hne). apply Hord.
Qed.

(** A write keeps the object store in key order. *)
Lemma store_ok_write (w : Write) database :
  IndexedDBLayer.store_ok (IndexedDBLayer.records database) ->
  IndexedDBLayer.store_ok (IndexedDBLayer.records (write w database)).
Proof.
  intros Hok. destruct (IndexedDBLayer_store_ok database Hok) as (Hsave & Hdelete & _).
  destruct w as [input|weekId]; unfold write; simpl; [apply Hsave|apply Hdelete].
Qed.

(** The layers after a history of writes on valid week identifiers,
    from layers that are in step. *)
Lemma in_step_replay (history : list Write) :
  forall files handle database,
    Forall valid_write history ->
    FileSystemLayer.ready files handle -> journals_in_order files ->
    IndexedDBLayer.opens database ->
    IndexedDBLayer.store_ok (IndexedDBLayer.records database) ->
    mirrors files database ->
    (exists handle', FileSystemLayer.ready (replay history files) handle')
    /\ journals_in_order (replay history files)
    /\ IndexedDBLayer.opens (replay history database)
    /\ IndexedDBLayer.store_ok (IndexedDBLayer.records (replay history database))
    /\ mirrors (replay history files) (replay history database).
Proof.
  induction history as [|w history IH];
    intros files handle database Hvalid Hready Hord Ho Hok Hm.
  - simpl. eauto 6.
  - apply List.Forall_cons_iff in Hvalid as [Hw Hvalid].
    assert (Hread : all_readable files) by (intros year; apply Hord).
    destruct (mirrors_write w files handle database Hready Hread Ho Hm)
      as ([handle' Hready'] & _ & Ho' & Hm').
    apply (IH _ handle' _ Hvalid Hready'
              (journals_in_order_write w files handle Hready Hord Hw) Ho'
              (store_ok_write w database Hok) Hm').
Qed.

(** *** What the ranges hold *)

Lemma dir_lookup_In fileName e es :
  FileSystemLayer.dir_lookup fileName es = Some e -> In (fileName, e) es.
Proof.
  unfold FileSystemLayer.dir_lookup.
  destruct (List.find (fun p => String.eqb (fst p) fileName) es) as [[n e']|] eqn:Hf;
    [|discriminate].
  intros [= ->]. apply List.find_some in Hf as [Hin Hn]. simpl in Hn.
  apply String.eqb_eq in Hn. now subst.
Qed.

(** A journal that has weeks is a file of the directory, named after its
    year. *)
Lemma weeks_of_In year l p :
  In p (weeks_of year l) ->
  exists data,
    FileSystemLayer.journal year l
    = Some (FileSystemLayer.FileEntry (FileSystemLayer.Serialized data))
    /\ In (FileSystemLayer.getFileName year,
           FileSystemLayer.FileEntry (FileSystemLayer.Serialized data))
          (FileSystemLayer.directory l).
Proof.
  unfold weeks_of, journal_data. intros Hin.
  destruct (FileSystemLayer.journal year l) as [[[|data]|]|] eqn:Hj; try destruct Hin.
  exists data. split; [reflexivity|]. now apply dir_lookup_In.
Qed.

(** What an entry of the directory adds to a range. *)
Lemma In_range_contribution start end_ l p r :
  journals_in_order l ->
  In r (range_contribution start end_ l p) ->
  In (WeekIdentifier.week (WeeklyData.weekId r), r)
     (weeks_of (WeekIdentifier.year (WeeklyData.weekId r)) l)
  /\ key_le start (WeeklyData.weekId r) /\ key_le (WeeklyData.weekId r) end_
  /\ fst p = FileSystemLayer.getFileName (WeekIdentifier.year (WeeklyData.weekId r)).
Proof.
  intros [[_ Hall] Hord]. unfold range_contribution.
  destruct (snd p); [|intros []].
  destruct (FileSystemLayer.endsWith (fst p) ".json"); [|intros []].
  destruct (FileSystemLayer.parseFileName (fst p)) as [year|] eqn:Hparse; [|intros []].
  destruct ((year =? 0) || (year <? WeekIdentifier.year start)
            || (year >? WeekIdentifier.year end_)); [intros []|].
  intros Hin. apply in_map_iff in Hin as ([wk r'] & Hr & Hin). simpl in Hr. subst r'.
  apply filter_In in Hin as [Hin Hrange]. simpl in Hrange.
  destruct (proj2 (Hall year) wk r Hin) as [_ Hid].
  apply isInRange_spec in Hrange.
  rewrite Hid. cbn [WeekIdentifier.year WeekIdentifier.week].
  split; [assumption|]. split; [apply Hrange|]. split; [apply Hrange|].
  apply parseFileName_inv; [assumption|].
  destruct (weeks_of_In year l _ Hin) as (data & Hj & _).
  apply (proj2 (Hord year)). now rewrite Hj.
Qed.

Lemma In_range_contributions start end_ l r :
  journals_in_order l ->
  In r (flat_map (range_contribution start end_ l) (FileSystemLayer.directory l))
  <-> obj_get (WeekIdentifier.week (WeeklyData.weekId r))
        (weeks_of (WeekIdentifier.year (WeeklyData.weekId r)) l) = Some r
      /\ key_le start (WeeklyData.weekId r) /\ key_le (WeeklyData.weekId r) end_.
Proof.
  intros Hord. split.
  - intros Hin. apply in_flat_map in Hin as (p & _ & Hin).
    destruct (In_range_contribution start end_ l p r Hord Hin) as (Hw & Hs & He & _).
    split; [|now split]. apply In_obj_get; [apply Hord|assumption].
  - intros (Hget & Hs & He). apply obj_get_In in Hget.
    destruct (weeks_of_In _ l _ Hget) as (data & Hj & Hdir).
    assert (Hyear : 1000 <= WeekIdentifier.year (WeeklyData.weekId r) <= 9999).
    { apply (proj2 (proj2 Hord _)). now rewrite Hj. }
    apply in_flat_map. eexists. split; [exact Hdir|].
    unfold range_contribution. cbn [fst snd].
    destruct (parseFileName_getFileName _ Hyear) as [-> ->].
    assert ((WeekIdentifier.year (WeeklyData.weekId r) =? 0)
            || (WeekIdentifier.year (WeeklyData.weekId r) <? WeekIdentifier.year start)
            || (WeekIdentifier.year (WeeklyData.weekId r) >? WeekIdentifier.year end_)
            = false) as ->.
    { rewrite !orb_false_iff, Z.gtb_ltb, !Z.ltb_ge, Z.eqb_neq.
      unfold key_le in Hs, He. lia. }
    apply in_map_iff. exists (WeekIdentifier.week (WeeklyData.weekId r), r).
    split; [reflexivity|]. apply filter_In. split; [assumption|]. cbn [fst].
    apply isInRange_spec. now destruct (WeeklyData.weekId r).
Qed.

Lemma NoDup_flat_map_names {B} (f : string * FileSystemLayer.Entry -> list B) es :
  List.NoDup (List.map fst es) ->
  (forall p, In p es -> List.NoDup (f p)) ->
  (forall p q x, In p es -> In q es -> In x (f p) -> In x (f q) -> fst p = fst q) ->
  List.NoDup (flat_map f es).
Proof.
  induction es as [|p es IH]; intros Hn Hone Hcross; simpl; [constructor|].
  simpl in Hn. apply List.NoDup_cons_iff in Hn as [Hnot Hn].
  apply List.NoDup_app.
  - apply Hone. now left.
  - apply IH; [assumption| |].
    + intros q Hq. apply Hone. now right.
    + intros q q' x Hq Hq'. apply Hcross; now right.
  - intros x Hx Hin. apply in_flat_map in Hin as (q & Hq & Hxq).
    apply Hnot. rewrite (Hcross p q x); [now apply in_map|now left|now right| |]; assumption.
Qed.

Lemma NoDup_values (o : JsObject WeeklyData.t) :
  StronglySorted (fun p q => fst p < fst q) o ->
  (forall k r, In (k, r) o -> WeekIdentifier.week (WeeklyData.weekId r) = k) ->
  List.NoDup (List.map snd o).
Proof.
  induction o as [|[k r] o IH]; intros Hs Hk; simpl; [constructor|].
  apply StronglySorted_inv in Hs as [Hs Hlt]. rewrite List.Forall_forall in Hlt.
  constructor.
  - intros Hin. apply in_map_iff in Hin as ([k' r'] & E & Hin). simpl in E. subst r'.
    specialize (Hlt _ Hin). simpl in Hlt.
    rewrite <- (Hk k r (or_introl eq_refl)), <- (Hk k' r (or_intror Hin)) in Hlt. lia.
  - apply IH; [assumption|]. intros k' r' Hin. apply Hk. now right.
Qed.

(** No two records of a range have the same key. *)
Lemma NoDup_range_contributions start end_ l :
  journals_in_order l ->
  List.NoDup (List.map WeeklyData.weekId
                (flat_map (range_contribution start end_ l) (FileSystemLayer.directory l))).
Proof.
  intros Hord. apply NoDup_map_inj_on.
  - apply NoDup_flat_map_names.
    + apply Hord.
    + intros p _. unfold range_contribution.
      destruct (snd p); [|constructor].
      destruct (FileSystemLayer.endsWith (fst p) ".json"); [|constructor].
      destruct (FileSystemLayer.parseFileName (fst p)) as [year|]; [|constructor].
      destruct ((year =? 0) || (year <? WeekIdentifier.year start)
                || (year >? WeekIdentifier.year end_)); [constructor|].
      apply NoDup_values.
      * apply IndexedDBFacts.StronglySorted_filter, Hord.
      * intros k r Hin. apply filter_In in Hin as [Hin _].
        destruct (proj2 (proj2 (proj1 Hord) year) k r Hin) as [_ ->]. reflexivity.
    + intros p q x _ _ Hp Hq.
      destruct (In_range_contribution start end_ l p x Hord Hp) as (_ & _ & _ & ->).
      destruct (In_range_contribution start end_ l q x Hord Hq) as (_ & _ & _ & ->).
      reflexivity.
  - intros x y Hx Hy E.
    apply (In_range_contributions start end_ l x Hord) in Hx as [Hx _].
    apply (In_range_contributions start end_ l y Hord) in Hy as [Hy _].
    rewrite E in Hx. congruence.
Qed.

Lemma In_store_getAll start end_ rs r :
  In r (IndexedDBLayer.store_getAll (IndexedDBLayer.mkRange start end_) rs)
  <-> In r rs /\ key_le start (WeeklyData.weekId r) /\ key_le (WeeklyData.weekId r) end_.
Proof.
  unfold IndexedDBLayer.store_getAll, IndexedDBLayer.in_key_range, IndexedDBLayer.key_of.
  rewrite filter_In. simpl. now rewrite andb_true_iff, !key_leb_le.
Qed.

Lemma store_getAll_strictly_sorted range rs :
  IndexedDBLayer.store_ok rs ->
  strictly_sorted_by_week (IndexedDBLayer.store_getAll range rs).
Proof. intros Hok. now apply IndexedDBFacts.StronglySorted_filter. Qed.

(** The records of a range are the same in two layers that are in step,
    in the same order. *)
Lemma range_contributions_store_getAll start end_ files database :
  journals_in_order files ->
  IndexedDBLayer.store_ok (IndexedDBLayer.records database) ->
  mirrors files database ->
  js_sort FileSystemLayer.compare_year_week
    (flat_map (range_contribution start end_ files) (FileSystemLayer.directory files))
  = IndexedDBLayer.store_getAll (IndexedDBLayer.mkRange start end_)
      (IndexedDBLayer.records database).
Proof.
  intros Hord Hok Hm. apply strictly_sorted_eq.
  - apply sorted_by_week_strictly; [apply js_sort_compare_year_week_sorted|].
    apply (Permutation_NoDup
             (Permutation_map WeeklyData.weekId (js_sort_Permutation _ _))).
    now apply NoDup_range_contributions.
  - now apply store_getAll_strictly_sorted.
  - intros r. rewrite In_store_getAll, <- (store_get_In r _ Hok), <- (Hm (WeeklyData.weekId r)).
    rewrite <- (In_range_contributions start end_ files r Hord).
    split; intros Hin.
    + apply (Permutation_in _ (Permutation_sym (js_sort_Permutation _ _)) Hin).
    + apply (Permutation_in _ (js_sort_Permutation _ _) Hin).
Qed.

(** The records of a year are the same in two layers that are in step,
    in the same order. *)
Lemma year_values_store_getAll year files database :
  journals_in_order files ->
  IndexedDBLayer.store_ok (IndexedDBLayer.records database) ->
  mirrors files database ->
  js_sort (fun a b => WeekIdentifier.week (WeeklyData.weekId a)
                      - WeekIdentifier.week (WeeklyData.weekId b))
    (Object_values (weeks_of year files))
  = IndexedDBLayer.store_getAll
      (IndexedDBLayer.mkRange (WeekIdentifier.mk year 1) (WeekIdentifier.mk year 53))
      (IndexedDBLayer.records database).
Proof.
  intros Hord Hok Hm.
  pose proof (proj2 (proj2 (proj1 Hord) year)) as Hvalid.
  pose proof (proj1 (proj2 Hord year)) as Hsorted.
  assert (Hvalue : forall r, In r (Object_values (weeks_of year files)) ->
             WeekIdentifier.year (WeeklyData.weekId r) = year
             /\ 1 <= WeekIdentifier.week (WeeklyData.weekId r) <= 53
             /\ obj_get (WeekIdentifier.week (WeeklyData.weekId r)) (weeks_of year files)
                = Some r).
  { intros r Hin. apply in_map_iff in Hin as ([k r'] & E & Hin). simpl in E. subst r'.
    destruct (Hvalid k r Hin) as [Hk Hid]. rewrite Hid. simpl.
    split; [reflexivity|]. split; [assumption|]. now apply In_obj_get. }
  rewrite (js_sort_ext _ FileSystemLayer.compare_year_week).
  2: { intros a b Ha Hb. unfold FileSystemLayer.compare_year_week.
       destruct (Hvalue a Ha) as (-> & _), (Hvalue b Hb) as (-> & _).
       now rewrite Z.eqb_refl. }
  apply strictly_sorted_eq.
  - apply sorted_by_week_strictly; [apply js_sort_compare_year_week_sorted|].
    apply (Permutation_NoDup
             (Permutation_map WeeklyData.weekId (js_sort_Permutation _ _))).
    apply NoDup_map_inj_on.
    + apply NoDup_values; [assumption|].
      intros k r Hin. now destruct (Hvalid k r Hin) as [_ ->].
    + intros x y Hx Hy E.
      destruct (Hvalue x Hx) as (_ & _ & Hgx), (Hvalue y Hy) as (_ & _ & Hgy).
      rewrite E in Hgx. congruence.
  - now apply store_getAll_strictly_sorted.
  - intros r. rewrite In_store_getAll, <- (store_get_In r _ Hok), <- (Hm (WeeklyData.weekId r)).
    split.
    + intros Hin.
      apply (Permutation_in _ (Permutation_sym (js_sort_Permutation _ _))) in Hin.
      destruct (Hvalue r Hin) as (Hy & Hw & Hget). rewrite Hy.
      split; [assumption|]. unfold key_le. simpl. lia.
    + intros (Hget & Hs & He).
      apply (Permutation_in _ (js_sort_Permutation _ _)).
      assert (Hy : WeekIdentifier.year (WeeklyData.weekId r) = year).
      { unfold key_le in Hs, He. simpl in Hs, He. lia. }
      rewrite Hy in Hget. apply obj_get_In in Hget.
      apply in_map_iff. now exists (WeekIdentifier.week (WeeklyData.weekId r), r).
Qed.

(** X5. The two layers answer ranges alike. When the file-system layer
    holds the records of the primary layer and keeps its directory in
    order (as two layers that start empty do), then after any history of
    [delete]s and of [save]s on valid week identifiers given to both,
    [getRange] on bounds in order resolves to the same sequence of records
    in both layers, and so does [getByYear] for every year. *)
Theorem layers_answer_ranges_alike :
  forall (files : FileSystemLayer.t) handle (database : IndexedDBLayer.t)
         (history : list Write),
    FileSystemLayer.ready files handle -> journals_in_order files ->
    IndexedDBLayer.opens database ->
    IndexedDBLayer.store_ok (IndexedDBLayer.records database) ->
    mirrors files database ->
    Forall valid_write history ->
    let files' := replay history files in
    let database' := replay history database in
    (forall start end_,
        key_le start end_ ->
        exists records,
          fst (FileSystemLayer.getRange start end_ files') = Ok records
          /\ fst (IndexedDBLayer.getRange start end_ database') = Ok records)
    /\ (forall year,
        exists records,
          fst (FileSystemLayer.getByYear year files') = Ok records
          /\ fst (IndexedDBLayer.getByYear year database') = Ok records).
Proof.
  intros files handle database history Hready Hord Ho Hok Hm Hvalid. cbv zeta.
  destruct (in_step_replay history files handle database Hvalid Hready Hord Ho Hok Hm)
    as ([handle' Hready'] & Hord' & Ho' & Hok' & Hm').
  assert (Hread : all_readable (replay history files)) by (intros year; apply Hord').
  split.
  - intros start end_ Hle.
    rewrite (FileSystemLayer_getRange_ready start end_ _ handle' Hready')
      by (intros year _; apply Hread).
    rewrite (IndexedDBFacts.getRange_opens start end_ _ Ho').
    unfold IndexedDBLayer.IDBKeyRange_bound.
    assert (key_ltb end_ start = false) as ->.
    { destruct (key_ltb end_ start) eqn:E; [|reflexivity].
      apply key_ltb_lt in E. now apply key_lt_not_le in E. }
    cbn [fst]. eexists. split; [reflexivity|].
    now rewrite (range_contributions_store_getAll start end_ _ _ Hord' Hok' Hm').
  - intros year.
    rewrite (FileSystemLayer_getByYear_ready year _ handle' Hready' (Hread year)).
    unfold IndexedDBLayer.getByYear.
    rewrite (IndexedDBFacts.getRange_opens _ _ _ Ho').
    unfold IndexedDBLayer.IDBKeyRange_bound.
    assert (key_ltb (WeekIdentifier.mk year 53) (WeekIdentifier.mk year 1) = false) as ->
      by (unfold key_ltb, key_compare; simpl; now rewrite Z.compare_refl).
    cbn [fst]. eexists. split; [reflexivity|].
    now rewrite (year_values_store_getAll year _ _ Hord' Hok' Hm').
Qed.

Lemma layers_answer_ranges_alike_witness :
  (exists records,
      fst (FileSystemLayer.getRange (week_of 2023 40) (week_of 2024 20)
             (replay example_history empty_files)) = Ok records
      /\ fst (IndexedDBLayer.getRange (week_of 2023 40) (week_of 2024 20)
                (replay example_history empty_database)) = Ok records)
  /\ (exists records,
      fst (FileSystemLayer.getByYear 2024 (replay example_history empty_files)) = Ok records
      /\ fst (IndexedDBLayer.getByYear 2024 (replay example_history empty_database))
         = Ok records)
  /\ fst (IndexedDBLayer.getByYear 2024 (replay example_history empty_database))
     = Ok [record_2024_1; updated_record].
Proof.
  destruct (layers_answer_ranges_alike empty_files empty_directory empty_database
              example_history) as [Hrange Hyear].
  - split; [reflexivity|right; split; reflexivity].
  - exact journals_in_order_empty.
  - right. split; reflexivity.
  - constructor.
  - exact mirrors_empty.
  - repeat constructor; simpl; lia.
  - split; [apply Hrange; left; simpl; lia|]. split; [apply Hyear|reflexivity].
Defined.

(** ** Clearing the directory *)

Lemma dir_remove_In fileName es p :
  In p (dir_remove fileName es) <-> In p es /\ fst p <> fileName.
Proof.
  unfold dir_remove. rewrite filter_In, negb_true_iff.
  split; intros [Hin Hne]; (split; [assumption|]).
  - intros E. rewrite E, String.eqb_refl in Hne. discriminate.
  - now apply String.eqb_neq.
Qed.

Lemma remove_all_In fileNames :
  forall es p, In p (remove_all fileNames es) <-> In p es /\ ~ In (fst p) fileNames.
Proof.
  unfold remove_all. induction fileNames as [|n ns IH]; intros es p; simpl.
  - tauto.
  - rewrite IH, dir_remove_In. intuition congruence.
Qed.

Lemma remove_all_lookup fileNames :
  forall es fileName,
    FileSystemLayer.dir_lookup fileName (remove_all fileNames es)
    = if existsb (String.eqb fileName) fileNames then None
      else FileSystemLayer.dir_lookup fileName es.
Proof.
  unfold remove_all. induction fileNames as [|n ns IH]; intros es fileName; simpl.
  - reflexivity.
  - rewrite IH. destruct (String.eqb_spec fileName n) as [->|Hne]; simpl.
    + rewrite FileSystemFacts.dir_lookup_remove. now destruct (existsb _ ns).
    + now rewrite FileSystemFacts.dir_lookup_remove_other.
Qed.

Lemma dir_remove_absent fileName es :
  FileSystemLayer.dir_lookup fileName es = None -> dir_remove fileName es = es.
Proof.
  unfold FileSystemLayer.dir_lookup, dir_remove. induction es as [|[n e] es IH]; simpl.
  - reflexivity.
  - destruct (String.eqb n fileName); simpl; [discriminate|].
    intros H. now rewrite IH.
Qed.

(** One removal of [clear], whose failure is ignored. *)
Lemma removeEntry_ready fileName l handle :
  FileSystemLayer.ready l handle ->
  let l' := snd (FileSystemLayer.on_directory (FileSystemLayer.removeEntry fileName) l) in
  (exists handle', FileSystemLayer.ready l' handle')
  /\ FileSystemLayer.directory l' = dir_remove fileName (FileSystemLayer.directory l).
Proof.
  intros Hready. cbv zeta.
  rewrite (FileSystemFacts.on_directory_ready _ l handle Hready). cbn [snd].
  rewrite (FileSystemFacts.ready_directory l handle Hready).
  destruct Hready as [Hh Hinit].
  unfold FileSystemLayer.removeEntry, FileSystemLayer.directory.
  destruct (FileSystemLayer.dir_lookup fileName (FileSystemLayer.entries handle)) eqn:Hl;
    cbn [snd FileSystemLayer.directoryHandle FileSystemLayer.set_directoryHandle
         FileSystemLayer.entries FileSystemLayer.set_entries].
  - split; [|reflexivity]. eexists. split; [reflexivity|exact Hinit].
  - split; [|now rewrite dir_remove_absent]. exists handle. split; [reflexivity|exact Hinit].
Qed.

Lemma clear_loop_ready fileNames :
  forall l handle,
    FileSystemLayer.ready l handle ->
    let l' := foldl (fun l fileName =>
                       snd (FileSystemLayer.on_directory
                              (FileSystemLayer.removeEntry fileName) l))
                    l fileNames in
    (exists handle', FileSystemLayer.ready l' handle')
    /\ FileSystemLayer.directory l' = remove_all fileNames (FileSystemLayer.directory l).
Proof.
  induction fileNames as [|n ns IH]; intros l handle Hready; cbv zeta; simpl.
  - split; [now exists handle|reflexivity].
  - destruct (removeEntry_ready n l handle Hready) as [[handle' Hready'] Hdir].
    destruct (IH _ handle' Hready') as [Hex Hdir']. cbv zeta in Hdir'.
    split; [exact Hex|]. rewrite Hdir'. unfold remove_all. simpl. now rewrite Hdir.
Qed.

Lemma FileSystemLayer_clear_ready l handle :
  FileSystemLayer.ready l handle ->
  fst (FileSystemLayer.clear l) = Ok tt
  /\ (exists handle', FileSystemLayer.ready (snd (FileSystemLayer.clear l)) handle')
  /\ FileSystemLayer.directory (snd (FileSystemLayer.clear l))
     = remove_all (FileSystemLayer.filesToDelete (FileSystemLayer.directory l))
         (FileSystemLayer.directory l).
Proof.
  intros Hready. unfold FileSystemLayer.clear, bind.
  rewrite (FileSystemFacts.getDirectoryHandle_ready l handle Hready). cbn [fst snd].
  split; [reflexivity|].
  pose proof (FileSystemFacts.initialised_ready l handle Hready) as Hi.
  destruct (clear_loop_ready (FileSystemLayer.filesToDelete (FileSystemLayer.entries handle))
              _ handle Hi) as [Hex Hdir].
  split; [exact Hex|]. cbv zeta in Hdir. rewrite Hdir.
  now rewrite FileSystemFacts.directory_initialised,
    (FileSystemFacts.ready_directory l handle Hready).
Qed.

Lemma In_filesToDelete fileName es :
  In fileName (FileSystemLayer.filesToDelete es)
  <-> exists text, In (fileName, FileSystemLayer.FileEntry text) es
                   /\ is_journal_name fileName = true.
Proof.
  unfold FileSystemLayer.filesToDelete, is_journal_name. rewrite in_map_iff. split.
  - intros ([n e] & E & Hin). simpl in E. subst n.
    apply filter_In in Hin as [Hin Hj]. simpl in Hj.
    destruct e as [text|]; [|discriminate]. now exists text.
  - intros (text & Hin & Hj). exists (fileName, FileSystemLayer.FileEntry text).
    split; [reflexivity|]. apply filter_In. now split.
Qed.

Lemma In_dir_lookup fileName e es :
  List.NoDup (List.map fst es) -> In (fileName, e) es ->
  FileSystemLayer.dir_lookup fileName es = Some e.
Proof.
  unfold FileSystemLayer.dir_lookup.
  induction es as [|[n e'] es IH]; intros Hn Hin; [destruct Hin|].
  simpl in Hn. apply List.NoDup_cons_iff in Hn as [Hnot Hn]. simpl.
  destruct Hin as [[= -> ->]|Hin].
  - now rewrite String.eqb_refl.
  - destruct (String.eqb_spec n fileName) as [->|Hne]; [|now apply IH].
    exfalso. apply Hnot. apply in_map_iff. now exists (fileName, e).
Qed.

Lemma existsb_eqb_In fileName fileNames :
  existsb (String.eqb fileName) fileNames = true <-> In fileName fileNames.
Proof.
  rewrite existsb_exists. split.
  - intros (n & Hin & E). apply String.eqb_eq in E. now subst.
  - intros Hin. exists fileName. split; [assumption|apply String.eqb_refl].
Qed.

(** The loop of [getRange] passes over the entries that are not journal
    files. *)
Lemma getRange_loop_skips start end_ values :
  (forall fileName text,
      In (fileName, FileSystemLayer.FileEntry text) values ->
      is_journal_name fileName = false) ->
  forall results l,
    FileSystemLayer.getRange_loop start end_ values results l = (Ok results, l).
Proof.
  induction values as [|[n e] values IH]; intros Hskip results l; simpl; [reflexivity|].
  assert (IH' : FileSystemLayer.getRange_loop start end_ values results l = (Ok results, l)).
  { apply IH. intros fileName text Hin. apply (Hskip fileName text). now right. }
  destruct e as [text|]; simpl; [|exact IH'].
  specialize (Hskip n text (or_introl eq_refl)). unfold is_journal_name in Hskip.
  destruct (FileSystemLayer.endsWith n ".json"); simpl in *; [|exact IH'].
  destruct (FileSystemLayer.parseFileName n) as [year|]; [|exact IH'].
  apply negb_false_iff in Hskip. rewrite Hskip. simpl. exact IH'.
Qed.

(** X6. [clear] on the file-system layer removes the journal files and
    nothing else. It resolves; of the entries of the directory, it removes
    those that are files named work-journal-DDDD.json with four digits that
    are not all zeros, and leaves every other file and every folder in
    place. Afterwards [getRange] resolves to the empty sequence, whatever
    the bounds, and [get] to no record for every year of four digits from
    1000 on. *)
Theorem FileSystemLayer_clear_removes_journals :
  forall (l : FileSystemLayer.t) handle,
    FileSystemLayer.ready l handle ->
    List.NoDup (List.map fst (FileSystemLayer.directory l)) ->
    let l' := snd (FileSystemLayer.clear l) in
    fst (FileSystemLayer.clear l) = Ok tt
    /\ (forall fileName,
          FileSystemLayer.dir_lookup fileName (FileSystemLayer.directory l')
          = match FileSystemLayer.dir_lookup fileName (FileSystemLayer.directory l) with
            | Some (FileSystemLayer.FileEntry text) =>
                if is_journal_name fileName then None
                else Some (FileSystemLayer.FileEntry text)
            | other => other
            end)
    /\ (forall start end_, fst (FileSystemLayer.getRange start end_ l') = Ok [])
    /\ (forall weekId,
          1000 <= WeekIdentifier.year weekId <= 9999 ->
          FileSystemLayer.journal (WeekIdentifier.year weekId) l
          <> Some FileSystemLayer.DirectoryEntry ->
          fst (FileSystemLayer.get weekId l') = Ok None).
Proof.
  intros l handle Hready Hnodup. cbv zeta.
  destruct (FileSystemLayer_clear_ready l handle Hready) as (Hok & [handle' Hready'] & Hdir).
  assert (Hlookup : forall fileName,
             FileSystemLayer.dir_lookup fileName
               (FileSystemLayer.directory (snd (FileSystemLayer.clear l)))
             = match FileSystemLayer.dir_lookup fileName (FileSystemLayer.directory l) with
               | Some (FileSystemLayer.FileEntry text) =>
                   if is_journal_name fileName then None
                   else Some (FileSystemLayer.FileEntry text)
               | other => other
               end).
  { intros fileName. rewrite Hdir, remove_all_lookup.
    destruct (existsb (String.eqb fileName)
                (FileSystemLayer.filesToDelete (FileSystemLayer.directory l))) eqn:Hex.
    - apply existsb_eqb_In, In_filesToDelete in Hex as (text & Hin & Hj).
      now rewrite (In_dir_lookup _ _ _ Hnodup Hin), Hj.
    - destruct (FileSystemLayer.dir_lookup fileName (FileSystemLayer.directory l))
        as [[text|]|] eqn:Hl; try reflexivity.
      destruct (is_journal_name fileName) eqn:Hj; [|reflexivity].
      exfalso. apply not_true_iff_false in Hex. apply Hex.
      apply existsb_eqb_In, In_filesToDelete. exists text.
      split; [now apply dir_lookup_In|assumption]. }
  split; [exact Hok|]. split; [exact Hlookup|]. split.
  - intros start end_. unfold FileSystemLayer.getRange, bind.
    rewrite (FileSystemFacts.getDirectoryHandle_ready _ handle' Hready').
    rewrite getRange_loop_skips; [reflexivity|].
    intros fileName text Hin.
    rewrite <- (FileSystemFacts.ready_directory _ handle' Hready'), Hdir in Hin.
    apply remove_all_In in Hin as [Hin Hnot]. simpl in Hnot.
    destruct (is_journal_name fileName) eqn:Hj; [|reflexivity].
    exfalso. apply Hnot, In_filesToDelete. now exists text.
  - intros weekId Hyear Hnotdir.
    rewrite (FileSystemLayer_get_journal weekId _ handle' Hready').
    unfold FileSystemLayer.journal in *. rewrite Hlookup.
    assert (Hj : is_journal_name
                   (FileSystemLayer.getFileName (WeekIdentifier.year weekId)) = true).
    { unfold is_journal_name. destruct (parseFileName_getFileName _ Hyear) as [-> ->].
      simpl. apply negb_true_iff, Z.eqb_neq. lia. }
    rewrite Hj.
    destruct (FileSystemLayer.dir_lookup
                (FileSystemLayer.getFileName (WeekIdentifier.year weekId))
                (FileSystemLayer.directory l)) as [[text|]|]; try reflexivity.
    now contradiction Hnotdir.
Qed.

Lemma FileSystemLayer_clear_removes_journals_witness :
  let l' := snd (FileSystemLayer.clear (layer_on mixed_directory)) in
  fst (FileSystemLayer.clear (layer_on mixed_directory)) = Ok tt
  /\ List.map fst (FileSystemLayer.directory l')
     = ["notes.txt"; "work-journal-999.json"; "archive"]
  /\ fst (FileSystemLayer.getRange (week_of 999 1) (week_of 2024 53) l') = Ok []
  /\ fst (FileSystemLayer.get (week_of 2024 15) l') = Ok None
  /\ fst (FileSystemLayer.get (week_of 2024 15) (layer_on mixed_directory))
     = Ok (Some created_record).
Proof.
  destruct (FileSystemLayer_clear_removes_journals (layer_on mixed_directory) mixed_directory)
    as (Hok & _ & Hrange & Hget).
  - split; [reflexivity|right; split; reflexivity].
  - repeat constructor; simpl; intuition discriminate.
  - cbv zeta. split; [exact Hok|]. split; [reflexivity|].
    split; [apply Hrange|]. split; [|reflexivity].
    apply Hget; [simpl; lia|discriminate].
Defined.
(** ** The secondary layer: an initialisation that fails *)





(** X8. The directory is asked for once, as long as the grant stands.
    When a layer without a handle finds no usable stored handle, shows the
    directory picker and initialises on the directory the user picks, it
    stores the handle. A layer created later without a handle asks the
    stored handle for its permission again: if the handle answers
    [granted], at once or on request, the layer initialises on that same
    directory, whatever the picker would answer then; if not (the request
    is refused, or a permission call rejects), [init] turns to the picker
    and ends as on a layer for which no handle is stored. *)
Theorem FileSystemLayer_directory_is_remembered :
  forall (l : FileSystemLayer.t) (handle : FileSystemLayer.FileSystemDirectoryHandle),
    FileSystemLayer.directoryHandle l = None ->
    FileSystemLayer.initPromise l = None ->
    fst (FileSystemLayer.loadDirectoryHandle l) = None ->
    FileSystemLayer.showDirectoryPicker l = Ok handle ->
    fst (FileSystemLayer.init l) = Ok tt ->
    let l1 := snd (FileSystemLayer.init l) in
    (exists chosen,
        FileSystemLayer.ready l1 chosen
        /\ FileSystemLayer.handle_id chosen = FileSystemLayer.handle_id handle
        /\ FileSystemLayer.entries chosen = FileSystemLayer.entries handle)
    /\ FileSystemLayer.storedHandle l1 = Some handle
    /\ (forall picker query request,
          let l2 := FileSystemLayer.new None
                      (option_map (FileSystemLayer.asked_again query request)
                                  (FileSystemLayer.storedHandle l1))
                      picker in
          (grant_stands query request ->
           fst (FileSystemLayer.init l2) = Ok tt
           /\ exists chosen,
                FileSystemLayer.ready (snd (FileSystemLayer.init l2)) chosen
                /\ FileSystemLayer.handle_id chosen = FileSystemLayer.handle_id handle
                /\ FileSystemLayer.entries chosen = FileSystemLayer.entries handle)
          /\ (~ grant_stands query request ->
              fst (FileSystemLayer.init l2)
              = fst (FileSystemLayer.init (FileSystemLayer.new None None picker)))).
Proof.
  intros [dh ip sh pk] [id es q r]. simpl. intros -> -> Hload -> Hinit.
  assert (Hstored : FileSystemLayer.storedHandle
                      (snd (FileSystemLayer.init
                              (FileSystemLayer.mk None None sh
                                 (Ok (FileSystemLayer.handleObject id es q r)))))
                    = Some (FileSystemLayer.handleObject id es q r)
                    /\ exists chosen,
                         FileSystemLayer.ready
                           (snd (FileSystemLayer.init
                                   (FileSystemLayer.mk None None sh
                                      (Ok (FileSystemLayer.handleObject id es q r)))))
                           chosen
                         /\ FileSystemLayer.handle_id chosen = id
                         /\ FileSystemLayer.entries chosen = es).
  { revert Hload Hinit.
    unfold FileSystemLayer.init, FileSystemLayer.loadDirectoryHandle, FileSystemLayer.ready,
      try_catch, bind, settled, ret, throw, FileSystemLayer.clearDirectoryHandle,
      FileSystemLayer.saveDirectoryHandle.
    destruct sh as [[id' es' [[]|e1] [[]|e2]]|]; simpl; try discriminate; intros _;
      destruct q as [[]|eq]; destruct r as [[]|er]; simpl; try discriminate; intros _;
      (split; [reflexivity|]);
      eexists; (split; [split; [reflexivity|left; reflexivity]|split; reflexivity]). }
  destruct Hstored as [Hstored Hready]. cbv zeta.
  split; [exact Hready|]. split; [exact Hstored|].
  intros picker query request. rewrite Hstored. cbn [option_map].
  unfold FileSystemLayer.asked_again, FileSystemLayer.new.
  cbn [FileSystemLayer.handle_id FileSystemLayer.entries]. split.
  - unfold grant_stands. intros Hgrant.
    unfold FileSystemLayer.init, FileSystemLayer.loadDirectoryHandle, FileSystemLayer.ready,
      try_catch, bind, settled, ret, throw, FileSystemLayer.clearDirectoryHandle.
    destruct query as [[]|eq']; try contradiction; try subst request; simpl;
      (split; [reflexivity|]);
      eexists; (split; [split; [reflexivity|left; reflexivity]|split; reflexivity]).
  - unfold grant_stands. intros Hlapsed.
    unfold FileSystemLayer.init, FileSystemLayer.loadDirectoryHandle,
      try_catch, bind, settled, ret, throw, FileSystemLayer.clearDirectoryHandle,
      FileSystemLayer.saveDirectoryHandle.
    destruct query as [[]|eq']; try (now contradiction Hlapsed);
      destruct request as [[]|er']; try (now contradiction Hlapsed); simpl;
      destruct picker as [[id2 es2 [[]|q2] [[]|r2]]|ep]; reflexivity.
Qed.

(** The picked directory is found again while its grant stands, and the
    picker is shown again when the grant has lapsed and the user refuses. *)
Lemma FileSystemLayer_directory_is_remembered_witness :
  let l1 := snd (FileSystemLayer.init layer_with_picker) in
  let l2 :=
    FileSystemLayer.new None
      (option_map (FileSystemLayer.asked_again (Ok FileSystemLayer.granted)
                                               (Ok FileSystemLayer.granted))
                  (FileSystemLayer.storedHandle l1))
      (Err picker_aborted) in
  let l3 :=
    FileSystemLayer.new None
      (option_map (FileSystemLayer.asked_again (Ok FileSystemLayer.prompt)
                                               (Ok FileSystemLayer.denied))
                  (FileSystemLayer.storedHandle l1))
      (Err picker_aborted) in
  FileSystemLayer.storedHandle l1 = Some picked_directory
  /\ fst (FileSystemLayer.init l2) = Ok tt
  /\ (exists chosen,
         FileSystemLayer.ready (snd (FileSystemLayer.init l2)) chosen
         /\ FileSystemLayer.handle_id chosen = 3%nat
         /\ FileSystemLayer.entries chosen = [])
  /\ fst (FileSystemLayer.init l3)
     = Err (Error "Failed to get directory access: AbortError: The user aborted a request.").
Proof.
  destruct (FileSystemLayer_directory_is_remembered layer_with_picker picked_directory
              eq_refl eq_refl eq_refl eq_refl eq_refl) as (_ & Hstored & Hnext).
  destruct (Hnext (Err picker_aborted) (Ok FileSystemLayer.granted)
              (Ok FileSystemLayer.granted)) as [Hstands _].
  destruct (Hnext (Err picker_aborted) (Ok FileSystemLayer.prompt)
              (Ok FileSystemLayer.denied)) as [_ Hlapsed].
  cbv zeta. split; [exact Hstored|].
  destruct (Hstands I) as [Hok Hchosen]. split; [exact Hok|]. split; [exact Hchosen|].
  rewrite Hlapsed; [reflexivity|]. simpl. discriminate.
Defined.

(** ** The repository when the primary layer answers *)

(** X9. While the primary layer answers, the repository reads from it
    alone. When the call on the primary layer resolves, every read of the
    repository ([get], [getRange], [getByYear], [getWeeksWithData])
    resolves to that very answer, be it absent or empty; no secondary layer
    is called and nothing is written to the console. Only [get] with a sync
    coordinator leaves something behind: the synchronisation of the item,
    started and not awaited. *)
Theorem primary_answers_reads :
  forall (r : LayeredRepository.t),
    (forall weekId result,
        fst (Layer.get weekId (LayeredRepository.primaryLayer r)) = Ok result ->
        let r' := snd (LayeredRepository.get weekId r) in
        fst (LayeredRepository.get weekId r) = Ok result
        /\ LayeredRepository.secondaryLayers r' = LayeredRepository.secondaryLayers r
        /\ LayeredRepository.console r' = LayeredRepository.console r
        /\ LayeredRepository.background r'
           = (LayeredRepository.background r
              ++ match LayeredRepository.syncCoordinator r with
                 | Some _ => [LayeredRepository.SyncItem weekId]
                 | None => []
                 end)%list)
    /\ (forall start end_ result,
        fst (Layer.getRange start end_ (LayeredRepository.primaryLayer r)) = Ok result ->
        let r' := snd (LayeredRepository.getRange start end_ r) in
        fst (LayeredRepository.getRange start end_ r) = Ok result
        /\ LayeredRepository.secondaryLayers r' = LayeredRepository.secondaryLayers r
        /\ LayeredRepository.console r' = LayeredRepository.console r
        /\ LayeredRepository.background r' = LayeredRepository.background r)
    /\ (forall year result,
        fst (Layer.getByYear year (LayeredRepository.primaryLayer r)) = Ok result ->
        let r' := snd (LayeredRepository.getByYear year r) in
        fst (LayeredRepository.getByYear year r) = Ok result
        /\ LayeredRepository.secondaryLayers r' = LayeredRepository.secondaryLayers r
        /\ LayeredRepository.console r' = LayeredRepository.console r
        /\ LayeredRepository.background r' = LayeredRepository.background r)
    /\ (forall year result,
        fst (Layer.getWeeksWithData year (LayeredRepository.primaryLayer r)) = Ok result ->
        let r' := snd (LayeredRepository.getWeeksWithData year r) in
        fst (LayeredRepository.getWeeksWithData year r) = Ok result
        /\ LayeredRepository.secondaryLayers r' = LayeredRepository.secondaryLayers r
        /\ LayeredRepository.console r' = LayeredRepository.console r
        /\ LayeredRepository.background r' = LayeredRepository.background r).
Proof.
  intros r. split; [|split; [|split]].
  - intros weekId result Hp. cbv zeta.
    unfold LayeredRepository.get, try_catch, bind, LayeredRepository.on_primary.
    destruct (Layer.get weekId (LayeredRepository.primaryLayer r)) as [[res|e] p];
      simpl in Hp; [|discriminate]. injection Hp as ->. simpl.
    destruct (LayeredRepository.syncCoordinator r); simpl;
      rewrite ?app_nil_r; repeat split; reflexivity.
  - intros start end_ result Hp. cbv zeta.
    unfold LayeredRepository.getRange, try_catch, LayeredRepository.on_primary.
    destruct (Layer.getRange start end_ (LayeredRepository.primaryLayer r)) as [[res|e] p];
      simpl in Hp; [|discriminate]. injection Hp as ->. simpl. repeat split; reflexivity.
  - intros year result Hp. cbv zeta.
    unfold LayeredRepository.getByYear, try_catch, LayeredRepository.on_primary.
    destruct (Layer.getByYear year (LayeredRepository.primaryLayer r)) as [[res|e] p];
      simpl in Hp; [|discriminate]. injection Hp as ->. simpl. repeat split; reflexivity.
  - intros year result Hp. cbv zeta.
    unfold LayeredRepository.getWeeksWithData, try_catch, LayeredRepository.on_primary.
    destruct (Layer.getWeeksWithData year (LayeredRepository.primaryLayer r)) as [[res|e] p];
      simpl in Hp; [|discriminate]. injection Hp as ->. simpl. repeat split; reflexivity.
Qed.

(** A primary layer without the record and a secondary layer that has
    it: the repository answers that there is none, and leaves the secondary
    layer alone. *)
Lemma primary_answers_reads_witness :
  let r := repository_of (Layer.object emptyPrimaryLayer) [Layer.object secondaryLayer]
             false true in
  let r' := snd (LayeredRepository.get (week_of 2024 1) r) in
  fst (LayeredRepository.get (week_of 2024 1) r) = Ok None
  /\ LayeredRepository.secondaryLayers r' = [Layer.object secondaryLayer]
  /\ LayeredRepository.console r' = []
  /\ LayeredRepository.background r' = [].
Proof.
  destruct (primary_answers_reads
              (repository_of (Layer.object emptyPrimaryLayer) [Layer.object secondaryLayer]
                 false true)) as (Hget & _).
  apply (Hget (week_of 2024 1) None). reflexivity.
Defined.

(** ** The repository when the primary layer refuses a write *)

(** X10. A write that the primary layer refuses goes nowhere else. When
    [save] or [delete] fails on the primary layer, the repository rejects
    with the error of the primary layer; no secondary layer is called,
    nothing is started in the background and nothing is written to the
    console, whichever way writes are synchronised. *)
Theorem primary_write_failure_stops :
  forall (r : LayeredRepository.t) (error : JsError),
    (forall input,
        fst (Layer.save input (LayeredRepository.primaryLayer r)) = Err error ->
        LayeredRepository.save input r
        = (Err error,
           LayeredRepository.set_primaryLayer
             (snd (Layer.save input (LayeredRepository.primaryLayer r))) r))
    /\ (forall weekId,
        fst (Layer.delete weekId (LayeredRepository.primaryLayer r)) = Err error ->
        LayeredRepository.delete weekId r
        = (Err error,
           LayeredRepository.set_primaryLayer
             (snd (Layer.delete weekId (LayeredRepository.primaryLayer r))) r)).
Proof.
  intros r error. split.
  - intros input Hp. unfold LayeredRepository.save, bind, LayeredRepository.on_primary.
    destruct (Layer.save input (LayeredRepository.primaryLayer r)) as [[res|e] p];
      simpl in Hp; [discriminate|]. now injection Hp as ->.
  - intros weekId Hp. unfold LayeredRepository.delete, bind, LayeredRepository.on_primary.
    destruct (Layer.delete weekId (LayeredRepository.primaryLayer r)) as [[res|e] p];
      simpl in Hp; [discriminate|]. now injection Hp as ->.
Qed.

Lemma primary_write_failure_stops_witness :
  let r := repository_of (Layer.object failingPrimaryLayer) [Layer.object secondaryLayer]
             true true in
  fst (LayeredRepository.save create_input r) = Err primary_failed
  /\ LayeredRepository.secondaryLayers (snd (LayeredRepository.save create_input r))
     = [Layer.object secondaryLayer]
  /\ LayeredRepository.background (snd (LayeredRepository.save create_input r)) = []
  /\ fst (LayeredRepository.delete (week_of 2024 15) r) = Err primary_failed.
Proof.
  destruct (primary_write_failure_stops
              (repository_of (Layer.object failingPrimaryLayer) [Layer.object secondaryLayer]
                 true true) primary_failed) as [Hsave Hdelete].
  cbv zeta. rewrite (Hsave create_input eq_refl), (Hdelete (week_of 2024 15) eq_refl).
  repeat split; reflexivity.
Defined.

(** ** The record found by the fallback is written back *)

Lemma fallbackGet_loop_primary weekId layers :
  forall r,
    let out := LayeredRepository.fallbackGet_loop weekId layers r in
    (forall result,
        fst out = Ok (Some result) ->
        let cached := Layer.save (LayeredRepository.input_of result)
                        (LayeredRepository.primaryLayer r) in
        LayeredRepository.primaryLayer (snd out) = snd cached
        /\ (forall cacheErr,
              fst cached = Err cacheErr ->
              In ("Failed to cache fallback data in primary layer: "
                  +:+ error_to_string cacheErr)
                 (LayeredRepository.console (snd out))))
    /\ (fst out = Ok None ->
        LayeredRepository.primaryLayer (snd out) = LayeredRepository.primaryLayer r).
Proof.
  induction layers as [|[i layer] layers IH]; intros r; cbv zeta.
  - simpl. split; [intros result [=]|reflexivity].
  - simpl. unfold bind at 1.
    unfold LayeredRepository.fallbackGet_turn, try_catch, bind,
      LayeredRepository.on_secondary, LayeredRepository.on_primary.
    destruct (Layer.get weekId layer) as [[[found|]|e] layer'].
    + cbn [LayeredRepository.primaryLayer LayeredRepository.set_secondaryLayers].
      destruct (Layer.save (LayeredRepository.input_of found)
                  (LayeredRepository.primaryLayer r)) as [[saved|cacheErr] primary'] eqn:Hsave;
        simpl; (split; [|intros [=]]); intros result [= <-]; rewrite Hsave; simpl;
        (split; [reflexivity|]); intros cacheErr' [=].
      subst. apply in_or_app. right. now left.
    + apply (IH (LayeredRepository.set_secondaryLayers _ r)).
    + apply (IH (LayeredRepository.console_warn _ (LayeredRepository.set_secondaryLayers _ r))).
Qed.

(** X11. What the fallback of [get] finds is written back to the primary
    layer. When [get] fails on the primary layer and the fallback is
    enabled, the repository resolves; if it resolves to a record, found in a
    secondary layer, it has called [save] on the primary layer with the four
    fields of that record, and a failure of that [save] is written to the
    console and changes nothing of the answer; if it resolves to no record,
    it has not written to the primary layer. *)
Theorem fallback_get_caches_in_primary :
  forall (r : LayeredRepository.t) (weekId : WeekIdentifier.t) (error : JsError),
    fst (Layer.get weekId (LayeredRepository.primaryLayer r)) = Err error ->
    LayeredRepository.fallbackOnError r = true ->
    let primary' := snd (Layer.get weekId (LayeredRepository.primaryLayer r)) in
    let r' := snd (LayeredRepository.get weekId r) in
    (exists answer, fst (LayeredRepository.get weekId r) = Ok answer)
    /\ (forall result,
          fst (LayeredRepository.get weekId r) = Ok (Some result) ->
          let cached := Layer.save (LayeredRepository.input_of result) primary' in
          LayeredRepository.primaryLayer r' = snd cached
          /\ (forall cacheErr,
                fst cached = Err cacheErr ->
                In ("Failed to cache fallback data in primary layer: "
                    +:+ error_to_string cacheErr)
                   (LayeredRepository.console r')))
    /\ (fst (LayeredRepository.get weekId r) = Ok None ->
        LayeredRepository.primaryLayer r' = primary').
Proof.
  intros r weekId error Hp Hfb. cbv zeta.
  pose proof (get_primary_fails weekId r error Hp) as Hget. rewrite Hfb in Hget.
  split; [eauto|].
  unfold LayeredRepository.get, try_catch, bind, LayeredRepository.on_primary in *.
  destruct (Layer.get weekId (LayeredRepository.primaryLayer r)) as [[res|e] p];
    simpl in Hp; [discriminate|]. cbn [snd].
  assert (LayeredRepository.fallbackOnError (LayeredRepository.set_primaryLayer p r) = true)
    as -> by exact Hfb.
  unfold LayeredRepository.fallbackGet.
  apply (fallbackGet_loop_primary weekId _ (LayeredRepository.set_primaryLayer p r)).
Qed.

(** The record is found in the secondary layer and saved in the primary
    layer, which cannot read and accepts writes. *)
Lemma fallback_get_caches_in_primary_witness :
  let r := repository_of (Layer.object unreadablePrimaryLayer) [Layer.object secondaryLayer]
             false true in
  fst (LayeredRepository.get (week_of 2024 1) r) = Ok (Some record_from_secondary)
  /\ LayeredRepository.primaryLayer (snd (LayeredRepository.get (week_of 2024 1) r))
     = Layer.object
         (MockLayer.called
            (MockLayer.CallSave (LayeredRepository.input_of record_from_secondary))
            (MockLayer.called (MockLayer.CallGet (week_of 2024 1)) unreadablePrimaryLayer)).
Proof.
  assert (Hp : fst (Layer.get (week_of 2024 1)
                      (LayeredRepository.primaryLayer
                         (repository_of (Layer.object unreadablePrimaryLayer)
                            [Layer.object secondaryLayer] false true)))
               = Err primary_failed) by reflexivity.
  destruct (fallback_get_caches_in_primary _ _ _ Hp eq_refl) as (_ & Hfound & _).
  cbv zeta. split; [reflexivity|].
  destruct (Hfound record_from_secondary eq_refl) as [Hprimary _].
  rewrite Hprimary. reflexivity.
Defined.

(** ** Writes synchronised in the background *)

(** X12. The background does what the immediate synchronisation does.
    For a repository with nothing left in the background and a write that
    the primary layer accepts: once the promise that [save] (or [delete])
    starts without [syncWritesImmediately] has settled, the primary layer,
    every secondary layer and the console are as they are when the same
    write returns with [syncWritesImmediately]. *)
Theorem background_sync_catches_up :
  forall (r : LayeredRepository.t),
    LayeredRepository.background r = [] ->
    (forall input result,
        fst (Layer.save input (LayeredRepository.primaryLayer r)) = Ok result ->
        let later :=
          LayeredRepository.settle
            (snd (LayeredRepository.save input (with_syncWritesImmediately false r))) in
        let now := snd (LayeredRepository.save input (with_syncWritesImmediately true r)) in
        LayeredRepository.primaryLayer later = LayeredRepository.primaryLayer now
        /\ LayeredRepository.secondaryLayers later = LayeredRepository.secondaryLayers now
        /\ LayeredRepository.console later = LayeredRepository.console now
        /\ LayeredRepository.background later = [])
    /\ (forall weekId,
        fst (Layer.delete weekId (LayeredRepository.primaryLayer r)) = Ok tt ->
        let later :=
          LayeredRepository.settle
            (snd (LayeredRepository.delete weekId (with_syncWritesImmediately false r))) in
        let now := snd (LayeredRepository.delete weekId (with_syncWritesImmediately true r)) in
        LayeredRepository.primaryLayer later = LayeredRepository.primaryLayer now
        /\ LayeredRepository.secondaryLayers later = LayeredRepository.secondaryLayers now
        /\ LayeredRepository.console later = LayeredRepository.console now
        /\ LayeredRepository.background later = []).
Proof.
  intros [primary secondaries coordinator resolution sync fallback console background].
  simpl. intros ->. split.
  - intros input result Hp. cbv zeta.
    unfold LayeredRepository.save, bind, LayeredRepository.on_primary,
      with_syncWritesImmediately. simpl.
    destruct (Layer.save input primary) as [[res|e] p]; simpl in Hp; [|discriminate].
    injection Hp as ->. simpl.
    unfold LayeredRepository.syncToSecondaryLayers. simpl.
    destruct secondaries as [|layer layers]; simpl; [repeat split; reflexivity|].
    unfold LayeredRepository.settle, LayeredRepository.fire. simpl.
    unfold LayeredRepository.syncToSecondaryLayers. simpl. repeat split; reflexivity.
  - intros weekId Hp. cbv zeta.
    unfold LayeredRepository.delete, bind, LayeredRepository.on_primary,
      with_syncWritesImmediately. simpl.
    destruct (Layer.delete weekId primary) as [[res|e] p]; simpl in Hp; [|discriminate].
    simpl. destruct secondaries as [|layer layers]; simpl; repeat split; reflexivity.
Qed.

(** A write on the repository whose first secondary layer fails. *)
Lemma background_sync_catches_up_witness :
  let later :=
    LayeredRepository.settle
      (snd (LayeredRepository.save create_input (repository_broken_secondary false))) in
  let now := snd (LayeredRepository.save create_input (repository_broken_secondary true)) in
  LayeredRepository.primaryLayer later = LayeredRepository.primaryLayer now
  /\ LayeredRepository.secondaryLayers later = LayeredRepository.secondaryLayers now
  /\ LayeredRepository.console later = LayeredRepository.console now
  /\ LayeredRepository.background later = []
  /\ LayeredRepository.background
       (snd (LayeredRepository.save create_input (repository_broken_secondary false)))
     = [LayeredRepository.SyncToSecondaryLayers created_record].
Proof.
  destruct (background_sync_catches_up (repository_broken_secondary false) eq_refl)
    as [Hsave _].
  assert (Hp : fst (Layer.save create_input
                      (LayeredRepository.primaryLayer (repository_broken_secondary false)))
               = Ok created_record) by reflexivity.
  destruct (Hsave create_input created_record Hp) as (H1 & H2 & H3 & H4).
  cbv zeta. split; [exact H1|]. split; [exact H2|]. split; [exact H3|].
  split; [exact H4|reflexivity].
Defined.

(** ** The repository on the two layers *)

Lemma Layer_save_object {L} `{IWeeklyDataLayer.t L} input (l : L) :
  Layer.save input (Layer.object l)
  = (fst (IWeeklyDataLayer.save input l), Layer.object (snd (IWeeklyDataLayer.save input l))).
Proof.
  unfold Layer.save, Layer.call, Layer.object. simpl.
  now destruct (IWeeklyDataLayer.save input l).
Qed.

Lemma Layer_delete_object {L} `{IWeeklyDataLayer.t L} weekId (l : L) :
  Layer.delete weekId (Layer.object l)
  = (fst (IWeeklyDataLayer.delete weekId l),
     Layer.object (snd (IWeeklyDataLayer.delete weekId l))).
Proof.
  unfold Layer.delete, Layer.call, Layer.object. simpl.
  now destruct (IWeeklyDataLayer.delete weekId l).
Qed.

Lemma dataToSave_input_of data existing :
  dataToSave (WeeklyData.weekId data) (LayeredRepository.input_of data) existing = data.
Proof. now destruct data. Qed.

(** The secondary layer stores what the primary layer resolved as if it
    had been given the input itself, when the layers are in step. *)
Lemma FileSystemLayer_save_input_of input files handle database :
  FileSystemLayer.ready files handle -> all_readable files -> mirrors files database ->
  let data := dataToSave (SaveWeeklyDataInput.weekId input) input
                (IndexedDBLayer.store_get (SaveWeeklyDataInput.weekId input)
                   (IndexedDBLayer.records database)) in
  snd (FileSystemLayer.save (LayeredRepository.input_of data) files)
  = snd (FileSystemLayer.save input files).
Proof.
  intros Hready Hread Hm data.
  rewrite (FileSystemFacts.save_ready (LayeredRepository.input_of data) files handle Hready)
    by apply Hread.
  rewrite (FileSystemFacts.save_ready input files handle Hready) by apply Hread.
  cbn [snd]. f_equal. unfold saved_directory.
  change (SaveWeeklyDataInput.weekId (LayeredRepository.input_of data))
    with (WeeklyData.weekId data).
  change (WeeklyData.weekId data) with (SaveWeeklyDataInput.weekId input).
  f_equal. f_equal. f_equal. f_equal.
  rewrite (Hm (SaveWeeklyDataInput.weekId input)).
  change (SaveWeeklyDataInput.weekId input) with (WeeklyData.weekId data) at 1.
  apply dataToSave_input_of.
Qed.

Lemma settle_at_rest r :
  LayeredRepository.background r = [] -> LayeredRepository.settle r = r.
Proof. destruct r. simpl. now intros ->. Qed.

Lemma in_step_write (w : Write) r :
  in_step r ->
  in_step (LayeredRepository.settle (repository_write w r))
  /\ (LayeredRepository.syncWritesImmediately r = true -> in_step (repository_write w r)).
Proof.
  intros (database & files & handle & Hp & Hs & Ho & Hready & Hread & Hm & Hbg).
  destruct (mirrors_write w files handle database Hready Hread Ho Hm)
    as ([handle' Hready'] & Hread' & Ho' & Hm').
  assert (Hafter : forall r',
             LayeredRepository.primaryLayer r' = Layer.object (write w database) ->
             LayeredRepository.secondaryLayers r' = [Layer.object (write w files)] ->
             LayeredRepository.background r' = [] -> in_step r').
  { intros r' H1 H2 H3. exists (write w database), (write w files), handle'.
    split; [assumption|]. split; [assumption|]. split; [assumption|].
    split; [assumption|]. split; [assumption|]. split; assumption. }
  destruct r as [primary secondaries coordinator resolution sync fallback console background].
  simpl in Hp, Hs, Hbg. subst primary secondaries background.
  destruct w as [input|weekId]; unfold repository_write, write in *.
  - unfold LayeredRepository.save, bind, LayeredRepository.on_primary.
    cbn [LayeredRepository.primaryLayer]. rewrite Layer_save_object.
    pose proof (IndexedDBFacts.save_opens input database Ho) as Hsave. cbv zeta in Hsave.
    rewrite toPlainWeekId_id in Hsave. simpl IWeeklyDataLayer.save in *.
    rewrite Hsave in *. cbn [fst snd] in *.
    pose proof (FileSystemLayer_save_input_of input files handle database Hready Hread Hm)
      as Hsync. cbv zeta in Hsync.
    unfold LayeredRepository.syncToSecondaryLayers, LayeredRepository.allSettled,
      LayeredRepository.settle, LayeredRepository.fire.
    destruct sync; simpl; rewrite ?Layer_save_object; simpl; rewrite ?Hsync.
    + split; [|intros _]; now apply Hafter.
    + split; [|discriminate]. now apply Hafter.
  - unfold LayeredRepository.delete, bind, LayeredRepository.on_primary.
    cbn [LayeredRepository.primaryLayer]. rewrite Layer_delete_object.
    simpl IWeeklyDataLayer.delete in *.
    rewrite (IndexedDBFacts.delete_opens weekId database Ho) in *. cbn [fst snd] in *.
    unfold LayeredRepository.allSettled, LayeredRepository.settle, LayeredRepository.fire.
    destruct sync; simpl; rewrite ?Layer_delete_object; simpl.
    + split; [|intros _]; now apply Hafter.
    + split; [|discriminate]. now apply Hafter.
Qed.

Lemma Layer_get_object {L} `{IWeeklyDataLayer.t L} weekId (l : L) :
  Layer.get weekId (Layer.object l)
  = (fst (IWeeklyDataLayer.get weekId l), Layer.object (snd (IWeeklyDataLayer.get weekId l))).
Proof.
  unfold Layer.get, Layer.call, Layer.object. simpl.
  now destruct (IWeeklyDataLayer.get weekId l).
Qed.

Lemma in_step_created :
  in_step repository_background /\ in_step repository_immediate.
Proof.
  split; exists empty_database, empty_files, empty_directory;
    (split; [reflexivity|]); (split; [reflexivity|]);
    (split; [right; split; reflexivity|]);
    (split; [split; [reflexivity|right; split; reflexivity]|]);
    (split; [intros year; exact I|]);
    (split; [exact mirrors_empty|reflexivity]).
Qed.

(** X13. The repository keeps its two layers in step. For the repository
    that the factory builds with file storage, once its layers hold the
    same records: after any history of [save]s and [delete]s through the
    repository, each followed by the settling of what it left in the
    background, the file-system layer is ready and still holds, week for
    week, the records of the database, so that [get] on the repository
    answers what the file-system layer holds; with [syncWritesImmediately]
    this is so as soon as a write returns. *)
Theorem repository_keeps_layers_in_step :
  forall (r : LayeredRepository.t),
    in_step r ->
    (forall history, in_step (repository_replay history r))
    /\ (forall w, LayeredRepository.syncWritesImmediately r = true ->
                  in_step (repository_write w r))
    /\ (forall weekId,
          exists files,
            LayeredRepository.secondaryLayers r = [Layer.object files]
            /\ fst (LayeredRepository.get weekId r) = fst (FileSystemLayer.get weekId files)).
Proof.
  intros r Hr. split; [|split].
  - intros history. revert r Hr. induction history as [|w history IH]; intros r Hr.
    + exact Hr.
    + apply (IH (LayeredRepository.settle (repository_write w r))).
      now apply in_step_write.
  - intros w. now apply in_step_write.
  - intros weekId.
    destruct Hr as (database & files & handle & Hp & Hs & Ho & Hready & Hread & Hm & _).
    exists files. split; [exact Hs|].
    rewrite (FileSystemFacts.get_ready weekId files handle Hready (Hread _)). cbn [fst].
    rewrite (Hm weekId).
    unfold LayeredRepository.get, try_catch, bind, LayeredRepository.on_primary.
    rewrite Hp, Layer_get_object. simpl IWeeklyDataLayer.get.
    rewrite (IndexedDBFacts.get_opens weekId database Ho). cbn [fst snd].
    now destruct (LayeredRepository.syncCoordinator _).
Qed.

Lemma repository_keeps_layers_in_step_witness :
  in_step (repository_replay example_history repository_background)
  /\ in_step (repository_write (WriteSave create_input) repository_immediate)
  /\ fst (LayeredRepository.get (week_of 2024 15)
            (repository_replay example_history repository_background))
     = Ok (Some updated_record).
Proof.
  destruct in_step_created as [Hbackground Himmediate].
  destruct (repository_keeps_layers_in_step repository_background Hbackground)
    as (Hreplay & _).
  destruct (repository_keeps_layers_in_step repository_immediate Himmediate)
    as (_ & Hwrite & _).
  split; [apply Hreplay|]. split; [now apply Hwrite|reflexivity].
Defined.

(** ** The factory *)

(** X14. The factory hands out one repository. Its methods maintain that
    the instance is the repository created for the current configuration.
    Then [getInstance] after [configure] returns the configured repository
    and creates nothing; a second [getInstance] returns the same repository
    and changes nothing; without an instance, [getInstance] creates the
    repository on IndexedDB alone, with the fallback enabled and writes
    synchronised in the background; and the repository that
    [createWithFileSystem] returns has a file-system layer. *)
Theorem factory_hands_out_one_instance :
  forall (f : RepositoryFactory.t),
    factory_invariant f ->
    (forall config, factory_invariant (RepositoryFactory.configure config f))
    /\ factory_invariant (snd (RepositoryFactory.getInstance f))
    /\ factory_invariant (RepositoryFactory.reset f)
    /\ (forall config,
          exists repository,
            RepositoryFactory.instance (RepositoryFactory.configure config f) = Some repository
            /\ RepositoryFactory.getInstance (RepositoryFactory.configure config f)
               = (repository, RepositoryFactory.configure config f))
    /\ RepositoryFactory.getInstance (snd (RepositoryFactory.getInstance f))
       = (fst (RepositoryFactory.getInstance f), snd (RepositoryFactory.getInstance f))
    /\ (RepositoryFactory.instance f = None ->
        let repository := fst (RepositoryFactory.getInstance f) in
        LayeredRepository.secondaryLayers repository = []
        /\ LayeredRepository.fallbackOnError repository = true
        /\ LayeredRepository.syncWritesImmediately repository = false)
    /\ (forall directoryHandle syncWritesImmediately fallbackOnError,
          List.length
            (LayeredRepository.secondaryLayers
               (fst (RepositoryFactory.createWithFileSystem directoryHandle
                       syncWritesImmediately fallbackOnError f))) = 1%nat).
Proof.
  intros [instance current window console]. unfold factory_invariant. simpl. intros ->.
  split; [|split; [|split; [|split; [|split; [|split]]]]].
  - intros config. unfold RepositoryFactory.configure. simpl.
    destruct current as [current|]; simpl; [|reflexivity].
    now destruct (negb _ || _).
  - unfold RepositoryFactory.getInstance. simpl. now destruct current.
  - reflexivity.
  - intros config. unfold RepositoryFactory.configure, RepositoryFactory.getInstance. simpl.
    destruct current as [current|]; simpl; [|eauto].
    destruct (negb _ || _); simpl; eauto.
  - unfold RepositoryFactory.getInstance. simpl. now destruct current.
  - destruct current; simpl; [discriminate|]. intros _. repeat split; reflexivity.
  - intros directoryHandle syncWritesImmediately fallbackOnError.
    unfold RepositoryFactory.createWithFileSystem, RepositoryFactory.configure,
      RepositoryFactory.getInstance. simpl.
    destruct current as [[enable handle sync fallback]|]; simpl; [|reflexivity].
    destruct enable; simpl; [|reflexivity].
    destruct (RepositoryFactory.handle_differs handle directoryHandle); reflexivity.
Qed.

Lemma factory_hands_out_one_instance_witness :
  factory_invariant factory_configured
  /\ (exists repository,
        RepositoryFactory.instance
          (RepositoryFactory.configure config_immediate factory_initial) = Some repository
        /\ RepositoryFactory.getInstance
             (RepositoryFactory.configure config_immediate factory_initial)
           = (repository, RepositoryFactory.configure config_immediate factory_initial))
  /\ List.length
       (LayeredRepository.secondaryLayers
          (fst (RepositoryFactory.createWithFileSystem (Some empty_directory) None None
                  factory_initial))) = 1%nat.
Proof.
  destruct (factory_hands_out_one_instance factory_initial eq_refl)
    as (Hconfigure & _ & _ & Hget & _ & _ & Hcreate).
  split; [apply Hconfigure|]. split; [apply Hget|apply Hcreate].
Defined.

(** ** The default repository *)

Lemma Layer_call_object {L A} `{IWeeklyDataLayer.t L}
    (method : forall L, IWeeklyDataLayer.t L -> Async L A) (l : L) :
  Layer.call method (Layer.object l)
  = (fst (method L _ l), Layer.object (snd (method L _ l))).
Proof.
  unfold Layer.call, Layer.object. simpl. now destruct (method L _ l).
Qed.

Lemma initDB_blocked l message :
  IndexedDBLayer.dbPromise l = None -> IndexedDBLayer.open_error l = Some message ->
  IndexedDBLayer.initDB l
  = (Err (failed_to_open message),
     IndexedDBLayer.set_dbPromise (Some (Err (failed_to_open message))) l).
Proof. intros Hp Ho. unfold IndexedDBLayer.initDB. now rewrite Hp, Ho. Qed.

Lemma by_priority_none r : LayeredRepository.secondaryLayers r = [] -> by_priority r = [].
Proof.
  intros Hs. unfold by_priority, LayeredRepository.sortedLayers. now rewrite Hs.
Qed.

(** X15. The default repository reads a database that does not open as
    an empty one. In the repository that [getInstance] creates when none is
    configured (IndexedDB alone, fallback enabled), when the database fails
    to open: [get] resolves to no record, [getRange] and [getByYear] to the
    empty sequence and [getWeeksWithData] to the empty set, while [save] and
    [delete] reject with the error of the database. When the database
    opens, [getRange] with an end key before the start key resolves to the
    empty sequence: the DataError of the layer is taken by the fallback. *)
Theorem default_repository_reads_empty :
  forall (f : RepositoryFactory.t),
    RepositoryFactory.instance f = None ->
    let repository := fst (RepositoryFactory.getInstance f) in
    (forall message,
        RepositoryFactory.indexedDB_open_error (RepositoryFactory.window f) = Some message ->
        (forall weekId, fst (LayeredRepository.get weekId repository) = Ok None)
        /\ (forall start end_, fst (LayeredRepository.getRange start end_ repository) = Ok [])
        /\ (forall year, fst (LayeredRepository.getByYear year repository) = Ok [])
        /\ (forall year, fst (LayeredRepository.getWeeksWithData year repository) = Ok ∅)
        /\ (forall input,
              fst (LayeredRepository.save input repository) = Err (failed_to_open message))
        /\ (forall weekId,
              fst (LayeredRepository.delete weekId repository)
              = Err (failed_to_open message)))
    /\ (RepositoryFactory.indexedDB_open_error (RepositoryFactory.window f) = None ->
        forall start end_,
          key_lt end_ start ->
          fst (LayeredRepository.getRange start end_ repository) = Ok []).
Proof.
  intros [instance current window console]. simpl. intros ->.
  unfold RepositoryFactory.getInstance. cbn [fst RepositoryFactory.instance
    RepositoryFactory.window].
  set (database := IndexedDBLayer.mk None (RepositoryFactory.indexedDB_open_error window)
                     (RepositoryFactory.indexedDB_records window)).
  set (repository := RepositoryFactory.createRepository window _).
  assert (Hprimary : LayeredRepository.primaryLayer repository = Layer.object database)
    by reflexivity.
  assert (Hfallback : LayeredRepository.fallbackOnError repository = true) by reflexivity.
  assert (Hnone : by_priority repository = []) by (now apply by_priority_none).
  split.
  - intros message Hmessage.
    assert (Hinit : IndexedDBLayer.initDB database
                    = (Err (failed_to_open message),
                       IndexedDBLayer.set_dbPromise (Some (Err (failed_to_open message)))
                         database))
      by (now apply initDB_blocked).
    split; [|split; [|split; [|split; [|split]]]].
    + intros weekId.
      rewrite (get_primary_fails weekId repository (failed_to_open message)),
        Hfallback, Hnone; [reflexivity|].
      rewrite Hprimary. unfold Layer.get. rewrite Layer_call_object. cbn [fst].
      simpl IWeeklyDataLayer.get.
      unfold IndexedDBLayer.get, IndexedDBLayer.executeTransaction, bind. now rewrite Hinit.
    + intros start end_.
      rewrite (getRange_primary_fails start end_ repository (failed_to_open message)),
        Hfallback, Hnone; [reflexivity|].
      rewrite Hprimary. unfold Layer.getRange. rewrite Layer_call_object. cbn [fst].
      simpl IWeeklyDataLayer.getRange.
      unfold IndexedDBLayer.getRange, bind. now rewrite Hinit.
    + intros year.
      rewrite (getByYear_primary_fails year repository (failed_to_open message)),
        Hfallback, Hnone; [reflexivity|].
      rewrite Hprimary. unfold Layer.getByYear. rewrite Layer_call_object. cbn [fst].
      simpl IWeeklyDataLayer.getByYear.
      unfold IndexedDBLayer.getByYear, IndexedDBLayer.getRange, bind. now rewrite Hinit.
    + intros year.
      rewrite (getWeeksWithData_primary_fails year repository (failed_to_open message)),
        Hfallback, Hnone; [reflexivity|].
      rewrite Hprimary. unfold Layer.getWeeksWithData. rewrite Layer_call_object. cbn [fst].
      simpl IWeeklyDataLayer.getWeeksWithData.
      unfold IndexedDBLayer.getWeeksWithData, bind. now rewrite Hinit.
    + intros input.
      unfold LayeredRepository.save, bind, LayeredRepository.on_primary.
      rewrite Hprimary, Layer_save_object. simpl IWeeklyDataLayer.save.
      unfold IndexedDBLayer.save, IndexedDBLayer.get, IndexedDBLayer.executeTransaction, bind.
      now rewrite Hinit.
    + intros weekId.
      unfold LayeredRepository.delete, bind, LayeredRepository.on_primary.
      rewrite Hprimary, Layer_delete_object. simpl IWeeklyDataLayer.delete.
      unfold IndexedDBLayer.delete, IndexedDBLayer.executeTransaction, bind.
      now rewrite Hinit.
  - intros Hopen start end_ Hlt.
    rewrite (getRange_primary_fails start end_ repository IndexedDBLayer.DataError),
      Hfallback, Hnone; [reflexivity|].
    rewrite Hprimary. unfold Layer.getRange. rewrite Layer_call_object. cbn [fst].
    simpl IWeeklyDataLayer.getRange.
    rewrite IndexedDBFacts.getRange_opens by (right; split; [reflexivity|exact Hopen]).
    unfold IndexedDBLayer.IDBKeyRange_bound.
    apply key_ltb_lt in Hlt. now rewrite Hlt.
Qed.

Lemma default_repository_reads_empty_witness :
  let blocked := fst (RepositoryFactory.getInstance factory_blocked) in
  let repository := fst (RepositoryFactory.getInstance factory_initial) in
  fst (LayeredRepository.get (week_of 2024 15) blocked) = Ok None
  /\ fst (LayeredRepository.getByYear 2024 blocked) = Ok []
  /\ fst (LayeredRepository.save create_input blocked)
     = Err (failed_to_open "The operation is insecure.")
  /\ fst (LayeredRepository.getRange (week_of 2024 10) (week_of 2024 5) repository) = Ok [].
Proof.
  destruct (default_repository_reads_empty factory_blocked eq_refl) as [Hblocked _].
  destruct (Hblocked "The operation is insecure." eq_refl)
    as (Hget & _ & Hyear & _ & Hsave & _).
  destruct (default_repository_reads_empty factory_initial eq_refl) as [_ Hopen].
  cbv zeta. split; [apply Hget|]. split; [apply Hyear|]. split; [apply Hsave|].
  apply (Hopen eq_refl). right. simpl. lia.
Defined.

(** ** Week navigation *)

Lemma getWeeksInYear_52_53 year : getWeeksInYear year = 52 \/ getWeeksInYear year = 53.
Proof. unfold getWeeksInYear. destruct (_ || _); [now right|now left]. Qed.





(** ** The quarters of the calendar *)

(** X18. The four calendar quarters divide the weeks of the year.
    [getCalendarQuarterWeekRange] fails for a quarter below 1 or above 4;
    for the quarters 1 to 4 it returns a range of weeks of the calendar of
    that year, and every week of the calendar of the year lies in the range
    of exactly one quarter. *)
Theorem calendar_quarters_divide_the_year :
  forall (year : Z),
    (forall quarter,
        quarter < 1 \/ quarter > 4 ->
        getCalendarQuarterWeekRange year quarter
        = Err (Error ("Invalid quarter: " +:+ number_to_string quarter
                      +:+ ". Must be between 1 and 4.")))
    /\ (forall quarter,
        1 <= quarter <= 4 ->
        exists range,
          getCalendarQuarterWeekRange year quarter = Ok range
          /\ WeekIdentifier.year (range_start range) = year
          /\ WeekIdentifier.year (range_end range) = year
          /\ week_exists (range_start range) /\ week_exists (range_end range))
    /\ (forall week,
        week_exists (WeekIdentifier.mk year week) ->
        exists quarter range,
          getCalendarQuarterWeekRange year quarter = Ok range
          /\ in_week_range range (WeekIdentifier.mk year week)
          /\ forall quarter' range',
               getCalendarQuarterWeekRange year quarter' = Ok range' ->
               in_week_range range' (WeekIdentifier.mk year week) ->
               quarter' = quarter).
Proof.
  intros year. pose proof (getWeeksInYear_52_53 year) as H53.
  assert (Hrange : forall quarter,
             1 <= quarter <= 4 ->
             getCalendarQuarterWeekRange year quarter
             = Ok (mkWeekRange
                     (WeekIdentifier.mk year (13 * quarter - 12))
                     (WeekIdentifier.mk year
                        (if quarter =? 4 then getWeeksInYear year else 13 * quarter)))).
  { intros quarter Hq.
    assert (quarter = 1 \/ quarter = 2 \/ quarter = 3 \/ quarter = 4) as [-> | [-> | [-> | ->]]]
      by lia; reflexivity. }
  split; [|split].
  - intros quarter Hq. unfold getCalendarQuarterWeekRange.
    assert ((quarter <? 1) || (quarter >? 4) = true) as ->; [|reflexivity].
    apply orb_true_iff. rewrite Z.gtb_ltb, !Z.ltb_lt. lia.
  - intros quarter Hq. eexists. split; [apply (Hrange quarter Hq)|].
    unfold week_exists. simpl. destruct (Z.eqb_spec quarter 4); repeat split; lia.
  - unfold week_exists, in_week_range. simpl. intros week Hweek.
    assert (Hquarter : exists quarter,
               1 <= quarter <= 4 /\ 13 * quarter - 12 <= week
               /\ week <= (if quarter =? 4 then getWeeksInYear year else 13 * quarter)).
    { destruct (Z.le_gt_cases week 13); [exists 1; simpl; lia|].
      destruct (Z.le_gt_cases week 26); [exists 2; simpl; lia|].
      destruct (Z.le_gt_cases week 39); [exists 3; simpl; lia|].
      exists 4. simpl. lia. }
    destruct Hquarter as (quarter & Hq & Hlo & Hhi).
    exists quarter. eexists. split; [apply (Hrange quarter Hq)|].
    split; [unfold key_le; simpl; lia|].
    intros quarter' range' Hq' [Hlo' Hhi'].
    assert (Hq4 : 1 <= quarter' <= 4).
    { unfold getCalendarQuarterWeekRange in Hq'.
      destruct ((quarter' <? 1) || (quarter' >? 4)) eqn:E; [discriminate|].
      apply orb_false_iff in E. rewrite Z.gtb_ltb, !Z.ltb_ge in E. lia. }
    rewrite (Hrange quarter' Hq4) in Hq'. injection Hq' as <-.
    unfold key_le in Hlo', Hhi'. simpl in Hlo', Hhi'.
    destruct (Z.eqb_spec quarter 4), (Z.eqb_spec quarter' 4); lia.
Qed.

Lemma calendar_quarters_divide_the_year_witness :
  (exists range,
      getCalendarQuarterWeekRange 2020 4 = Ok range
      /\ WeekIdentifier.year (range_start range) = 2020
      /\ WeekIdentifier.year (range_end range) = 2020
      /\ week_exists (range_start range) /\ week_exists (range_end range))
  /\ getCalendarQuarterWeekRange 2020 4
     = Ok (mkWeekRange (week_of 2020 40) (week_of 2020 53))
  /\ getCalendarQuarterWeekRange 2020 5
     = Err (Error "Invalid quarter: 5. Must be between 1 and 4.").
Proof.
  destruct (calendar_quarters_divide_the_year 2020) as (Herr & Hok & _).
  split; [apply Hok; lia|]. split; [reflexivity|]. apply (Herr 5). right. lia.
Defined.

(** ** The weeks of a year *)

Lemma DaysInYear_leap y :
  DayFromYear (y + 1) - DayFromYear y
  = if ((Z.rem y 4 =? 0) && negb (Z.rem y 100 =? 0)) || (Z.rem y 400 =? 0)
    then 366 else 365.
Proof.
  unfold DayFromYear.
  destruct (Z.eqb_spec (Z.rem y 4) 0) as [H4|H4];
    destruct (Z.eqb_spec (Z.rem y 100) 0) as [H100|H100];
    destruct (Z.eqb_spec (Z.rem y 400) 0) as [H400|H400]; simpl;
    Z.to_euclidean_division_equations; lia.
Qed.

(** The Thursdays of a span depend on the day of the week it starts on. *)
Lemma thursdays_mod first n : thursdays first n = thursdays (first mod 7) n.
Proof.
  unfold thursdays. f_equal. apply List.filter_ext. intros i. unfold WeekDay.
  rewrite <- !Z.add_assoc. now rewrite Z.add_mod_idemp_l.
Qed.

Lemma WeekDay_mod day : WeekDay day = WeekDay (day mod 7).
Proof. unfold WeekDay. now rewrite Z.add_mod_idemp_l. Qed.

(** The first days of the years a [Date] can hold are within the bounds of
    [TimeClip], and no other. *)
Lemma TimeClip_jan1 yr :
  TimeClip (msPerDay * DayFromYear yr)
  = if (-271820 <=? yr) && (yr <=? 275760) then Some (msPerDay * DayFromYear yr) else None.
Proof.
  unfold TimeClip, msPerDay.
  destruct (Z.leb_spec (-271820) yr) as [Hlo|Hlo];
    destruct (Z.leb_spec yr 275760) as [Hhi|Hhi]; simpl;
    destruct (Z.leb_spec (Z.abs (86400000 * DayFromYear yr)) 8640000000000000)
      as [Hin|Hout]; try reflexivity; exfalso;
    unfold DayFromYear in *; Z.to_euclidean_division_equations; lia.
Qed.

(** The years that [new Date] reads as 1900 to 1999, one by one. *)
Lemma years_0_99 :
  forallb (fun n => getWeeksInYear (Z.of_nat n)
                    =? Z.of_nat (thursdays_of_year (1900 + Z.of_nat n)))
          (seq 0 100) = true.
Proof. vm_compute. reflexivity. Qed.

(** X19. [getWeeksInYear] is the number of weeks of the ISO year, as far
    as a [Date] reaches. For a year whose first day a [Date] can hold, from
    -271820 to 275760, it returns the number of Thursdays of the calendar
    year, 52 or 53; a year from 0 to 99 is read as 1900 to 1999, and the
    answer is the number of Thursdays of that year. For every other year
    the [Date] is invalid and the answer is 52, whatever the calendar
    says. *)
Theorem getWeeksInYear_counts_thursdays :
  forall (year : Z),
    (Date_holds_jan1 year -> year < 0 \/ 99 < year ->
     getWeeksInYear year = Z.of_nat (thursdays_of_year year))
    /\ (0 <= year <= 99 ->
        getWeeksInYear year = Z.of_nat (thursdays_of_year (1900 + year)))
    /\ (~ Date_holds_jan1 year -> getWeeksInYear year = 52).
Proof.
  intros year.
  assert (Hcount : forall yr leap,
             leap = (((Z.rem yr 4 =? 0) && negb (Z.rem yr 100 =? 0)) || (Z.rem yr 400 =? 0)) ->
             (if (WeekDay (DayFromYear yr) =? 4) || (leap && (WeekDay (DayFromYear yr) =? 3))
              then 53 else 52)
             = Z.of_nat (thursdays_of_year yr)).
  { intros yr leap ->. unfold thursdays_of_year.
    rewrite DaysInYear_leap, thursdays_mod, WeekDay_mod.
    pose proof (Z.mod_pos_bound (DayFromYear yr) 7 ltac:(lia)) as Hm.
    set (m := DayFromYear yr mod 7) in *.
    assert (m = 0 \/ m = 1 \/ m = 2 \/ m = 3 \/ m = 4 \/ m = 5 \/ m = 6)
      as [-> | [-> | [-> | [-> | [-> | [-> | ->]]]]]] by lia;
      destruct (((Z.rem yr 4 =? 0) && negb (Z.rem yr 100 =? 0)) || (Z.rem yr 400 =? 0));
      vm_compute; reflexivity. }
  unfold Date_holds_jan1. split; [|split].
  - intros Hdate Hyear. unfold getWeeksInYear, Date_jan1_getDay.
    assert ((0 <=? year) && (year <=? 99) = false) as ->.
    { apply andb_false_iff. rewrite Z.leb_gt, Z.leb_gt. lia. }
    rewrite TimeClip_jan1.
    assert ((-271820 <=? year) && (year <=? 275760) = true) as ->.
    { apply andb_true_iff. rewrite !Z.leb_le. lia. }
    unfold strict_equals. now apply Hcount.
  - intros Hyear.
    pose proof years_0_99 as Hall. rewrite forallb_forall in Hall.
    specialize (Hall (Z.to_nat year)). rewrite Z2Nat.id in Hall by lia.
    apply Z.eqb_eq, Hall, in_seq. lia.
  - intros Hdate. unfold getWeeksInYear, Date_jan1_getDay.
    assert ((0 <=? year) && (year <=? 99) = false) as ->.
    { apply andb_false_iff. rewrite Z.leb_gt, Z.leb_gt. lia. }
    rewrite TimeClip_jan1.
    assert ((-271820 <=? year) && (year <=? 275760) = false) as ->.
    { apply andb_false_iff. rewrite !Z.leb_gt. lia. }
    unfold strict_equals. cbn [orb]. now rewrite andb_false_r.
Qed.

(** The year 2020 has 53 weeks and the year 2024 has 52; the year 99 is
    read as 1999; the year 275761, which has 53 Thursdays, is beyond the
    last [Date]. *)
Lemma getWeeksInYear_counts_thursdays_witness :
  getWeeksInYear 2020 = Z.of_nat (thursdays_of_year 2020)
  /\ thursdays_of_year 2020 = 53%nat
  /\ getWeeksInYear 2024 = Z.of_nat (thursdays_of_year 2024)
  /\ thursdays_of_year 2024 = 52%nat
  /\ Date_jan1_getDay 2024 = Some 1
  /\ getWeeksInYear 99 = Z.of_nat (thursdays_of_year 1999)
  /\ getWeeksInYear 275761 = 52
  /\ thursdays_of_year 275761 = 53%nat
  /\ Date_jan1_getDay 275761 = None.
Proof.
  destruct (getWeeksInYear_counts_thursdays 2020) as (H2020 & _).
  destruct (getWeeksInYear_counts_thursdays 2024) as (H2024 & _).
  destruct (getWeeksInYear_counts_thursdays 99) as (_ & H99 & _).
  destruct (getWeeksInYear_counts_thursdays 275761) as (_ & _ & Hbeyond).
  split; [apply H2020; unfold Date_holds_jan1; lia|].
  split; [reflexivity|].
  split; [apply H2024; unfold Date_holds_jan1; lia|].
  split; [reflexivity|]. split; [reflexivity|].
  split; [apply H99; lia|].
  split; [apply Hbeyond; unfold Date_holds_jan1; lia|].
  split; reflexivity.
Defined.

(** ** What a range holds *)

(** X20. [getRange] returns the records within the bounds, the bounds
    included, and no other. In both layers (the IndexedDB layer with its
    object store in key order and bounds in order, the file-system layer
    with its directory in order), a record is in the sequence [getRange]
    resolves to exactly when its key is between the start key and the end
    key, both included, and [get] on its key finds that record. *)
Theorem getRange_holds_the_records_in_bounds :
  (forall (l : IndexedDBLayer.t) (start end_ : WeekIdentifier.t),
      IndexedDBLayer.opens l ->
      IndexedDBLayer.store_ok (IndexedDBLayer.records l) ->
      key_le start end_ ->
      exists records,
        fst (IndexedDBLayer.getRange start end_ l) = Ok records
        /\ forall record,
             In record records
             <-> key_le start (WeeklyData.weekId record)
                 /\ key_le (WeeklyData.weekId record) end_
                 /\ fst (IndexedDBLayer.get (WeeklyData.weekId record) l) = Ok (Some record))
  /\ (forall (l : FileSystemLayer.t) handle (start end_ : WeekIdentifier.t),
      FileSystemLayer.ready l handle ->
      journals_in_order l ->
      exists records,
        fst (FileSystemLayer.getRange start end_ l) = Ok records
        /\ forall record,
             In record records
             <-> key_le start (WeeklyData.weekId record)
                 /\ key_le (WeeklyData.weekId record) end_
                 /\ fst (FileSystemLayer.get (WeeklyData.weekId record) l) = Ok (Some record)).
Proof.
  split.
  - intros l start end_ Ho Hok Hle.
    rewrite (IndexedDBFacts.getRange_opens start end_ l Ho).
    unfold IndexedDBLayer.IDBKeyRange_bound.
    assert (key_ltb end_ start = false) as ->.
    { destruct (key_ltb end_ start) eqn:E; [|reflexivity].
      apply key_ltb_lt in E. now apply key_lt_not_le in E. }
    cbn [fst]. eexists. split; [reflexivity|]. intros record.
    rewrite In_store_getAll, (IndexedDBFacts.get_opens _ l Ho). cbn [fst].
    rewrite <- (store_get_In record _ Hok).
    split.
    + intros (Hin & Hs & He). split; [exact Hs|]. split; [exact He|]. now rewrite Hin.
    + intros (Hs & He & [= Hin]). split; [exact Hin|]. split; assumption.
  - intros l handle start end_ Hready Hord.
    assert (Hread : all_readable l) by (intros year; apply Hord).
    rewrite (FileSystemLayer_getRange_ready start end_ l handle Hready)
      by (intros year _; apply Hread).
    cbn [fst]. eexists. split; [reflexivity|]. intros record.
    rewrite (FileSystemFacts.get_ready _ l handle Hready (Hread _)). cbn [fst].
    split.
    + intros Hin.
      apply (Permutation_in _ (Permutation_sym (js_sort_Permutation _ _))) in Hin.
      apply (In_range_contributions start end_ l record Hord) in Hin as (Hget & Hs & He).
      split; [exact Hs|]. split; [exact He|]. now rewrite Hget.
    + intros (Hs & He & [= Hget]).
      apply (Permutation_in _ (js_sort_Permutation _ _)).
      apply (In_range_contributions start end_ l record Hord).
      split; [exact Hget|]. split; assumption.
Qed.

Lemma getRange_holds_the_records_in_bounds_witness :
  (exists records,
      fst (IndexedDBLayer.getRange (week_of 2023 52) (week_of 2024 1) database_year_boundary)
      = Ok records
      /\ forall record,
           In record records
           <-> key_le (week_of 2023 52) (WeeklyData.weekId record)
               /\ key_le (WeeklyData.weekId record) (week_of 2024 1)
               /\ fst (IndexedDBLayer.get (WeeklyData.weekId record) database_year_boundary)
                  = Ok (Some record))
  /\ (exists records,
      fst (FileSystemLayer.getRange (week_of 2024 1) (week_of 2024 1)
             (replay example_history empty_files)) = Ok records
      /\ forall record,
           In record records
           <-> key_le (week_of 2024 1) (WeeklyData.weekId record)
               /\ key_le (WeeklyData.weekId record) (week_of 2024 1)
               /\ fst (FileSystemLayer.get (WeeklyData.weekId record)
                         (replay example_history empty_files)) = Ok (Some record))
  /\ fst (FileSystemLayer.getRange (week_of 2024 1) (week_of 2024 1)
            (replay example_history empty_files)) = Ok [record_2024_1].
Proof.
  destruct getRange_holds_the_records_in_bounds as [Hdb Hfs].
  split; [|split; [|reflexivity]].
  - apply (Hdb database_year_boundary).
    + left. reflexivity.
    + repeat constructor.
    + left. simpl. lia.
  - destruct (in_step_replay example_history empty_files empty_directory empty_database)
      as ([handle' Hready'] & Hord' & _).
    + repeat constructor; simpl; lia.
    + split; [reflexivity|right; split; reflexivity].
    + exact journals_in_order_empty.
    + right. split; reflexivity.
    + constructor.
    + exact mirrors_empty.
    + apply (Hfs _ handle' _ _ Hready' Hord').
Defined.

(** ** The composables *)

(** The outcome of a write on the repository is the outcome of the write
    on the primary layer, which no other step of the write touches. *)
Lemma LayeredRepository_save_primary input r :
  fst (LayeredRepository.save input r) = fst (Layer.save input (LayeredRepository.primaryLayer r))
  /\ LayeredRepository.primaryLayer (snd (LayeredRepository.save input r))
     = snd (Layer.save input (LayeredRepository.primaryLayer r)).
Proof.
  unfold LayeredRepository.save, bind, LayeredRepository.on_primary.
  destruct (Layer.save input (LayeredRepository.primaryLayer r)) as [[result|e] p];
    [|split; reflexivity].
  cbn [fst snd LayeredRepository.syncWritesImmediately LayeredRepository.set_primaryLayer
       LayeredRepository.secondaryLayers].
  unfold LayeredRepository.start, LayeredRepository.syncToSecondaryLayers,
    LayeredRepository.allSettled.
  cbn [LayeredRepository.secondaryLayers LayeredRepository.set_primaryLayer].
  destruct (LayeredRepository.syncWritesImmediately r);
    destruct (LayeredRepository.secondaryLayers r); split; reflexivity.
Qed.

Lemma LayeredRepository_delete_primary weekId r :
  fst (LayeredRepository.delete weekId r)
  = fst (Layer.delete weekId (LayeredRepository.primaryLayer r))
  /\ LayeredRepository.primaryLayer (snd (LayeredRepository.delete weekId r))
     = snd (Layer.delete weekId (LayeredRepository.primaryLayer r)).
Proof.
  unfold LayeredRepository.delete, bind, LayeredRepository.on_primary.
  destruct (Layer.delete weekId (LayeredRepository.primaryLayer r)) as [[[]|e] p];
    [|split; reflexivity].
  cbn [fst snd LayeredRepository.syncWritesImmediately LayeredRepository.set_primaryLayer
       LayeredRepository.secondaryLayers].
  unfold LayeredRepository.start, LayeredRepository.allSettled.
  destruct (LayeredRepository.syncWritesImmediately r);
    destruct (LayeredRepository.secondaryLayers r); split; reflexivity.
Qed.

Lemma LayeredRepository_get_primary weekId r result :
  fst (Layer.get weekId (LayeredRepository.primaryLayer r)) = Ok result ->
  fst (LayeredRepository.get weekId r) = Ok result
  /\ LayeredRepository.primaryLayer (snd (LayeredRepository.get weekId r))
     = snd (Layer.get weekId (LayeredRepository.primaryLayer r)).
Proof.
  intros Hp. unfold LayeredRepository.get, try_catch, bind, LayeredRepository.on_primary.
  destruct (Layer.get weekId (LayeredRepository.primaryLayer r)) as [[res|e] p];
    simpl in Hp; [|discriminate]. injection Hp as ->.
  cbn [fst snd]. destruct (LayeredRepository.syncCoordinator _); split; reflexivity.
Qed.

Lemma primaryLayer_console_warn line r :
  LayeredRepository.primaryLayer (LayeredRepository.console_warn line r)
  = LayeredRepository.primaryLayer r.
Proof. reflexivity. Qed.

(** X21. The composable [useWeeklyData] settles its flags and its error.
    Whatever the repository answers: when [loadData] settles, [isLoading]
    is false; when [save] settles, [isSaving] is false, and [isLoading] is
    false if it was before; when [remove] settles, [isLoading] is false. In
    each case [error] is null when the call resolved and holds the error
    the call rejected with otherwise; [data] is null after a [remove] that
    resolved, and is left as it was by a [loadData] or a [remove] that
    rejected. *)
Theorem useWeeklyData_settles_its_state :
  forall (s : useWeeklyData.t),
    (let out := useWeeklyData.loadData s in
     useWeeklyData.isLoading (snd out) = false
     /\ useWeeklyData.isSaving (snd out) = useWeeklyData.isSaving s
     /\ useWeeklyData.error (snd out)
        = match fst out with Ok _ => None | Err err => Some err end
     /\ (is_ok (fst out) = false -> useWeeklyData.data (snd out) = useWeeklyData.data s))
    /\ (forall updates,
          let out := useWeeklyData.save updates s in
          useWeeklyData.isSaving (snd out) = false
          /\ (useWeeklyData.isLoading s = false -> useWeeklyData.isLoading (snd out) = false)
          /\ useWeeklyData.error (snd out)
             = match fst out with Ok _ => None | Err err => Some err end)
    /\ (let out := useWeeklyData.remove s in
        useWeeklyData.isLoading (snd out) = false
        /\ useWeeklyData.isSaving (snd out) = useWeeklyData.isSaving s
        /\ useWeeklyData.error (snd out)
           = match fst out with Ok _ => None | Err err => Some err end
        /\ useWeeklyData.data (snd out)
           = match fst out with Ok _ => None | Err _ => useWeeklyData.data s end).
Proof.
  intros s.
  assert (Hload : forall s,
             let out := useWeeklyData.loadData s in
             useWeeklyData.isLoading (snd out) = false
             /\ useWeeklyData.isSaving (snd out) = useWeeklyData.isSaving s
             /\ useWeeklyData.error (snd out)
                = match fst out with Ok _ => None | Err err => Some err end
             /\ (is_ok (fst out) = false
                 -> useWeeklyData.data (snd out) = useWeeklyData.data s)).
  { clear s. intros s. cbv zeta.
    unfold useWeeklyData.loadData, finally, try_catch, bind, effect, throw,
      useWeeklyData.on_repository.
    cbn [fst snd useWeeklyData.repository useWeeklyData.set_isLoading
         useWeeklyData.set_error useWeeklyData.console_log useWeeklyData.set_repository
         useWeeklyData.weekId].
    destruct (LayeredRepository.get (useWeeklyData.weekId s) _) as [[[found|]|e] r];
      cbn; repeat split; try reflexivity; discriminate. }
  split; [apply Hload|]. split.
  - intros updates. cbv zeta.
    unfold useWeeklyData.save, finally, try_catch, bind, effect, throw,
      useWeeklyData.on_repository.
    cbn [fst snd useWeeklyData.repository useWeeklyData.set_isSaving
         useWeeklyData.set_error useWeeklyData.console_log useWeeklyData.set_repository
         useWeeklyData.weekId].
    destruct (LayeredRepository.save _ _) as [[saved|e] r]; cbn [fst snd].
    + match goal with
      | |- context [useWeeklyData.loadData ?s1] =>
          destruct (Hload s1) as (Hl & _ & He & _);
            destruct (useWeeklyData.loadData s1) as [[[]|e] s2]
      end; cbn in *; repeat split; try assumption; try reflexivity; now intros _.
    + cbn. repeat split; try reflexivity. now intros ->.
  - cbv zeta.
    unfold useWeeklyData.remove, finally, try_catch, bind, effect, throw,
      useWeeklyData.on_repository.
    cbn [fst snd useWeeklyData.repository useWeeklyData.set_isLoading
         useWeeklyData.set_error useWeeklyData.console_log useWeeklyData.set_repository
         useWeeklyData.weekId].
    destruct (LayeredRepository.delete _ _) as [[[]|e] r]; cbn; repeat split; reflexivity.
Qed.

(** A composable whose repository fails on every call of the primary
    layer and has no fallback. *)
Lemma useWeeklyData_settles_its_state_witness :
  let s := useWeeklyData.set_isLoading true
             (useWeeklyData.new (week_of 2024 15) repository_without_fallback) in
  fst (useWeeklyData.loadData s) = Err primary_failed
  /\ useWeeklyData.isLoading (snd (useWeeklyData.loadData s)) = false
  /\ useWeeklyData.error (snd (useWeeklyData.loadData s)) = Some primary_failed
  /\ fst (useWeeklyData.save update_challenges s) = Err primary_failed
  /\ useWeeklyData.isSaving (snd (useWeeklyData.save update_challenges s)) = false
  /\ useWeeklyData.error (snd (useWeeklyData.save update_challenges s)) = Some primary_failed.
Proof.
  destruct (useWeeklyData_settles_its_state
              (useWeeklyData.set_isLoading true
                 (useWeeklyData.new (week_of 2024 15) repository_without_fallback)))
    as ((Hl & _ & He & _) & Hsave & _).
  destruct (Hsave update_challenges) as (Hs & _ & Hes).
  cbv zeta. split; [reflexivity|]. split; [exact Hl|]. split; [exact He|].
  split; [reflexivity|]. split; [exact Hs|exact Hes].
Defined.

Lemma loadData_primary s database :
  LayeredRepository.primaryLayer (useWeeklyData.repository s) = Layer.object database ->
  IndexedDBLayer.opens database ->
  let s' := snd (useWeeklyData.loadData s) in
  fst (useWeeklyData.loadData s) = Ok tt
  /\ useWeeklyData.data s'
     = IndexedDBLayer.store_get (useWeeklyData.weekId s) (IndexedDBLayer.records database)
  /\ useWeeklyData.error s' = None
  /\ useWeeklyData.isLoading s' = false
  /\ useWeeklyData.isSaving s' = useWeeklyData.isSaving s
  /\ useWeeklyData.weekId s' = useWeeklyData.weekId s
  /\ LayeredRepository.primaryLayer (useWeeklyData.repository s')
     = Layer.object (opened database).
Proof.
  intros Hp Ho. cbv zeta.
  assert (Hget : fst (Layer.get (useWeeklyData.weekId s)
                        (LayeredRepository.primaryLayer (useWeeklyData.repository s)))
                 = Ok (IndexedDBLayer.store_get (useWeeklyData.weekId s)
                         (IndexedDBLayer.records database))
                 /\ snd (Layer.get (useWeeklyData.weekId s)
                           (LayeredRepository.primaryLayer (useWeeklyData.repository s)))
                    = Layer.object (opened database)).
  { rewrite Hp, Layer_get_object. simpl IWeeklyDataLayer.get.
    now rewrite (IndexedDBFacts.get_opens _ database Ho). }
  destruct Hget as [Hfst Hsnd].
  unfold useWeeklyData.loadData, finally, try_catch, bind, effect, throw,
    useWeeklyData.on_repository.
  cbn [fst snd useWeeklyData.repository useWeeklyData.set_isLoading
       useWeeklyData.set_error useWeeklyData.console_log useWeeklyData.set_repository
       useWeeklyData.weekId].
  match goal with
  | |- context [LayeredRepository.get ?k ?r] =>
      destruct (LayeredRepository_get_primary k r _ Hfst) as [Hr Hrp];
        rewrite primaryLayer_console_warn, Hsnd in Hrp;
        destruct (LayeredRepository.get k r) as [[res|e] r']
  end; simpl in Hr; [|discriminate]. injection Hr as ->. cbn [snd] in Hrp.
  destruct (IndexedDBLayer.store_get _ _); cbn; repeat split; try reflexivity; exact Hrp.
Qed.

(** X22. The composable shows what is stored. For a composable whose
    repository has an IndexedDB layer with a database that opens as its
    primary layer, whatever its secondary layers: [save] resolves and
    [data] then holds the record stored for the week, in which a field the
    updates supply has the supplied value and the other fields have the
    values stored before (the defaults, without a record); [remove]
    resolves, [data] is null, and stays null after [refresh]. *)
Theorem useWeeklyData_shows_what_is_stored :
  forall (s : useWeeklyData.t) (database : IndexedDBLayer.t),
    LayeredRepository.primaryLayer (useWeeklyData.repository s) = Layer.object database ->
    IndexedDBLayer.opens database ->
    (forall updates,
        let input := SaveWeeklyDataInput.mk (useWeeklyData.weekId s)
                       (useWeeklyData.statusIcon updates) (useWeeklyData.achievements updates)
                       (useWeeklyData.challenges updates) in
        let prior := IndexedDBLayer.store_get (useWeeklyData.weekId s)
                       (IndexedDBLayer.records database) in
        let s' := snd (useWeeklyData.save updates s) in
        fst (useWeeklyData.save updates s) = Ok tt
        /\ (exists saved,
              useWeeklyData.data s' = Some saved /\ save_contract input prior saved)
        /\ useWeeklyData.error s' = None
        /\ useWeeklyData.isSaving s' = false
        /\ useWeeklyData.isLoading s' = false)
    /\ (let s' := snd (useWeeklyData.remove s) in
        fst (useWeeklyData.remove s) = Ok tt
        /\ useWeeklyData.data s' = None
        /\ fst (useWeeklyData.refresh s') = Ok tt
        /\ useWeeklyData.data (snd (useWeeklyData.refresh s')) = None).
Proof.
  intros s database Hp Ho. split.
  - intros updates. cbv zeta.
    set (input := SaveWeeklyDataInput.mk (useWeeklyData.weekId s)
                    (useWeeklyData.statusIcon updates) (useWeeklyData.achievements updates)
                    (useWeeklyData.challenges updates)).
    set (prior := IndexedDBLayer.store_get (useWeeklyData.weekId s)
                    (IndexedDBLayer.records database)).
    pose proof (IndexedDBFacts.save_opens input database Ho) as Hsave. cbv zeta in Hsave.
    rewrite toPlainWeekId_id in Hsave. fold prior in Hsave.
    unfold useWeeklyData.save, finally, try_catch, bind, effect, throw,
      useWeeklyData.on_repository.
    cbn [fst snd useWeeklyData.repository useWeeklyData.set_isSaving
         useWeeklyData.set_error useWeeklyData.console_log useWeeklyData.set_repository
         useWeeklyData.weekId LayeredRepository.console_warn].
    fold input.
    match goal with
    | |- context [LayeredRepository.save input ?r] =>
        destruct (LayeredRepository_save_primary input r) as [Hfst Hsnd];
          rewrite primaryLayer_console_warn, Hp, Layer_save_object in Hfst, Hsnd;
          simpl IWeeklyDataLayer.save in Hfst, Hsnd; rewrite Hsave in Hfst, Hsnd;
          cbn [fst snd] in Hfst, Hsnd;
          destruct (LayeredRepository.save input r) as [[saved|e] r']
    end; simpl in Hfst; [|discriminate]. cbn [snd] in Hsnd.
    match goal with
    | |- context [useWeeklyData.loadData ?s1] =>
        destruct (loadData_primary s1 _ Hsnd) as (Hok & Hdata & Herr & Hl & Hs & Hw & _);
          [left; reflexivity|];
          destruct (useWeeklyData.loadData s1) as [[[]|e] s2]
    end; simpl in Hok; [|discriminate].
    cbn in Hdata, Herr, Hl, Hs, Hw |- *.
    split; [reflexivity|]. split; [|repeat split; assumption].
    exists (dataToSave (useWeeklyData.weekId s) input prior). split.
    + rewrite Hdata. apply (IndexedDBFacts.store_get_put
                              (dataToSave (useWeeklyData.weekId s) input prior)).
    + apply (dataToSave_contract input prior).
  - cbv zeta.
    pose proof (IndexedDBFacts.delete_opens (useWeeklyData.weekId s) database Ho) as Hdelete.
    unfold useWeeklyData.refresh.
    unfold useWeeklyData.remove, finally, try_catch, bind, effect, throw,
      useWeeklyData.on_repository.
    cbn [fst snd useWeeklyData.repository useWeeklyData.set_isLoading
         useWeeklyData.set_error useWeeklyData.console_log useWeeklyData.set_repository
         useWeeklyData.weekId LayeredRepository.console_warn].
    match goal with
    | |- context [LayeredRepository.delete ?k ?r] =>
        destruct (LayeredRepository_delete_primary k r) as [Hfst Hsnd];
          rewrite primaryLayer_console_warn, Hp, Layer_delete_object in Hfst, Hsnd;
          simpl IWeeklyDataLayer.delete in Hfst, Hsnd; rewrite Hdelete in Hfst, Hsnd;
          cbn [fst snd] in Hfst, Hsnd;
          destruct (LayeredRepository.delete k r) as [[[]|e] r']
    end; simpl in Hfst; [|discriminate]. cbn [snd] in Hsnd.
    cbn [fst snd]. split; [reflexivity|]. split; [reflexivity|].
    match goal with
    | |- context [useWeeklyData.loadData ?s1] =>
        destruct (loadData_primary s1 _ Hsnd) as (Hok & Hdata & _);
          [left; reflexivity|]
    end.
    split; [exact Hok|]. rewrite Hdata. cbn.
    apply IndexedDBFacts.store_get_delete.
Qed.

Lemma useWeeklyData_shows_what_is_stored_witness :
  fst (useWeeklyData.save update_challenges composable_2024_15) = Ok tt
  /\ useWeeklyData.data (snd (useWeeklyData.save update_challenges composable_2024_15))
     = Some updated_record
  /\ useWeeklyData.data (snd (useWeeklyData.remove composable_2024_15)) = None
  /\ (exists saved,
        useWeeklyData.data (snd (useWeeklyData.save update_challenges composable_2024_15))
        = Some saved
        /\ save_contract update_input (Some created_record) saved).
Proof.
  assert (Ho : IndexedDBLayer.opens database_2024_15) by (left; reflexivity).
  destruct (useWeeklyData_shows_what_is_stored composable_2024_15 database_2024_15
              eq_refl Ho) as [Hsave Hremove].
  destruct (Hsave update_challenges) as (Hok & Hdata & _).
  destruct Hremove as (_ & Hnone & _).
  split; [exact Hok|]. split; [reflexivity|]. split; [exact Hnone|exact Hdata].
Defined.

(** What [getRange] on the repository answers does not depend on what the
    console holds. *)
Lemma getRange_console line start end_ r :
  fst (LayeredRepository.getRange start end_ (LayeredRepository.console_warn line r))
  = fst (LayeredRepository.getRange start end_ r).
Proof.
  unfold LayeredRepository.getRange, try_catch, LayeredRepository.on_primary.
  rewrite primaryLayer_console_warn.
  destruct (Layer.getRange start end_ (LayeredRepository.primaryLayer r)) as [[res|e] p];
    [reflexivity|].
  cbn [LayeredRepository.fallbackOnError LayeredRepository.set_primaryLayer
       LayeredRepository.console_warn].
  destruct (LayeredRepository.fallbackOnError r); [|reflexivity].
  unfold LayeredRepository.fallbackGetRange.
  now rewrite !RepositoryFacts.fallback_loop_fst.
Qed.

(** X23. The composable [useWeekRangeData] loads the range or keeps what
    it had. When [loadData] settles, [isLoading] is false. If [getRange] on
    the repository resolves, [loadData] resolves, [weeks] holds the records
    [getRange] resolved to and [error] is null; if [getRange] rejects,
    [loadData] rejects with the same error, [error] holds it and [weeks]
    still holds the records loaded before. With the fallback enabled on the
    repository, [loadData] never rejects. *)
Theorem useWeekRangeData_loads_the_range :
  forall (s : useWeekRangeData.t),
    let out := useWeekRangeData.loadData s in
    useWeekRangeData.isLoading (snd out) = false
    /\ match fst (LayeredRepository.getRange (useWeekRangeData.start s)
                    (useWeekRangeData.end_ s) (useWeekRangeData.repository s)) with
       | Ok data =>
           fst out = Ok tt
           /\ useWeekRangeData.weeks (snd out) = data
           /\ useWeekRangeData.error (snd out) = None
       | Err err =>
           fst out = Err err
           /\ useWeekRangeData.weeks (snd out) = useWeekRangeData.weeks s
           /\ useWeekRangeData.error (snd out) = Some err
       end
    /\ (LayeredRepository.fallbackOnError (useWeekRangeData.repository s) = true ->
        fst out = Ok tt).
Proof.
  intros s. cbv zeta.
  assert (Hfallback :
            LayeredRepository.fallbackOnError (useWeekRangeData.repository s) = true ->
            exists data,
              fst (LayeredRepository.getRange (useWeekRangeData.start s)
                     (useWeekRangeData.end_ s) (useWeekRangeData.repository s)) = Ok data).
  { intros Hfb.
    destruct (fst (Layer.getRange (useWeekRangeData.start s) (useWeekRangeData.end_ s)
                     (LayeredRepository.primaryLayer (useWeekRangeData.repository s))))
      as [res|e] eqn:Hp.
    - unfold LayeredRepository.getRange, try_catch, LayeredRepository.on_primary.
      destruct (Layer.getRange _ _ _) as [[res'|e] p]; simpl in Hp; [|discriminate].
      now exists res'.
    - rewrite (getRange_primary_fails _ _ _ e Hp), Hfb. eauto. }
  pose proof (getRange_console
                ("[useWeekRangeData] Loading data from "
                 +:+ week_label (useWeekRangeData.start s) +:+ " to "
                 +:+ week_label (useWeekRangeData.end_ s))
                (useWeekRangeData.start s) (useWeekRangeData.end_ s)
                (useWeekRangeData.repository s)) as Hconsole.
  unfold useWeekRangeData.loadData, finally, try_catch, bind, effect, throw,
    useWeekRangeData.on_repository.
  cbn [fst snd useWeekRangeData.repository useWeekRangeData.set_isLoading
       useWeekRangeData.set_error useWeekRangeData.console_log
       useWeekRangeData.set_repository useWeekRangeData.start useWeekRangeData.end_].
  destruct (LayeredRepository.getRange _ _ (LayeredRepository.console_warn _ _))
    as [[data|e] r]; cbn [fst] in Hconsole; rewrite <- Hconsole in *; cbn.
  - repeat split; reflexivity.
  - repeat split; try reflexivity. intros Hfb. destruct (Hfallback Hfb) as [data [=]].
Qed.

(** The range view on a database that does not open, with the fallback
    and without it. *)
Lemma useWeekRangeData_loads_the_range_witness :
  let blocked := useWeekRangeData.new (week_of 2024 1) (week_of 2024 53)
                   (repository_of (Layer.object blocked_database) [] false false) in
  let loaded := useWeekRangeData.new (week_of 2024 1) (week_of 2024 53)
                  (repository_on database_2024_15) in
  fst (useWeekRangeData.loadData blocked)
  = Err (failed_to_open "The operation is insecure.")
  /\ useWeekRangeData.error (snd (useWeekRangeData.loadData blocked))
     = Some (failed_to_open "The operation is insecure.")
  /\ useWeekRangeData.isLoading (snd (useWeekRangeData.loadData loaded)) = false
  /\ useWeekRangeData.weeks (snd (useWeekRangeData.loadData loaded)) = [created_record]
  /\ fst (useWeekRangeData.loadData loaded) = Ok tt.
Proof.
  destruct (useWeekRangeData_loads_the_range
              (useWeekRangeData.new (week_of 2024 1) (week_of 2024 53)
                 (repository_of (Layer.object blocked_database) [] false false)))
    as (_ & Hblocked & _).
  destruct (useWeekRangeData_loads_the_range
              (useWeekRangeData.new (week_of 2024 1) (week_of 2024 53)
                 (repository_on database_2024_15)))
    as (Hloading & Hloaded & Hnever).
  cbv zeta. cbn in Hblocked. destruct Hblocked as (Hb1 & _ & Hb2).
  split; [exact Hb1|]. split; [exact Hb2|]. split; [exact Hloading|].
  split; [reflexivity|]. now apply Hnever.
Defined.

(** *** The delete button *)

Lemma filter_filter_andb {A} (f g : A -> bool) (l : list A) :
  List.filter g (List.filter f l) = List.filter (fun x => f x && g x) l.
Proof.
  induction l as [|x l IH]; [reflexivity|]. simpl.
  destruct (f x); simpl; [|exact IH]. destruct (g x); now rewrite IH.
Qed.

Lemma filter_all {A} (l : list A) : List.filter (fun _ => true) l = l.
Proof. induction l as [|x l IH]; [reflexivity|]. simpl. now rewrite IH. Qed.

Lemma LayeredRepository_getRange_primary start end_ r result :
  fst (Layer.getRange start end_ (LayeredRepository.primaryLayer r)) = Ok result ->
  fst (LayeredRepository.getRange start end_ r) = Ok result
  /\ LayeredRepository.primaryLayer (snd (LayeredRepository.getRange start end_ r))
     = snd (Layer.getRange start end_ (LayeredRepository.primaryLayer r)).
Proof.
  intros Hp. unfold LayeredRepository.getRange, try_catch, LayeredRepository.on_primary.
  destruct (Layer.getRange start end_ (LayeredRepository.primaryLayer r)) as [[res|e] p];
    simpl in Hp; [|discriminate]. injection Hp as ->. split; reflexivity.
Qed.

(** The loop of the range deletion on a database that opens: every
    deletion resolves, and the object store loses the records under the
    keys of the list and no other. *)
Lemma delete_loop_primary weeksToDelete :
  forall r database,
    LayeredRepository.primaryLayer r = Layer.object database ->
    IndexedDBLayer.opens database ->
    fst (NotesDeleteButton.delete_loop weeksToDelete r) = Ok tt
    /\ exists database',
         LayeredRepository.primaryLayer (snd (NotesDeleteButton.delete_loop weeksToDelete r))
         = Layer.object database'
         /\ IndexedDBLayer.opens database'
         /\ IndexedDBLayer.records database'
            = List.filter
                (fun x => negb (existsb
                                  (fun week => key_eqb (IndexedDBLayer.key_of x)
                                                 (WeeklyData.weekId week))
                                  weeksToDelete))
                (IndexedDBLayer.records database).
Proof.
  induction weeksToDelete as [|week rest IH]; intros r database Hp Ho.
  - simpl. split; [reflexivity|]. exists database.
    split; [exact Hp|]. split; [exact Ho|]. now rewrite filter_all.
  - pose proof (IndexedDBFacts.delete_opens (WeeklyData.weekId week) database Ho) as Hdelete.
    destruct (LayeredRepository_delete_primary (WeeklyData.weekId week) r) as [Hfst Hsnd].
    rewrite Hp, Layer_delete_object in Hfst, Hsnd.
    simpl IWeeklyDataLayer.delete in Hfst, Hsnd. rewrite Hdelete in Hfst, Hsnd.
    cbn [fst snd] in Hfst, Hsnd.
    cbn [NotesDeleteButton.delete_loop]. unfold bind.
    destruct (LayeredRepository.delete (WeeklyData.weekId week) r) as [[[]|e] r1];
      simpl in Hfst; [|discriminate]. cbn [snd] in Hsnd.
    destruct (IH r1 _ Hsnd) as (Hok & database' & Hp' & Ho' & Hrecords).
    { now left. }
    split; [exact Hok|]. exists database'. split; [exact Hp'|]. split; [exact Ho'|].
    rewrite Hrecords. cbn [IndexedDBLayer.records IndexedDBLayer.set_records opened
                            IndexedDBLayer.set_dbPromise].
    unfold IndexedDBLayer.store_delete. rewrite filter_filter_andb.
    apply filter_ext. intros x. cbn [existsb]. now rewrite negb_orb.
Qed.

(** Deleting the records of a range leaves the records outside of it. *)
Lemma delete_range_records start end_ rs :
  List.filter
    (fun x => negb (existsb
                      (fun week => key_eqb (IndexedDBLayer.key_of x) (WeeklyData.weekId week))
                      (IndexedDBLayer.store_getAll (IndexedDBLayer.mkRange start end_) rs)))
    rs
  = outside_range start end_ rs.
Proof.
  unfold outside_range. apply filter_ext_in. intros x Hx. f_equal.
  destruct (IndexedDBLayer.in_key_range (IndexedDBLayer.mkRange start end_)
              (IndexedDBLayer.key_of x)) eqn:E.
  - apply existsb_exists. exists x. split; [|apply key_eqb_refl].
    unfold IndexedDBLayer.store_getAll. apply filter_In. now split.
  - destruct (existsb _ _) eqn:E'; [|reflexivity].
    apply existsb_exists in E'. destruct E' as (y & Hy & Heq).
    apply key_eqb_eq in Heq. unfold IndexedDBLayer.store_getAll in Hy.
    apply filter_In in Hy. destruct Hy as [_ Hy].
    unfold IndexedDBLayer.key_of in *. rewrite <- Heq in Hy. congruence.
Qed.

Lemma store_getAll_outside_range start end_ rs :
  IndexedDBLayer.store_getAll (IndexedDBLayer.mkRange start end_) (outside_range start end_ rs)
  = [].
Proof.
  unfold IndexedDBLayer.store_getAll, outside_range. rewrite filter_filter_andb.
  induction rs as [|x rs IH]; [reflexivity|]. simpl.
  now destruct (IndexedDBLayer.in_key_range _ _).
Qed.

(** X24. What the delete button does. [handleDelete] never rejects, and
    when it settles [isDeleting] is false; either it has emitted 'delete'
    once and closed the popover, or it has emitted nothing and left the
    popover as it was. For a button of a range whose start key is not after
    its end key, on a repository whose primary layer is an IndexedDB layer
    that opens: it emits 'delete' and closes the popover; the object store
    afterwards holds the records outside the range, as they were and in
    their order, and no record of the range, so that [getRange] on the
    range resolves to the empty sequence. *)
Theorem handleDelete_empties_the_range :
  forall (s : NotesDeleteButton.t),
    let out := NotesDeleteButton.handleDelete s in
    (fst out = Ok tt
     /\ NotesDeleteButton.isDeleting (snd out) = false
     /\ ((NotesDeleteButton.emitted (snd out) = S (NotesDeleteButton.emitted s)
          /\ NotesDeleteButton.isDeletePopoverOpen (snd out) = false)
         \/ (NotesDeleteButton.emitted (snd out) = NotesDeleteButton.emitted s
             /\ NotesDeleteButton.isDeletePopoverOpen (snd out)
                = NotesDeleteButton.isDeletePopoverOpen s)))
    /\ forall database start end_,
         NotesDeleteButton.startWeek (NotesDeleteButton.props s) = Some start ->
         NotesDeleteButton.endWeek (NotesDeleteButton.props s) = Some end_ ->
         key_le start end_ ->
         LayeredRepository.primaryLayer (NotesDeleteButton.repository s)
         = Layer.object database ->
         IndexedDBLayer.opens database ->
         NotesDeleteButton.emitted (snd out) = S (NotesDeleteButton.emitted s)
         /\ NotesDeleteButton.isDeletePopoverOpen (snd out) = false
         /\ exists database',
              LayeredRepository.primaryLayer (NotesDeleteButton.repository (snd out))
              = Layer.object database'
              /\ IndexedDBLayer.records database'
                 = outside_range start end_ (IndexedDBLayer.records database)
              /\ fst (LayeredRepository.getRange start end_
                        (NotesDeleteButton.repository (snd out))) = Ok [].
Proof.
  intros s. cbv zeta. split.
  - unfold NotesDeleteButton.handleDelete, finally, try_catch, bind, effect,
      NotesDeleteButton.isRange, NotesDeleteButton.on_repository, NotesDeleteButton.remove.
    cbn [NotesDeleteButton.props NotesDeleteButton.set_isDeleting
         NotesDeleteButton.repository NotesDeleteButton.composable].
    destruct (NotesDeleteButton.startWeek (NotesDeleteButton.props s)) as [startWeek|];
      [destruct (NotesDeleteButton.endWeek (NotesDeleteButton.props s)) as [endWeek|]|].
    + destruct (LayeredRepository.getRange startWeek endWeek _) as [[weeksToDelete|e] r];
        [destruct (NotesDeleteButton.delete_loop weeksToDelete r) as [[[]|e] r']|];
        cbn; (split; [reflexivity|]); (split; [reflexivity|]);
        ((left; split; reflexivity) || (right; split; reflexivity)).
    + destruct (NotesDeleteButton.weekId (NotesDeleteButton.props s));
        [destruct (NotesDeleteButton.composable s);
         [destruct (useWeeklyData.remove _) as [[[]|e] c']|]|];
        cbn; (split; [reflexivity|]); (split; [reflexivity|]);
        ((left; split; reflexivity) || (right; split; reflexivity)).
    + destruct (NotesDeleteButton.weekId (NotesDeleteButton.props s));
        [destruct (NotesDeleteButton.composable s);
         [destruct (useWeeklyData.remove _) as [[[]|e] c']|]|];
        cbn; (split; [reflexivity|]); (split; [reflexivity|]);
        ((left; split; reflexivity) || (right; split; reflexivity)).
  - intros database start end_ Hstart Hend Hle Hp Ho.
    pose proof (IndexedDBFacts.getRange_opens start end_ database Ho) as Hrange.
    unfold IndexedDBLayer.IDBKeyRange_bound in Hrange.
    assert (key_ltb end_ start = false) as Hbound.
    { destruct (key_ltb end_ start) eqn:E; [|reflexivity].
      apply key_ltb_lt in E. now apply key_lt_not_le in E. }
    rewrite Hbound in Hrange.
    destruct (LayeredRepository_getRange_primary start end_ (NotesDeleteButton.repository s)
                (IndexedDBLayer.store_getAll (IndexedDBLayer.mkRange start end_)
                   (IndexedDBLayer.records database))) as [Hfst Hsnd].
    { rewrite Hp. unfold Layer.getRange. rewrite Layer_call_object.
      simpl IWeeklyDataLayer.getRange. now rewrite Hrange. }
    rewrite Hp in Hsnd. unfold Layer.getRange in Hsnd. rewrite Layer_call_object in Hsnd.
    simpl IWeeklyDataLayer.getRange in Hsnd. rewrite Hrange in Hsnd. cbn [snd] in Hsnd.
    unfold NotesDeleteButton.handleDelete, finally, try_catch, bind, effect,
      NotesDeleteButton.isRange, NotesDeleteButton.on_repository.
    cbn [NotesDeleteButton.props NotesDeleteButton.set_isDeleting
         NotesDeleteButton.repository].
    rewrite Hstart, Hend.
    destruct (LayeredRepository.getRange start end_ (NotesDeleteButton.repository s))
      as [[weeksToDelete|e] r1]; simpl in Hfst; [|discriminate].
    injection Hfst as ->. cbn [snd] in Hsnd.
    destruct (delete_loop_primary
                (IndexedDBLayer.store_getAll (IndexedDBLayer.mkRange start end_)
                   (IndexedDBLayer.records database)) r1 _ Hsnd)
      as (Hok & database' & Hp' & Ho' & Hrecords).
    { now left. }
    cbn [IndexedDBLayer.records opened IndexedDBLayer.set_dbPromise] in Hrecords.
    rewrite delete_range_records in Hrecords.
    destruct (NotesDeleteButton.delete_loop _ r1) as [[[]|e] r2];
      simpl in Hok; [|discriminate]. cbn [snd] in Hp'.
    cbn. split; [reflexivity|]. split; [reflexivity|].
    exists database'. split; [exact Hp'|]. split; [exact Hrecords|].
    destruct (LayeredRepository_getRange_primary start end_ r2 []) as [Hfst' _];
      [|exact Hfst'].
    rewrite Hp'. unfold Layer.getRange. rewrite Layer_call_object.
    simpl IWeeklyDataLayer.getRange.
    rewrite (IndexedDBFacts.getRange_opens start end_ database' Ho').
    unfold IndexedDBLayer.IDBKeyRange_bound. rewrite Hbound. cbn [fst].
    now rewrite Hrecords, store_getAll_outside_range.
Qed.

(** The button of the second quarter of 2024 deletes the record of week
    15; the button of the first quarter leaves it. *)
Lemma handleDelete_empties_the_range_witness :
  (exists database',
      LayeredRepository.primaryLayer
        (NotesDeleteButton.repository (snd (NotesDeleteButton.handleDelete button_2024_Q2)))
      = Layer.object database'
      /\ IndexedDBLayer.records database' = [])
  /\ (exists database',
         LayeredRepository.primaryLayer
           (NotesDeleteButton.repository (snd (NotesDeleteButton.handleDelete button_2024_Q1)))
         = Layer.object database'
         /\ IndexedDBLayer.records database' = [created_record])
  /\ NotesDeleteButton.emitted (snd (NotesDeleteButton.handleDelete button_2024_Q2)) = 1%nat.
Proof.
  assert (Ho : IndexedDBLayer.opens database_2024_15) by (left; reflexivity).
  assert (Hq2 : key_le (week_of 2024 14) (week_of 2024 26)) by (unfold key_le; simpl; lia).
  assert (Hq1 : key_le (week_of 2024 1) (week_of 2024 13)) by (unfold key_le; simpl; lia).
  assert (Hp2 : LayeredRepository.primaryLayer (NotesDeleteButton.repository button_2024_Q2)
                = Layer.object database_2024_15) by reflexivity.
  assert (Hp1 : LayeredRepository.primaryLayer (NotesDeleteButton.repository button_2024_Q1)
                = Layer.object database_2024_15) by reflexivity.
  destruct (handleDelete_empties_the_range button_2024_Q2) as [_ H2].
  destruct (H2 database_2024_15 (week_of 2024 14) (week_of 2024 26)
              eq_refl eq_refl Hq2 Hp2 Ho) as (Hemitted & _ & d2 & Hd2 & Hr2 & _).
  destruct (handleDelete_empties_the_range button_2024_Q1) as [_ H1].
  destruct (H1 database_2024_15 (week_of 2024 1) (week_of 2024 13)
              eq_refl eq_refl Hq1 Hp1 Ho) as (_ & _ & d1 & Hd1 & Hr1 & _).
  split; [exists d2; split; [exact Hd2 | exact Hr2]|].
  split; [exists d1; split; [exact Hd1 | exact Hr1]|].
  exact Hemitted.
Defined.
